(** * Recepten: suggestion engine, week plan and shopping list

    A shallow embedding of the backend of the recipe application
    ([src/services/suggestion.ts], [src/services/weather.ts],
    [src/index.ts], [src/api/shopping.ts], [src/db/schema.ts]) together
    with the properties its specification states about it.

    Conventions of the embedding.
    - Instants are integers, seconds since the epoch (the precision
      drizzle keeps for [integer(..., { mode: 'timestamp' })] columns).
      The local zone is taken to be UTC without daylight saving, so a
      calendar day is a block of 86400 seconds.
    - A calendar date, which the code keeps as the text [YYYY-MM-DD], is
      its day number: equality and [>=] / [localeCompare] on well-formed
      texts agree with [=] and [<=] on day numbers.
    - One handler run reads the clock once ([now]).  The outside world is
      an explicit argument: the weather the handler obtained (the
      handlers are followed for a weather service that answers; the
      service itself, with its cache and the provider's failures, is
      the module [WeatherService]) and the successive results of
      [Math.random()], as rationals.
    - An amount of an ingredient is a JavaScript number, a double
      ([float]), or null, as the type [Ingredient] declares it; sums are
      the additions of doubles the code performs.
    - Text is a [string] of bytes, the UTF-8 form of the JavaScript
      text.  [toLowerCase], [trim] and [\s] are modelled on the ASCII
      range ([Js.isAscii]), where bytes and characters coincide; on
      other text JavaScript also maps letters outside that range and
      knows more white space, so what is proved of these functions is
      stated for ASCII text.
    - Database tables are lists in row-id order; rows that an [orderBy]
      does not tell apart keep that order.  Every handler is a function
      in the monad [M], which threads the database and an exception.  A
      raised exception keeps the writes made before it (the handlers use
      no transaction).
    - Fields that only serve presentation ([dayName], [imageUrl],
      [generatedAt], the [grouped] view of the shopping list under the
      Dutch collation) are left out. *)

From Stdlib Require Import ZArith QArith Qround String Ascii List Bool Lia Lqa.
From Stdlib Require Import Sorting.Sorted Sorting.Permutation.
From Stdlib Require Import Floats.
Import ListNotations.
Local Open Scope string_scope.
Local Open Scope list_scope.
Local Open Scope Z_scope.

(* ================================================================== *)
(** * Part I: the embedding *)
(* ================================================================== *)

(** ** JavaScript library functions used by the code *)

Module Js.

(** [Array.prototype.includes] for numbers. *)
Definition includesZ (l : list Z) (x : Z) : bool := existsb (Z.eqb x) l.

(** [Array.prototype.sort] with a comparator: the sort is stable.
    [before a b] says that [a] may stay in front of [b]
    (the comparator does not return a positive number on [(a, b)]). *)
Section Sort.
Context {A : Type} (before : A -> A -> bool).

Fixpoint insert (x : A) (l : list A) : list A :=
  match l with
  | [] => [x]
  | y :: l' => if before x y then x :: y :: l' else y :: insert x l'
  end.

Fixpoint sort (l : list A) : list A :=
  match l with
  | [] => []
  | x :: l' => insert x (sort l')
  end.
End Sort.

(** [Array.prototype.slice(0, n)]. *)
Definition slice0 {A} (n : nat) (l : list A) : list A := firstn n l.

(** Text of the ASCII range: every byte is below 128. *)
Fixpoint isAscii (s : string) : bool :=
  match s with
  | EmptyString => true
  | String c s' => (Nat.ltb (nat_of_ascii c) 128 && isAscii s')%bool
  end.

(** [String.prototype.toLowerCase] on ASCII text: the letters A-Z
    become a-z, every other byte is kept.  (On other text JavaScript
    maps further letters; see the conventions.) *)
Definition lowerAscii (c : ascii) : ascii :=
  let n := nat_of_ascii c in
  if (Nat.leb 65 n && Nat.leb n 90)%bool then ascii_of_nat (n + 32) else c.

Fixpoint toLowerCase (s : string) : string :=
  match s with
  | EmptyString => EmptyString
  | String c s' => String (lowerAscii c) (toLowerCase s')
  end.

(** [String.prototype.startsWith] and [String.prototype.includes]. *)
Fixpoint startsWith (p s : string) : bool :=
  match p, s with
  | EmptyString, _ => true
  | String a p', String b s' => (Ascii.eqb a b && startsWith p' s')%bool
  | String _ _, EmptyString => false
  end.

Fixpoint includes (s kw : string) : bool :=
  (startsWith kw s ||
   match s with
   | EmptyString => false
   | String _ s' => includes s' kw
   end)%bool.

(** The class [\s] of regular expressions, and the white space of
    [trim], on ASCII text: tab, line feed, vertical tab, form feed,
    carriage return, space.  (JavaScript counts some characters outside
    the ASCII range as white space too; see the conventions.) *)
Definition isSpace (c : ascii) : bool :=
  let n := nat_of_ascii c in
  ((Nat.leb 9 n && Nat.leb n 13) || Nat.eqb n 32)%bool.

Fixpoint dropSpaces (s : string) : string :=
  match s with
  | String c s' => if isSpace c then dropSpaces s' else s
  | EmptyString => EmptyString
  end.

Fixpoint rev_onto (s acc : string) : string :=
  match s with
  | EmptyString => acc
  | String c s' => rev_onto s' (String c acc)
  end.

Definition reverse (s : string) : string := rev_onto s EmptyString.

(** [String.prototype.trim]. *)
Definition trim (s : string) : string :=
  reverse (dropSpaces (reverse (dropSpaces s))).

(** [.replace(/\s+/g, ' ')]: every maximal run of white space becomes
    one space.  [inRun] says that the previous character was white
    space, whose run has already been replaced. *)
Fixpoint collapseFrom (inRun : bool) (s : string) : string :=
  match s with
  | EmptyString => EmptyString
  | String c s' =>
      if isSpace c
      then (if inRun then collapseFrom true s'
            else String " "%char (collapseFrom true s'))
      else String c (collapseFrom false s')
  end.

Definition collapseSpaces (s : string) : string := collapseFrom false s.

(** [x || 0] for [x] a number or [undefined]: a number is a double,
    and zero, negative zero and NaN are falsy. *)
Definition numberOrZero (x : option float) : float :=
  match x with
  | Some t =>
      match classify t with
      | PZero | NZero | NaN => 0%float
      | _ => t
      end
  | None => 0%float
  end.

(** Remainder of [s] after the prefix [p], when [s] starts with [p]. *)
Fixpoint stripPrefix (p s : string) : option string :=
  match p, s with
  | EmptyString, _ => Some s
  | String a p', String b s' =>
      if Ascii.eqb a b then stripPrefix p' s' else None
  | String _ _, EmptyString => None
  end.

End Js.

(** ** The schema ([src/db/schema.ts]) *)

Module Schema.

Inductive Season := lente | zomer | herfst | winter.
Inductive WeatherTag := koud | warm | regenachtig | zonnig.
Inductive Status := pending | accepted | rejected | cleared.

Definition Season_eqb (a b : Season) : bool :=
  match a, b with
  | lente, lente | zomer, zomer | herfst, herfst | winter, winter => true
  | _, _ => false
  end.

Definition WeatherTag_eqb (a b : WeatherTag) : bool :=
  match a, b with
  | koud, koud | warm, warm | regenachtig, regenachtig | zonnig, zonnig => true
  | _, _ => false
  end.

Definition Status_eqb (a b : Status) : bool :=
  match a, b with
  | pending, pending | accepted, accepted
  | rejected, rejected | cleared, cleared => true
  | _, _ => false
  end.

(** Seconds since the epoch, and day numbers. *)
Definition Instant := Z.
Definition Date := Z.

(** [Ingredient], as schema.ts declares it: the amount is a number or
    null ([None]). *)
Record Ingredient := mkIngredient {
  ing_name : string;
  ing_amount : option float;    (* number | null *)
  ing_unit : option string;     (* string | null *)
  ing_scalable : bool
}.

Record WeatherSnapshot := mkWeather {
  w_temp : Z;
  w_condition : string;
  w_description : string;
  w_icon : string
}.

(** A row of [recipes].  The JSON columns are kept parsed; [None] is a
    column that is null (or, for [r_ingredients], text that
    [safeJsonParse] rejects). *)
Record Recipe := mkRecipe {
  r_id : Z;
  r_name : string;
  r_category : string;
  r_ingredients : option (list Ingredient);
  r_defaultServings : option Z;
  r_seasons : option (list Season);
  r_weatherTags : option (list WeatherTag)
}.

Record MealHistoryEntry := mkMeal {
  mh_id : Z;
  mh_recipeId : Z;
  mh_eatenAt : Instant
}.

(** What the [reason] column records. *)
Inductive Reason :=
| Breakdown (seasonScore weatherScore recencyScore : Z)
| Manual.

Record Suggestion := mkSuggestion {
  s_id : Z;
  s_recipeId : Z;
  s_suggestedFor : Date;
  s_status : Status;
  s_reason : Reason;
  s_weatherData : WeatherSnapshot;
  s_createdAt : Instant
}.

(** A row of [week_plan] after the start-up migration of index.ts,
    which adds the column [cleared] (default 0) and makes [recipe_id]
    nullable.  The drizzle table definition [weekPlan] of schema.ts
    declares the columns [id], [date], [recipeId], [temp], [icon],
    [description] and [createdAt] only: [wp_cleared] is the column in
    the database file, which no query built from that definition
    selects or writes. *)
Record WeekPlanEntry := mkPlan {
  wp_date : Date;
  wp_recipeId : option Z;
  wp_cleared : bool;
  wp_temp : option Z;
  wp_icon : option string;
  wp_description : option string
}.

(** [stored.cleared] on a row that [db.query.weekPlan.findFirst]
    returned.  The object holds the declared columns, so the property
    is [undefined], which is falsy, whatever the column holds. *)
Definition selectedCleared (stored : WeekPlanEntry) : bool := false.

(** The database.  The two counters are the [AUTOINCREMENT] sequences
    of the tables the modelled handlers insert into and read ids from. *)
Record Db := mkDb {
  recipes : list Recipe;
  mealHistory : list MealHistoryEntry;
  suggestions : list Suggestion;
  weekPlan : list WeekPlanEntry;
  nextMealId : Z;
  nextSuggestionId : Z
}.

End Schema.
Import Schema.

(** ** The handler monad *)

Inductive Exn :=
| NoRecipesInDatabase        (* Error('No recipes in database') *)
| SuggestionNotFound         (* Error('Suggestion not found') *)
| TypeError.                 (* property read on undefined *)

Definition M (A : Type) : Type := Db -> (Exn + A) * Db.

Definition ret {A} (a : A) : M A := fun db => (inr a, db).

Definition bind {A B} (m : M A) (k : A -> M B) : M B :=
  fun db =>
    match m db with
    | (inl e, db') => (inl e, db')
    | (inr a, db') => k a db'
    end.

Definition throw {A} (e : Exn) : M A := fun db => (inl e, db).

Definition query {A} (f : Db -> A) : M A := fun db => (inr (f db), db).

Definition update (f : Db -> Db) : M unit := fun db => (inr tt, f db).

Declare Scope db_scope.
Delimit Scope db_scope with db.
Notation "x <- m ;; k" := (bind m (fun x => k))
  (at level 61, m at next level, right associativity) : db_scope.
Notation "m ;;; k" := (bind m (fun _ => k))
  (at level 61, right associativity) : db_scope.
Local Open Scope db_scope.

(** [await Promise.all(l.map(f))]. *)
Fixpoint mapM {A B} (f : A -> M B) (l : list A) : M (list B) :=
  match l with
  | [] => ret []
  | x :: l' => y <- f x ;; ys <- mapM f l' ;; ret (y :: ys)
  end.

(** ** Weather and season ([src/services/weather.ts]) *)

Module Weather.

Definition getWeatherTags (weather : WeatherSnapshot) : list WeatherTag :=
  let condition := Js.toLowerCase (w_condition weather) in
  (if w_temp weather <? 10 then [koud] else []) ++
  (if w_temp weather >? 20 then [warm] else []) ++
  (if (Js.includes condition "rain" || Js.includes condition "drizzle"
       || Js.includes condition "thunder")%bool
   then [regenachtig] else []) ++
  (if (Js.includes condition "clear" || Js.includes condition "sun"
       || String.eqb condition "clouds")%bool
   then [zonnig] else []).

(** [getCurrentSeason], as a function of the month (1-12) the clock
    shows. *)
Definition getCurrentSeason (month : Z) : Season :=
  if ((3 <=? month) && (month <=? 5))%bool then lente
  else if ((6 <=? month) && (month <=? 8))%bool then zomer
  else if ((9 <=? month) && (month <=? 11))%bool then herfst
  else winter.

End Weather.

(** ** The outside world of one handler run *)

Record ForecastDay := mkForecastDay {
  fd_date : Date;
  fd_temp : Z;
  fd_icon : string;
  fd_description : string;
  fd_weatherTags : list WeatherTag
}.

Record World := mkWorld {
  now : Instant;                       (* new Date() *)
  month : Z;                           (* new Date().getMonth() + 1 *)
  currentWeather : WeatherSnapshot;    (* await getCurrentWeather() *)
  weekForecast : list ForecastDay;     (* await getWeekForecast() *)
  random : nat -> Q                    (* successive Math.random() *)
}.

Definition secondsPerDay : Z := 86400.

(** [format(new Date(), 'yyyy-MM-dd')] and [getLocalDateString()]. *)
Definition todayOf (w : World) : Date := now w / secondsPerDay.

(** [orderBy(desc(col))] and [orderBy(col)] over rows in row-id order;
    rows with equal keys keep their row-id order. *)
Definition orderByDesc {A} (col : A -> Z) : list A -> list A :=
  Js.sort (fun a b => col b <=? col a).

Definition orderByAsc {A} (col : A -> Z) : list A -> list A :=
  Js.sort (fun a b => col a <=? col b).

(** ** The suggestion engine ([src/services/suggestion.ts]) *)

Module SuggestionService.

Record SuggestionScore := mkScore {
  recipeId : Z;
  recipeName : string;
  totalScore : Z;
  seasonScore : Z;
  weatherScore : Z;
  recencyScore : Z
}.

(** [differenceInDays] of date-fns: full days, truncated towards zero. *)
Definition differenceInDays (later earlier : Instant) : Z :=
  Z.quot (later - earlier) secondsPerDay.

Definition getDaysSinceEaten (w : World) (rid : Z) : M Z :=
  lastEaten <- query (fun db =>
    hd_error (orderByDesc mh_eatenAt
               (filter (fun e => mh_recipeId e =? rid) (mealHistory db)))) ;;
  match lastEaten with
  | None => ret 999
  | Some e => ret (differenceInDays (now w) (mh_eatenAt e))
  end.

Definition parsedOrEmpty {A} (column : option (list A)) : list A :=
  match column with Some l => l | None => [] end.

Definition scoreRecipe (w : World) (recipe : Recipe)
    (weather : WeatherSnapshot) (currentSeason : Season)
    (weatherTags : list WeatherTag) : M SuggestionScore :=
  daysSinceEaten <- getDaysSinceEaten w (r_id recipe) ;;
  let recipeSeasons := parsedOrEmpty (r_seasons recipe) in
  let recipeWeatherTags := parsedOrEmpty (r_weatherTags recipe) in
  let seasonScore :=
    if (0 <? length recipeSeasons)%nat
    then (if existsb (Season_eqb currentSeason) recipeSeasons then 30 else 5)
    else 15 in
  let weatherScore :=
    if (0 <? length recipeWeatherTags)%nat
    then
      let matchingTags :=
        filter (fun t => existsb (WeatherTag_eqb t) weatherTags)
               recipeWeatherTags in
      Z.min 30 (Z.of_nat (length matchingTags) * 15)
    else 10 in
  let recencyScore :=
    if daysSinceEaten >=? 14 then 40
    else if daysSinceEaten >=? 7 then 30
    else if daysSinceEaten >=? 3 then 15
    else 0 in
  ret (mkScore (r_id recipe) (r_name recipe)
         (seasonScore + weatherScore + recencyScore)
         seasonScore weatherScore recencyScore).

Record Generated := mkGenerated {
  g_recipe : Recipe;
  g_score : SuggestionScore;
  g_weather : WeatherSnapshot
}.

(** [Math.floor(u * n)] as an array index. *)
Definition randomIndex (u : Q) (n : nat) : Z :=
  Qfloor (u * inject_Z (Z.of_nat n)).

Definition nthZ {A} (l : list A) (i : Z) : option A :=
  if i <? 0 then None else nth_error l (Z.to_nat i).

(** [generateSuggestion].  The function calls itself; [depth] bounds the
    nesting of calls the model follows, and [None] is the model running
    out of that budget (not a JavaScript outcome). *)
Fixpoint generateSuggestion (depth : nat) (w : World)
    (excludeRecipeIds : list Z) : M (option Generated) :=
  match depth with
  | O => ret None
  | S depth' =>
      let weather := currentWeather w in
      let currentSeason := Weather.getCurrentSeason (month w) in
      let weatherTags := Weather.getWeatherTags weather in
      allRecipes <- query recipes ;;
      let availableRecipes :=
        filter (fun r => negb (Js.includesZ excludeRecipeIds (r_id r)))
               allRecipes in
      if (length availableRecipes =? 0)%nat then
        if (length allRecipes =? 0)%nat then throw NoRecipesInDatabase
        else generateSuggestion depth' w []
      else
        scores <- mapM (fun r => scoreRecipe w r weather currentSeason
                                   weatherTags) availableRecipes ;;
        let sorted :=
          Js.sort (fun a b => totalScore b - totalScore a <=? 0) scores in
        let topCandidates :=
          Js.slice0 (Nat.min 3 (length sorted)) sorted in
        match nthZ topCandidates
                (randomIndex (random w 0%nat) (length topCandidates)) with
        | None => throw TypeError
        | Some selected =>
            match find (fun r => r_id r =? recipeId selected)
                       availableRecipes with
            | None => throw TypeError
            | Some recipe => ret (Some (mkGenerated recipe selected weather))
            end
        end
  end.

(** Nesting of calls the handlers allow [generateSuggestion]; two levels
    are all it ever uses (Part II). *)
Definition callDepth : nat := 2.

Definition todaysRows (today : Date) (db : Db) : list Suggestion :=
  filter (fun s => s_suggestedFor s =? today) (suggestions db).

Definition findRecipe (rid : Z) (db : Db) : option Recipe :=
  find (fun r => r_id r =? rid) (recipes db).

(** [db.insert(suggestions).values({...}).returning()]. *)
Definition insertSuggestion (rid : Z) (day : Date) (st : Status)
    (why : Reason) (weather : WeatherSnapshot) (at_ : Instant)
    : M Suggestion :=
  fun db =>
    let row := mkSuggestion (nextSuggestionId db) rid day st why weather at_ in
    (inr row,
     mkDb (recipes db) (mealHistory db) (suggestions db ++ [row])
          (weekPlan db) (nextMealId db) (nextSuggestionId db + 1)).

Definition setSuggestions (f : list Suggestion -> list Suggestion) : M unit :=
  update (fun db =>
    mkDb (recipes db) (mealHistory db) (f (suggestions db))
         (weekPlan db) (nextMealId db) (nextSuggestionId db)).

Definition withStatus (st : Status) (s : Suggestion) : Suggestion :=
  mkSuggestion (s_id s) (s_recipeId s) (s_suggestedFor s) st
               (s_reason s) (s_weatherData s) (s_createdAt s).

(** [db.update(suggestions).set({ status }).where(p)]. *)
Definition updateStatusWhere (p : Suggestion -> bool) (st : Status) : M unit :=
  setSuggestions (map (fun s => if p s then withStatus st s else s)).

(** The tail shared by [getTodaySuggestion] and [rejectSuggestion]:
    generate with the recipes suggested today excluded, store the
    result as a pending row. *)
Definition generateAndStore (w : World) (today : Date)
    : M (option (Suggestion * Recipe)) :=
  todaysSuggestions <- query (todaysRows today) ;;
  let excludeIds := map s_recipeId todaysSuggestions in
  g <- generateSuggestion callDepth w excludeIds ;;
  match g with
  | None => ret None
  | Some (mkGenerated recipe score weather) =>
      suggestion <- insertSuggestion (r_id recipe) today pending
                      (Breakdown (seasonScore score) (weatherScore score)
                                 (recencyScore score))
                      weather (now w) ;;
      ret (Some (suggestion, recipe))
  end.

Definition getTodaySuggestion (w : World)
    : M (option (Suggestion * option Recipe)) :=
  let today := todayOf w in
  accepted_ <- query (fun db =>
    Js.slice0 1 (orderByDesc s_createdAt (todaysRows today db))) ;;
  match accepted_ with
  | s :: _ =>
      if Status_eqb (s_status s) accepted then
        recipe <- query (findRecipe (s_recipeId s)) ;;
        ret (Some (s, recipe))
      else if Status_eqb (s_status s) pending then
        recipe <- query (findRecipe (s_recipeId s)) ;;
        ret (Some (s, recipe))
      else
        r <- generateAndStore w today ;;
        ret (option_map (fun '(s', rc) => (s', Some rc)) r)
  | [] =>
      r <- generateAndStore w today ;;
      ret (option_map (fun '(s', rc) => (s', Some rc)) r)
  end.

Definition insertMeal (rid : Z) (at_ : Instant) : M unit :=
  update (fun db =>
    mkDb (recipes db)
         (mealHistory db ++ [mkMeal (nextMealId db) rid at_])
         (suggestions db) (weekPlan db)
         (nextMealId db + 1) (nextSuggestionId db)).

Definition deleteMealsWhere (p : MealHistoryEntry -> bool) : M unit :=
  update (fun db =>
    mkDb (recipes db)
         (filter (fun e => negb (p e)) (mealHistory db))
         (suggestions db) (weekPlan db)
         (nextMealId db) (nextSuggestionId db)).

Definition findSuggestion (sid : Z) (db : Db) : option Suggestion :=
  find (fun s => s_id s =? sid) (suggestions db).

Definition acceptSuggestion (w : World) (suggestionId : Z) : M bool :=
  updateStatusWhere (fun s => s_id s =? suggestionId) accepted ;;;
  suggestion <- query (findSuggestion suggestionId) ;;
  match suggestion with
  | None => throw SuggestionNotFound
  | Some s =>
      insertMeal (s_recipeId s) (now w) ;;;
      ret true
  end.

(** The window of today's calendar day, [todayStart <= t < tomorrowStart]. *)
Definition todayStart (w : World) : Instant := todayOf w * secondsPerDay.
Definition tomorrowStart (w : World) : Instant := todayStart w + secondsPerDay.

Definition eatenToday (w : World) (rid : Z) (e : MealHistoryEntry) : bool :=
  ((mh_recipeId e =? rid) && (mh_eatenAt e >=? todayStart w)
   && (mh_eatenAt e <? tomorrowStart w))%bool.

Definition rejectSuggestion (w : World) (suggestionId : Z)
    : M (option (Suggestion * Recipe)) :=
  suggestion <- query (findSuggestion suggestionId) ;;
  match suggestion with
  | Some s =>
      if Status_eqb (s_status s) accepted
      then deleteMealsWhere (eatenToday w (s_recipeId s))
      else ret tt
  | None => ret tt
  end ;;;
  updateStatusWhere (fun s => s_id s =? suggestionId) rejected ;;;
  generateAndStore w (todayOf w).

End SuggestionService.

(** ** The week plan ([src/index.ts]) *)

Module WeekPlanApi.

Record RecipeSummary := mkSummary {
  rs_id : Z;
  rs_name : string;
  rs_category : string
}.

Definition summary (r : Recipe) : RecipeSummary :=
  mkSummary (r_id r) (r_name r) (r_category r).

(** Which branch of the resolver produced a day.  The handler's JSON
    does not carry this; the model records it next to each day so that
    statements can speak about the branches. *)
Inductive Origin := FromSuggestion | FromStored | FromGenerated.

(** One element of the handler's result (without [dayName], which is
    presentation only). *)
Record PlanDay := mkPlanDay {
  pd_date : Date;
  pd_temp : Z;
  pd_icon : string;
  pd_description : string;
  pd_status : option Status;
  pd_recipe : option RecipeSummary;
  pd_origin : Origin
}.

(** [a ?? b]. *)
Definition orElse {A} (a : option A) (b : A) : A :=
  match a with Some x => x | None => b end.

(** The local variables the loop over the days updates. *)
Record Loop := mkLoop {
  result : list PlanDay;
  usedRecipeIds : list Z;
  randomCalls : nat            (* Math.random() calls made so far *)
}.

Definition findPlan (date : Date) (db : Db) : option WeekPlanEntry :=
  find (fun p => wp_date p =? date) (weekPlan db).

(** [db.insert(weekPlan).values(row).onConflictDoNothing()];
    [date] is the unique column. *)
Definition insertPlanIgnore (row : WeekPlanEntry) : M unit :=
  update (fun db =>
    match findPlan (wp_date row) db with
    | Some _ => db
    | None =>
        mkDb (recipes db) (mealHistory db) (suggestions db)
             (weekPlan db ++ [row]) (nextMealId db) (nextSuggestionId db)
    end).

(** The score of one recipe for one day; [u] is [Math.random()]. *)
Definition dayScore (currentSeason : Season) (day : ForecastDay)
    (recipe : Recipe) (u : Q) : Q :=
  let recipeSeasons := SuggestionService.parsedOrEmpty (r_seasons recipe) in
  let recipeWeatherTags :=
    SuggestionService.parsedOrEmpty (r_weatherTags recipe) in
  let matchingTags :=
    filter (fun t => existsb (WeatherTag_eqb t) (fd_weatherTags day))
           recipeWeatherTags in
  ((if existsb (Season_eqb currentSeason) recipeSeasons
    then inject_Z 30 else 0)
   + inject_Z (Z.of_nat (length matchingTags) * 15)
   + u * inject_Z 10)%Q.

(** [availableRecipes.map(recipe => ...)]: the [i]-th recipe gets the
    [i]-th of the next [Math.random()] results. *)
Fixpoint scoreAll (currentSeason : Season) (day : ForecastDay)
    (rnd : nat -> Q) (next : nat) (l : list Recipe) : list (Recipe * Q) :=
  match l with
  | [] => []
  | r :: l' =>
      (r, dayScore currentSeason day r (rnd next))
        :: scoreAll currentSeason day rnd (S next) l'
  end.

(** The third branch of the loop body: no stored plan for the day. *)
Definition generateDay (w : World) (allRecipes : list Recipe)
    (currentSeason : Season) (day : ForecastDay) (st : Loop) : M Loop :=
  let availableRecipes :=
    filter (fun r => negb (Js.includesZ (usedRecipeIds st) (r_id r)))
           allRecipes in
  let scored :=
    scoreAll currentSeason day (random w) (randomCalls st) availableRecipes in
  let sorted := Js.sort (fun a b => Qle_bool (snd b) (snd a)) scored in
  let calls := (randomCalls st + length availableRecipes)%nat in
  match sorted with
  | (topRecipe, _) :: _ =>
      insertPlanIgnore
        (mkPlan (fd_date day) (Some (r_id topRecipe)) false
                (Some (fd_temp day)) (Some (fd_icon day))
                (Some (fd_description day))) ;;;
      ret (mkLoop
             (result st ++
                [mkPlanDay (fd_date day) (fd_temp day) (fd_icon day)
                   (fd_description day) None (Some (summary topRecipe))
                   FromGenerated])
             (usedRecipeIds st ++ [r_id topRecipe]) calls)
  | [] =>
      ret (mkLoop
             (result st ++
                [mkPlanDay (fd_date day) (fd_temp day) (fd_icon day)
                   (fd_description day) None None FromGenerated])
             (usedRecipeIds st) calls)
  end.

(** The second and third branch: a stored plan, or generation. *)
Definition storedOrGenerate (w : World) (allRecipes : list Recipe)
    (currentSeason : Season) (day : ForecastDay) (st : Loop) : M Loop :=
  stored <- query (findPlan (fd_date day)) ;;
  match stored with
  | Some p =>
      let temp := orElse (wp_temp p) (fd_temp day) in
      let icon := orElse (wp_icon p) (fd_icon day) in
      let description := orElse (wp_description p) (fd_description day) in
      if selectedCleared p then
        ret (mkLoop
               (result st ++
                  [mkPlanDay (fd_date day) temp icon description
                     (Some cleared) None FromStored])
               (usedRecipeIds st) (randomCalls st))
      else
        (* [stored.recipeId ? ... : null]: null and 0 are falsy *)
        let truthyId :=
          match wp_recipeId p with
          | Some rid => if rid =? 0 then None else Some rid
          | None => None
          end in
        let recipe :=
          match truthyId with
          | Some rid => find (fun r => r_id r =? rid) allRecipes
          | None => None
          end in
        ret (mkLoop
               (result st ++
                  [mkPlanDay (fd_date day) temp icon description None
                     (option_map summary recipe) FromStored])
               (match truthyId with
                | Some rid => usedRecipeIds st ++ [rid]
                | None => usedRecipeIds st
                end)
               (randomCalls st))
  | None => generateDay w allRecipes currentSeason day st
  end.

(** The body of [for (const day of allDays)]. *)
Definition resolveDay (w : World) (allRecipes : list Recipe)
    (currentSeason : Season) (today : Date)
    (todaySuggestion : list Suggestion) (day : ForecastDay) (st : Loop)
    : M Loop :=
  match (if fd_date day =? today then todaySuggestion else []) with
  | suggestion :: _ =>
      if Status_eqb (s_status suggestion) cleared then
        ret (mkLoop
               (result st ++
                  [mkPlanDay (fd_date day) (fd_temp day) (fd_icon day)
                     (fd_description day) (Some cleared) None
                     FromSuggestion])
               (usedRecipeIds st) (randomCalls st))
      else
        match find (fun r => r_id r =? s_recipeId suggestion) allRecipes with
        | Some recipe =>
            ret (mkLoop
                   (result st ++
                      [mkPlanDay (fd_date day) (fd_temp day) (fd_icon day)
                         (fd_description day) (Some (s_status suggestion))
                         (Some (summary recipe)) FromSuggestion])
                   (usedRecipeIds st ++ [r_id recipe]) (randomCalls st))
        | None => storedOrGenerate w allRecipes currentSeason day st
        end
  | [] => storedOrGenerate w allRecipes currentSeason day st
  end.

Fixpoint forDays (body : ForecastDay -> Loop -> M Loop)
    (days : list ForecastDay) (st : Loop) : M Loop :=
  match days with
  | [] => ret st
  | day :: days' => st' <- body day st ;; forDays body days' st'
  end.

(** [[todayData, ...forecast.filter(d => d.date !== today)].slice(0, 7)]. *)
Definition allDays (w : World) : list ForecastDay :=
  let today := todayOf w in
  let todayData :=
    mkForecastDay today (w_temp (currentWeather w))
      (w_icon (currentWeather w)) (w_description (currentWeather w)) [] in
  Js.slice0 7
    (todayData ::
       filter (fun d => negb (fd_date d =? today)) (weekForecast w)).

(** The row of [suggestions] the resolver takes for today. *)
Definition todaySuggestion (today : Date) (db : Db) : list Suggestion :=
  Js.slice0 1
    (orderByDesc s_createdAt (SuggestionService.todaysRows today db)).

(** [GET /api/weekplan]. *)
Definition getWeekPlan (w : World) : M (list PlanDay) :=
  allRecipes <- query recipes ;;
  let currentSeason := Weather.getCurrentSeason (month w) in
  let today := todayOf w in
  suggestion <- query (todaySuggestion today) ;;
  st <- forDays (resolveDay w allRecipes currentSeason today suggestion)
          (allDays w) (mkLoop [] [] 0%nat) ;;
  ret (result st).

Inductive PutResponse :=
| Ok200 (date : Date) (recipe : RecipeSummary)
| BadRequest400
| NotFound404.

Definition setPlans (f : list WeekPlanEntry -> list WeekPlanEntry) : M unit :=
  update (fun db =>
    mkDb (recipes db) (mealHistory db) (suggestions db)
         (f (weekPlan db)) (nextMealId db) (nextSuggestionId db)).

(** [PUT /api/weekplan/:date] with body [{ recipeId }]; [None] is a
    body without a numeric [recipeId].  Of
    [.set({ recipeId: recipe.id, cleared: false })] drizzle writes the
    declared column [recipeId] and drops the key [cleared]; an inserted
    row gets the column's default. *)
Definition putWeekPlan (w : World) (date : Date) (body : option Z)
    : M PutResponse :=
  match body with
  | None => ret BadRequest400
  | Some rid =>
      if rid =? 0 then ret BadRequest400 else
      found <- query (SuggestionService.findRecipe rid) ;;
      match found with
      | None => ret NotFound404
      | Some recipe =>
          (if date =? todayOf w then
             SuggestionService.updateStatusWhere
               (fun s => s_suggestedFor s =? date) rejected ;;;
             _ <- SuggestionService.insertSuggestion (r_id recipe) date
                    accepted Manual (currentWeather w) (now w) ;;
             ret tt
           else
             currentPlan <- query (findPlan date) ;;
             match currentPlan with
             | Some _ =>
                 setPlans (map (fun p =>
                   if wp_date p =? date
                   then mkPlan (wp_date p) (Some (r_id recipe)) (wp_cleared p)
                               (wp_temp p) (wp_icon p) (wp_description p)
                   else p))
             | None =>
                 setPlans (fun l =>
                   (l ++ [mkPlan date (Some (r_id recipe)) false
                                 (Some 0) (Some "01d") (Some "")])%list)
             end) ;;;
          ret (Ok200 date (summary recipe))
      end
  end.

End WeekPlanApi.

(** ** The shopping list ([src/api/shopping.ts]) *)

Module ShoppingApi.

(** A JavaScript [Map] with text keys, in insertion order. *)
Section TextMap.
Context {V : Type}.

Fixpoint mapHas (k : string) (m : list (string * V)) : bool :=
  match m with
  | [] => false
  | (k', _) :: m' => (String.eqb k' k || mapHas k m')%bool
  end.

Fixpoint mapGet (k : string) (m : list (string * V)) : option V :=
  match m with
  | [] => None
  | (k', v) :: m' => if String.eqb k' k then Some v else mapGet k m'
  end.

(** Replace the value under a key that is present. *)
Fixpoint mapAdjust (k : string) (f : V -> V) (m : list (string * V))
    : list (string * V) :=
  match m with
  | [] => []
  | (k', v) :: m' =>
      if String.eqb k' k then (k', f v) :: m'
      else (k', v) :: mapAdjust k f m'
  end.

(** [m.set(k, v)]: a new key goes to the end, a known key keeps its
    place. *)
Definition mapSet (k : string) (v : V) (m : list (string * V))
    : list (string * V) :=
  if mapHas k m then mapAdjust k (fun _ => v) m else m ++ [(k, v)].
End TextMap.

(** [ingredientCategories], in the order of [Object.entries].  The
    fourth keyword of "Zuivel & Eieren" is kept byte for byte as the
    source file has it (a doubly encoded e grave and i circumflex). *)
Definition ingredientCategories : list (string * list string) :=
  [ ("Groente & Fruit",
     ["ui"; "uien"; "knoflook"; "tomaat"; "tomaten"; "paprika"; "wortel";
      "wortels"; "spinazie"; "sla"; "komkommer"; "courgette"; "aubergine";
      "broccoli"; "bloemkool"; "champignon"; "champignons"; "prei"; "bosui";
      "lente-ui"; "gember"; "citroen"; "limoen"; "avocado"; "pompoen";
      "zoete aardappel"; "aardappel"; "aardappelen"; "paksoi";
      "sperziebonen"; "mais"; "erwten"; "kikkererwten"; "bonen"; "linzen";
      "appel"; "banaan"; "mango"; "ananas"; "granaatappel"; "basilicum";
      "koriander"; "peterselie"; "munt"; "bieslook"; "dille"; "rode ui";
      "sjalot"; "bleekselderij"]);
    ("Zuivel & Eieren",
     ["melk"; "room"; "slagroom"; "crÃ¨me fraÃ®che"; "yoghurt"; "kwark";
      "kaas"; "mozzarella"; "parmezaan"; "geitenkaas"; "feta"; "ricotta";
      "mascarpone"; "boter"; "ei"; "eieren"; "halloumi"; "cottage cheese"]);
    ("Vlees & Vis",
     ["kip"; "kipfilet"; "kippenbouten"; "gehakt"; "rundergehakt";
      "varkensvlees"; "spek"; "bacon"; "worst"; "chorizo"; "zalm";
      "garnalen"; "tonijn"; "kabeljauw"; "makreel"; "mosselen"; "vis";
      "kalkoen"; "eend"; "lam"]);
    ("Pasta, Rijst & Granen",
     ["pasta"; "spaghetti"; "penne"; "tagliatelle"; "orzo"; "gnocchi";
      "noedels"; "rijst"; "basmatirijst"; "risottorijst"; "couscous";
      "bulgur"; "quinoa"; "brood"; "tortilla"; "wraps"; "naanbrood";
      "pitabrood"; "bladerdeeg"]);
    ("Conserven & Sauzen",
     ["tomatenpuree"; "passata"; "gepelde tomaten"; "tomatenblokjes";
      "kokosmelk"; "sojasaus"; "oestersaus"; "vissaus"; "sriracha";
      "sambal"; "ketjap"; "mayonaise"; "mosterd"; "ketchup"; "pesto";
      "olijven"; "kappertjes"; "zongedroogde tomaten"; "bonen";
      "kidneybonen"; "witte bonen"; "linzen"]);
    ("Kruiden & Specerijen",
     ["zout"; "peper"; "paprikapoeder"; "komijn"; "kurkuma"; "koriander";
      "kaneel"; "nootmuskaat"; "cayennepeper"; "chilipoeder"; "oregano";
      "tijm"; "rozemarijn"; "laurier"; "currypoeder"; "garam masala";
      "ras el hanout"; "za'atar"; "chilivlokken"; "kruidnagel"; "kardemom";
      "foelie"; "venkelzaad"]);
    ("Noten & Zaden",
     ["cashewnoten"; "pinda's"; "amandelen"; "walnoten"; "pijnboompitten";
      "sesamzaad"; "zonnebloempitten"; "pompoenpitten"; "lijnzaad";
      "chiazaad"]);
    ("Olie & Azijn",
     ["olijfolie"; "zonnebloemolie"; "sesamolie"; "kokosolie"; "azijn";
      "balsamico"; "wijnazijn"; "rijstazijn"; "appelazijn"]);
    ("Overig", []) ].

(** The loops of [categorizeIngredient]: the first category, other than
    "Overig", one of whose keywords occurs in [lowerName]. *)
Fixpoint firstCategory (lowerName : string)
    (entries : list (string * list string)) : option string :=
  match entries with
  | [] => None
  | (category, keywords) :: entries' =>
      if String.eqb category "Overig" then firstCategory lowerName entries'
      else if existsb (Js.includes lowerName) keywords then Some category
      else firstCategory lowerName entries'
  end.

Definition categorizeIngredient (name : string) : string :=
  let lowerName := Js.toLowerCase name in
  match firstCategory lowerName ingredientCategories with
  | Some category => category
  | None => "Overig"
  end.

(** The alternatives of
    [/^(verse?|biologische?|grote?|kleine?|rode?|groene?|gele?|witte?)\s+/]
    in the order the matcher tries them (the optional [e] first). *)
Definition leadingDescriptors : list string :=
  ["verse"; "vers"; "biologische"; "biologisch"; "grote"; "grot";
   "kleine"; "klein"; "rode"; "rod"; "groene"; "groen"; "gele"; "gel";
   "witte"; "witt"].

(** The alternatives of
    [/\s+(vers|biologisch|groot|klein|rood|groen|geel|wit)$/]. *)
Definition trailingDescriptors : list string :=
  ["vers"; "biologisch"; "groot"; "klein"; "rood"; "groen"; "geel"; "wit"].

(** [s] without the word [word] and the white space after it, when [s]
    starts with the word followed by white space. *)
Definition afterWordAndSpaces (word s : string) : option string :=
  match Js.stripPrefix word s with
  | Some (String c rest) =>
      if Js.isSpace c then Some (Js.dropSpaces rest) else None
  | _ => None
  end.

Fixpoint firstMatch (words : list string) (s : string) : option string :=
  match words with
  | [] => None
  | word :: words' =>
      match afterWordAndSpaces word s with
      | Some rest => Some rest
      | None => firstMatch words' s
      end
  end.

Definition stripLeadingDescriptor (s : string) : string :=
  match firstMatch leadingDescriptors s with
  | Some rest => rest
  | None => s
  end.

(** The trailing pattern, read from the end of the text: the reversed
    word, then white space. *)
Definition stripTrailingDescriptor (s : string) : string :=
  match firstMatch (map Js.reverse trailingDescriptors) (Js.reverse s) with
  | Some rest => Js.reverse rest
  | None => s
  end.

Definition normalizeIngredientName (name : string) : string :=
  stripTrailingDescriptor
    (stripLeadingDescriptor
       (Js.collapseSpaces (Js.trim (Js.toLowerCase name)))).

(** [Ingredient & { recipeName, recipeId }]. *)
Record PlannedIngredient := mkPlanned {
  pi_name : string;
  pi_amount : option float;
  pi_unit : option string;
  pi_recipeName : string;
  pi_recipeId : Z
}.

Record Source := mkSource {
  src_recipeName : string;
  src_recipeId : Z;
  src_amount : option float;
  src_unit : option string
}.

Definition sourceOf (ing : PlannedIngredient) : Source :=
  mkSource (pi_recipeName ing) (pi_recipeId ing) (pi_amount ing)
           (pi_unit ing).

(** A value of the [merged] map. *)
Record Bucket := mkBucket {
  b_name : string;
  b_displayName : string;
  b_amounts : list (option float * option string);
  b_category : string;
  b_sources : list Source
}.

Record Item := mkItem {
  name : string;
  displayName : string;
  amount : option float;
  unit : option string;
  category : string;
  sources : list Source
}.

(** The body of [for (const ing of ingredients)]. *)
Definition addIngredient (merged : list (string * Bucket))
    (ing : PlannedIngredient) : list (string * Bucket) :=
  let normalizedName := normalizeIngredientName (pi_name ing) in
  let key := normalizedName in
  if mapHas key merged then
    mapAdjust key
      (fun existing =>
         mkBucket (b_name existing) (b_displayName existing)
           (b_amounts existing ++ [(pi_amount ing, pi_unit ing)])
           (b_category existing)
           (b_sources existing ++ [sourceOf ing]))
      merged
  else
    mapSet key
      (mkBucket normalizedName (pi_name ing)
         [(pi_amount ing, pi_unit ing)]
         (categorizeIngredient (pi_name ing))
         [sourceOf ing])
      merged.

(** [(unit || '').toLowerCase()]. *)
Definition unitKeyOf (u : option string) : string :=
  Js.toLowerCase (match u with Some s => s | None => "" end).

(** The loop over [item.amounts]: the map [unitGroups] and [hasNull].
    The sum is [(unitGroups.get(unitKey) || 0) + amount], an addition
    of doubles. *)
Fixpoint groupUnits (amounts : list (option float * option string))
    (unitGroups : list (string * float)) (hasNull : bool)
    : list (string * float) * bool :=
  match amounts with
  | [] => (unitGroups, hasNull)
  | (None, _) :: rest => groupUnits rest unitGroups true
  | (Some a, u) :: rest =>
      let unitKey := unitKeyOf u in
      let soFar := Js.numberOrZero (mapGet unitKey unitGroups) in
      groupUnits rest (mapSet unitKey (soFar + a)%float unitGroups) hasNull
  end.

(** [unit || null]. *)
Definition unitOrNull (u : string) : option string :=
  if String.eqb u "" then None else Some u.

(** The function mapped over [merged.values()]. *)
Definition combine (item : Bucket) : Item :=
  match groupUnits (b_amounts item) [] false with
  | ([(u, total)], false) =>
      mkItem (b_name item) (b_displayName item) (Some total)
             (unitOrNull u) (b_category item) (b_sources item)
  | _ =>
      (* [item.amounts[0]]; a bucket always has a first amount *)
      let first :=
        match b_amounts item with
        | au :: _ => au
        | [] => (None, None)
        end in
      mkItem (b_name item) (b_displayName item) (fst first) (snd first)
             (b_category item) (b_sources item)
  end.

Definition mergeIngredients (ingredients : list PlannedIngredient)
    : list Item :=
  map (fun kv => combine (snd kv)) (fold_left addIngredient ingredients []).

(** A [Map] from date to a nullable recipe id, in insertion order. *)
Fixpoint dateSet (d : Date) (v : option Z) (m : list (Date * option Z))
    : list (Date * option Z) :=
  match m with
  | [] => [(d, v)]
  | (d', v') :: m' =>
      if d' =? d then (d', v) :: m' else (d', v') :: dateSet d v m'
  end.

Definition optZ_eqb (a b : option Z) : bool :=
  match a, b with
  | Some x, Some y => x =? y
  | None, None => true
  | _, _ => false
  end.

(** [Set.prototype.add]. *)
Definition setAdd (v : option Z) (s : list (option Z)) : list (option Z) :=
  if existsb (optZ_eqb v) s then s else s ++ [v].

Record PlannedRecipe := mkPlannedRecipe {
  pr_id : Z;
  pr_name : string;
  pr_date : Date;
  pr_servings : Z
}.

(** The handler's JSON, without [grouped] (the same items arranged by
    category under the Dutch collation) and [generatedAt]. *)
Record ShoppingList := mkShoppingList {
  items : list Item;
  recipesInPlan : list PlannedRecipe
}.

(** The row of [suggestions] the shopping list takes for today. *)
Definition todaySuggestion (today : Date) (db : Db) : list Suggestion :=
  Js.slice0 1
    (orderByAsc s_createdAt (SuggestionService.todaysRows today db)).

Definition plannedOf (recipe : Recipe) (ing : Ingredient)
    : PlannedIngredient :=
  mkPlanned (ing_name ing) (ing_amount ing) (ing_unit ing)
            (r_name recipe) (r_id recipe).

(** [recipe.defaultServings || 2]. *)
Definition servingsOf (recipe : Recipe) : Z :=
  match r_defaultServings recipe with
  | Some n => if n =? 0 then 2 else n
  | None => 2
  end.

(** [new Map(recipeList.map(r => [r.id, r])).get(id)]: the last row
    with the id. *)
Definition recipeMapGet (recipeList : list Recipe) (rid : option Z)
    : option Recipe :=
  match rid with
  | Some i => find (fun r => r_id r =? i) (rev recipeList)
  | None => None
  end.

(** The body of [for (const [date, recipeId] of sortedDates)]. *)
Definition collectDay (recipeList : list Recipe)
    (acc : list PlannedIngredient * list PlannedRecipe)
    (entry : Date * option Z)
    : list PlannedIngredient * list PlannedRecipe :=
  match recipeMapGet recipeList (snd entry) with
  | None => acc
  | Some recipe =>
      let ingredients :=
        SuggestionService.parsedOrEmpty (r_ingredients recipe) in
      (fst acc ++ map (plannedOf recipe) ingredients,
       snd acc ++ [mkPlannedRecipe (r_id recipe) (r_name recipe)
                     (fst entry) (servingsOf recipe)])
  end.

(** [GET /api/shopping]. *)
Definition getShoppingList (w : World) : M ShoppingList :=
  let today := todayOf w in
  weekPlans <- query weekPlan ;;
  suggestion <- query (todaySuggestion today) ;;
  let fromToday :=
    match suggestion with
    | s :: _ => ([Some (s_recipeId s)], [(today, Some (s_recipeId s))])
    | [] => ([], [])
    end in
  let recipeIds :=
    fold_left (fun ids plan => setAdd (wp_recipeId plan) ids)
              weekPlans (fst fromToday) in
  let dateToRecipeId :=
    fold_left (fun m plan => dateSet (wp_date plan) (wp_recipeId plan) m)
              weekPlans (snd fromToday) in
  if (length recipeIds =? 0)%nat then ret (mkShoppingList [] [])
  else
    recipeList <- query (fun db =>
      filter (fun r => existsb (optZ_eqb (Some (r_id r))) recipeIds)
             (recipes db)) ;;
    let sortedDates :=
      Js.slice0 7
        (orderByAsc fst
           (filter (fun e => fst e >=? today) dateToRecipeId)) in
    let collected := fold_left (collectDay recipeList) sortedDates ([], []) in
    ret (mkShoppingList (mergeIngredients (fst collected)) (snd collected)).

End ShoppingApi.

(** ** The specification's wording of the score *)

Module Spec.

(** 30 if the season tags include the current season, 5 if there are
    season tags none of which match, 15 if there are none. *)
Definition seasonScore (tags : list Season) (current : Season) : Z :=
  if existsb (Season_eqb current) tags then 30
  else match tags with [] => 15 | _ :: _ => 5 end.

(** The recipe weather tags that are among today's. *)
Definition intersecting (tags todays : list WeatherTag) : list WeatherTag :=
  filter (fun t => existsb (WeatherTag_eqb t) todays) tags.

(** 15 for each intersecting tag, capped at 30; 10 without tags. *)
Definition weatherScore (tags todays : list WeatherTag) : Z :=
  match tags with
  | [] => 10
  | _ :: _ => Z.min 30 (15 * Z.of_nat (length (intersecting tags todays)))
  end.

(** 0 below 3 days, 15 for 3-6, 30 for 7-13, 40 from 14 on. *)
Definition recencyScore (days : Z) : Z :=
  if days <? 3 then 0
  else if days <=? 6 then 15
  else if days <=? 13 then 30
  else 40.

(** The instants at which a recipe was eaten. *)
Definition eatenAts (rid : Z) (db : Db) : list Instant :=
  map mh_eatenAt (filter (fun e => mh_recipeId e =? rid) (mealHistory db)).

(** Full days since the recipe was last eaten, a day being 86400
    seconds; 999 if never. *)
Definition daysSinceLastEaten (w : World) (rid : Z) (db : Db) : Z :=
  match eatenAts rid db with
  | [] => 999
  | t :: ts => Z.quot (now w - fold_right Z.max t ts) 86400
  end.

(** The season tags of a recipe: those its row lists, none for a row
    without a list. *)
Definition seasonTags (recipe : Recipe) : list Season :=
  match r_seasons recipe with
  | Some tags => tags
  | None => []
  end.

(** The weather tags of a recipe, likewise. *)
Definition weatherTagsOf (recipe : Recipe) : list WeatherTag :=
  match r_weatherTags recipe with
  | Some tags => tags
  | None => []
  end.

(** The score of a recipe in the wording above. *)
Definition scoreOf (w : World) (currentSeason : Season)
    (todays : list WeatherTag) (db : Db) (recipe : Recipe)
    : SuggestionService.SuggestionScore :=
  let s := seasonScore (seasonTags recipe) currentSeason in
  let t := weatherScore (weatherTagsOf recipe) todays in
  let r := recencyScore (daysSinceLastEaten w (r_id recipe) db) in
  SuggestionService.mkScore (r_id recipe) (r_name recipe) (s + t + r) s t r.

(** The candidate pool: the catalog without the excluded ids. *)
Definition pool (excludeIds : list Z) (db : Db) : list Recipe :=
  filter (fun r => negb (Js.includesZ excludeIds (r_id r))) (recipes db).


(** The recipe ids of the rows of [suggestions] for a day. *)
Definition suggestedIds (today : Date) (db : Db) : list Z :=
  map s_recipeId (SuggestionService.todaysRows today db).

(** The pending row stored for a generated suggestion. *)
Definition pendingRow (w : World) (today : Date) (db : Db)
    (g : SuggestionService.Generated) : Suggestion :=
  mkSuggestion (nextSuggestionId db)
    (r_id (SuggestionService.g_recipe g)) today pending
    (Breakdown
       (SuggestionService.seasonScore (SuggestionService.g_score g))
       (SuggestionService.weatherScore (SuggestionService.g_score g))
       (SuggestionService.recencyScore (SuggestionService.g_score g)))
    (SuggestionService.g_weather g) (now w).

(** The database with one more row of [suggestions]. *)
Definition withRow (db : Db) (row : Suggestion) : Db :=
  mkDb (recipes db) (mealHistory db) (suggestions db ++ [row])
       (weekPlan db) (nextMealId db) (nextSuggestionId db + 1).

(** The most recently created row of [suggestions] for a day. *)
Definition latestRow (today : Date) (db : Db) : option Suggestion :=
  hd_error (orderByDesc s_createdAt (SuggestionService.todaysRows today db)).

(** An entry of the meal history lies in today's calendar day. *)
Definition inToday (w : World) (e : MealHistoryEntry) : Prop :=
  SuggestionService.todayStart w <= mh_eatenAt e
  < SuggestionService.tomorrowStart w.

(** The database after the first two writes of [rejectSuggestion] on
    an accepted suggestion [s]: the meal history without the entries
    for the recipe of [s] eaten today, and the rows with the id
    [suggestionId] marked rejected. *)
Definition afterRejection (w : World) (suggestionId : Z) (s : Suggestion)
    (db : Db) : Db :=
  mkDb (recipes db)
       (filter (fun e => negb (SuggestionService.eatenToday w (s_recipeId s) e))
               (mealHistory db))
       (map (fun x => if s_id x =? suggestionId
                      then SuggestionService.withStatus rejected x else x)
            (suggestions db))
       (weekPlan db) (nextMealId db) (nextSuggestionId db).

(** Number of distinct recipe ids in the catalog. *)
Definition distinctRecipeIds (db : Db) : nat :=
  length (nodup Z.eq_dec (map r_id (recipes db))).

(** The recipe id a day of the plan is assigned, if any. *)
Definition recipeIdOf (d : WeekPlanApi.PlanDay) : option Z :=
  option_map WeekPlanApi.rs_id (WeekPlanApi.pd_recipe d).

(** A freshly generated day has a recipe, and no earlier day of the
    plan has that recipe. *)
Definition generatedDaysFresh (days : list WeekPlanApi.PlanDay) : Prop :=
  forall pre d post,
    days = pre ++ d :: post ->
    WeekPlanApi.pd_origin d = WeekPlanApi.FromGenerated ->
    exists rid,
      recipeIdOf d = Some rid /\
      forall d', In d' pre -> recipeIdOf d' <> Some rid.

(** What one round of the resolver's loop does to its variables: it
    appends one day [d] for [day]; the recipe of [d], if any, is
    recorded as used; only today is taken from the suggestions; a
    generated day takes a recipe not used before, and takes one whenever
    the catalog has an unused recipe. *)
Definition resolvesOneDay (allRecipes : list Recipe) (today : Date)
    (day : ForecastDay) (st : WeekPlanApi.Loop)
    (out : (Exn + WeekPlanApi.Loop) * Db) : Prop :=
  exists d used' calls',
    fst out = inr (WeekPlanApi.mkLoop (WeekPlanApi.result st ++ [d])
                     used' calls') /\
    WeekPlanApi.pd_date d = fd_date day /\
    (WeekPlanApi.pd_origin d = WeekPlanApi.FromSuggestion ->
     fd_date day = today) /\
    (forall rid, recipeIdOf d = Some rid -> In rid used') /\
    incl (WeekPlanApi.usedRecipeIds st) used' /\
    (length used' <= S (length (WeekPlanApi.usedRecipeIds st)))%nat /\
    (WeekPlanApi.pd_origin d = WeekPlanApi.FromGenerated ->
     (forall rid, recipeIdOf d = Some rid ->
                  ~ In rid (WeekPlanApi.usedRecipeIds st)) /\
     ((exists r, In r allRecipes /\
                 ~ In (r_id r) (WeekPlanApi.usedRecipeIds st)) ->
      recipeIdOf d <> None)).

(** The invariant of the resolver's loop. *)
Definition planInvariant (today : Date) (st : WeekPlanApi.Loop) : Prop :=
  (forall d rid, In d (WeekPlanApi.result st) ->
                 recipeIdOf d = Some rid ->
                 In rid (WeekPlanApi.usedRecipeIds st)) /\
  (forall d, In d (WeekPlanApi.result st) ->
             WeekPlanApi.pd_origin d = WeekPlanApi.FromSuggestion ->
             WeekPlanApi.pd_date d = today) /\
  (length (WeekPlanApi.usedRecipeIds st)
   <= length (WeekPlanApi.result st))%nat /\
  generatedDaysFresh (WeekPlanApi.result st).

(** The nine shopping categories, in their fixed order. *)
Definition categoryOrder : list string :=
  ["Groente & Fruit"; "Zuivel & Eieren"; "Vlees & Vis";
   "Pasta, Rijst & Granen"; "Conserven & Sauzen"; "Kruiden & Specerijen";
   "Noten & Zaden"; "Olie & Azijn"; "Overig"].

(** The capital letters and, in the same order, the small letters. *)
Definition capitals : string := "ABCDEFGHIJKLMNOPQRSTUVWXYZ".
Definition smalls : string := "abcdefghijklmnopqrstuvwxyz".

(** The small letter at the place [c] has among the capitals, [c]
    itself when it is not a capital. *)
Fixpoint smallOf (caps smls : string) (c : ascii) : ascii :=
  match caps, smls with
  | String capital caps', String small smls' =>
      if Ascii.eqb c capital then small else smallOf caps' smls' c
  | _, _ => c
  end.

(** A character with its case ignored: a capital counts as its small
    letter. *)
Definition ignoringCase (c : ascii) : ascii := smallOf capitals smalls c.

(** Two texts are the same when case is ignored. *)
Fixpoint sameText (a b : string) : bool :=
  match a, b with
  | EmptyString, EmptyString => true
  | String x a', String y b' =>
      (Ascii.eqb (ignoringCase x) (ignoringCase y) && sameText a' b')%bool
  | _, _ => false
  end.





(** *** The normalized name of an ingredient line, in the
    specification's words

    "lower-case, trim, collapse internal whitespace, strip a fixed set
    of Dutch leading descriptors (vers/verse, biologisch(e),
    groot/grote, klein/kleine, rood/rode, groen/groene, geel/gele,
    wit/witte) and matching trailing forms". *)

Fixpoint lowerText (s : string) : string :=
  match s with
  | EmptyString => EmptyString
  | String c s' => String (ignoringCase c) (lowerText s')
  end.

(** White space: space, tab, line feed, vertical tab, form feed and
    carriage return. *)
Definition blanks : list ascii :=
  [" "; "009"; "010"; "011"; "012"; "013"]%char.

Definition isBlank (c : ascii) : bool := existsb (Ascii.eqb c) blanks.

(** The text cut at every white-space character. *)
Fixpoint pieces (s : string) : list string :=
  match s with
  | EmptyString => [EmptyString]
  | String c s' =>
      if isBlank c then EmptyString :: pieces s'
      else match pieces s' with
           | piece :: rest => String c piece :: rest
           | [] => [String c EmptyString]
           end
  end.

(** The words of a text: its pieces between white space. *)
Definition words (s : string) : list string :=
  filter (fun piece => negb (String.eqb piece "")) (pieces s).

(** A word is a text that is not empty and has no white space. *)
Fixpoint blankFree (s : string) : bool :=
  match s with
  | EmptyString => true
  | String c s' => (negb (isBlank c) && blankFree s')%bool
  end.

Definition isWord (w : string) : bool :=
  (negb (String.eqb w "") && blankFree w)%bool.

(** Words joined by single spaces: a text that is trimmed and whose
    internal white space is collapsed. *)
Fixpoint unwords (ws : list string) : string :=
  match ws with
  | [] => EmptyString
  | [w] => w
  | w :: ws' => String.append w (String " " (unwords ws'))
  end.

Definition descriptors : list string :=
  ["vers"; "verse"; "biologisch"; "biologische"; "groot"; "grote";
   "klein"; "kleine"; "rood"; "rode"; "groen"; "groene"; "geel"; "gele";
   "wit"; "witte"].

(** The matching trailing forms: each descriptor as it is written
    behind what it describes, without ending. *)
Definition trailingForms : list string :=
  ["vers"; "biologisch"; "groot"; "klein"; "rood"; "groen"; "geel"; "wit"].

(** The first word is stripped when it is one of [forms] and describes
    something, that is when words follow. *)
Definition withoutFirst (forms ws : list string) : list string :=
  match ws with
  | w :: described =>
      match described with
      | _ :: _ => if existsb (String.eqb w) forms then described else ws
      | [] => ws
      end
  | [] => ws
  end.

Definition withoutLeading (ws : list string) : list string :=
  withoutFirst descriptors ws.

Definition withoutTrailing (ws : list string) : list string :=
  rev (withoutFirst trailingForms (rev ws)).

Definition normalized (name : string) : string :=
  unwords (withoutTrailing (withoutLeading (words (lowerText name)))).

(** *** The merge of ingredient lines, in the specification's words

    "Two ingredient lines merge into one shopping-list item iff their
    normalized names are byte-equal"; the item keeps "the first-seen
    original name" and "every source occurrence (recipe name, recipe
    id, raw amount, raw unit)"; "if every occurrence has a non-null
    amount AND all non-null units (case-insensitively,
    empty-string-normalized) are identical, sum the amounts and keep
    that one unit; otherwise fall back to the first occurrence's raw
    amount+unit". *)

Definition nameOf (ing : ShoppingApi.PlannedIngredient) : string :=
  normalized (ShoppingApi.pi_name ing).

(** The texts of a list without repetition, each where it is first
    seen. *)
Definition seen (t : string) (earlier : list string) : bool :=
  existsb (String.eqb t) earlier.

Fixpoint firstSeenAfter (earlier texts : list string) : list string :=
  match texts with
  | [] => []
  | t :: texts' =>
      if seen t earlier then firstSeenAfter earlier texts'
      else t :: firstSeenAfter (t :: earlier) texts'
  end.

Definition firstSeen (texts : list string) : list string :=
  firstSeenAfter [] texts.

(** The lines with a given normalized name, in encounter order. *)
Definition linesNamed (k : string)
    (ings : list ShoppingApi.PlannedIngredient)
    : list ShoppingApi.PlannedIngredient :=
  filter (fun ing => String.eqb (nameOf ing) k) ings.

(** An occurrence as [sources] records it. *)
Definition occurrence (ing : ShoppingApi.PlannedIngredient)
    : ShoppingApi.Source :=
  ShoppingApi.mkSource (ShoppingApi.pi_recipeName ing)
    (ShoppingApi.pi_recipeId ing) (ShoppingApi.pi_amount ing)
    (ShoppingApi.pi_unit ing).

Definition hasAmount (ing : ShoppingApi.PlannedIngredient) : bool :=
  match ShoppingApi.pi_amount ing with Some _ => true | None => false end.

(** A unit as text: no unit is the empty text. *)
Definition unitText (u : option string) : string :=
  match u with Some text => text | None => "" end.

(** Units identical when case is ignored. *)
Definition sameUnit (a b : option string) : bool :=
  sameText (unitText a) (unitText b).

(** Every line has an amount, and all units are identical. *)
Definition summable (lines : list ShoppingApi.PlannedIngredient) : bool :=
  (forallb hasAmount lines
   && match lines with
      | first :: _ =>
          forallb (fun ing => sameUnit (ShoppingApi.pi_unit ing)
                                (ShoppingApi.pi_unit first)) lines
      | [] => true
      end)%bool.

(** The sum of the amounts, added up from 0 in encounter order. *)
Definition plus (acc : float) (ing : ShoppingApi.PlannedIngredient)
    : float :=
  match ShoppingApi.pi_amount ing with
  | Some a => (acc + a)%float
  | None => acc
  end.

Definition sum (lines : list ShoppingApi.PlannedIngredient) : float :=
  fold_left plus lines 0%float.

(** The one unit of lines whose units are identical: in small letters,
    and null when it is the empty text. *)
Definition oneUnit (lines : list ShoppingApi.PlannedIngredient)
    : option string :=
  match lines with
  | first :: _ =>
      let text := lowerText (unitText (ShoppingApi.pi_unit first)) in
      if String.eqb text "" then None else Some text
  | [] => None
  end.

(** The sums of doubles that the claim is stated for: while the lines
    are added up, the sum so far never is NaN or negative zero.  (The
    code adds to [sum || 0], which is 0 for a sum that is NaN; NaN
    comes from adding infinities of opposite sign only.) *)
Definition isSum (t : float) : bool :=
  match classify t with
  | NaN | NZero => false
  | _ => true
  end.

Fixpoint sumsFrom (acc : float)
    (lines : list ShoppingApi.PlannedIngredient) : bool :=
  match lines with
  | [] => true
  | ing :: rest => (isSum acc && sumsFrom (plus acc ing) rest)%bool
  end.

(** The ingredient names that the leading pattern of the code gets
    wrong: those of several words that start with one of these. *)
Definition misspelt : list string :=
  ["groot"; "rood"; "geel"; "wit"; "grot"; "rod"; "gel"; "witt"].

Definition startsMisspelt (name : string) : bool :=
  match words (lowerText name) with
  | w :: _ :: _ => existsb (String.eqb w) misspelt
  | _ => false
  end.

(** The lines whose texts the model reads as the code does: name and
    unit in ASCII. *)
Definition plainLine (ing : ShoppingApi.PlannedIngredient) : bool :=
  (Js.isAscii (ShoppingApi.pi_name ing)
   && Js.isAscii (unitText (ShoppingApi.pi_unit ing)))%bool.

(** The two examples of the specification: "2 ui" with "1 rode ui", and
    "200 g bloem" with "1 kop bloem". *)
Definition line (title : string) (amount : float) (unit : option string)
    (recipe : string) (rid : Z) : ShoppingApi.PlannedIngredient :=
  ShoppingApi.mkPlanned title (Some amount) unit recipe rid.

Definition twoOnions : list ShoppingApi.PlannedIngredient :=
  [line "ui" 2%float None "Uiensoep" 1;
   line "rode ui" 1%float None "Salade" 2].

Definition flourTwice : list ShoppingApi.PlannedIngredient :=
  [line "bloem" 200%float (Some "g") "Brood" 3;
   line "bloem" 1%float (Some "kop") "Pannenkoeken" 4].

(** Two lines whose units differ in case only, and whose names differ
    in case and white space only. *)
Definition flourInGrams : list ShoppingApi.PlannedIngredient :=
  [line "Bloem" 200%float (Some "G") "Brood" 3;
   line "  bloem " 50%float (Some "g") "Koek" 5].

(** A line without amount with a line that has one; and a line whose
    unit is the empty text with a line without unit. *)
Definition pepperToTaste : list ShoppingApi.PlannedIngredient :=
  [ShoppingApi.mkPlanned "peper" None None "Soep" 8;
   line "peper" 1%float (Some "tl") "Saus" 9].

Definition saltTwice : list ShoppingApi.PlannedIngredient :=
  [line "zout" 1%float (Some "") "Soep" 8;
   line "zout" 2%float None "Saus" 9].

(** "1 brood" with "1 wit brood". *)
Definition twoBreads : list ShoppingApi.PlannedIngredient :=
  [line "brood" 1%float None "Ontbijt" 6;
   line "wit brood" 1%float None "Lunch" 7].

End Spec.

(** ** [mergeIngredients], step by step

    The map [merged] of the code and the items computed from it,
    written as functions of the lines that went in.  These follow the
    loops of the code (Part II proves that they are what the loops
    compute); the wording of the specification is in [Spec]. *)

Module MergeView.

(** The normalized name of an ingredient line. *)
Definition keyOf (ing : ShoppingApi.PlannedIngredient) : string :=
  ShoppingApi.normalizeIngredientName (ShoppingApi.pi_name ing).

(** The keys of the map [merged], in the order of their insertion. *)
Definition distinctKeys (ings : list ShoppingApi.PlannedIngredient)
    : list string :=
  Spec.firstSeen (map keyOf ings).

(** The lines with a given normalized name, in encounter order. *)
Definition occurrences (k : string)
    (ings : list ShoppingApi.PlannedIngredient)
    : list ShoppingApi.PlannedIngredient :=
  filter (fun ing => String.eqb (keyOf ing) k) ings.

Definition hasAmount (ing : ShoppingApi.PlannedIngredient) : bool :=
  match ShoppingApi.pi_amount ing with Some _ => true | None => false end.

(** Two units give the same key of [unitGroups]. *)
Definition sameUnit (a b : option string) : bool :=
  String.eqb (ShoppingApi.unitKeyOf a) (ShoppingApi.unitKeyOf b).

(** No line makes [hasNull] true, and [unitGroups] gets one key. *)
Definition summable (first : ShoppingApi.PlannedIngredient)
    (occ : list ShoppingApi.PlannedIngredient) : bool :=
  (forallb hasAmount occ
   && forallb (fun ing => sameUnit (ShoppingApi.pi_unit ing)
                            (ShoppingApi.pi_unit first)) occ)%bool.

(** The sum of the amounts as the loop forms it, in encounter order
    from 0. *)
Definition addAmount (acc : float) (amount : option float) : float :=
  match amount with
  | Some a => (Js.numberOrZero (Some acc) + a)%float
  | None => acc
  end.

Definition total (occ : list ShoppingApi.PlannedIngredient) : float :=
  fold_left (fun acc ing => addAmount acc (ShoppingApi.pi_amount ing))
            occ 0%float.

(** The item the code computes for a normalized name with lines
    [first :: rest]. *)
Definition itemOf (k : string) (first : ShoppingApi.PlannedIngredient)
    (rest : list ShoppingApi.PlannedIngredient) : ShoppingApi.Item :=
  let occ := first :: rest in
  if summable first occ then
    ShoppingApi.mkItem k (ShoppingApi.pi_name first) (Some (total occ))
      (ShoppingApi.unitOrNull
         (ShoppingApi.unitKeyOf (ShoppingApi.pi_unit first)))
      (ShoppingApi.categorizeIngredient (ShoppingApi.pi_name first))
      (map ShoppingApi.sourceOf occ)
  else
    ShoppingApi.mkItem k (ShoppingApi.pi_name first)
      (ShoppingApi.pi_amount first) (ShoppingApi.pi_unit first)
      (ShoppingApi.categorizeIngredient (ShoppingApi.pi_name first))
      (map ShoppingApi.sourceOf occ).

(** One item per distinct normalized name, in first-seen order. *)
Definition merged (ings : list ShoppingApi.PlannedIngredient)
    : list ShoppingApi.Item :=
  flat_map
    (fun k => match occurrences k ings with
              | first :: rest => [itemOf k first rest]
              | [] => []
              end)
    (distinctKeys ings).

(** The raw amounts and units of some lines. *)
Definition amountsOf (occ : list ShoppingApi.PlannedIngredient)
    : list (option float * option string) :=
  map (fun ing => (ShoppingApi.pi_amount ing, ShoppingApi.pi_unit ing)) occ.

(** What the loop of [mergeIngredients] holds under a key whose lines
    so far are [occ] (a key in the map has at least one line). *)
Definition bucketOf (k : string) (occ : list ShoppingApi.PlannedIngredient)
    : ShoppingApi.Bucket :=
  let shown := match occ with
               | first :: _ => ShoppingApi.pi_name first
               | [] => ""
               end in
  ShoppingApi.mkBucket k shown (amountsOf occ)
    (ShoppingApi.categorizeIngredient shown)
    (map ShoppingApi.sourceOf occ).

End MergeView.

(** ** Concrete states used in the examples *)

Module Fixtures.

(** Noon of day 19919, the 15th of July 2024; 25 degrees under a clear
    sky. *)
Definition noon : Instant := 19919 * secondsPerDay + 43200.

Definition clearSky : WeatherSnapshot :=
  mkWeather 25 "Clear" "onbewolkt" "01d".

Definition july : World := mkWorld noon 7 clearSky [] (fun _ => 0%Q).

(** A winter dish for cold days. *)
Definition stamppot : Recipe :=
  mkRecipe 1 "Stamppot" "soep"
           (Some [mkIngredient "aardappelen" (Some 1%float) (Some "kg") true;
                  mkIngredient "rode ui" (Some 1%float) None true])
           (Some 4) (Some [winter]) (Some [koud]).

Definition emptyDb : Db := mkDb [] [] [] [] 1 1.

Definition stamppotOnly : Db := mkDb [stamppot] [] [] [] 1 1.

Definition today : Date := 19919.

(** The only recipe was suggested an hour ago and rejected. *)
Definition stamppotRejected : Db :=
  mkDb [stamppot] []
       [mkSuggestion 1 1 today rejected (Breakdown 5 0 40) clearSky
                     (noon - 3600)]
       [] 1 2.

(** A summer salad. *)
Definition salade : Recipe :=
  mkRecipe 2 "Salade" "salade"
           (Some [mkIngredient "ui" (Some 2%float) None true;
                  mkIngredient "sla" (Some 1%float) (Some "krop") true])
           (Some 2) (Some [zomer]) (Some [warm]).

(** Stamppot is today's pending suggestion; the user has also logged,
    three hours ago, that stamppot was eaten (POST /api/history). *)
Definition loggedLunch : MealHistoryEntry := mkMeal 1 1 (noon - 10800).

Definition lunchLogged : Db :=
  mkDb [stamppot; salade] [loggedLunch]
       [mkSuggestion 1 1 today pending (Breakdown 5 0 40) clearSky
                     (noon - 3600)]
       [] 2 2.

(** Stamppot was suggested and rejected an hour ago; since half an
    hour the salad is today's pending suggestion. *)
Definition rejectedStamppot : Suggestion :=
  mkSuggestion 1 1 today rejected (Breakdown 5 0 40) clearSky (noon - 3600).

Definition pendingSalade : Suggestion :=
  mkSuggestion 2 2 today pending (Breakdown 30 15 40) clearSky (noon - 1800).

Definition saladeAfterStamppot : Db :=
  mkDb [stamppot; salade] [] [rejectedStamppot; pendingSalade] [] 1 3.

(** A catalog of seven recipes without tags. *)
Definition plain (i : Z) (title : string) : Recipe :=
  mkRecipe i title "pasta" (Some []) (Some 2) None None.

Definition sevenRecipes : list Recipe :=
  [plain 1 "Pasta pesto"; plain 2 "Lasagne"; plain 3 "Risotto";
   plain 4 "Curry"; plain 5 "Soep"; plain 6 "Wraps"; plain 7 "Shakshuka"].

(** The same July noon, with a forecast for the six days after today. *)
Definition forecastDay (d : Date) : ForecastDay :=
  mkForecastDay d 22 "02d" "licht bewolkt" [warm].

Definition week : World :=
  mkWorld noon 7 clearSky
    (map forecastDay [today + 1; today + 2; today + 3; today + 4;
                      today + 5; today + 6])
    (fun _ => 0%Q).

(** Pasta pesto is today's accepted suggestion; nothing else is planned. *)
Definition pestoToday : Db :=
  mkDb sevenRecipes []
       [mkSuggestion 1 1 today accepted (Breakdown 15 10 40) clearSky
                     (noon - 3600)]
       [] 1 2.

End Fixtures.

(** ** The other week-plan routes ([src/index.ts]) *)

Module WeekPlanEdit.

(** [DELETE /api/weekplan/:date]; the answer is
    [{ success: true, date, recipe: null }].  Of
    [.set({ cleared: true, recipeId: null })] and of the inserted
    [{ date, recipeId: null, cleared: true, createdAt }] drizzle writes
    the declared columns and drops the key [cleared]: the row loses its
    recipe, and the column [cleared] keeps its value (its default 0 in
    a new row). *)
Definition deleteWeekPlan (w : World) (date : Date) : M Date :=
  (if date =? todayOf w
   then SuggestionService.updateStatusWhere
          (fun s => s_suggestedFor s =? date) cleared
   else ret tt) ;;;
  existing <- query (WeekPlanApi.findPlan date) ;;
  match existing with
  | Some _ =>
      WeekPlanApi.setPlans (map (fun p =>
        if wp_date p =? date
        then mkPlan (wp_date p) None (wp_cleared p)
                    (wp_temp p) (wp_icon p) (wp_description p)
        else p))
  | None =>
      WeekPlanApi.setPlans (fun l =>
        l ++ [mkPlan date None false None None None])
  end ;;;
  ret date.

Inductive RegenerateResponse :=
| Regenerated (date : Date) (recipe : WeekPlanApi.RecipeSummary)
| NoRecipesAvailable400.

(** [usedRecipeIds.includes(id)] on an array of numbers and nulls. *)
Definition usedIncludes (used : list (option Z)) (rid : Z) : bool :=
  existsb (ShoppingApi.optZ_eqb (Some rid)) used.

(** The body of [todaysSuggestions.forEach]. *)
Definition pushUnlessUsed (used : list (option Z)) (s : Suggestion)
    : list (option Z) :=
  if usedIncludes used (s_recipeId s) then used
  else used ++ [Some (s_recipeId s)].

(** The score of the route: the season, and up to 20 at random. *)
Definition rerollScore (currentSeason : Season) (recipe : Recipe) (u : Q)
    : Q :=
  let recipeSeasons := SuggestionService.parsedOrEmpty (r_seasons recipe) in
  ((if existsb (Season_eqb currentSeason) recipeSeasons
    then inject_Z 30 else 0)
   + u * inject_Z 20)%Q.

Fixpoint scoreAll (currentSeason : Season) (rnd : nat -> Q) (next : nat)
    (l : list Recipe) : list (Recipe * Q) :=
  match l with
  | [] => []
  | r :: l' =>
      (r, rerollScore currentSeason r (rnd next))
        :: scoreAll currentSeason rnd (S next) l'
  end.

(** [POST /api/weekplan/:date/regenerate]. *)
Definition regenerateDay (w : World) (date : Date) : M RegenerateResponse :=
  let isToday := date =? todayOf w in
  otherPlans <- query (fun db =>
    filter (fun p => negb (wp_date p =? date)) (weekPlan db)) ;;
  let usedOnOtherDays := map wp_recipeId otherPlans in
  usedRecipeIds <-
    (if isToday then
       todaysSuggestions <- query (SuggestionService.todaysRows date) ;;
       ret (fold_left pushUnlessUsed todaysSuggestions usedOnOtherDays)
     else ret usedOnOtherDays) ;;
  allRecipes <- query recipes ;;
  let availableRecipes :=
    filter (fun r => negb (usedIncludes usedRecipeIds (r_id r))) allRecipes in
  let currentSeason := Weather.getCurrentSeason (month w) in
  let scored := scoreAll currentSeason (random w) 0%nat availableRecipes in
  match Js.sort (fun a b => Qle_bool (snd b) (snd a)) scored with
  | [] => ret NoRecipesAvailable400
  | (newRecipe, _) :: _ =>
      (if isToday then
         SuggestionService.updateStatusWhere
           (fun s => s_suggestedFor s =? date) rejected ;;;
         _ <- SuggestionService.insertSuggestion (r_id newRecipe) date
                pending (Breakdown 30 10 40) (currentWeather w) (now w) ;;
         ret tt
       else
         currentPlan <- query (WeekPlanApi.findPlan date) ;;
         match currentPlan with
         | Some _ =>
             WeekPlanApi.setPlans (map (fun p =>
               if wp_date p =? date
               then mkPlan (wp_date p) (Some (r_id newRecipe)) (wp_cleared p)
                           (wp_temp p) (wp_icon p) (wp_description p)
               else p))
         | None =>
             WeekPlanApi.setPlans (fun l =>
               l ++ [mkPlan date (Some (r_id newRecipe)) false
                            (Some 0) (Some "01d") (Some "")])
         end) ;;;
      ret (Regenerated date (WeekPlanApi.summary newRecipe))
  end.

End WeekPlanEdit.


(** ** The weather service ([src/services/weather.ts]) *)

Module WeatherService.

(** An element of the provider's [weather] array. *)
Record Condition := mkCondition {
  c_main : string;
  c_description : string;
  c_icon : string
}.

(** The fields of the provider's answer for the current weather that
    end up in the snapshot kept here. *)
Record OpenWeatherResponse := mkResponse {
  ow_temp : Q;
  ow_weather : list Condition
}.

(** [Math.round]: the nearest integer, halves upwards. *)
Definition mathRound (x : Q) : Z := Qfloor (x + (1 # 2)).

(** [value || fallback] for an optional text: undefined and the empty
    text give the fallback. *)
Definition orText (value : option string) (fallback : string) : string :=
  match value with
  | Some s => if String.eqb s "" then fallback else s
  | None => fallback
  end.

(** One reading of the clock, in milliseconds, with the local date. *)
Record Clock := mkClock {
  nowMs : Z;           (* Date.now() *)
  todayStr : Date      (* getTodayString() *)
}.

(** The module variables [weatherCache] and [forecastCache]. *)
Record Cache (A : Type) := mkCache {
  data : A;
  timestamp : Z;
  cachedOn : Date
}.
Arguments mkCache {A}.
Arguments data {A}.
Arguments timestamp {A}.
Arguments cachedOn {A}.

Definition CACHE_DURATION : Z := 30 * 60 * 1000.

(** The cached value, when the test guarding it holds: the cache is
    of today and younger than [CACHE_DURATION]. *)
Definition cached {A} (clock : Clock) (cache : option (Cache A)) : option A :=
  match cache with
  | Some c =>
      if ((cachedOn c =? todayStr clock)
          && (nowMs clock - timestamp c <? CACHE_DURATION))%bool
      then Some (data c) else None
  | None => None
  end.

Definition snapshotOf (response : OpenWeatherResponse) : WeatherSnapshot :=
  let first := hd_error (ow_weather response) in
  mkWeather (mathRound (ow_temp response))
            (orText (option_map c_main first) "Unknown")
            (orText (option_map c_description first) "")
            (orText (option_map c_icon first) "01d").

(** [getCurrentWeather]: [fetched] is what the provider would answer,
    a status that is not ok or the data; the result is the thrown
    status or the snapshot, with the cache afterwards. *)
Definition getCurrentWeather (clock : Clock)
    (fetched : Z + OpenWeatherResponse)
    (cache : option (Cache WeatherSnapshot))
    : (Z + WeatherSnapshot) * option (Cache WeatherSnapshot) :=
  match cached clock cache with
  | Some weather => (inr weather, cache)
  | None =>
      match fetched with
      | inl status => (inl status, cache)
      | inr response =>
          let weather := snapshotOf response in
          (inr weather,
           Some (mkCache weather (nowMs clock) (todayStr clock)))
      end
  end.

(** An element of the provider's forecast [list]: the date and hour of
    [dt_txt], the temperature and the [weather] array. *)
Record ForecastItem := mkForecastItem {
  fi_date : Date;
  fi_hour : Z;
  fi_temp : Q;
  fi_weather : list Condition
}.

(** The tags of a forecast day. *)
Definition forecastTags (temp : Z) (condition : string) : list WeatherTag :=
  (if temp <? 10 then [koud] else []) ++
  (if temp >? 20 then [warm] else []) ++
  (if (Js.includes condition "rain" || Js.includes condition "drizzle")%bool
   then [regenachtig] else []) ++
  (if (Js.includes condition "clear" || Js.includes condition "sun")%bool
   then [zonnig] else []).

(** The value stored under the date of an item. *)
Definition dayOfItem (item : ForecastItem) : ForecastDay :=
  let first := hd_error (fi_weather item) in
  let temp := mathRound (fi_temp item) in
  let condition :=
    orText (option_map (fun c => Js.toLowerCase (c_main c)) first) "" in
  mkForecastDay (fi_date item) temp
    (orText (option_map c_icon first) "01d")
    (orText (option_map c_description first) "")
    (forecastTags temp condition).

(** The map [days], in insertion order. *)
Fixpoint daysHas (date : Date) (days : list (Date * ForecastDay)) : bool :=
  match days with
  | [] => false
  | (d, _) :: days' => ((d =? date) || daysHas date days')%bool
  end.

Fixpoint daysSet (date : Date) (v : ForecastDay)
    (days : list (Date * ForecastDay)) : list (Date * ForecastDay) :=
  match days with
  | [] => [(date, v)]
  | (d, v') :: days' =>
      if d =? date then (d, v) :: days' else (d, v') :: daysSet date v days'
  end.

(** The body of [for (const item of data.list)]. *)
Definition addItem (days : list (Date * ForecastDay)) (item : ForecastItem)
    : list (Date * ForecastDay) :=
  if (negb (daysHas (fi_date item) days)
      || (fi_hour item =? 12) || (fi_hour item =? 15))%bool
  then daysSet (fi_date item) (dayOfItem item) days
  else days.

(** The grouping of the provider's list into at most seven days. *)
Definition groupForecast (items : list ForecastItem) : list ForecastDay :=
  Js.slice0 7 (map snd (fold_left addItem items [])).

(** [getWeekForecast]. *)
Definition getWeekForecast (clock : Clock)
    (fetched : Z + list ForecastItem)
    (cache : option (Cache (list ForecastDay)))
    : (Z + list ForecastDay) * option (Cache (list ForecastDay)) :=
  match cached clock cache with
  | Some days => (inr days, cache)
  | None =>
      match fetched with
      | inl status => (inl status, cache)
      | inr items =>
          let result := groupForecast items in
          (inr result,
           Some (mkCache result (nowMs clock) (todayStr clock)))
      end
  end.

End WeatherService.


(** ** The states the suggestion handlers leave behind *)

Module Outcome.

(** [update(suggestions).set({ status }).where(eq(suggestions.id, sid))]
    on the rows. *)
Definition markAll (sid : Z) (st : Status) (rows : list Suggestion)
    : list Suggestion :=
  map (fun x => if s_id x =? sid then SuggestionService.withStatus st x else x)
      rows.

(** The database after [acceptSuggestion] found the suggestion [s]. *)
Definition afterAccept (w : World) (sid : Z) (s : Suggestion) (db : Db) : Db :=
  mkDb (recipes db)
       (mealHistory db ++ [mkMeal (nextMealId db) (s_recipeId s) (now w)])
       (markAll sid accepted (suggestions db))
       (weekPlan db) (nextMealId db + 1) (nextSuggestionId db).

(** The meal history after the first step of [rejectSuggestion]. *)
Definition historyAfterReject (w : World) (sid : Z) (db : Db)
    : list MealHistoryEntry :=
  match SuggestionService.findSuggestion sid db with
  | Some s =>
      if Status_eqb (s_status s) accepted
      then filter (fun e =>
             negb (SuggestionService.eatenToday w (s_recipeId s) e))
             (mealHistory db)
      else mealHistory db
  | None => mealHistory db
  end.

(** The database [rejectSuggestion] generates the alternative from. *)
Definition afterMarkRejected (w : World) (sid : Z) (db : Db) : Db :=
  mkDb (recipes db) (historyAfterReject w sid db)
       (markAll sid rejected (suggestions db))
       (weekPlan db) (nextMealId db) (nextSuggestionId db).

(** [update(suggestions).set({ status }).where(eq(suggestions.suggestedFor,
    date))] on the rows. *)
Definition markDay (date : Date) (st : Status) (rows : list Suggestion)
    : list Suggestion :=
  map (fun s => if s_suggestedFor s =? date
                then SuggestionService.withStatus st s else s)
      rows.

(** The accepted row [PUT /api/weekplan/:date] stores for today. *)
Definition manualRow (w : World) (rid : Z) (db : Db) : Suggestion :=
  mkSuggestion (nextSuggestionId db) rid (todayOf w) accepted Manual
               (currentWeather w) (now w).


End Outcome.


(** ** The resolver's loop body, branch by branch *)

Module PlanView.

(** The fields of a day that the handler's JSON carries. *)
Definition visible (d : WeekPlanApi.PlanDay)
    : Date * Z * string * string * option Status
      * option WeekPlanApi.RecipeSummary :=
  (WeekPlanApi.pd_date d, WeekPlanApi.pd_temp d, WeekPlanApi.pd_icon d,
   WeekPlanApi.pd_description d, WeekPlanApi.pd_status d,
   WeekPlanApi.pd_recipe d).

(** The database with rows appended to [week_plan]. *)
Definition withPlans (db : Db) (rows : list WeekPlanEntry) : Db :=
  mkDb (recipes db) (mealHistory db) (suggestions db)
       (weekPlan db ++ rows) (nextMealId db) (nextSuggestionId db).

(** The first branch: the day is today and the suggestion decides it.
    The result is the day and the recipe ids it marks as used. *)
Definition suggestedDay (allRecipes : list Recipe) (today : Date)
    (todaySuggestion : list Suggestion) (day : ForecastDay)
    : option (WeekPlanApi.PlanDay * list Z) :=
  match (if fd_date day =? today then todaySuggestion else []) with
  | suggestion :: _ =>
      if Status_eqb (s_status suggestion) cleared then
        Some (WeekPlanApi.mkPlanDay (fd_date day) (fd_temp day) (fd_icon day)
                (fd_description day) (Some cleared) None
                WeekPlanApi.FromSuggestion, [])
      else
        match find (fun r => r_id r =? s_recipeId suggestion) allRecipes with
        | Some recipe =>
            Some (WeekPlanApi.mkPlanDay (fd_date day) (fd_temp day)
                    (fd_icon day) (fd_description day)
                    (Some (s_status suggestion))
                    (Some (WeekPlanApi.summary recipe))
                    WeekPlanApi.FromSuggestion, [r_id recipe])
        | None => None
        end
  | [] => None
  end.

(** [stored.recipeId ? ... : null]: null and 0 are falsy. *)
Definition truthyId (p : WeekPlanEntry) : option Z :=
  match wp_recipeId p with
  | Some rid => if rid =? 0 then None else Some rid
  | None => None
  end.

(** The second branch: the day as the stored row [p] gives it. *)
Definition storedDay (allRecipes : list Recipe) (p : WeekPlanEntry)
    (day : ForecastDay) : WeekPlanApi.PlanDay * list Z :=
  let temp := WeekPlanApi.orElse (wp_temp p) (fd_temp day) in
  let icon := WeekPlanApi.orElse (wp_icon p) (fd_icon day) in
  let description :=
    WeekPlanApi.orElse (wp_description p) (fd_description day) in
  (WeekPlanApi.mkPlanDay (fd_date day) temp icon description None
     (option_map WeekPlanApi.summary
        (match truthyId p with
         | Some rid => find (fun r => r_id r =? rid) allRecipes
         | None => None
         end))
     WeekPlanApi.FromStored,
   match truthyId p with Some rid => [rid] | None => [] end).

(** The third branch: the recipes not used so far, and the best of
    them under the day's scores. *)
Definition available (allRecipes : list Recipe) (st : WeekPlanApi.Loop)
    : list Recipe :=
  filter (fun r => negb (Js.includesZ (WeekPlanApi.usedRecipeIds st) (r_id r)))
         allRecipes.

Definition pick (w : World) (allRecipes : list Recipe)
    (currentSeason : Season) (day : ForecastDay) (st : WeekPlanApi.Loop)
    : option Recipe :=
  match Js.sort (fun a b => Qle_bool (snd b) (snd a))
          (WeekPlanApi.scoreAll currentSeason day (random w)
             (WeekPlanApi.randomCalls st) (available allRecipes st)) with
  | (topRecipe, _) :: _ => Some topRecipe
  | [] => None
  end.

Definition planRow (day : ForecastDay) (r : Recipe) : WeekPlanEntry :=
  mkPlan (fd_date day) (Some (r_id r)) false
         (Some (fd_temp day)) (Some (fd_icon day))
         (Some (fd_description day)).

Definition generatedDay (day : ForecastDay) (r : option Recipe)
    : WeekPlanApi.PlanDay :=
  WeekPlanApi.mkPlanDay (fd_date day) (fd_temp day) (fd_icon day)
    (fd_description day) None (option_map WeekPlanApi.summary r)
    WeekPlanApi.FromGenerated.

(** What the resolver shows for a day, as far as the suggestion of
    today and the rows stored in [db] before the request decide it. *)
Definition shown (allRecipes : list Recipe) (today : Date)
    (todaySuggestion : list Suggestion) (db : Db) (day : ForecastDay)
    (d : WeekPlanApi.PlanDay) : Prop :=
  match suggestedDay allRecipes today todaySuggestion day with
  | Some (d', _) => d = d'
  | None =>
      WeekPlanApi.pd_date d = fd_date day /\
      forall p, WeekPlanApi.findPlan (fd_date day) db = Some p ->
                d = fst (storedDay allRecipes p day)
  end.


(** A recipe has the current season among its seasons. *)
Definition inSeason (currentSeason : Season) (recipe : Recipe) : bool :=
  existsb (Season_eqb currentSeason) (Spec.seasonTags recipe).

(** The part of a day's score that is not random: 30 for the season
    and 15 for each weather tag of the recipe that the day has. *)
Definition baseScore (currentSeason : Season) (day : ForecastDay)
    (recipe : Recipe) : Z :=
  (if inSeason currentSeason recipe then 30 else 0)
  + Z.of_nat
      (length (filter (fun t => existsb (WeatherTag_eqb t)
                                        (fd_weatherTags day))
                      (Spec.weatherTagsOf recipe))) * 15.


End PlanView.


(** ** The choice of [POST /api/weekplan/:date/regenerate] *)

Module Reroll.

(** The recipe ids the route excludes: those of the rows stored for
    other dates and, for today, those suggested today. *)
Definition usedFor (w : World) (date : Date) (db : Db) : list (option Z) :=
  let usedOnOtherDays :=
    map wp_recipeId
        (filter (fun p => negb (wp_date p =? date)) (weekPlan db)) in
  if date =? todayOf w
  then fold_left WeekPlanEdit.pushUnlessUsed
         (SuggestionService.todaysRows date db) usedOnOtherDays
  else usedOnOtherDays.

(** [scored[0]?.recipe]. *)
Definition chosen (w : World) (date : Date) (db : Db) : option Recipe :=
  match Js.sort (fun a b => Qle_bool (snd b) (snd a))
          (WeekPlanEdit.scoreAll (Weather.getCurrentSeason (month w))
             (random w) 0%nat
             (filter (fun r =>
                        negb (WeekPlanEdit.usedIncludes (usedFor w date db)
                                (r_id r)))
                     (recipes db))) with
  | (newRecipe, _) :: _ => Some newRecipe
  | [] => None
  end.

(** The pending row the route stores for today. *)
Definition pendingRow (w : World) (date : Date) (r : Recipe) (db : Db)
    : Suggestion :=
  mkSuggestion (nextSuggestionId db) (r_id r) date pending
               (Breakdown 30 10 40) (currentWeather w) (now w).

(** The database after the route chose [r]. *)
Definition stored (w : World) (date : Date) (r : Recipe) (db : Db) : Db :=
  if date =? todayOf w then
    mkDb (recipes db) (mealHistory db)
         (Outcome.markDay date rejected (suggestions db)
            ++ [pendingRow w date r db])
         (weekPlan db) (nextMealId db) (nextSuggestionId db + 1)
  else
    mkDb (recipes db) (mealHistory db) (suggestions db)
         (match WeekPlanApi.findPlan date db with
          | Some _ =>
              map (fun p =>
                     if wp_date p =? date
                     then mkPlan (wp_date p) (Some (r_id r)) (wp_cleared p)
                                 (wp_temp p) (wp_icon p) (wp_description p)
                     else p)
                  (weekPlan db)
          | None =>
              weekPlan db ++ [mkPlan date (Some (r_id r)) false
                                     (Some 0) (Some "01d") (Some "")]
          end)
         (nextMealId db) (nextSuggestionId db).

End Reroll.


(** ** The shopping list handler, step by step *)

Module ShoppingView.

(** The entry of [dateToRecipeId] that today's suggestion gives. *)
Definition fromToday (today : Date) (db : Db) : list (Date * option Z) :=
  match ShoppingApi.todaySuggestion today db with
  | s :: _ => [(today, Some (s_recipeId s))]
  | [] => []
  end.

(** The map [dateToRecipeId] after the loop over the stored rows. *)
Definition dateToRecipeId (today : Date) (db : Db)
    : list (Date * option Z) :=
  fold_left (fun m plan =>
               ShoppingApi.dateSet (wp_date plan) (wp_recipeId plan) m)
            (weekPlan db) (fromToday today db).

Definition sortedDates (today : Date) (db : Db) : list (Date * option Z) :=
  Js.slice0 7
    (orderByAsc fst
       (filter (fun e => fst e >=? today) (dateToRecipeId today db))).

(** What one round of the loop over [sortedDates] pushes. *)
Definition planOf (recipeList : list Recipe) (entry : Date * option Z)
    : list ShoppingApi.PlannedRecipe :=
  match ShoppingApi.recipeMapGet recipeList (snd entry) with
  | Some recipe =>
      [ShoppingApi.mkPlannedRecipe (r_id recipe) (r_name recipe) (fst entry)
         (ShoppingApi.servingsOf recipe)]
  | None => []
  end.

(** The ingredient lines of a recipe: those its row lists, none for
    a row without a list. *)
Definition linesOf (recipe : Recipe) : list Ingredient :=
  match r_ingredients recipe with
  | Some lines => lines
  | None => []
  end.

Definition ingredientsOf (recipeList : list Recipe)
    (entry : Date * option Z) : list ShoppingApi.PlannedIngredient :=
  match ShoppingApi.recipeMapGet recipeList (snd entry) with
  | Some recipe => map (ShoppingApi.plannedOf recipe) (linesOf recipe)
  | None => []
  end.

(** The rows of [recipes] the handler fetches. *)
Definition recipeList (today : Date) (db : Db) : list Recipe :=
  filter (fun r =>
            existsb (ShoppingApi.optZ_eqb (Some (r_id r)))
              (fold_left (fun ids plan =>
                            ShoppingApi.setAdd (wp_recipeId plan) ids)
                 (weekPlan db) (map snd (fromToday today db))))
         (recipes db).

End ShoppingView.


(** ** The forecast item that stands for a day *)

Module WeatherView.

(** The items the grouping prefers: those of 12:00 and 15:00. *)
Definition preferred (item : WeatherService.ForecastItem) : bool :=
  ((WeatherService.fi_hour item =? 12)
   || (WeatherService.fi_hour item =? 15))%bool.

(** [item] stands for its date among [items]: it is the last preferred
    item of the date or, when the date has no preferred item, the
    first item of the date. *)
Definition representative (items : list WeatherService.ForecastItem)
    (item : WeatherService.ForecastItem) : Prop :=
  exists pre post,
    items = pre ++ item :: post /\
    (preferred item = true \/
     forall x, In x pre ->
       WeatherService.fi_date x <> WeatherService.fi_date item) /\
    forall x, In x post ->
      WeatherService.fi_date x = WeatherService.fi_date item ->
      preferred x = false.

End WeatherView.


(* ================================================================== *)
(** * Part II: the properties *)
(* ================================================================== *)

(** ** Facts about the library functions *)

Section SortFacts.
Context {A : Type} (before : A -> A -> bool).

Lemma insert_perm (x : A) (l : list A) :
  Permutation (Js.insert before x l) (x :: l).
Proof.
  induction l as [|y l IH]; simpl.
  - apply Permutation_refl.
  - destruct (before x y).
    + apply Permutation_refl.
    + eapply Permutation_trans.
      * apply perm_skip. exact IH.
      * apply perm_swap.
Qed.

Lemma sort_perm (l : list A) : Permutation (Js.sort before l) l.
Proof.
  induction l as [|x l IH]; simpl.
  - apply perm_nil.
  - eapply Permutation_trans.
    + apply insert_perm.
    + apply perm_skip. exact IH.
Qed.

Lemma sort_length (l : list A) : length (Js.sort before l) = length l.
Proof. apply Permutation_length, sort_perm. Qed.

Lemma sort_In (l : list A) (x : A) : In x (Js.sort before l) <-> In x l.
Proof.
  split; apply Permutation_in;
    [apply sort_perm | apply Permutation_sym, sort_perm].
Qed.

Lemma sort_nil_inv (l : list A) : Js.sort before l = [] -> l = [].
Proof.
  intros H. apply length_zero_iff_nil.
  rewrite <- sort_length, H. reflexivity.
Qed.

(** For a comparator that is total and transitive the result is
    ordered: every element may stay in front of all later ones. *)
Hypothesis before_total : forall a b, before a b = true \/ before b a = true.
Hypothesis before_trans :
  forall a b c, before a b = true -> before b c = true -> before a c = true.

Lemma insert_sorted (x : A) (l : list A) :
  StronglySorted (fun a b => before a b = true) l ->
  StronglySorted (fun a b => before a b = true) (Js.insert before x l).
Proof.
  induction 1 as [|y l Hl IH Hy]; simpl.
  - repeat constructor.
  - destruct (before x y) eqn:E.
    + constructor.
      * constructor; assumption.
      * constructor; [exact E|].
        rewrite Forall_forall in *. intros z Hz.
        eapply before_trans; [exact E | apply Hy, Hz].
    + constructor; [exact IH|].
      rewrite Forall_forall in *. intros z Hz.
      apply (Permutation_in _ (insert_perm x l)) in Hz.
      destruct Hz as [<-|Hz].
      * destruct (before_total y x) as [H'|H']; [exact H' | congruence].
      * apply Hy, Hz.
Qed.

Lemma sort_sorted (l : list A) :
  StronglySorted (fun a b => before a b = true) (Js.sort before l).
Proof.
  induction l as [|x l IH]; simpl.
  - constructor.
  - apply insert_sorted, IH.
Qed.
End SortFacts.

Lemma StronglySorted_weaken {A : Type} (R R' : A -> A -> Prop) (l : list A) :
  (forall a b, R a b -> R' a b) -> StronglySorted R l -> StronglySorted R' l.
Proof.
  intros HR. induction 1 as [|x l Hl IH Hx]; constructor.
  - exact IH.
  - eapply Forall_impl; [|exact Hx]. intros b. apply HR.
Qed.

Section OrderByFacts.
Context {A : Type} (col : A -> Z).

Lemma orderByDesc_sorted (l : list A) :
  StronglySorted (fun a b => col b <= col a) (orderByDesc col l).
Proof.
  unfold orderByDesc.
  eapply StronglySorted_weaken;
    [| apply (sort_sorted (fun a b => col b <=? col a))].
  - intros a b H. apply Z.leb_le. exact H.
  - intros a b. rewrite !Z.leb_le. lia.
  - intros a b c. rewrite !Z.leb_le. lia.
Qed.

Lemma orderByAsc_sorted (l : list A) :
  StronglySorted (fun a b => col a <= col b) (orderByAsc col l).
Proof.
  unfold orderByAsc.
  eapply StronglySorted_weaken;
    [| apply (sort_sorted (fun a b => col a <=? col b))].
  - intros a b H. apply Z.leb_le. exact H.
  - intros a b. rewrite !Z.leb_le. lia.
  - intros a b c. rewrite !Z.leb_le. lia.
Qed.

(** The first row under [orderBy(desc(col))] is a row of the table
    with the greatest value in the column. *)
Lemma orderByDesc_head (l : list A) (e : A) :
  hd_error (orderByDesc col l) = Some e ->
  In e l /\ forall x, In x l -> col x <= col e.
Proof.
  intros H. pose proof (orderByDesc_sorted l) as S.
  destruct (orderByDesc col l) as [|y s] eqn:E; [discriminate|].
  injection H as ->.
  assert (P : forall x, In x l <-> In x (e :: s)).
  { intros x. rewrite <- E. unfold orderByDesc.
    symmetry. apply sort_In. }
  split.
  - apply P. left. reflexivity.
  - intros x Hx. apply P in Hx. destruct Hx as [<-|Hx]; [lia|].
    apply StronglySorted_inv in S. destruct S as [_ F].
    rewrite Forall_forall in F. apply F, Hx.
Qed.

Lemma orderByAsc_head (l : list A) (e : A) :
  hd_error (orderByAsc col l) = Some e ->
  In e l /\ forall x, In x l -> col e <= col x.
Proof.
  intros H. pose proof (orderByAsc_sorted l) as S.
  destruct (orderByAsc col l) as [|y s] eqn:E; [discriminate|].
  injection H as ->.
  assert (P : forall x, In x l <-> In x (e :: s)).
  { intros x. rewrite <- E. unfold orderByAsc.
    symmetry. apply sort_In. }
  split.
  - apply P. left. reflexivity.
  - intros x Hx. apply P in Hx. destruct Hx as [<-|Hx]; [lia|].
    apply StronglySorted_inv in S. destruct S as [_ F].
    rewrite Forall_forall in F. apply F, Hx.
Qed.

Lemma orderByDesc_nil (l : list A) : orderByDesc col l = [] -> l = [].
Proof. apply sort_nil_inv. Qed.
End OrderByFacts.

Lemma fold_max_spec (t : Z) (ts : list Z) :
  In (fold_right Z.max t ts) (t :: ts) /\
  forall k, In k (t :: ts) -> k <= fold_right Z.max t ts.
Proof.
  induction ts as [|a ts [IHin IHle]]; simpl.
  - split; [left; reflexivity|]. intros k [<-|[]]. lia.
  - split.
    + destruct (Z.max_spec a (fold_right Z.max t ts)) as [[_ ->]|[_ ->]].
      * simpl in IHin. destruct IHin as [H|H]; [left; exact H | right; right; exact H].
      * right; left; reflexivity.
    + intros k [<-|[<-|H]].
      * specialize (IHle t (or_introl eq_refl)). lia.
      * lia.
      * specialize (IHle k (or_intror H)). lia.
Qed.

(** ** Weather tags and seasons *)

(** The scenario of the specification: 5 degrees and rain give the tags
    koud and regenachtig. *)
Example weatherTags_cold_rain :
  Weather.getWeatherTags (mkWeather 5 "Rain" "regen" "10d") =
  [koud; regenachtig].
Proof. reflexivity. Qed.

Example weatherScore_cold_rain :
  Spec.weatherScore [koud] [koud; regenachtig] = 15 /\
  Spec.weatherScore [koud; regenachtig] [koud; regenachtig] = 30.
Proof. split; reflexivity. Qed.

(** ** The score of a recipe *)

Lemma getDaysSinceEaten_spec (w : World) (rid : Z) (db : Db) :
  SuggestionService.getDaysSinceEaten w rid db =
  (inr (Spec.daysSinceLastEaten w rid db), db).
Proof.
  unfold SuggestionService.getDaysSinceEaten, Spec.daysSinceLastEaten,
    Spec.eatenAts, bind, query, ret.
  set (rows := filter (fun e => mh_recipeId e =? rid) (mealHistory db)).
  destruct (hd_error (orderByDesc mh_eatenAt rows)) as [e|] eqn:H.
  - apply orderByDesc_head in H. destruct H as [Hin Hmax].
    destruct rows as [|r rows']; [destruct Hin|].
    simpl map. cbv iota.
    destruct (fold_max_spec (mh_eatenAt r) (map mh_eatenAt rows'))
      as [Min Mle].
    change (mh_eatenAt r :: map mh_eatenAt rows')
      with (map mh_eatenAt (r :: rows')) in Min, Mle.
    apply in_map_iff in Min. destruct Min as [m [Hm Hmin]].
    assert (mh_eatenAt e = fold_right Z.max (mh_eatenAt r)
                             (map mh_eatenAt rows')) as ->.
    { apply Z.le_antisymm.
      - apply Mle, in_map, Hin.
      - rewrite <- Hm. apply Hmax, Hmin. }
    reflexivity.
  - destruct (orderByDesc mh_eatenAt rows) as [|y s] eqn:E; [|discriminate].
    apply orderByDesc_nil in E. rewrite E. reflexivity.
Qed.

(** The three components as [scoreRecipe] computes them. *)
Lemma seasonScore_code (tags : list Season) (current : Season) :
  (if (0 <? length tags)%nat
   then if existsb (Season_eqb current) tags then 30 else 5
   else 15) = Spec.seasonScore tags current.
Proof.
  unfold Spec.seasonScore. destruct tags as [|t tags]; [reflexivity|].
  change (0 <? length (t :: tags))%nat with true. cbv iota.
  destruct (existsb (Season_eqb current) (t :: tags)); reflexivity.
Qed.

Lemma weatherScore_code (tags todays : list WeatherTag) :
  (if (0 <? length tags)%nat
   then Z.min 30
          (Z.of_nat
             (length (filter (fun t => existsb (WeatherTag_eqb t) todays)
                             tags)) * 15)
   else 10) = Spec.weatherScore tags todays.
Proof.
  unfold Spec.weatherScore, Spec.intersecting.
  destruct tags as [|t tags]; [reflexivity|].
  change (0 <? length (t :: tags))%nat with true. cbv iota.
  f_equal. apply Z.mul_comm.
Qed.

Lemma recencyScore_code (days : Z) :
  (if days >=? 14 then 40
   else if days >=? 7 then 30
   else if days >=? 3 then 15
   else 0) = Spec.recencyScore days.
Proof.
  unfold Spec.recencyScore.
  destruct (Z.geb_spec days 14), (Z.geb_spec days 7), (Z.geb_spec days 3),
    (Z.ltb_spec days 3), (Z.leb_spec days 6), (Z.leb_spec days 13);
    try reflexivity; lia.
Qed.

(** [scoreRecipe] only reads, and returns the score in the wording of
    the specification. *)
Lemma scoreRecipe_scoreOf (w : World) (recipe : Recipe)
    (weather : WeatherSnapshot) (currentSeason : Season)
    (weatherTags : list WeatherTag) (db : Db) :
  SuggestionService.scoreRecipe w recipe weather currentSeason
    weatherTags db =
  (inr (Spec.scoreOf w currentSeason weatherTags db recipe), db).
Proof.
  unfold SuggestionService.scoreRecipe, Spec.scoreOf, bind.
  rewrite getDaysSinceEaten_spec. unfold ret.
  rewrite seasonScore_code, weatherScore_code, recencyScore_code.
  reflexivity.
Qed.


(** C8, the claim as stated fails: a recipe tagged for cold weather
    scored on a warm, clear day has weather tags none of which match,
    and its weather component is 0, which is not one of 10, 15, 30. *)
Lemma weatherScore_zero_counterexample :
  Weather.getWeatherTags Fixtures.clearSky = [warm; zonnig] /\
  SuggestionService.scoreRecipe Fixtures.july Fixtures.stamppot
    Fixtures.clearSky zomer (Weather.getWeatherTags Fixtures.clearSky)
    Fixtures.stamppotOnly =
  (inr (SuggestionService.mkScore 1 "Stamppot" 45 5 0 40),
   Fixtures.stamppotOnly) /\
  ~ In 0 [10; 15; 30].
Proof.
  split; [reflexivity|]. split; [reflexivity|].
  intros [H|[H|[H|[]]]]; discriminate.
Qed.

(** C8, amended.  For every recipe, weather tags, season and meal
    history the components lie in these ranges: the season component
    is 5, 15 or 30; the weather component is 0, 10, 15 or 30, and 0, 15
    or 30 (a multiple of 15) when the recipe has weather tags; the
    recency component is 0, 15, 30 or 40; the total is at least 5 and at
    most 100, and at least 20 for a recipe with neither season nor
    weather tags. *)
Theorem scoreRecipe_ranges :
  forall (w : World) (recipe : Recipe) (weather : WeatherSnapshot)
         (currentSeason : Season) (weatherTags : list WeatherTag) (db : Db),
  exists s,
    SuggestionService.scoreRecipe w recipe weather currentSeason
      weatherTags db = (inr s, db) /\
    In (SuggestionService.seasonScore s) [5; 15; 30] /\
    In (SuggestionService.weatherScore s) [0; 10; 15; 30] /\
    (SuggestionService.parsedOrEmpty (r_weatherTags recipe) <> [] ->
     In (SuggestionService.weatherScore s) [0; 15; 30]) /\
    In (SuggestionService.recencyScore s) [0; 15; 30; 40] /\
    5 <= SuggestionService.totalScore s <= 100 /\
    (SuggestionService.parsedOrEmpty (r_seasons recipe) = [] ->
     SuggestionService.parsedOrEmpty (r_weatherTags recipe) = [] ->
     20 <= SuggestionService.totalScore s <= 100).
Proof.
  intros w recipe weather currentSeason weatherTags db.
  pose proof (scoreRecipe_scoreOf w recipe weather currentSeason weatherTags
                db) as E.
  unfold Spec.scoreOf in E.
  change (Spec.seasonTags recipe)
    with (SuggestionService.parsedOrEmpty (r_seasons recipe)) in E.
  change (Spec.weatherTagsOf recipe)
    with (SuggestionService.parsedOrEmpty (r_weatherTags recipe)) in E.
  cbv zeta in E. eexists. split; [exact E|]. clear E. cbn [
    SuggestionService.seasonScore SuggestionService.weatherScore
    SuggestionService.recencyScore SuggestionService.totalScore].
  set (ss := Spec.seasonScore _ _).
  set (ws := Spec.weatherScore _ _).
  set (rs := Spec.recencyScore _).
  assert (Hs : ss = 5 \/ ss = 15 \/ ss = 30).
  { subst ss. unfold Spec.seasonScore.
    destruct (existsb _ _); [auto|].
    destruct (SuggestionService.parsedOrEmpty (r_seasons recipe)); auto. }
  assert (Hw : (SuggestionService.parsedOrEmpty (r_weatherTags recipe) = []
                /\ ws = 10) \/
               (SuggestionService.parsedOrEmpty (r_weatherTags recipe) <> []
                /\ (ws = 0 \/ ws = 15 \/ ws = 30))).
  { subst ws. unfold Spec.weatherScore.
    destruct (SuggestionService.parsedOrEmpty (r_weatherTags recipe))
      as [|t0 l]; [left; auto|].
    right. split; [discriminate|].
    set (n := length (Spec.intersecting (t0 :: l) weatherTags)).
    destruct n as [|[|n]]; [left | right; left | right; right];
      try reflexivity.
    apply Z.min_l. lia. }
  assert (Hr : rs = 0 \/ rs = 15 \/ rs = 30 \/ rs = 40).
  { subst rs. unfold Spec.recencyScore.
    destruct (_ <? 3); [auto|]. destruct (_ <=? 6); [auto|].
    destruct (_ <=? 13); auto. }
  assert (Hs0 : SuggestionService.parsedOrEmpty (r_seasons recipe) = [] ->
                ss = 15).
  { intros H. subst ss. rewrite H. reflexivity. }
  clearbody ss ws rs.
  repeat split.
  - simpl. intuition.
  - simpl. intuition.
  - intros Hne. simpl. intuition.
  - simpl. intuition.
  - intuition lia.
  - intuition lia.
  - specialize (Hs0 H). destruct Hw as [[_ ->]|[Hne _]]; [|contradiction].
    intuition lia.
  - specialize (Hs0 H). destruct Hw as [[_ ->]|[Hne _]]; [|contradiction].
    intuition lia.
Qed.

(** ** Generating a suggestion *)

Lemma mapM_scoreRecipe (w : World) (weather : WeatherSnapshot)
    (season : Season) (tags : list WeatherTag) (l : list Recipe) (db : Db) :
  mapM (fun r => SuggestionService.scoreRecipe w r weather season tags) l db =
  (inr (map (Spec.scoreOf w season tags db) l), db).
Proof.
  induction l as [|r l IH]; simpl; [reflexivity|].
  unfold bind at 1. rewrite scoreRecipe_scoreOf.
  unfold bind at 1. rewrite IH. reflexivity.
Qed.

Lemma pool_nothing_excluded (db : Db) : Spec.pool [] db = recipes db.
Proof.
  unfold Spec.pool. induction (recipes db) as [|r l IH]; [reflexivity|].
  change (filter (fun r0 => negb (Js.includesZ [] (r_id r0))) (r :: l))
    with (r :: filter (fun r0 => negb (Js.includesZ [] (r_id r0))) l).
  rewrite IH. reflexivity.
Qed.

Lemma firstn_min_length {A : Type} (n : nat) (l : list A) :
  firstn (Nat.min n (length l)) l = firstn n l.
Proof.
  destruct (Nat.le_ge_cases n (length l)) as [H|H].
  - rewrite Nat.min_l by exact H. reflexivity.
  - rewrite Nat.min_r by exact H.
    rewrite firstn_all, firstn_all2 by exact H. reflexivity.
Qed.

Lemma In_firstn {A : Type} (n : nat) (l : list A) (x : A) :
  In x (firstn n l) -> In x l.
Proof.
  revert l. induction n as [|n IH]; intros [|y l]; simpl; try tauto.
  intros [H|H]; [left; exact H | right; apply IH, H].
Qed.

(** [Math.floor(Math.random() * n)] is an index into [n] elements. *)
Lemma randomIndex_range (u : Q) (n : nat) :
  (0 <= u)%Q -> (u < 1)%Q -> (0 < n)%nat ->
  0 <= SuggestionService.randomIndex u n < Z.of_nat n.
Proof.
  intros H0 H1 Hn. unfold SuggestionService.randomIndex.
  set (q := inject_Z (Z.of_nat n)).
  assert (Hq : (0 < q)%Q).
  { subst q. rewrite <- (Zlt_Qlt 0). lia. }
  split.
  - change 0 with (Qfloor 0). apply Qfloor_resp_le.
    apply Qmult_le_0_compat; [exact H0 | apply Qlt_le_weak, Hq].
  - rewrite Zlt_Qlt. fold q.
    eapply Qle_lt_trans; [apply Qfloor_le|].
    setoid_replace q with (1 * q)%Q at 2 by ring.
    apply Qmult_lt_compat_r; assumption.
Qed.

Lemma nthZ_In {A : Type} (l : list A) (i : Z) :
  0 <= i < Z.of_nat (length l) ->
  exists x, SuggestionService.nthZ l i = Some x /\ In x l.
Proof.
  intros [H0 H1]. unfold SuggestionService.nthZ.
  destruct (Z.ltb_spec i 0); [lia|].
  destruct (nth_error l (Z.to_nat i)) as [x|] eqn:E.
  - exists x. split; [reflexivity|]. eapply nth_error_In, E.
  - apply nth_error_None in E. lia.
Qed.

Lemma find_by_id (l : list Recipe) (rid : Z) :
  (exists r, In r l /\ r_id r = rid) ->
  exists r', find (fun r => r_id r =? rid) l = Some r' /\
             In r' l /\ r_id r' = rid.
Proof.
  intros [r [Hin Hid]].
  destruct (find (fun r0 => r_id r0 =? rid) l) as [r'|] eqn:E.
  - exists r'. apply find_some in E. destruct E as [E1 E2].
    apply Z.eqb_eq in E2. auto.
  - exfalso. eapply find_none in E; [|exact Hin].
    apply Z.eqb_neq in E. contradiction.
Qed.

(** One call with a pool that is not empty: no nested call. *)
Lemma generateSuggestion_direct (depth : nat) (w : World)
    (excludeIds : list Z) (db : Db) :
  Spec.pool excludeIds db <> [] ->
  SuggestionService.generateSuggestion (S depth) w excludeIds db =
  SuggestionService.generateSuggestion 1 w excludeIds db.
Proof.
  intros Hne. simpl. unfold bind at 1 3, query.
  fold (Spec.pool excludeIds db).
  destruct (Spec.pool excludeIds db) as [|r l]; [contradiction|].
  reflexivity.
Qed.


(** With a pool that is not empty the call scores the pool, ranks the
    scores and takes one of the first three. *)
Lemma generateSuggestion_pick (w : World) (excludeIds : list Z) (db : Db) :
  (0 <= random w 0%nat)%Q -> (random w 0%nat < 1)%Q ->
  Spec.pool excludeIds db <> [] ->
  exists g ranked,
    SuggestionService.generateSuggestion 1 w excludeIds db =
      (inr (Some g), db) /\
    Permutation ranked
      (map (Spec.scoreOf w (Weather.getCurrentSeason (month w))
              (Weather.getWeatherTags (currentWeather w)) db)
           (Spec.pool excludeIds db)) /\
    StronglySorted
      (fun a b => SuggestionService.totalScore b
                  <= SuggestionService.totalScore a) ranked /\
    In (SuggestionService.g_score g) (firstn 3 ranked) /\
    In (SuggestionService.g_recipe g) (Spec.pool excludeIds db) /\
    r_id (SuggestionService.g_recipe g) =
      SuggestionService.recipeId (SuggestionService.g_score g) /\
    SuggestionService.g_weather g = currentWeather w.
Proof.
  intros H0 H1 Hne.
  cbn [SuggestionService.generateSuggestion]. unfold bind at 1. unfold query.
  fold (Spec.pool excludeIds db).
  set (avail := Spec.pool excludeIds db) in *.
  destruct (length avail =? 0)%nat eqn:El.
  { apply Nat.eqb_eq, length_zero_iff_nil in El. contradiction. }
  unfold bind at 1. rewrite mapM_scoreRecipe.
  set (scores := map _ avail).
  set (before := fun a b : SuggestionService.SuggestionScore =>
         SuggestionService.totalScore b - SuggestionService.totalScore a <=? 0).
  set (sorted := Js.sort before scores).
  unfold Js.slice0. rewrite firstn_min_length.
  assert (Hlen : (0 < length (firstn 3 sorted))%nat).
  { rewrite length_firstn. subst sorted. rewrite sort_length.
    subst scores. rewrite length_map.
    destruct avail; [contradiction | simpl; lia]. }
  destruct (nthZ_In (firstn 3 sorted)
              (SuggestionService.randomIndex (random w 0%nat)
                 (length (firstn 3 sorted))))
    as [selected [Esel Hsel]].
  { apply randomIndex_range; assumption. }
  rewrite Esel.
  assert (Hin : In selected scores).
  { apply (sort_In before). apply (In_firstn 3). exact Hsel. }
  destruct (find_by_id avail (SuggestionService.recipeId selected))
    as [recipe [Efind [Hrin Hrid]]].
  { subst scores. apply in_map_iff in Hin. destruct Hin as [r [<- Hr]].
    exists r. split; [exact Hr | reflexivity]. }
  rewrite Efind.
  exists (SuggestionService.mkGenerated recipe selected (currentWeather w)),
         sorted.
  split; [reflexivity|].
  split; [apply sort_perm|].
  split.
  { eapply StronglySorted_weaken; [|apply (sort_sorted before)].
    - subst before. intros a b H. apply Z.leb_le in H. lia.
    - subst before. intros a b. rewrite !Z.leb_le. lia.
    - subst before. intros a b c. rewrite !Z.leb_le. lia. }
  simpl. auto.
Qed.

(** One call with an empty pool: the failure, or the nested call. *)
Lemma generateSuggestion_empty_pool (depth : nat) (w : World)
    (excludeIds : list Z) (db : Db) :
  Spec.pool excludeIds db = [] ->
  SuggestionService.generateSuggestion (S depth) w excludeIds db =
  if (length (recipes db) =? 0)%nat
  then (inl NoRecipesInDatabase, db)
  else SuggestionService.generateSuggestion depth w [] db.
Proof.
  intros Ep.
  destruct depth as [|depth];
    cbn [SuggestionService.generateSuggestion];
    unfold bind at 1; unfold query; fold (Spec.pool excludeIds db);
    rewrite Ep; change (length (@nil Recipe) =? 0)%nat with true; cbv iota;
    destruct (length (recipes db) =? 0)%nat; reflexivity.
Qed.



Example generateSuggestion_empty_catalog :
  SuggestionService.generateSuggestion 2 Fixtures.july [] Fixtures.emptyDb =
  (inl NoRecipesInDatabase, Fixtures.emptyDb).
Proof. reflexivity. Qed.

(** ** Today's suggestion *)

Lemma includesZ_In (l : list Z) (x : Z) :
  Js.includesZ l x = true <-> In x l.
Proof.
  unfold Js.includesZ. rewrite existsb_exists. split.
  - intros [y [Hy E]]. apply Z.eqb_eq in E. subst. exact Hy.
  - intros H. exists x. split; [exact H | apply Z.eqb_refl].
Qed.

Lemma pool_excludes (excludeIds : list Z) (db : Db) (r : Recipe) :
  In r (Spec.pool excludeIds db) ->
  In r (recipes db) /\ ~ In (r_id r) excludeIds.
Proof.
  unfold Spec.pool. rewrite filter_In. intros [Hin Hex].
  split; [exact Hin|]. rewrite <- includesZ_In.
  destruct (Js.includesZ excludeIds (r_id r)); [discriminate|].
  discriminate.
Qed.

(** With a catalog that is not empty the handlers' call returns a
    recipe of the catalog, from the pool when that is not empty. *)
Lemma generateSuggestion_some (w : World) (excludeIds : list Z) (db : Db) :
  (0 <= random w 0%nat)%Q -> (random w 0%nat < 1)%Q ->
  recipes db <> [] ->
  exists g,
    SuggestionService.generateSuggestion SuggestionService.callDepth w
      excludeIds db = (inr (Some g), db) /\
    In (SuggestionService.g_recipe g) (recipes db) /\
    (Spec.pool excludeIds db <> [] ->
     In (SuggestionService.g_recipe g) (Spec.pool excludeIds db)).
Proof.
  intros H0 H1 Hne. unfold SuggestionService.callDepth.
  destruct (Spec.pool excludeIds db) as [|p0 ps] eqn:Ep.
  - rewrite generateSuggestion_empty_pool by exact Ep.
    destruct (recipes db) as [|r0 rs] eqn:Er; [contradiction|].
    change (length (r0 :: rs) =? 0)%nat with false. cbv iota.
    destruct (generateSuggestion_pick w [] db H0 H1)
      as [g [ranked [Eg [_ [_ [_ [Hin _]]]]]]].
    { rewrite pool_nothing_excluded, Er. discriminate. }
    exists g. split; [exact Eg|]. split.
    + rewrite pool_nothing_excluded, Er in Hin. exact Hin.
    + intros F. contradiction.
  - assert (Hp : Spec.pool excludeIds db <> [])
      by (rewrite Ep; discriminate).
    destruct (generateSuggestion_pick w excludeIds db H0 H1 Hp)
      as [g [ranked [Eg [_ [_ [_ [Hin _]]]]]]].
    exists g. split.
    + rewrite generateSuggestion_direct by exact Hp. exact Eg.
    + split.
      * apply (pool_excludes excludeIds db), Hin.
      * intros _. rewrite <- Ep. exact Hin.
Qed.

(** What [generateAndStore] does: with an empty catalog it fails and
    writes nothing; otherwise it appends one pending row for the recipe
    [generateSuggestion] returns for the ids suggested today, which is
    none of them unless they exhaust the catalog. *)
Lemma generateAndStore_spec (w : World) (today : Date) (db : Db) :
  (0 <= random w 0%nat)%Q -> (random w 0%nat < 1)%Q ->
  (recipes db = [] ->
   SuggestionService.generateAndStore w today db =
     (inl NoRecipesInDatabase, db)) /\
  (recipes db <> [] ->
   exists g,
     SuggestionService.generateSuggestion SuggestionService.callDepth w
       (Spec.suggestedIds today db) db = (inr (Some g), db) /\
     SuggestionService.generateAndStore w today db =
       (inr (Some (Spec.pendingRow w today db g,
                   SuggestionService.g_recipe g)),
        Spec.withRow db (Spec.pendingRow w today db g)) /\
     In (SuggestionService.g_recipe g) (recipes db) /\
     (Spec.pool (Spec.suggestedIds today db) db <> [] ->
      ~ In (r_id (SuggestionService.g_recipe g))
           (Spec.suggestedIds today db))).
Proof.
  intros H0 H1.
  pose proof (generateSuggestion_some w (Spec.suggestedIds today db) db H0 H1)
    as Hgen.
  split.
  - intros Er. unfold SuggestionService.generateAndStore.
    unfold bind at 1. unfold query at 1.
    fold (Spec.suggestedIds today db).
    unfold bind at 1.
    unfold SuggestionService.callDepth. change 2%nat with (S 1).
    rewrite generateSuggestion_empty_pool.
    + rewrite Er. reflexivity.
    + unfold Spec.pool. rewrite Er. reflexivity.
  - intros Hne. destruct (Hgen Hne) as [g [Eg [Hin Hp]]].
    exists g. split; [exact Eg|]. split; [|split; [exact Hin|]].
    + unfold SuggestionService.generateAndStore.
      unfold bind at 1. unfold query at 1.
      fold (Spec.suggestedIds today db).
      unfold bind at 1. rewrite Eg. destruct g as [recipe score weather].
      reflexivity.
    + intros Hpool. apply (pool_excludes _ db), Hp, Hpool.
Qed.

(** How [getTodaySuggestion] branches on the most recent row. *)
Lemma getTodaySuggestion_cases (w : World) (db : Db) :
  SuggestionService.getTodaySuggestion w db =
  match Spec.latestRow (todayOf w) db with
  | Some s =>
      match s_status s with
      | accepted | pending =>
          (inr (Some (s, SuggestionService.findRecipe (s_recipeId s) db)), db)
      | rejected | cleared =>
          bind (SuggestionService.generateAndStore w (todayOf w))
               (fun r => ret (option_map (fun '(s', rc) => (s', Some rc)) r))
               db
      end
  | None =>
      bind (SuggestionService.generateAndStore w (todayOf w))
           (fun r => ret (option_map (fun '(s', rc) => (s', Some rc)) r))
           db
  end.
Proof.
  unfold SuggestionService.getTodaySuggestion, Spec.latestRow.
  unfold bind at 1. unfold query at 1. unfold Js.slice0.
  destruct (orderByDesc s_createdAt
              (SuggestionService.todaysRows (todayOf w) db)) as [|s rest];
    [reflexivity|].
  change (firstn 1 (s :: rest)) with [s]. simpl hd_error. cbv beta iota.
  destruct (s_status s); reflexivity.
Qed.

(** C2, the claim as stated fails in its last part: when every recipe
    of the catalog has been suggested today, the suggestion generated
    after a rejection is again one of the recipes already suggested
    today.  Here the only recipe, rejected an hour ago, is stored as the
    new pending suggestion. *)
Lemma getTodaySuggestion_repeats_counterexample :
  Spec.latestRow (todayOf Fixtures.july) Fixtures.stamppotRejected =
    Some (mkSuggestion 1 1 Fixtures.today rejected (Breakdown 5 0 40)
            Fixtures.clearSky (Fixtures.noon - 3600)) /\
  SuggestionService.getTodaySuggestion Fixtures.july
    Fixtures.stamppotRejected =
    (inr (Some (mkSuggestion 2 1 Fixtures.today pending (Breakdown 5 0 40)
                  Fixtures.clearSky Fixtures.noon,
                Some Fixtures.stamppot)),
     mkDb [Fixtures.stamppot] []
          [mkSuggestion 1 1 Fixtures.today rejected (Breakdown 5 0 40)
             Fixtures.clearSky (Fixtures.noon - 3600);
           mkSuggestion 2 1 Fixtures.today pending (Breakdown 5 0 40)
             Fixtures.clearSky Fixtures.noon]
          [] 1 3) /\
  In 1 (Spec.suggestedIds (todayOf Fixtures.july) Fixtures.stamppotRejected).
Proof.
  split; [reflexivity|]. split; [reflexivity|]. left. reflexivity.
Qed.

(** C2, amended.  While the most recently created row of today has
    status pending or accepted, [getTodaySuggestion] returns that row
    with its recipe and writes nothing, so a second call on the same
    day returns the same row (the same suggestion id).  Only when there
    is no such row (no row for today, or the most recent one rejected
    or cleared) does it generate: with an empty catalog it fails and
    stores nothing; otherwise it stores one new pending row for today,
    for a recipe that is none of the recipes already suggested today
    unless these exhaust the catalog, in which case the recipe comes
    from the whole catalog. *)
Theorem getTodaySuggestion_contract :
  forall (w w' : World) (db : Db),
    (0 <= random w 0%nat)%Q -> (random w 0%nat < 1)%Q ->
    todayOf w' = todayOf w ->
    let today := todayOf w in
    (forall s,
       Spec.latestRow today db = Some s ->
       s_status s = pending \/ s_status s = accepted ->
       SuggestionService.getTodaySuggestion w db =
         (inr (Some (s, SuggestionService.findRecipe (s_recipeId s) db)), db)
       /\
       SuggestionService.getTodaySuggestion w'
         (snd (SuggestionService.getTodaySuggestion w db)) =
       SuggestionService.getTodaySuggestion w db)
    /\
    ((forall s, Spec.latestRow today db = Some s ->
                s_status s = rejected \/ s_status s = cleared) ->
     (recipes db = [] ->
      SuggestionService.getTodaySuggestion w db =
        (inl NoRecipesInDatabase, db)) /\
     (recipes db <> [] ->
      exists g,
        SuggestionService.generateSuggestion SuggestionService.callDepth w
          (Spec.suggestedIds today db) db = (inr (Some g), db) /\
        SuggestionService.getTodaySuggestion w db =
          (inr (Some (Spec.pendingRow w today db g,
                      Some (SuggestionService.g_recipe g))),
           Spec.withRow db (Spec.pendingRow w today db g)) /\
        In (SuggestionService.g_recipe g) (recipes db) /\
        (Spec.pool (Spec.suggestedIds today db) db <> [] ->
         ~ In (r_id (SuggestionService.g_recipe g))
              (Spec.suggestedIds today db)))).
Proof.
  intros w w' db H0 H1 Hday today. split.
  - intros s Hs Hst.
    assert (E : forall v, todayOf v = today ->
              SuggestionService.getTodaySuggestion v db =
              (inr (Some (s, SuggestionService.findRecipe (s_recipeId s) db)),
               db)).
    { intros v Hv. rewrite getTodaySuggestion_cases, Hv, Hs.
      destruct Hst as [-> | ->]; reflexivity. }
    rewrite (E w eq_refl). split; [reflexivity|]. simpl snd.
    apply E, Hday.
  - intros Hst.
    assert (E : SuggestionService.getTodaySuggestion w db =
              bind (SuggestionService.generateAndStore w today)
                (fun r => ret (option_map (fun '(s', rc) => (s', Some rc)) r))
                db).
    { rewrite getTodaySuggestion_cases. fold today.
      destruct (Spec.latestRow today db) as [s|]; [|reflexivity].
      destruct (Hst s eq_refl) as [-> | ->]; reflexivity. }
    destruct (generateAndStore_spec w today db H0 H1) as [Hempty Hsome].
    split.
    + intros Er. rewrite E. unfold bind. rewrite (Hempty Er). reflexivity.
    + intros Hne. destruct (Hsome Hne) as [g [Eg [Est [Hin Hex]]]].
      exists g. split; [exact Eg|]. split; [|split; assumption].
      rewrite E. unfold bind. rewrite Est. reflexivity.
Qed.

Lemma getTodaySuggestion_contract_witness :
  SuggestionService.getTodaySuggestion Fixtures.july Fixtures.stamppotOnly =
  (inr (Some (mkSuggestion 1 1 Fixtures.today pending (Breakdown 5 0 40)
                Fixtures.clearSky Fixtures.noon,
              Some Fixtures.stamppot)),
   mkDb [Fixtures.stamppot] []
        [mkSuggestion 1 1 Fixtures.today pending (Breakdown 5 0 40)
           Fixtures.clearSky Fixtures.noon]
        [] 1 2).
Proof.
  destruct (getTodaySuggestion_contract Fixtures.july Fixtures.july
              Fixtures.stamppotOnly) as [_ H].
  - unfold Qle. simpl. lia.
  - reflexivity.
  - reflexivity.
  - reflexivity.
Defined.

(** ** Rejecting an accepted suggestion *)

Lemma rejectSuggestion_accepted_run (w : World) (sid : Z) (s : Suggestion)
    (db : Db) :
  SuggestionService.findSuggestion sid db = Some s ->
  s_status s = accepted ->
  SuggestionService.rejectSuggestion w sid db =
  SuggestionService.generateAndStore w (todayOf w)
    (Spec.afterRejection w sid s db).
Proof.
  intros Hfind Hst. unfold SuggestionService.rejectSuggestion.
  unfold bind at 1. unfold query at 1. rewrite Hfind.
  unfold bind at 1. rewrite Hst. cbn [Status_eqb].
  unfold SuggestionService.deleteMealsWhere, update.
  unfold bind at 1.
  unfold SuggestionService.updateStatusWhere,
    SuggestionService.setSuggestions, update.
  reflexivity.
Qed.

Lemma eatenToday_spec (w : World) (rid : Z) (e : MealHistoryEntry) :
  SuggestionService.eatenToday w rid e = true <->
  mh_recipeId e = rid /\ Spec.inToday w e.
Proof.
  unfold SuggestionService.eatenToday, Spec.inToday.
  rewrite !andb_true_iff, Z.eqb_eq, Z.geb_le, Z.ltb_lt. tauto.
Qed.

(** Marking rows does not change which recipes were suggested on a day. *)
Lemma suggestedIds_afterRejection (w : World) (sid : Z) (s : Suggestion)
    (today : Date) (db : Db) :
  Spec.suggestedIds today (Spec.afterRejection w sid s db) =
  Spec.suggestedIds today db.
Proof.
  unfold Spec.suggestedIds, SuggestionService.todaysRows,
    Spec.afterRejection. cbn [suggestions].
  induction (suggestions db) as [|x l IH]; [reflexivity|].
  cbn [map filter].
  assert (E : s_suggestedFor
                (if s_id x =? sid
                 then SuggestionService.withStatus rejected x else x)
              = s_suggestedFor x)
    by (destruct (s_id x =? sid); reflexivity).
  rewrite E. destruct (s_suggestedFor x =? today); cbn [map].
  - rewrite IH. f_equal. destruct (s_id x =? sid); reflexivity.
  - exact IH.
Qed.

Lemma find_rejected (sid : Z) (s : Suggestion) (l extra : list Suggestion) :
  find (fun x => s_id x =? sid) l = Some s ->
  find (fun x => s_id x =? sid)
       (map (fun x => if s_id x =? sid
                      then SuggestionService.withStatus rejected x else x) l
        ++ extra)
  = Some (SuggestionService.withStatus rejected s).
Proof.
  induction l as [|x l IH]; [discriminate|].
  cbn [find map app]. destruct (s_id x =? sid) eqn:E.
  - intros [= ->]. cbn [SuggestionService.withStatus s_id]. rewrite E.
    reflexivity.
  - rewrite E. exact IH.
Qed.

(** C4, the claim as stated fails: the delete is by recipe and calendar
    day, not by the entry the accept created.  The user logged stamppot
    for lunch, then accepted the stamppot suggestion (which adds a
    second entry), then rejected it: both entries are gone, the logged
    lunch included. *)
Lemma rejectSuggestion_deletes_logged_meal_counterexample :
  mealHistory Fixtures.lunchLogged = [Fixtures.loggedLunch] /\
  mealHistory (snd (SuggestionService.acceptSuggestion Fixtures.july 1
                      Fixtures.lunchLogged)) =
    [Fixtures.loggedLunch; mkMeal 2 1 Fixtures.noon] /\
  mealHistory
    (snd (SuggestionService.rejectSuggestion Fixtures.july 1
            (snd (SuggestionService.acceptSuggestion Fixtures.july 1
                    Fixtures.lunchLogged)))) = [] /\
  ~ In Fixtures.loggedLunch
      (mealHistory
         (snd (SuggestionService.rejectSuggestion Fixtures.july 1
                 (snd (SuggestionService.acceptSuggestion Fixtures.july 1
                         Fixtures.lunchLogged))))).
Proof.
  split; [reflexivity|]. split; [reflexivity|].
  assert (E : mealHistory
    (snd (SuggestionService.rejectSuggestion Fixtures.july 1
            (snd (SuggestionService.acceptSuggestion Fixtures.july 1
                    Fixtures.lunchLogged)))) = []) by reflexivity.
  split; [exact E|]. rewrite E. intros [].
Qed.

(** C4, amended.  [rejectSuggestion] on a suggestion with status
    accepted deletes every meal-history entry for that recipe whose
    [eatenAt] lies in today's calendar day, and no others: entries for
    the same recipe on other days and entries for other recipes survive
    unchanged.  Afterwards the suggestion's status is rejected.  With a
    catalog that is not empty a fresh pending suggestion for today is
    stored and returned, for a recipe that is none of today's suggested
    recipes unless these exhaust the catalog; with an empty catalog the
    call fails after the delete and the status update. *)
Theorem rejectSuggestion_accepted_contract :
  forall (w : World) (suggestionId : Z) (s : Suggestion) (db : Db),
    (0 <= random w 0%nat)%Q -> (random w 0%nat < 1)%Q ->
    SuggestionService.findSuggestion suggestionId db = Some s ->
    s_status s = accepted ->
    let run := SuggestionService.rejectSuggestion w suggestionId db in
    let today := todayOf w in
    (forall e, In e (mealHistory (snd run)) <->
               In e (mealHistory db) /\
               ~ (mh_recipeId e = s_recipeId s /\ Spec.inToday w e)) /\
    SuggestionService.findSuggestion suggestionId (snd run) =
      Some (SuggestionService.withStatus rejected s) /\
    (recipes db = [] ->
     run = (inl NoRecipesInDatabase,
            Spec.afterRejection w suggestionId s db)) /\
    (recipes db <> [] ->
     exists recipe row,
       fst run = inr (Some (row, recipe)) /\
       suggestions (snd run) =
         suggestions (Spec.afterRejection w suggestionId s db) ++ [row] /\
       s_status row = pending /\
       s_suggestedFor row = today /\
       s_recipeId row = r_id recipe /\
       In recipe (recipes db) /\
       (Spec.pool (Spec.suggestedIds today db) db <> [] ->
        ~ In (r_id recipe) (Spec.suggestedIds today db))).
Proof.
  intros w sid s db H0 H1 Hfind Hst run today.
  assert (Erun : run = SuggestionService.generateAndStore w today
                         (Spec.afterRejection w sid s db))
    by (apply rejectSuggestion_accepted_run; assumption).
  set (db1 := Spec.afterRejection w sid s db) in *.
  assert (Hmeals : forall e, In e (mealHistory db1) <->
             In e (mealHistory db) /\
             ~ (mh_recipeId e = s_recipeId s /\ Spec.inToday w e)).
  { intros e. subst db1. cbn [Spec.afterRejection mealHistory].
    rewrite filter_In, <- eatenToday_spec, negb_true_iff.
    destruct (SuggestionService.eatenToday w (s_recipeId s) e);
      intuition congruence. }
  destruct (generateAndStore_spec w today db1 H0 H1) as [Hempty Hsome].
  change (recipes db1) with (recipes db) in Hempty, Hsome.
  destruct (recipes db) as [|r0 rs] eqn:Er.
  - (* empty catalog *)
    rewrite Erun, (Hempty eq_refl). cbn [fst snd].
    split; [exact Hmeals|]. split.
    + unfold SuggestionService.findSuggestion. subst db1.
      cbn [Spec.afterRejection suggestions].
      rewrite <- (app_nil_r (map _ (suggestions db))).
      apply find_rejected, Hfind.
    + split; [reflexivity|]. intros F. contradiction.
  - destruct Hsome as [g [_ [Est [Hin Hex]]]]; [discriminate|].
    rewrite Erun, Est. cbn [fst snd].
    split; [exact Hmeals|]. split.
    + unfold SuggestionService.findSuggestion, Spec.withRow.
      cbn [suggestions]. subst db1.
      cbn [Spec.afterRejection suggestions].
      apply find_rejected, Hfind.
    + split; [discriminate|]. intros _.
      exists (SuggestionService.g_recipe g), (Spec.pendingRow w today db1 g).
      repeat split; try reflexivity.
      * exact Hin.
      * intros Hpool.
        assert (Eids : Spec.suggestedIds today db1 = Spec.suggestedIds today db)
          by apply suggestedIds_afterRejection.
        rewrite Eids in Hex. apply Hex. exact Hpool.
Qed.

Lemma rejectSuggestion_accepted_contract_witness :
  SuggestionService.findSuggestion 1
    (snd (SuggestionService.rejectSuggestion Fixtures.july 1
            (snd (SuggestionService.acceptSuggestion Fixtures.july 1
                    Fixtures.lunchLogged)))) =
  Some (mkSuggestion 1 1 Fixtures.today rejected (Breakdown 5 0 40)
          Fixtures.clearSky (Fixtures.noon - 3600)).
Proof.
  destruct (rejectSuggestion_accepted_contract Fixtures.july 1
              (mkSuggestion 1 1 Fixtures.today accepted (Breakdown 5 0 40)
                 Fixtures.clearSky (Fixtures.noon - 3600))
              (snd (SuggestionService.acceptSuggestion Fixtures.july 1
                      Fixtures.lunchLogged)))
    as [_ [H _]].
  - unfold Qle. simpl. lia.
  - reflexivity.
  - reflexivity.
  - reflexivity.
  - exact H.
Defined.

(** ** Which row stands for today *)

(** C3, evaluated where the code departs from the claim.  The week-plan
    resolver takes the most recently created row of today
    ([orderBy(desc(createdAt))]); the shopping list takes the oldest
    ([orderBy(createdAt)]).  With stamppot rejected and the salad
    pending, the week plan shows the salad for today while the shopping
    list is the one for stamppot. *)
Theorem todaySuggestion_weekplan_latest_shopping_oldest :
  (forall today db s,
     WeekPlanApi.todaySuggestion today db = [s] ->
     In s (SuggestionService.todaysRows today db) /\
     forall x, In x (SuggestionService.todaysRows today db) ->
               s_createdAt x <= s_createdAt s) /\
  (forall today db s,
     ShoppingApi.todaySuggestion today db = [s] ->
     In s (SuggestionService.todaysRows today db) /\
     forall x, In x (SuggestionService.todaysRows today db) ->
               s_createdAt s <= s_createdAt x) /\
  WeekPlanApi.todaySuggestion Fixtures.today Fixtures.saladeAfterStamppot =
    [Fixtures.pendingSalade] /\
  ShoppingApi.todaySuggestion Fixtures.today Fixtures.saladeAfterStamppot =
    [Fixtures.rejectedStamppot] /\
  option_map (map Spec.recipeIdOf)
    (match fst (WeekPlanApi.getWeekPlan Fixtures.july
                  Fixtures.saladeAfterStamppot) with
     | inr days => Some days
     | inl _ => None
     end) = Some [Some 2] /\
  option_map (fun l => map ShoppingApi.pr_id (ShoppingApi.recipesInPlan l))
    (match fst (ShoppingApi.getShoppingList Fixtures.july
                  Fixtures.saladeAfterStamppot) with
     | inr l => Some l
     | inl _ => None
     end) = Some [1].
Proof.
  split; [|split; [|repeat split; reflexivity]].
  - intros today db s H. apply orderByDesc_head.
    unfold WeekPlanApi.todaySuggestion, Js.slice0 in H.
    destruct (orderByDesc s_createdAt
                (SuggestionService.todaysRows today db)) as [|y l];
      [discriminate|].
    injection H as ->. reflexivity.
  - intros today db s H. apply orderByAsc_head.
    unfold ShoppingApi.todaySuggestion, Js.slice0 in H.
    destruct (orderByAsc s_createdAt
                (SuggestionService.todaysRows today db)) as [|y l];
      [discriminate|].
    injection H as ->. reflexivity.
Qed.

(** ** The week plan *)

Lemma scoreAll_fst (season : Season) (day : ForecastDay) (rnd : nat -> Q)
    (next : nat) (l : list Recipe) :
  map fst (WeekPlanApi.scoreAll season day rnd next l) = l.
Proof.
  revert next. induction l as [|r l IH]; intros next; simpl;
    [reflexivity | rewrite IH; reflexivity].
Qed.

Lemma recipeIdOf_summary (date temp : Z) (icon descr : string)
    (st : option Status) (r : Recipe) (o : WeekPlanApi.Origin) (rid : Z) :
  Spec.recipeIdOf
    (WeekPlanApi.mkPlanDay date temp icon descr st
       (Some (WeekPlanApi.summary r)) o) = Some rid ->
  rid = r_id r.
Proof. intros [= <-]. reflexivity. Qed.

Lemma generateDay_step (w : World) (allRecipes : list Recipe)
    (season : Season) (today : Date) (day : ForecastDay)
    (st : WeekPlanApi.Loop) (db : Db) :
  Spec.resolvesOneDay allRecipes today day st
    (WeekPlanApi.generateDay w allRecipes season day st db).
Proof.
  unfold WeekPlanApi.generateDay.
  set (avail := filter _ allRecipes).
  set (scored := WeekPlanApi.scoreAll _ _ _ _ avail).
  set (before := fun a b : Recipe * Q => Qle_bool (snd b) (snd a)).
  destruct (Js.sort before scored) as [|[top q] rest] eqn:Es.
  - (* nothing is available *)
    eexists _, _, _. split; [reflexivity|].
    split; [reflexivity|]. split; [intros [=]|].
    split; [intros rid [=]|].
    split; [apply incl_refl|]. split; [lia|]. intros _.
    split; [intros rid [=]|].
    intros [r [Hr Hu]]. exfalso.
    apply sort_nil_inv in Es.
    assert (Ea : avail = []).
    { rewrite <- (scoreAll_fst season day (random w)
                    (WeekPlanApi.randomCalls st) avail).
      fold scored. rewrite Es. reflexivity. }
    assert (Hin : In r avail).
    { subst avail. apply filter_In. split; [exact Hr|].
      apply negb_true_iff. destruct (Js.includesZ _ _) eqn:E;
        [|reflexivity]. apply includesZ_In in E. contradiction. }
    rewrite Ea in Hin. destruct Hin.
  - assert (Htop : In top avail).
    { rewrite <- (scoreAll_fst season day (random w)
                    (WeekPlanApi.randomCalls st) avail).
      fold scored. apply in_map_iff. exists (top, q). split; [reflexivity|].
      apply (sort_In before). rewrite Es. left. reflexivity. }
    subst avail. apply filter_In in Htop. destruct Htop as [_ Hneg].
    apply negb_true_iff in Hneg.
    unfold bind, WeekPlanApi.insertPlanIgnore, update, ret. cbn [fst].
    eexists _, _, _. split; [reflexivity|].
    split; [reflexivity|]. split; [intros [=]|]. split.
    { intros rid H. apply recipeIdOf_summary in H. subst rid.
      apply in_or_app. right. left. reflexivity. }
    split; [apply incl_appl, incl_refl|]. split.
    { rewrite length_app. simpl. lia. }
    intros _. split.
    + intros rid H. apply recipeIdOf_summary in H. subst rid.
      rewrite <- includesZ_In, Hneg. discriminate.
    + intros _. discriminate.
Qed.

Lemma storedOrGenerate_step (w : World) (allRecipes : list Recipe)
    (season : Season) (today : Date) (day : ForecastDay)
    (st : WeekPlanApi.Loop) (db : Db) :
  Spec.resolvesOneDay allRecipes today day st
    (WeekPlanApi.storedOrGenerate w allRecipes season day st db).
Proof.
  unfold WeekPlanApi.storedOrGenerate. unfold bind at 1. unfold query.
  destruct (WeekPlanApi.findPlan (fd_date day) db) as [p|];
    [|apply generateDay_step].
  unfold selectedCleared.
  set (truthy := match wp_recipeId p with
                 | Some rid => if rid =? 0 then None else Some rid
                 | None => None
                 end).
  destruct truthy as [rid|].
  - eexists _, _, _. split; [reflexivity|].
    split; [reflexivity|]. split; [intros [=]|]. split.
    { intros rid' H. unfold Spec.recipeIdOf in H. cbn in H.
      destruct (find (fun r => r_id r =? rid) allRecipes) as [r|] eqn:E;
        [|discriminate].
      apply find_some in E. destruct E as [_ E]. apply Z.eqb_eq in E.
      cbn in H. injection H as <-. rewrite E.
      apply in_or_app. right. left. reflexivity. }
    split; [apply incl_appl, incl_refl|]. split.
    { rewrite length_app. simpl. lia. }
    intros [=].
  - eexists _, _, _. split; [reflexivity|].
    split; [reflexivity|]. split; [intros [=]|].
    split; [intros rid [=]|].
    split; [apply incl_refl|]. split; [cbn; lia|]. intros [=].
Qed.

Lemma resolveDay_step (w : World) (allRecipes : list Recipe)
    (season : Season) (today : Date) (sugg : list Suggestion)
    (day : ForecastDay) (st : WeekPlanApi.Loop) (db : Db) :
  Spec.resolvesOneDay allRecipes today day st
    (WeekPlanApi.resolveDay w allRecipes season today sugg day st db).
Proof.
  unfold WeekPlanApi.resolveDay.
  destruct (fd_date day =? today) eqn:Eday;
    [|apply storedOrGenerate_step].
  apply Z.eqb_eq in Eday.
  destruct sugg as [|s rest]; [apply storedOrGenerate_step|].
  destruct (Status_eqb (s_status s) cleared).
  - eexists _, _, _. split; [reflexivity|].
    split; [reflexivity|]. split; [intros _; exact Eday|].
    split; [intros rid [=]|].
    split; [apply incl_refl|]. split; [cbn; lia|]. intros [=].
  - destruct (find (fun r => r_id r =? s_recipeId s) allRecipes) as [r|];
      [|apply storedOrGenerate_step].
    eexists _, _, _. split; [reflexivity|].
    split; [reflexivity|]. split; [intros _; exact Eday|]. split.
    { intros rid H. apply recipeIdOf_summary in H. subst rid.
      apply in_or_app. right. left. reflexivity. }
    split; [apply incl_appl, incl_refl|]. split.
    { rewrite length_app. simpl. lia. }
    intros [=].
Qed.

Lemma app_last_split {A : Type} (l pre post : list A) (d x : A) :
  l ++ [d] = pre ++ x :: post ->
  (post = [] /\ pre = l /\ x = d) \/
  (exists post', post = post' ++ [d] /\ l = pre ++ x :: post').
Proof.
  induction post as [|y post' _] using rev_ind; intros H.
  - left. apply app_inj_tail in H. destruct H as [-> ->]. auto.
  - right. exists post'.
    change (pre ++ x :: post' ++ [y]) with (pre ++ (x :: post') ++ [y]) in H.
    rewrite app_assoc in H. apply app_inj_tail in H.
    destruct H as [-> ->]. auto.
Qed.

(** A catalog with more distinct ids than there are used ids has a
    recipe that is not used. *)
Lemma unused_recipe (allRecipes : list Recipe) (used : list Z) :
  (length used < length (nodup Z.eq_dec (map r_id allRecipes)))%nat ->
  exists r, In r allRecipes /\ ~ In (r_id r) used.
Proof.
  intros Hlen. set (ids := nodup Z.eq_dec (map r_id allRecipes)) in *.
  destruct (existsb (fun x => negb (Js.includesZ used x)) ids) eqn:E.
  - apply existsb_exists in E. destruct E as [x [Hx Hn]].
    subst ids. apply nodup_In, in_map_iff in Hx.
    destruct Hx as [r [<- Hr]]. exists r. split; [exact Hr|].
    rewrite <- includesZ_In. apply negb_true_iff in Hn. rewrite Hn.
    discriminate.
  - exfalso.
    assert (Hincl : incl ids used).
    { intros x Hx. apply includesZ_In.
      destruct (Js.includesZ used x) eqn:Ex; [reflexivity|].
      assert (F : existsb (fun x => negb (Js.includesZ used x)) ids = true).
      { apply existsb_exists. exists x. split; [exact Hx|].
        rewrite Ex. reflexivity. }
      congruence. }
    apply NoDup_incl_length in Hincl; [lia|].
    subst ids. apply NoDup_nodup.
Qed.

Lemma planInvariant_step (allRecipes : list Recipe) (today : Date)
    (day : ForecastDay) (st : WeekPlanApi.Loop)
    (out : (Exn + WeekPlanApi.Loop) * Db) :
  Spec.planInvariant today st ->
  (length (WeekPlanApi.result st)
   < length (nodup Z.eq_dec (map r_id allRecipes)))%nat ->
  Spec.resolvesOneDay allRecipes today day st out ->
  exists st',
    fst out = inr st' /\
    Spec.planInvariant today st' /\
    map WeekPlanApi.pd_date (WeekPlanApi.result st') =
      map WeekPlanApi.pd_date (WeekPlanApi.result st) ++ [fd_date day].
Proof.
  intros [Iused [Itoday [Ilen Ifresh]]] Hroom
    [d [used' [calls' [Eout [Edate [Hsugg [Hd [Hincl [Hlen Hgen]]]]]]]]].
  eexists. split; [exact Eout|]. cbn [WeekPlanApi.result
    WeekPlanApi.usedRecipeIds]. split; [split; [|split; [|split]]|].
  - intros d0 rid Hin Hrid. apply in_app_or in Hin.
    destruct Hin as [Hin|[<-|[]]].
    + apply Hincl. eapply Iused; eassumption.
    + apply Hd, Hrid.
  - cbn [WeekPlanApi.result]. intros d0 Hin Ho. apply in_app_or in Hin.
    destruct Hin as [Hin|[<-|[]]].
    + apply Itoday; assumption.
    + rewrite Edate. apply Hsugg, Ho.
  - cbn [WeekPlanApi.result WeekPlanApi.usedRecipeIds].
    rewrite length_app. simpl. lia.
  - cbn [WeekPlanApi.result]. intros pre x post Hsplit Hx.
    apply app_last_split in Hsplit.
    destruct Hsplit as [[-> [-> ->]]|[post' [-> Hsplit]]].
    + destruct (Hgen Hx) as [Hnotused Hsome].
      destruct (Spec.recipeIdOf d) as [rid|] eqn:Erid.
      * exists rid. split; [reflexivity|]. intros d' Hd' Hrid'.
        apply (Hnotused rid eq_refl). eapply Iused; eassumption.
      * exfalso. apply Hsome; [|reflexivity].
        apply unused_recipe. lia.
    + eapply Ifresh; eassumption.
  - rewrite map_app. simpl. rewrite Edate. reflexivity.
Qed.

Lemma forDays_invariant (w : World) (allRecipes : list Recipe)
    (season : Season) (today : Date) (sugg : list Suggestion)
    (days : list ForecastDay) :
  forall (st : WeekPlanApi.Loop) (db : Db),
    Spec.planInvariant today st ->
    (length (WeekPlanApi.result st) + length days
     <= length (nodup Z.eq_dec (map r_id allRecipes)))%nat ->
    exists st',
      fst (WeekPlanApi.forDays
             (WeekPlanApi.resolveDay w allRecipes season today sugg)
             days st db) = inr st' /\
      Spec.planInvariant today st' /\
      map WeekPlanApi.pd_date (WeekPlanApi.result st') =
        map WeekPlanApi.pd_date (WeekPlanApi.result st) ++ map fd_date days.
Proof.
  induction days as [|day days IH]; intros st db Hinv Hroom.
  - exists st. split; [reflexivity|]. split; [exact Hinv|].
    simpl. rewrite app_nil_r. reflexivity.
  - cbn [WeekPlanApi.forDays]. unfold bind.
    pose proof (resolveDay_step w allRecipes season today sugg day st db)
      as Hstep.
    assert (Hlt : (length (WeekPlanApi.result st)
                   < length (nodup Z.eq_dec (map r_id allRecipes)))%nat)
      by (simpl in Hroom; lia).
    destruct (planInvariant_step allRecipes today day st _ Hinv Hlt Hstep)
      as [st1 [E1 [Hinv1 Hdates1]]].
    destruct (WeekPlanApi.resolveDay w allRecipes season today sugg day st db)
      as [[e|st1'] db1]; cbn [fst] in E1; [discriminate|].
    injection E1 as ->.
    destruct (IH st1 db1 Hinv1) as [st' [E' [Hinv' Hdates']]].
    { assert (L : length (map WeekPlanApi.pd_date (WeekPlanApi.result st1))
                  = S (length (WeekPlanApi.result st))).
      { rewrite Hdates1, length_app, length_map. simpl. lia. }
      rewrite length_map in L. simpl in Hroom. lia. }
    exists st'. split; [exact E'|]. split; [exact Hinv'|].
    rewrite Hdates', Hdates1, <- app_assoc. reflexivity.
Qed.

(** Only the first date of the window is today. *)
Lemma allDays_later_dates (w : World) (first : ForecastDay)
    (later : list ForecastDay) :
  WeekPlanApi.allDays w = first :: later ->
  fd_date first = todayOf w /\
  forall d, In d later -> fd_date d <> todayOf w.
Proof.
  unfold WeekPlanApi.allDays, Js.slice0.
  rewrite firstn_cons. intros H.
  assert (Hh := f_equal (@hd_error _) H).
  assert (Ht := f_equal (@tl _) H).
  cbn [hd_error tl] in Hh, Ht. injection Hh as <-. subst later.
  split; [reflexivity|]. intros d Hd. apply In_firstn in Hd.
  apply filter_In in Hd. destruct Hd as [_ Hd].
  apply negb_true_iff, Z.eqb_neq in Hd. exact Hd.
Qed.

(** C5, the claim as stated fails: stored and manually chosen days are
    emitted without a check against the other dates.  Seven recipes are
    in the catalog and pasta pesto is today's accepted suggestion; the
    user picks pasta pesto for tomorrow as well ([PUT /api/weekplan]),
    and the week plan then assigns recipe 1 to both dates. *)
Lemma weekPlan_repeats_recipe_counterexample :
  Spec.distinctRecipeIds Fixtures.pestoToday = 7%nat /\
  fst (WeekPlanApi.putWeekPlan Fixtures.week (Fixtures.today + 1) (Some 1)
         Fixtures.pestoToday) =
    inr (WeekPlanApi.Ok200 (Fixtures.today + 1)
           (WeekPlanApi.mkSummary 1 "Pasta pesto" "pasta")) /\
  option_map
    (map (fun d => (WeekPlanApi.pd_date d, Spec.recipeIdOf d)))
    (match fst (WeekPlanApi.getWeekPlan Fixtures.week
                  (snd (WeekPlanApi.putWeekPlan Fixtures.week
                          (Fixtures.today + 1) (Some 1)
                          Fixtures.pestoToday))) with
     | inr days => Some days
     | inl _ => None
     end) =
  Some [(19919, Some 1); (19920, Some 1); (19921, Some 2); (19922, Some 3);
        (19923, Some 4); (19924, Some 5); (19925, Some 6)].
Proof. repeat split; vm_compute; reflexivity. Qed.

(** C5, amended.  Whenever the catalog contains at least 7 distinct
    recipes, the week plan resolves every day of its window (today and
    up to 6 forecast days), every day that is freshly generated gets a
    recipe, and that recipe's id is assigned to no earlier date of the
    plan.  Days that come from today's Suggestion or from a stored
    WeekPlanEntry (a manual choice included) are emitted as stored: when
    two dates of the plan have the same recipe id, the later of them
    comes from a stored WeekPlanEntry. *)
Theorem weekPlan_generated_days_fresh :
  forall (w : World) (db : Db),
    (7 <= Spec.distinctRecipeIds db)%nat ->
    exists days,
      fst (WeekPlanApi.getWeekPlan w db) = inr days /\
      map WeekPlanApi.pd_date days = map fd_date (WeekPlanApi.allDays w) /\
      (length days <= 7)%nat /\
      Spec.generatedDaysFresh days /\
      (forall pre d post d' rid,
         days = pre ++ d :: post ->
         In d' pre ->
         Spec.recipeIdOf d' = Some rid ->
         Spec.recipeIdOf d = Some rid ->
         WeekPlanApi.pd_origin d = WeekPlanApi.FromStored).
Proof.
  intros w db H7. unfold WeekPlanApi.getWeekPlan.
  unfold bind at 1. unfold query at 1. unfold bind at 1. unfold query at 1.
  unfold bind at 1.
  assert (Hlen : (length (WeekPlanApi.allDays w) <= 7)%nat).
  { unfold WeekPlanApi.allDays, Js.slice0. apply firstn_le_length. }
  destruct (forDays_invariant w (recipes db)
              (Weather.getCurrentSeason (month w)) (todayOf w)
              (WeekPlanApi.todaySuggestion (todayOf w) db)
              (WeekPlanApi.allDays w) (WeekPlanApi.mkLoop [] [] 0%nat) db)
    as [st' [E [[_ [Htoday [_ Hfresh]]] Hdates]]].
  - split; [intros d rid []|]. split; [intros d []|].
    split; [simpl; lia|].
    intros pre d post Hsplit. destruct pre; discriminate.
  - unfold Spec.distinctRecipeIds in H7.
    change (length (WeekPlanApi.result (WeekPlanApi.mkLoop [] [] 0%nat)))
      with 0%nat. lia.
  - destruct (WeekPlanApi.forDays _ _ _ db) as [[e|st] db'];
      cbn [fst] in E; [discriminate|]. injection E as ->.
    cbn [WeekPlanApi.result map app] in Hdates.
    exists (WeekPlanApi.result st'). split; [reflexivity|].
    split; [exact Hdates|]. split; [|split; [exact Hfresh|]].
    + rewrite <- (length_map WeekPlanApi.pd_date (WeekPlanApi.result st')).
      rewrite Hdates, length_map. exact Hlen.
    + intros pre d post d' rid Hsplit Hd' Hrid' Hrid.
      destruct (WeekPlanApi.pd_origin d) eqn:Eo; [exfalso| reflexivity |exfalso].
      * (* today's suggestion is the first day only *)
        assert (Hdate : WeekPlanApi.pd_date d = todayOf w).
        { apply Htoday; [|exact Eo]. rewrite Hsplit.
          apply in_or_app. right. left. reflexivity. }
        destruct pre as [|p pre]; [destruct Hd'|].
        rewrite Hsplit in Hdates. cbn [app map] in Hdates.
        destruct (WeekPlanApi.allDays w) as [|first later] eqn:Ea;
          [discriminate|].
        destruct (allDays_later_dates w first later Ea) as [_ Hlater].
        cbn [map] in Hdates. injection Hdates as _ Hdates.
        assert (Hin : In (WeekPlanApi.pd_date d) (map fd_date later)).
        { rewrite <- Hdates, map_app. apply in_or_app. right. left.
          reflexivity. }
        apply in_map_iff in Hin. destruct Hin as [fd [Efd Hfd]].
        apply (Hlater fd Hfd). rewrite Efd. exact Hdate.
      * (* a generated day repeats no earlier day *)
        destruct (Hfresh pre d post Hsplit Eo) as [rid0 [E0 Hno]].
        rewrite Hrid in E0. injection E0 as <-.
        apply (Hno d' Hd'). exact Hrid'.
Qed.

Lemma weekPlan_generated_days_fresh_witness :
  exists days,
    fst (WeekPlanApi.getWeekPlan Fixtures.week Fixtures.pestoToday) =
      inr days /\
    Spec.generatedDaysFresh days.
Proof.
  destruct (weekPlan_generated_days_fresh Fixtures.week Fixtures.pestoToday)
    as [days [E [_ [_ [H _]]]]].
  - vm_compute. lia.
  - exists days. split; assumption.
Defined.

(** ** The shopping list *)

(** The handler only reads, and what it returns depends on the clock
    through the date alone. *)
Lemma getShoppingList_reads (w : World) (db : Db) :
  exists l, forall w', todayOf w' = todayOf w ->
    ShoppingApi.getShoppingList w' db = (inr l, db).
Proof.
  exists (match fst (ShoppingApi.getShoppingList w db) with
          | inr l => l
          | inl _ => ShoppingApi.mkShoppingList [] []
          end).
  intros w' Hw.
  unfold ShoppingApi.getShoppingList, bind, query, ret.
  rewrite Hw. cbv beta zeta.
  destruct (length _ =? 0)%nat; reflexivity.
Qed.

(** C10.  Computing the shopping list reads only: on every database it
    returns a list and leaves the database as it was, so a repeated
    call on the same day returns the same list.  The week-plan read is
    different: it stores the days it generates. *)
Theorem getShoppingList_readonly :
  forall (w w' : World) (db : Db),
    todayOf w' = todayOf w ->
    (exists l, ShoppingApi.getShoppingList w db = (inr l, db)) /\
    ShoppingApi.getShoppingList w'
      (snd (ShoppingApi.getShoppingList w db)) =
    ShoppingApi.getShoppingList w db /\
    weekPlan Fixtures.pestoToday = [] /\
    map wp_date
      (weekPlan (snd (WeekPlanApi.getWeekPlan Fixtures.week
                        Fixtures.pestoToday))) =
    [19920; 19921; 19922; 19923; 19924; 19925] /\
    snd (ShoppingApi.getShoppingList Fixtures.week Fixtures.pestoToday) =
    Fixtures.pestoToday.
Proof.
  intros w w' db Hday.
  destruct (getShoppingList_reads w db) as [l Hl].
  rewrite (Hl w eq_refl). cbn [snd]. rewrite (Hl w' Hday).
  split; [exists l; reflexivity|]. split; [reflexivity|].
  repeat split; vm_compute; reflexivity.
Qed.

Lemma getShoppingList_readonly_witness :
  snd (ShoppingApi.getShoppingList Fixtures.july
         Fixtures.saladeAfterStamppot) = Fixtures.saladeAfterStamppot.
Proof.
  destruct (getShoppingList_readonly Fixtures.july Fixtures.week
              Fixtures.saladeAfterStamppot) as [[l H] _].
  - reflexivity.
  - rewrite H. reflexivity.
Defined.

(** *** Keys in first-seen order *)

Lemma seenKey_In (k : string) (seen : list string) :
  Spec.seen k seen = true <-> In k seen.
Proof.
  unfold Spec.seen. rewrite existsb_exists. split.
  - intros [y [Hy E]]. apply String.eqb_eq in E. subst. exact Hy.
  - intros H. exists k. split; [exact H | apply String.eqb_refl].
Qed.

Lemma seenKey_false (k : string) (seen : list string) :
  Spec.seen k seen = false <-> ~ In k seen.
Proof.
  rewrite <- seenKey_In. destruct (Spec.seen k seen); split;
    congruence.
Qed.

Lemma seenKey_equiv (k : string) (l1 l2 : list string) :
  (In k l1 <-> In k l2) -> Spec.seen k l1 = Spec.seen k l2.
Proof.
  intros H. destruct (Spec.seen k l1) eqn:E1.
  - symmetry. apply seenKey_In, H, seenKey_In, E1.
  - symmetry. apply seenKey_false. rewrite <- H. apply seenKey_false, E1.
Qed.

Lemma distinctFrom_In (keys : list string) :
  forall seen k,
    In k (Spec.firstSeenAfter seen keys) <-> In k keys /\ ~ In k seen.
Proof.
  induction keys as [|a keys IH]; intros seen k; simpl.
  - tauto.
  - destruct (Spec.seen a seen) eqn:E.
    + rewrite IH. apply seenKey_In in E. split.
      * intros [H1 H2]. auto.
      * intros [[<-|H1] H2]; [contradiction | auto].
    + apply seenKey_false in E. simpl. rewrite IH. simpl. split.
      * intros [<-|[H1 H2]]; [auto|]. split; [auto|]. intros F. apply H2. auto.
      * intros [[<-|H1] H2]; [auto|].
        destruct (String.eqb_spec a k) as [->|Hne]; [auto|].
        right. split; [exact H1|]. intros [F|F]; contradiction.
Qed.

Lemma distinctFrom_NoDup (keys : list string) :
  forall seen, NoDup (Spec.firstSeenAfter seen keys).
Proof.
  induction keys as [|a keys IH]; intros seen; simpl.
  - constructor.
  - destruct (Spec.seen a seen); [apply IH|].
    constructor; [|apply IH].
    rewrite distinctFrom_In. intros [_ F]. apply F. left. reflexivity.
Qed.

Lemma distinctFrom_snoc (keys : list string) :
  forall seen k,
    Spec.firstSeenAfter seen (keys ++ [k]) =
    Spec.firstSeenAfter seen keys ++
      (if Spec.seen k (seen ++ keys) then [] else [k]).
Proof.
  induction keys as [|a keys IH]; intros seen k; simpl.
  - rewrite app_nil_r. destruct (Spec.seen k seen); reflexivity.
  - destruct (Spec.seen a seen) eqn:E.
    + rewrite IH. f_equal.
      rewrite (seenKey_equiv k (seen ++ a :: keys) (seen ++ keys));
        [reflexivity|].
      apply seenKey_In in E. rewrite !in_app_iff. simpl. split.
      * intros [H|[<-|H]]; auto.
      * intros [H|H]; auto.
    + rewrite IH. simpl. f_equal. f_equal.
      rewrite (seenKey_equiv k (seen ++ a :: keys) ((a :: seen) ++ keys));
        [reflexivity|].
      simpl. rewrite !in_app_iff. simpl. tauto.
Qed.

Lemma occurrences_snoc (k : string) (ings : list ShoppingApi.PlannedIngredient)
    (x : ShoppingApi.PlannedIngredient) :
  MergeView.occurrences k (ings ++ [x]) =
  MergeView.occurrences k ings ++
    (if String.eqb (MergeView.keyOf x) k then [x] else []).
Proof. unfold MergeView.occurrences. rewrite filter_app. reflexivity. Qed.

Lemma occurrences_nil (k : string) (ings : list ShoppingApi.PlannedIngredient) :
  ~ In k (map MergeView.keyOf ings) -> MergeView.occurrences k ings = [].
Proof.
  intros H. unfold MergeView.occurrences.
  induction ings as [|x ings IH]; [reflexivity|]. simpl in *.
  destruct (String.eqb_spec (MergeView.keyOf x) k) as [E|E].
  - exfalso. apply H. left. exact E.
  - apply IH. intros F. apply H. right. exact F.
Qed.

Lemma occurrences_cons (k : string) (ings : list ShoppingApi.PlannedIngredient) :
  In k (map MergeView.keyOf ings) ->
  exists first rest, MergeView.occurrences k ings = first :: rest.
Proof.
  intros H. apply in_map_iff in H. destruct H as [x [E Hx]].
  assert (Hin : In x (MergeView.occurrences k ings)).
  { unfold MergeView.occurrences. apply filter_In. split; [exact Hx|].
    rewrite E. apply String.eqb_refl. }
  destruct (MergeView.occurrences k ings) as [|f r]; [destruct Hin|].
  exists f, r. reflexivity.
Qed.

(** *** The map of buckets *)

Section Buckets.
Variable B : string -> ShoppingApi.Bucket.

Lemma mapHas_keys (k : string) (D : list string) :
  ShoppingApi.mapHas k (map (fun k' => (k', B k')) D) = Spec.seen k D.
Proof.
  unfold Spec.seen. induction D as [|a D IH]; [reflexivity|].
  simpl. rewrite IH, (String.eqb_sym a k). reflexivity.
Qed.

Lemma mapAdjust_keys (k : string) (f : ShoppingApi.Bucket -> ShoppingApi.Bucket)
    (D : list string) :
  NoDup D ->
  ShoppingApi.mapAdjust k f (map (fun k' => (k', B k')) D) =
  map (fun k' => (k', if String.eqb k' k then f (B k') else B k')) D.
Proof.
  induction 1 as [|a D Ha Hnd IH]; [reflexivity|].
  simpl. destruct (String.eqb_spec a k) as [->|Hne].
  - f_equal. apply map_ext_in. intros k' Hk'.
    destruct (String.eqb_spec k' k) as [->|_]; [contradiction|reflexivity].
  - f_equal. exact IH.
Qed.
End Buckets.

(** The map [merged] after the loop over [ings]: one bucket per key, in
    first-seen order, holding the lines with that key. *)
Lemma fold_addIngredient (ings : list ShoppingApi.PlannedIngredient) :
  fold_left ShoppingApi.addIngredient ings [] =
  map (fun k => (k, MergeView.bucketOf k (MergeView.occurrences k ings)))
      (MergeView.distinctKeys ings).
Proof.
  induction ings as [|x ings IH] using rev_ind; [reflexivity|].
  rewrite fold_left_app. cbn [fold_left]. rewrite IH.
  unfold ShoppingApi.addIngredient. fold (MergeView.keyOf x).
  unfold ShoppingApi.mapSet.
  rewrite !mapHas_keys.
  unfold MergeView.distinctKeys, Spec.firstSeen. rewrite map_app. cbn [map].
  rewrite distinctFrom_snoc. cbn [app].
  fold (Spec.firstSeen (map MergeView.keyOf ings)).
  fold (MergeView.distinctKeys ings).
  destruct (Spec.seen (MergeView.keyOf x) (map MergeView.keyOf ings)) eqn:Eseen.
  - (* a key seen before: its bucket grows *)
    assert (Hd : Spec.seen (MergeView.keyOf x) (MergeView.distinctKeys ings) = true).
    { apply seenKey_In. apply distinctFrom_In. split.
      - apply seenKey_In, Eseen.
      - intros []. }
    rewrite Hd, app_nil_r.
    rewrite mapAdjust_keys by apply distinctFrom_NoDup.
    apply map_ext_in. intros k Hk. f_equal.
    rewrite occurrences_snoc.
    rewrite (String.eqb_sym k (MergeView.keyOf x)).
    destruct (String.eqb_spec (MergeView.keyOf x) k) as [E|E].
    + destruct (occurrences_cons k ings) as [f [r Eo]].
      { rewrite <- E. apply seenKey_In, Eseen. }
      rewrite Eo. unfold MergeView.bucketOf, MergeView.amountsOf.
      cbn [app ShoppingApi.b_name ShoppingApi.b_displayName
           ShoppingApi.b_amounts ShoppingApi.b_category
           ShoppingApi.b_sources].
      change (f :: r ++ [x]) with ((f :: r) ++ [x]).
      rewrite !map_app. reflexivity.
    + rewrite app_nil_r. reflexivity.
  - (* a new key: a new bucket at the end *)
    assert (Hd : Spec.seen (MergeView.keyOf x) (MergeView.distinctKeys ings) = false).
    { apply seenKey_false. unfold MergeView.distinctKeys, Spec.firstSeen.
      rewrite distinctFrom_In. intros [F _].
      apply seenKey_false in Eseen. contradiction. }
    rewrite Hd, map_app. cbn [map]. f_equal.
    + apply map_ext_in. intros k Hk. f_equal.
      rewrite occurrences_snoc.
      destruct (String.eqb_spec (MergeView.keyOf x) k) as [E|E].
      * exfalso. apply seenKey_false in Hd. apply Hd. rewrite E. exact Hk.
      * rewrite app_nil_r. reflexivity.
    + rewrite occurrences_snoc, String.eqb_refl.
      rewrite occurrences_nil by (apply seenKey_false, Eseen).
      reflexivity.
Qed.

(** *** Combining the amounts of a bucket *)

Lemma mapAdjust_length {V : Type} (k : string) (f : V -> V)
    (m : list (string * V)) :
  length (ShoppingApi.mapAdjust k f m) = length m.
Proof.
  induction m as [|[k' v] m IH]; [reflexivity|]. simpl.
  destruct (String.eqb k' k); simpl; [reflexivity | rewrite IH; reflexivity].
Qed.

Lemma mapSet_length {V : Type} (k : string) (v : V) (m : list (string * V)) :
  (length m <= length (ShoppingApi.mapSet k v m))%nat.
Proof.
  unfold ShoppingApi.mapSet. destruct (ShoppingApi.mapHas k m).
  - rewrite mapAdjust_length. lia.
  - rewrite length_app. simpl. lia.
Qed.

Lemma groupUnits_hasNull (occ : list ShoppingApi.PlannedIngredient) :
  forall G h,
    snd (ShoppingApi.groupUnits (MergeView.amountsOf occ) G h) =
    (h || negb (forallb MergeView.hasAmount occ))%bool.
Proof.
  induction occ as [|i occ IH]; intros G h; simpl.
  - rewrite orb_false_r. reflexivity.
  - unfold MergeView.hasAmount at 1. destruct (ShoppingApi.pi_amount i).
    + rewrite IH. reflexivity.
    + rewrite IH. simpl. rewrite orb_true_r. reflexivity.
Qed.

Lemma groupUnits_grows (occ : list ShoppingApi.PlannedIngredient) :
  forall G h,
    (length G <=
     length (fst (ShoppingApi.groupUnits (MergeView.amountsOf occ) G h)))%nat.
Proof.
  induction occ as [|i occ IH]; intros G h; simpl; [lia|].
  destruct (ShoppingApi.pi_amount i).
  - eapply Nat.le_trans; [|apply IH]. apply mapSet_length.
  - apply IH.
Qed.

(** All lines have an amount and the unit [u]: one group, the sum. *)
Lemma groupUnits_uniform (occ : list ShoppingApi.PlannedIngredient) :
  forall u t h,
    forallb MergeView.hasAmount occ = true ->
    forallb (fun i => String.eqb
                        (ShoppingApi.unitKeyOf (ShoppingApi.pi_unit i)) u)
            occ = true ->
    ShoppingApi.groupUnits (MergeView.amountsOf occ) [(u, t)] h =
    ([(u, fold_left
            (fun acc i => MergeView.addAmount acc (ShoppingApi.pi_amount i))
            occ t)], h).
Proof.
  induction occ as [|i occ IH]; intros u t h Ha Hu; [reflexivity|].
  simpl in Ha, Hu. apply andb_true_iff in Ha, Hu.
  destruct Ha as [Hi Ha], Hu as [Hiu Hu].
  unfold MergeView.hasAmount in Hi. simpl.
  destruct (ShoppingApi.pi_amount i) as [a|]; [|discriminate].
  apply String.eqb_eq in Hiu. rewrite Hiu.
  unfold ShoppingApi.mapSet. simpl. rewrite String.eqb_refl. simpl.
  apply IH; assumption.
Qed.

(** All lines have an amount but some unit differs from [u]: at least
    two groups. *)
Lemma groupUnits_mixed (occ : list ShoppingApi.PlannedIngredient) :
  forall u t h,
    forallb MergeView.hasAmount occ = true ->
    forallb (fun i => String.eqb
                        (ShoppingApi.unitKeyOf (ShoppingApi.pi_unit i)) u)
            occ = false ->
    (2 <= length (fst (ShoppingApi.groupUnits (MergeView.amountsOf occ)
                         [(u, t)] h)))%nat.
Proof.
  induction occ as [|i occ IH]; intros u t h Ha Hu; [discriminate|].
  simpl in Ha, Hu. apply andb_true_iff in Ha. destruct Ha as [Hi Ha].
  unfold MergeView.hasAmount in Hi. simpl.
  destruct (ShoppingApi.pi_amount i) as [a|]; [|discriminate].
  destruct (String.eqb_spec (ShoppingApi.unitKeyOf (ShoppingApi.pi_unit i)) u)
    as [E|E].
  - simpl in Hu. rewrite E.
    unfold ShoppingApi.mapSet. simpl. rewrite String.eqb_refl. simpl.
    apply IH; assumption.
  - unfold ShoppingApi.mapSet. simpl.
    assert (E' : String.eqb u (ShoppingApi.unitKeyOf (ShoppingApi.pi_unit i))
                 = false).
    { apply String.eqb_neq. intros F. apply E. symmetry. exact F. }
    rewrite E'. simpl.
    eapply Nat.le_trans; [|apply groupUnits_grows]. simpl. lia.
Qed.

Lemma combine_fallback (b : ShoppingApi.Bucket)
    (G : list (string * float)) (h : bool) :
  ShoppingApi.groupUnits (ShoppingApi.b_amounts b) [] false = (G, h) ->
  h = true \/ length G <> 1%nat ->
  ShoppingApi.combine b =
  ShoppingApi.mkItem (ShoppingApi.b_name b) (ShoppingApi.b_displayName b)
    (fst (match ShoppingApi.b_amounts b with
          | au :: _ => au
          | [] => (None, None)
          end))
    (snd (match ShoppingApi.b_amounts b with
          | au :: _ => au
          | [] => (None, None)
          end))
    (ShoppingApi.b_category b) (ShoppingApi.b_sources b).
Proof.
  intros E H. unfold ShoppingApi.combine. rewrite E.
  destruct H as [-> | H].
  - destruct G as [|[u t] [|g G]]; reflexivity.
  - destruct G as [|[u t] [|g G]]; destruct h; try reflexivity.
    exfalso. apply H. reflexivity.
Qed.

(** The item computed from the bucket of a key is the item of the
    specification. *)
Lemma combine_bucketOf (k : string) (first : ShoppingApi.PlannedIngredient)
    (rest : list ShoppingApi.PlannedIngredient) :
  ShoppingApi.combine (MergeView.bucketOf k (first :: rest)) =
  MergeView.itemOf k first rest.
Proof.
  unfold MergeView.itemOf. cbv zeta.
  set (b := MergeView.bucketOf k (first :: rest)).
  set (u1 := ShoppingApi.unitKeyOf (ShoppingApi.pi_unit first)).
  destruct (ShoppingApi.groupUnits (ShoppingApi.b_amounts b) [] false)
    as [G h] eqn:EG.
  pose proof (groupUnits_hasNull (first :: rest) [] false) as Hnull.
  change (MergeView.amountsOf (first :: rest)) with (ShoppingApi.b_amounts b)
    in Hnull.
  rewrite EG in Hnull. cbn [snd orb] in Hnull.
  unfold MergeView.summable.
  destruct (forallb MergeView.hasAmount (first :: rest)) eqn:Ha.
  - (* every line has an amount *)
    cbn [andb].
    assert (Hfirst : exists a1, ShoppingApi.pi_amount first = Some a1).
    { simpl in Ha. apply andb_true_iff in Ha. destruct Ha as [Ha _].
      unfold MergeView.hasAmount in Ha.
      destruct (ShoppingApi.pi_amount first) as [a1|]; [|discriminate].
      exists a1. reflexivity. }
    destruct Hfirst as [a1 Ea1].
    assert (Hrest : forallb MergeView.hasAmount rest = true).
    { simpl in Ha. apply andb_true_iff in Ha. apply Ha. }
    assert (Estart :
      ShoppingApi.groupUnits (ShoppingApi.b_amounts b) [] false =
      ShoppingApi.groupUnits (MergeView.amountsOf rest) [(u1, (0 + a1)%float)] false).
    { subst b. cbn [MergeView.bucketOf ShoppingApi.b_amounts MergeView.amountsOf map
                    ShoppingApi.groupUnits].
      rewrite Ea1. reflexivity. }
    cbn [forallb]. unfold MergeView.sameUnit at 1. fold u1.
    rewrite String.eqb_refl. cbn [andb].
    destruct (forallb (fun ing => MergeView.sameUnit (ShoppingApi.pi_unit ing)
                                   (ShoppingApi.pi_unit first)) rest) eqn:Hu.
    + (* and the same unit: the sum *)
      unfold ShoppingApi.combine. rewrite Estart.
      rewrite (groupUnits_uniform rest u1 (0 + a1)%float false Hrest Hu).
      unfold MergeView.total. cbn [fold_left]. rewrite Ea1. reflexivity.
    + (* units differ: the first line *)
      rewrite (combine_fallback b G h EG).
      * subst b. cbn. reflexivity.
      * right. rewrite Estart in EG.
        pose proof (groupUnits_mixed rest u1 (0 + a1)%float false Hrest Hu) as H2.
        rewrite EG in H2. cbn [fst] in H2. lia.
  - (* a line without amount: the first line *)
    cbn [andb].
    rewrite (combine_fallback b G h EG).
    + subst b. cbn. reflexivity.
    + left. rewrite Hnull. reflexivity.
Qed.

Lemma flat_map_singletons {A B : Type} (g : A -> list B) (g' : A -> B)
    (l : list A) :
  (forall x, In x l -> g x = [g' x]) -> flat_map g l = map g' l.
Proof.
  induction l as [|a l IH]; intros H; [reflexivity|]. simpl.
  rewrite (H a (or_introl eq_refl)), IH; [reflexivity|].
  intros x Hx. apply H. right. exact Hx.
Qed.

(** [mergeIngredients] computes the merge of the specification. *)
Lemma mergeIngredients_spec (ings : list ShoppingApi.PlannedIngredient) :
  ShoppingApi.mergeIngredients ings = MergeView.merged ings.
Proof.
  unfold ShoppingApi.mergeIngredients, MergeView.merged.
  rewrite fold_addIngredient, map_map. cbn [snd]. symmetry.
  apply flat_map_singletons. intros k Hk.
  destruct (occurrences_cons k ings) as [f [r E]].
  { unfold MergeView.distinctKeys, Spec.firstSeen in Hk. apply distinctFrom_In in Hk. apply Hk. }
  rewrite E, combine_bucketOf. reflexivity.
Qed.

(** Every item stands for the lines of one normalized name. *)
Lemma mergeIngredients_items (ings : list ShoppingApi.PlannedIngredient)
    (item : ShoppingApi.Item) :
  In item (ShoppingApi.mergeIngredients ings) ->
  exists first rest,
    MergeView.occurrences (ShoppingApi.name item) ings = first :: rest /\
    item = MergeView.itemOf (ShoppingApi.name item) first rest.
Proof.
  rewrite mergeIngredients_spec. unfold MergeView.merged.
  rewrite in_flat_map. intros [k [_ Hin]].
  destruct (MergeView.occurrences k ings) as [|f r] eqn:E; [destruct Hin|].
  destruct Hin as [<-|[]].
  assert (Ek : ShoppingApi.name (MergeView.itemOf k f r) = k).
  { unfold MergeView.itemOf. cbv zeta. destruct (MergeView.summable f (f :: r));
      reflexivity. }
  rewrite Ek. exists f, r. split; [exact E | reflexivity].
Qed.

Lemma mergeIngredients_names (ings : list ShoppingApi.PlannedIngredient) :
  map ShoppingApi.name (ShoppingApi.mergeIngredients ings) =
  MergeView.distinctKeys ings.
Proof.
  rewrite mergeIngredients_spec. unfold MergeView.merged.
  rewrite (flat_map_singletons _
             (fun k => match MergeView.occurrences k ings with
                       | f :: r => MergeView.itemOf k f r
                       | [] => ShoppingApi.mkItem k "" None None "" []
                       end)).
  - rewrite map_map. rewrite <- (map_id (MergeView.distinctKeys ings)) at 2.
    apply map_ext. intros k.
    destruct (MergeView.occurrences k ings) as [|f r]; [reflexivity|].
    unfold MergeView.itemOf. cbv zeta. destruct (MergeView.summable f (f :: r));
      reflexivity.
  - intros k Hk. destruct (occurrences_cons k ings) as [f [r E]].
    { unfold MergeView.distinctKeys, Spec.firstSeen in Hk. apply distinctFrom_In in Hk. apply Hk. }
    rewrite E. reflexivity.
Qed.

(** *** Text: what the code computes on bytes, in the words of the
    specification *)

Lemma lowerAscii_ignoringCase (c : ascii) :
  Js.lowerAscii c = Spec.ignoringCase c.
Proof. destruct c as [[] [] [] [] [] [] [] []]; reflexivity. Qed.

Lemma toLowerCase_lowerText (s : string) :
  Js.toLowerCase s = Spec.lowerText s.
Proof.
  induction s as [|c s IH]; [reflexivity|].
  cbn [Js.toLowerCase Spec.lowerText].
  rewrite lowerAscii_ignoringCase, IH. reflexivity.
Qed.

Lemma sameText_lowerText (a : string) :
  forall b, Spec.sameText a b = true <->
            Spec.lowerText a = Spec.lowerText b.
Proof.
  induction a as [|x a IH]; intros [|y b]; cbn [Spec.sameText Spec.lowerText].
  - split; reflexivity.
  - split; discriminate.
  - split; discriminate.
  - rewrite andb_true_iff, Ascii.eqb_eq, IH. split.
    + intros [-> ->]. reflexivity.
    + intros [= -> ->]. split; reflexivity.
Qed.






(** *** Text as words *)

Lemma isSpace_isBlank (c : ascii) : Js.isSpace c = Spec.isBlank c.
Proof. destruct c as [[] [] [] [] [] [] [] []]; reflexivity. Qed.

Lemma append_empty_r (s : string) : (s ++ "")%string = s.
Proof. induction s as [|c s IH]; [reflexivity|]. cbn. rewrite IH. reflexivity. Qed.

Lemma append_assoc (a b c : string) :
  ((a ++ b) ++ c)%string = (a ++ (b ++ c))%string.
Proof. induction a as [|x a IH]; [reflexivity|]. cbn. rewrite IH. reflexivity. Qed.

Lemma rev_onto_append (s : string) :
  forall acc, Js.rev_onto s acc = (Js.reverse s ++ acc)%string.
Proof.
  unfold Js.reverse. induction s as [|c s IH]; intros acc; [reflexivity|].
  cbn [Js.rev_onto]. rewrite IH, (IH (String c "")), append_assoc.
  reflexivity.
Qed.

Lemma reverse_cons (c : ascii) (s : string) :
  Js.reverse (String c s) = (Js.reverse s ++ String c "")%string.
Proof. unfold Js.reverse at 1. cbn [Js.rev_onto]. apply rev_onto_append. Qed.

Lemma reverse_append (a b : string) :
  Js.reverse (a ++ b) = (Js.reverse b ++ Js.reverse a)%string.
Proof.
  induction a as [|x a IH].
  - cbn. rewrite append_empty_r. reflexivity.
  - cbn [String.append]. rewrite !reverse_cons, IH, append_assoc. reflexivity.
Qed.

Lemma reverse_involutive (s : string) : Js.reverse (Js.reverse s) = s.
Proof.
  induction s as [|c s IH]; [reflexivity|].
  rewrite reverse_cons, reverse_append, IH. reflexivity.
Qed.

Lemma reverse_empty (s : string) : Js.reverse s = "" -> s = "".
Proof.
  intros H. rewrite <- (reverse_involutive s), H. reflexivity.
Qed.

(** [dropSpaces] on a text with one more character. *)
Lemma dropSpaces_snoc (a : string) (c : ascii) :
  Js.dropSpaces (a ++ String c "") =
  if String.eqb (Js.dropSpaces a) ""
  then (if Js.isSpace c then "" else String c "")
  else (Js.dropSpaces a ++ String c "")%string.
Proof.
  induction a as [|x a IH].
  - cbn. destruct (Js.isSpace c); reflexivity.
  - cbn [String.append Js.dropSpaces]. destruct (Js.isSpace x); [exact IH|].
    reflexivity.
Qed.

(** White space dropped at the end, without reversing. *)
Lemma dropEnd_cons (c : ascii) (s : string) :
  Js.reverse (Js.dropSpaces (Js.reverse (String c s))) =
  if (String.eqb (Js.reverse (Js.dropSpaces (Js.reverse s))) ""
      && Js.isSpace c)%bool
  then ""
  else String c (Js.reverse (Js.dropSpaces (Js.reverse s))).
Proof.
  rewrite reverse_cons, dropSpaces_snoc.
  destruct (String.eqb_spec (Js.dropSpaces (Js.reverse s)) "") as [E|E].
  - rewrite E. cbn [Js.reverse Js.rev_onto String.eqb andb].
    destruct (Js.isSpace c); reflexivity.
  - rewrite reverse_append.
    destruct (String.eqb_spec (Js.reverse (Js.dropSpaces (Js.reverse s))) "")
      as [F|_]; [apply reverse_empty in F; contradiction|].
    reflexivity.
Qed.

Lemma pieces_cons (s : string) : exists p ps, Spec.pieces s = p :: ps.
Proof.
  induction s as [|c s (p & ps & E)]; cbn [Spec.pieces].
  - eexists _, _. reflexivity.
  - destruct (Spec.isBlank c); [eexists _, _; reflexivity|].
    rewrite E. eexists _, _. reflexivity.
Qed.

Lemma words_blank (c : ascii) (s : string) :
  Spec.isBlank c = true -> Spec.words (String c s) = Spec.words s.
Proof.
  intros H. unfold Spec.words. cbn [Spec.pieces]. rewrite H. reflexivity.
Qed.

(** The words of a text that starts with a character of a word: the
    character is put in front of the first word when the rest starts
    with a word, and is a word of its own otherwise. *)
Lemma words_letter (c : ascii) (s : string) :
  Spec.isBlank c = false ->
  match s with
  | EmptyString => Spec.words (String c s) = [String c ""]
  | String c' _ =>
      if Spec.isBlank c'
      then Spec.words (String c s) = String c "" :: Spec.words s
      else exists w ws, Spec.words s = w :: ws /\
                        Spec.words (String c s) = String c w :: ws
  end.
Proof.
  intros H. unfold Spec.words. cbn [Spec.pieces]. rewrite H.
  destruct s as [|c' s]; [reflexivity|].
  cbn [Spec.pieces]. destruct (Spec.isBlank c') eqn:H'; [reflexivity|].
  destruct (pieces_cons s) as (p & ps & E). rewrite E.
  cbn [filter String.eqb negb]. eexists _, _. split; reflexivity.
Qed.

Lemma words_nonempty (c : ascii) (s : string) :
  Spec.isBlank c = false -> Spec.words (String c s) <> [].
Proof.
  intros H. pose proof (words_letter c s H) as W.
  destruct s as [|c' s]; [rewrite W; discriminate|].
  destruct (Spec.isBlank c').
  - rewrite W. discriminate.
  - destruct W as (w & ws & _ & ->). discriminate.
Qed.

Lemma pieces_blankFree (s : string) :
  Forall (fun p => Spec.blankFree p = true) (Spec.pieces s).
Proof.
  induction s as [|c s IH]; cbn [Spec.pieces].
  - repeat constructor.
  - destruct (Spec.isBlank c) eqn:H; [constructor; [reflexivity|exact IH]|].
    destruct (pieces_cons s) as (p & ps & E). rewrite E in IH |- *.
    inversion IH as [|? ? Hp Hps]; subst. constructor; [|exact Hps].
    cbn [Spec.blankFree]. rewrite H, Hp. reflexivity.
Qed.

(** The words of a text are words. *)
Lemma words_are_words (s : string) :
  Forall (fun w => Spec.isWord w = true) (Spec.words s).
Proof.
  unfold Spec.words. pose proof (pieces_blankFree s) as H.
  induction H as [|p ps Hp _ IH]; [constructor|].
  cbn [filter]. destruct (String.eqb p "") eqn:E; cbn [negb]; [exact IH|].
  constructor; [|exact IH]. unfold Spec.isWord. rewrite E, Hp. reflexivity.
Qed.

Lemma words_dropSpaces (s : string) :
  Spec.words (Js.dropSpaces s) = Spec.words s.
Proof.
  induction s as [|c s IH]; [reflexivity|].
  cbn [Js.dropSpaces]. rewrite isSpace_isBlank.
  destruct (Spec.isBlank c) eqn:H; [|reflexivity].
  rewrite words_blank by exact H. exact IH.
Qed.

Lemma dropSpaces_start (s : string) :
  match Js.dropSpaces s with
  | EmptyString => True
  | String c _ => Spec.isBlank c = false
  end.
Proof.
  induction s as [|c s IH]; [exact I|].
  cbn [Js.dropSpaces]. rewrite isSpace_isBlank.
  destruct (Spec.isBlank c) eqn:H; [exact IH|exact H].
Qed.

Lemma unwords_letter (c : ascii) (w : string) (ws : list string) :
  Spec.unwords (String c w :: ws) = String c (Spec.unwords (w :: ws)).
Proof. destruct ws; reflexivity. Qed.

Lemma unwords_empty (ws : list string) :
  Forall (fun w => Spec.isWord w = true) ws ->
  Spec.unwords ws = "" -> ws = [].
Proof.
  intros H E. destruct H as [|w ws Hw _]; [reflexivity|].
  unfold Spec.isWord in Hw. destruct w as [|c w]; [discriminate|].
  destruct ws; discriminate.
Qed.

(** A text whose trailing white space is dropped is empty exactly when
    it has no words. *)
Lemma dropEnd_empty (s : string) :
  Js.reverse (Js.dropSpaces (Js.reverse s)) = "" <-> Spec.words s = [].
Proof.
  induction s as [|c s IH]; [split; reflexivity|].
  rewrite dropEnd_cons, isSpace_isBlank.
  destruct (Spec.isBlank c) eqn:H.
  - rewrite words_blank by exact H. rewrite andb_true_r.
    destruct (String.eqb_spec (Js.reverse (Js.dropSpaces (Js.reverse s))) "")
      as [E|E].
    + split; [intros _; apply IH, E | reflexivity].
    + split; [discriminate|]. intros W. apply IH in W. contradiction.
  - rewrite andb_false_r. split; [discriminate|].
    intros W. exfalso. exact (words_nonempty c s H W).
Qed.

(** Collapsing the white space of a text without trailing white space
    gives its words, joined by single spaces. *)
Lemma collapse_dropEnd (s : string) :
  Js.collapseFrom true (Js.reverse (Js.dropSpaces (Js.reverse s))) =
    Spec.unwords (Spec.words s) /\
  (match s with
   | EmptyString => True
   | String c _ => Spec.isBlank c = false
   end ->
   Js.collapseFrom false (Js.reverse (Js.dropSpaces (Js.reverse s))) =
     Spec.unwords (Spec.words s)).
Proof.
  induction s as [|c s [IHa IHb]]; [split; reflexivity|].
  rewrite dropEnd_cons, isSpace_isBlank.
  destruct (Spec.isBlank c) eqn:H.
  - rewrite andb_true_r, words_blank by exact H.
    split; [|discriminate].
    destruct (String.eqb_spec (Js.reverse (Js.dropSpaces (Js.reverse s))) "")
      as [E|E].
    + rewrite E in IHa. exact IHa.
    + cbn [Js.collapseFrom]. rewrite isSpace_isBlank, H. exact IHa.
  - rewrite andb_false_r.
    assert (Goal' : forall inRun,
      Js.collapseFrom inRun
        (String c (Js.reverse (Js.dropSpaces (Js.reverse s)))) =
      Spec.unwords (Spec.words (String c s))).
    { intros inRun. cbn [Js.collapseFrom]. rewrite isSpace_isBlank, H.
      pose proof (words_letter c s H) as W.
      destruct s as [|c' s].
      - rewrite W. reflexivity.
      - destruct (Spec.isBlank c') eqn:H'.
        + rewrite W.
          rewrite dropEnd_cons, isSpace_isBlank, H', andb_true_r in IHa |- *.
          destruct (String.eqb_spec
                      (Js.reverse (Js.dropSpaces (Js.reverse s))) "")
            as [E|E].
          * cbn [Js.collapseFrom] in IHa |- *.
            symmetry in IHa.
            apply unwords_empty in IHa; [|apply words_are_words].
            rewrite IHa. reflexivity.
          * cbn [Js.collapseFrom] in IHa |- *.
            rewrite isSpace_isBlank, H' in IHa |- *.
            rewrite IHa.
            destruct (Spec.words (String c' s)) as [|w ws] eqn:Ew.
            { exfalso. rewrite words_blank in Ew by exact H'.
              apply dropEnd_empty in Ew. contradiction. }
            reflexivity.
        + destruct W as (w & ws & Ew & ->).
          rewrite (IHb eq_refl), Ew. symmetry. apply unwords_letter. }
    split; [apply Goal' | intros _; apply Goal'].
Qed.

(** Trimming and collapsing white space leaves the words, joined by
    single spaces. *)
Lemma collapse_trim (s : string) :
  Js.collapseSpaces (Js.trim s) = Spec.unwords (Spec.words s).
Proof.
  unfold Js.collapseSpaces, Js.trim.
  destruct (collapse_dropEnd (Js.dropSpaces s)) as [_ H].
  rewrite H by apply dropSpaces_start.
  rewrite words_dropSpaces. reflexivity.
Qed.

Lemma stripPrefix_append (d r : string) :
  Js.stripPrefix d (d ++ r) = Some r.
Proof.
  induction d as [|x d IH]; [reflexivity|].
  cbn [String.append Js.stripPrefix]. rewrite Ascii.eqb_refl. exact IH.
Qed.

Lemma stripPrefix_some (d : string) :
  forall s r, Js.stripPrefix d s = Some r -> s = (d ++ r)%string.
Proof.
  induction d as [|x d IH]; intros s r; cbn [Js.stripPrefix].
  - intros [= ->]. reflexivity.
  - destruct s as [|y s]; [discriminate|].
    destruct (Ascii.eqb_spec x y) as [->|_]; [|discriminate].
    intros H. cbn [String.append]. rewrite (IH _ _ H). reflexivity.
Qed.

Lemma blankFree_append (a b : string) :
  Spec.blankFree (a ++ b) = (Spec.blankFree a && Spec.blankFree b)%bool.
Proof.
  induction a as [|x a IH]; [reflexivity|].
  cbn [String.append Spec.blankFree]. rewrite IH, andb_assoc. reflexivity.
Qed.

(** Where a word ends in a text is determined by the text. *)
Lemma word_boundary (d : string) :
  forall w c c' r r',
    Spec.blankFree d = true -> Spec.blankFree w = true ->
    Spec.isBlank c = true -> Spec.isBlank c' = true ->
    (d ++ String c r)%string = (w ++ String c' r')%string ->
    d = w /\ r = r'.
Proof.
  induction d as [|x d IH]; intros [|y w] c c' r r' Hd Hw Hc Hc' E;
    cbn [String.append Spec.blankFree] in *.
  - injection E as _ E. split; [reflexivity|exact E].
  - injection E as -> _. rewrite Hc in Hw. discriminate.
  - injection E as -> _. rewrite Hc' in Hd. discriminate.
  - injection E as -> E. apply andb_true_iff in Hd, Hw.
    destruct (IH w c c' r r') as [-> ->]; tauto.
Qed.

Lemma unwords_start (w : string) (rest : list string) :
  Spec.isWord w = true ->
  exists c t, Spec.unwords (w :: rest) = String c t /\
              Spec.isBlank c = false.
Proof.
  unfold Spec.isWord. destruct w as [|c w]; [discriminate|].
  cbn [String.eqb negb andb Spec.blankFree]. intros H.
  apply andb_true_iff in H. destruct H as [H _]. apply negb_true_iff in H.
  destruct rest; eexists _, _; (split; [reflexivity|exact H]).
Qed.

(** The leading pattern on words joined by single spaces: it matches
    when the first word is the word of the pattern and words follow,
    and leaves these. *)
Lemma afterWord_unwords (d w : string) (rest : list string) :
  Spec.blankFree d = true ->
  Forall (fun w => Spec.isWord w = true) (w :: rest) ->
  ShoppingApi.afterWordAndSpaces d (Spec.unwords (w :: rest)) =
  match rest with
  | _ :: _ => if String.eqb w d then Some (Spec.unwords rest) else None
  | [] => None
  end.
Proof.
  intros Hd Hws. inversion Hws as [|? ? Hw Hrest]; subst.
  assert (Hwb : Spec.blankFree w = true).
  { unfold Spec.isWord in Hw. apply andb_true_iff in Hw. apply Hw. }
  unfold ShoppingApi.afterWordAndSpaces.
  destruct rest as [|w2 rest].
  - cbn [Spec.unwords].
    destruct (Js.stripPrefix d w) as [[|c r]|] eqn:E; try reflexivity.
    apply stripPrefix_some in E. rewrite E, blankFree_append in Hwb.
    cbn [Spec.blankFree] in Hwb. rewrite isSpace_isBlank.
    destruct (Spec.isBlank c); [|reflexivity].
    rewrite andb_false_r in Hwb. discriminate.
  - change (Spec.unwords (w :: w2 :: rest))
      with (w ++ String " " (Spec.unwords (w2 :: rest)))%string.
    inversion Hrest as [|? ? Hw2 _]; subst.
    destruct (unwords_start w2 rest Hw2) as (c2 & t2 & E2 & Hc2).
    destruct (String.eqb_spec w d) as [->|Hne].
    + rewrite stripPrefix_append. cbv iota.
      change (Js.isSpace " ") with true. cbv iota. rewrite E2.
      cbn [Js.dropSpaces]. rewrite isSpace_isBlank, Hc2. reflexivity.
    + destruct (Js.stripPrefix d _) as [[|c r]|] eqn:E; try reflexivity.
      rewrite isSpace_isBlank. destruct (Spec.isBlank c) eqn:Hc;
        [|reflexivity].
      apply stripPrefix_some in E. symmetry in E.
      apply word_boundary in E; try assumption; [|reflexivity].
      destruct E as [-> _]. contradiction.
Qed.

Lemma firstMatch_unwords (ds : list string) (ws : list string) :
  Forall (fun d => Spec.blankFree d = true) ds ->
  Forall (fun w => Spec.isWord w = true) ws ->
  ShoppingApi.firstMatch ds (Spec.unwords ws) =
  match ws with
  | w :: (_ :: _) as rest =>
      if existsb (String.eqb w) ds then Some (Spec.unwords (tl ws)) else None
  | _ => None
  end.
Proof.
  intros Hds Hws. induction Hds as [|d ds Hd _ IH].
  - destruct ws as [|w [|w2 rest]]; reflexivity.
  - cbn [ShoppingApi.firstMatch]. destruct ws as [|w rest].
    + rewrite IH. unfold ShoppingApi.afterWordAndSpaces. cbn.
      destruct d; reflexivity.
    + rewrite (afterWord_unwords d w rest Hd Hws), IH.
      destruct rest as [|w2 rest]; [reflexivity|].
      cbn [existsb tl]. destruct (String.eqb w d); reflexivity.
Qed.

(** Stripping the leading descriptor, on words. *)
Lemma stripFirst_unwords (ds : list string) (ws : list string) :
  Forall (fun d => Spec.blankFree d = true) ds ->
  Forall (fun w => Spec.isWord w = true) ws ->
  match ShoppingApi.firstMatch ds (Spec.unwords ws) with
  | Some rest => rest
  | None => Spec.unwords ws
  end = Spec.unwords (Spec.withoutFirst ds ws).
Proof.
  intros Hds Hws. rewrite firstMatch_unwords by assumption.
  unfold Spec.withoutFirst. destruct ws as [|w [|w2 rest]]; try reflexivity.
  destruct (existsb (String.eqb w) ds); reflexivity.
Qed.

Lemma withoutFirst_words (ds ws : list string) :
  Forall (fun w => Spec.isWord w = true) ws ->
  Forall (fun w => Spec.isWord w = true) (Spec.withoutFirst ds ws).
Proof.
  intros H. unfold Spec.withoutFirst. destruct ws as [|w [|w2 rest]];
    try exact H.
  destruct (existsb _ ds); [|exact H]. inversion H; assumption.
Qed.

Lemma unwords_snoc (ws : list string) (w : string) :
  ws <> [] ->
  Spec.unwords (ws ++ [w]) = (Spec.unwords ws ++ String " " w)%string.
Proof.
  induction ws as [|a ws IH]; intros H; [contradiction|].
  destruct ws as [|b ws]; [reflexivity|].
  change (Spec.unwords ((a :: b :: ws) ++ [w]))
    with (a ++ String " " (Spec.unwords ((b :: ws) ++ [w])))%string.
  rewrite IH by discriminate.
  change (Spec.unwords (a :: b :: ws))
    with (a ++ String " " (Spec.unwords (b :: ws)))%string.
  rewrite append_assoc. reflexivity.
Qed.

Lemma reverse_unwords (ws : list string) :
  Js.reverse (Spec.unwords ws) = Spec.unwords (rev (map Js.reverse ws)).
Proof.
  induction ws as [|w ws IH]; [reflexivity|].
  destruct ws as [|w2 ws]; [reflexivity|].
  change (Spec.unwords (w :: w2 :: ws))
    with (w ++ String " " (Spec.unwords (w2 :: ws)))%string.
  rewrite reverse_append, reverse_cons, IH, append_assoc.
  change (rev (map Js.reverse (w :: w2 :: ws)))
    with (rev (map Js.reverse (w2 :: ws)) ++ [Js.reverse w]).
  rewrite unwords_snoc; [reflexivity|].
  cbn [map rev]. intros E. apply app_eq_nil in E. destruct E as [_ E].
  discriminate.
Qed.

Lemma blankFree_reverse (w : string) :
  Spec.blankFree (Js.reverse w) = Spec.blankFree w.
Proof.
  induction w as [|c w IH]; [reflexivity|].
  rewrite reverse_cons, blankFree_append, IH.
  cbn [Spec.blankFree]. rewrite andb_true_r. apply andb_comm.
Qed.

Lemma isWord_reverse (w : string) :
  Spec.isWord (Js.reverse w) = Spec.isWord w.
Proof.
  unfold Spec.isWord. rewrite blankFree_reverse. f_equal. f_equal.
  destruct (String.eqb_spec (Js.reverse w) "") as [E|E].
  - apply reverse_empty in E. subst. reflexivity.
  - destruct (String.eqb_spec w "") as [->|_]; [|reflexivity].
    exfalso. apply E. reflexivity.
Qed.

Lemma eqb_reverse (a b : string) :
  String.eqb (Js.reverse a) (Js.reverse b) = String.eqb a b.
Proof.
  destruct (String.eqb_spec a b) as [->|Hne]; [apply String.eqb_refl|].
  apply String.eqb_neq. intros E. apply Hne.
  rewrite <- (reverse_involutive a), E. apply reverse_involutive.
Qed.

Lemma existsb_reverse (x : string) (T : list string) :
  existsb (String.eqb (Js.reverse x)) (map Js.reverse T) =
  existsb (String.eqb x) T.
Proof.
  induction T as [|t T IH]; [reflexivity|].
  cbn [map existsb]. rewrite eqb_reverse, IH. reflexivity.
Qed.

Lemma map_reverse_involutive (ws : list string) :
  map Js.reverse (map Js.reverse ws) = ws.
Proof.
  induction ws as [|w ws IH]; [reflexivity|].
  cbn [map]. rewrite reverse_involutive, IH. reflexivity.
Qed.

(** Stripping the trailing descriptor, on words. *)
Lemma stripLast_unwords (T : list string) (ws : list string) :
  Forall (fun d => Spec.blankFree d = true) T ->
  Forall (fun w => Spec.isWord w = true) ws ->
  match ShoppingApi.firstMatch (map Js.reverse T)
          (Js.reverse (Spec.unwords ws)) with
  | Some rest => Js.reverse rest
  | None => Spec.unwords ws
  end = Spec.unwords (rev (Spec.withoutFirst T (rev ws))).
Proof.
  intros HT Hws. rewrite reverse_unwords, <- map_rev.
  assert (HT' : Forall (fun d => Spec.blankFree d = true)
                       (map Js.reverse T)).
  { apply Forall_map. eapply Forall_impl; [|exact HT].
    intros d Hd. cbn. rewrite blankFree_reverse. exact Hd. }
  assert (Hws' : Forall (fun w => Spec.isWord w = true)
                        (map Js.reverse (rev ws))).
  { apply Forall_map. apply Forall_rev. eapply Forall_impl; [|exact Hws].
    intros w Hw. cbn. rewrite isWord_reverse. exact Hw. }
  rewrite firstMatch_unwords by assumption.
  assert (E : Spec.unwords ws = Spec.unwords (rev (rev ws)))
    by (rewrite rev_involutive; reflexivity).
  rewrite E. clear E Hws Hws'. generalize (rev ws). intros l.
  unfold Spec.withoutFirst.
  destruct l as [|x [|y r]]; try reflexivity.
  cbn [map tl]. rewrite existsb_reverse.
  destruct (existsb (String.eqb x) T); [|reflexivity].
  change (Js.reverse y :: map Js.reverse r) with (map Js.reverse (y :: r)).
  rewrite reverse_unwords, map_reverse_involutive. reflexivity.
Qed.

Lemma descriptors_blankFree :
  Forall (fun d => Spec.blankFree d = true) ShoppingApi.leadingDescriptors /\
  Forall (fun d => Spec.blankFree d = true) ShoppingApi.trailingDescriptors.
Proof. split; repeat constructor. Qed.

(** [normalizeIngredientName], on words: the words of the lower-cased
    name without a first word that is one of the alternatives of the
    leading pattern and without a last word that is one of those of
    the trailing pattern, joined by single spaces. *)
Lemma normalizeIngredientName_words (name : string) :
  ShoppingApi.normalizeIngredientName name =
  Spec.unwords
    (rev (Spec.withoutFirst ShoppingApi.trailingDescriptors
            (rev (Spec.withoutFirst ShoppingApi.leadingDescriptors
                    (Spec.words (Spec.lowerText name)))))).
Proof.
  unfold ShoppingApi.normalizeIngredientName.
  rewrite toLowerCase_lowerText, collapse_trim.
  unfold ShoppingApi.stripLeadingDescriptor.
  rewrite stripFirst_unwords;
    [|apply descriptors_blankFree|apply words_are_words].
  unfold ShoppingApi.stripTrailingDescriptor.
  apply stripLast_unwords; [apply descriptors_blankFree|].
  apply withoutFirst_words, words_are_words.
Qed.

(** The leading pattern and the descriptors of the specification
    differ on the misspelt words only. *)
Lemma leadingDescriptors_descriptors (w : string) :
  existsb (String.eqb w) Spec.misspelt = false ->
  existsb (String.eqb w) ShoppingApi.leadingDescriptors =
  existsb (String.eqb w) Spec.descriptors.
Proof.
  intros H.
  cbn [existsb ShoppingApi.leadingDescriptors Spec.descriptors Spec.misspelt]
    in *.
  repeat match goal with
         | |- context [String.eqb w ?x] =>
             let E := fresh "E" in
             destruct (String.eqb_spec w x) as [E|_];
             [try rewrite E in H; try rewrite E;
              first [reflexivity | vm_compute in H; discriminate H]|]
         end.
  reflexivity.
Qed.

(** Where the leading pattern is right, the code normalizes a name as
    the specification says. *)
Lemma normalizeIngredientName_normalized (name : string) :
  Spec.startsMisspelt name = false ->
  ShoppingApi.normalizeIngredientName name = Spec.normalized name.
Proof.
  intros H. rewrite normalizeIngredientName_words.
  unfold Spec.normalized, Spec.withoutTrailing, Spec.withoutLeading.
  change ShoppingApi.trailingDescriptors with Spec.trailingForms.
  do 4 f_equal. unfold Spec.startsMisspelt in H. unfold Spec.withoutFirst.
  destruct (Spec.words (Spec.lowerText name)) as [|w [|w2 rest]];
    try reflexivity.
  rewrite (leadingDescriptors_descriptors w H). reflexivity.
Qed.

(** *** The merge, in the words of the specification *)

Lemma sameUnit_spec (a b : option string) :
  MergeView.sameUnit a b = Spec.sameUnit a b.
Proof.
  unfold MergeView.sameUnit, Spec.sameUnit, ShoppingApi.unitKeyOf.
  rewrite !toLowerCase_lowerText.
  change (match a with Some s => s | None => "" end) with (Spec.unitText a).
  change (match b with Some s => s | None => "" end) with (Spec.unitText b).
  destruct (Spec.sameText (Spec.unitText a) (Spec.unitText b)) eqn:E.
  - apply sameText_lowerText in E. rewrite E. apply String.eqb_refl.
  - apply String.eqb_neq. intros F. apply sameText_lowerText in F.
    rewrite F in E. discriminate.
Qed.

Lemma summable_spec (first : ShoppingApi.PlannedIngredient)
    (rest : list ShoppingApi.PlannedIngredient) :
  MergeView.summable first (first :: rest) = Spec.summable (first :: rest).
Proof.
  unfold MergeView.summable, Spec.summable. f_equal.
  generalize (first :: rest). intros lines.
  induction lines as [|ing lines IH]; [reflexivity|].
  cbn [forallb]. rewrite IH, sameUnit_spec. reflexivity.
Qed.

(** Positive zero is one double. *)
Lemma posZero_unique (t : float) : classify t = PZero -> t = 0%float.
Proof.
  intros H. rewrite <- (SF2Prim_Prim2SF t). rewrite classify_spec in H.
  destruct (Prim2SF t) as [[]|[]| |[] m e]; cbn in H.
  all: try reflexivity.
  all: try discriminate H.
  all: exfalso; match type of H with
       | (if ?b then _ else _) = _ => destruct b; discriminate H
       end.
Qed.

(** [sum || 0] is the sum, unless the sum is NaN or negative zero. *)
Lemma numberOrZero_sum (t : float) :
  Spec.isSum t = true -> Js.numberOrZero (Some t) = t.
Proof.
  unfold Spec.isSum, Js.numberOrZero. intros H.
  destruct (classify t) eqn:C; try reflexivity; try discriminate H.
  symmetry. apply posZero_unique, C.
Qed.

Lemma total_sum (lines : list ShoppingApi.PlannedIngredient) :
  forall acc,
    Spec.sumsFrom acc lines = true ->
    fold_left (fun t ing => MergeView.addAmount t (ShoppingApi.pi_amount ing))
              lines acc =
    fold_left Spec.plus lines acc.
Proof.
  induction lines as [|ing lines IH]; intros acc H; [reflexivity|].
  cbn [Spec.sumsFrom] in H. apply andb_true_iff in H. destruct H as [Ha H].
  cbn [fold_left]. rewrite <- (IH _ H). f_equal.
  unfold MergeView.addAmount, Spec.plus.
  destruct (ShoppingApi.pi_amount ing); [|reflexivity].
  rewrite (numberOrZero_sum acc Ha). reflexivity.
Qed.

Lemma keyOf_nameOf (ing : ShoppingApi.PlannedIngredient) :
  Spec.startsMisspelt (ShoppingApi.pi_name ing) = false ->
  MergeView.keyOf ing = Spec.nameOf ing.
Proof. apply normalizeIngredientName_normalized. Qed.

(** Where the leading pattern is right, [mergeIngredients] merges as
    the specification says. *)
Lemma mergeIngredients_merges (ings : list ShoppingApi.PlannedIngredient) :
  Forall (fun ing => Spec.startsMisspelt (ShoppingApi.pi_name ing) = false)
         ings ->
  map ShoppingApi.name (ShoppingApi.mergeIngredients ings) =
    Spec.firstSeen (map Spec.nameOf ings) /\
  forall item, In item (ShoppingApi.mergeIngredients ings) ->
    exists first rest,
      Spec.linesNamed (ShoppingApi.name item) ings = first :: rest /\
      ShoppingApi.displayName item = ShoppingApi.pi_name first /\
      ShoppingApi.sources item = map Spec.occurrence (first :: rest) /\
      (Spec.summable (first :: rest) = true ->
       Spec.sumsFrom 0%float (first :: rest) = true ->
       ShoppingApi.amount item = Some (Spec.sum (first :: rest)) /\
       ShoppingApi.unit item = Spec.oneUnit (first :: rest)) /\
      (Spec.summable (first :: rest) = false ->
       ShoppingApi.amount item = ShoppingApi.pi_amount first /\
       ShoppingApi.unit item = ShoppingApi.pi_unit first).
Proof.
  intros Hspelt. rewrite Forall_forall in Hspelt.
  assert (Hkeys : forall ing, In ing ings ->
                    MergeView.keyOf ing = Spec.nameOf ing)
    by (intros ing Hin; apply keyOf_nameOf, Hspelt, Hin).
  split.
  - rewrite mergeIngredients_names. unfold MergeView.distinctKeys.
    f_equal. apply map_ext_in. exact Hkeys.
  - intros item Hin.
    destruct (mergeIngredients_items ings item Hin)
      as (first & rest & Eocc & Eitem).
    exists first, rest. split.
    { rewrite <- Eocc. unfold Spec.linesNamed, MergeView.occurrences.
      apply filter_ext_in. intros ing Hing. rewrite (Hkeys ing Hing).
      reflexivity. }
    rewrite Eitem. unfold MergeView.itemOf. cbv zeta.
    rewrite summable_spec.
    destruct (Spec.summable (first :: rest)) eqn:S;
      cbn [ShoppingApi.displayName ShoppingApi.sources ShoppingApi.amount
           ShoppingApi.unit].
    + split; [reflexivity|]. split; [reflexivity|]. split; [|discriminate].
      intros _ Hsums. split.
      * unfold MergeView.total, Spec.sum. rewrite (total_sum _ _ Hsums).
        reflexivity.
      * unfold Spec.oneUnit, ShoppingApi.unitOrNull, ShoppingApi.unitKeyOf.
        rewrite toLowerCase_lowerText. reflexivity.
    + split; [reflexivity|]. split; [reflexivity|]. split; [discriminate|].
      intros _. split; reflexivity.
Qed.

(** C6, evaluated where the code departs from the claim.  The claim
    merges two lines exactly when their normalized names are equal,
    the normalization stripping one of the leading descriptors
    vers/verse, biologisch(e), groot/grote, klein/kleine, rood/rode,
    groen/groene, geel/gele, wit/witte.  So "brood" and "wit brood"
    have the same normalized name and are one item with amount 2.  The
    leading pattern of [normalizeIngredientName],
    [/^(verse?|biologische?|grote?|kleine?|rode?|groene?|gele?|witte?)\s+/],
    writes each descriptor as a stem with an optional e, which for
    groot, rood, geel and wit gives grot(e), rod(e), gel(e) and witt(e):
    a leading wit, groot, rood or geel stays, and [mergeIngredients]
    returns "brood" and "wit brood" as two items.  The trailing pattern
    of the same function does strip wit, groot, rood and geel.  Where
    the pattern is right the code does what the claim says: "2 ui" and
    "1 rode ui" are one item with amount 3, "200 g bloem" and "1 kop
    bloem" one item that keeps 200 g and has both lines as sources;
    lines whose names and units differ in case and white space only
    are summed, as are a line whose unit is the empty text and a line
    without unit; and a line without amount makes the item keep the
    first line's amount and unit.  In general, for ASCII text: a name
    that does not start with one of the words the pattern gets wrong
    (groot, rood, geel, wit, grot, rod, gel, witt, followed by another
    word) is normalized by the code as the claim says; and for lines
    with such names the items are the distinct normalized names in
    first-seen order, each with the first line's name as displayName,
    its lines in encounter order as sources, the sum of the amounts
    and the one unit when every line has an amount and the units are
    identical with case ignored, and the first line's amount and unit
    otherwise.  (The sum is that of the doubles added from 0 in
    encounter order, stated where no partial sum is NaN.) *)
Theorem mergeIngredients_keeps_leading_descriptor :
  map Spec.normalized ["brood"; "wit brood"] = ["brood"; "brood"] /\
  map ShoppingApi.normalizeIngredientName ["brood"; "wit brood"] =
    ["brood"; "wit brood"] /\
  ShoppingApi.mergeIngredients Spec.twoBreads =
    [ShoppingApi.mkItem "brood" "brood" (Some 1%float) None
       "Pasta, Rijst & Granen"
       [ShoppingApi.mkSource "Ontbijt" 6 (Some 1%float) None];
     ShoppingApi.mkItem "wit brood" "wit brood" (Some 1%float) None
       "Pasta, Rijst & Granen"
       [ShoppingApi.mkSource "Lunch" 7 (Some 1%float) None]] /\
  map Spec.normalized ["groot ei"; "rood fruit"; "geel fruit"] =
    ["ei"; "fruit"; "fruit"] /\
  map ShoppingApi.normalizeIngredientName
      ["groot ei"; "rood fruit"; "geel fruit"] =
    ["groot ei"; "rood fruit"; "geel fruit"] /\
  map ShoppingApi.normalizeIngredientName
      ["witt brood"; "grot ei"; "rod fruit"; "gel fruit"] =
    ["brood"; "ei"; "fruit"; "fruit"] /\
  map ShoppingApi.normalizeIngredientName
      ["brood wit"; "ei groot"; "fruit rood"; "fruit geel"] =
    ["brood"; "ei"; "fruit"; "fruit"] /\
  map Spec.normalized
      ["ui"; "rode ui"; "  Verse   Basilicum "; "Ui  groot"; "witte bonen";
       " Extra   vierge  Olijfolie"] =
    ["ui"; "ui"; "basilicum"; "ui"; "bonen"; "extra vierge olijfolie"] /\
  map ShoppingApi.normalizeIngredientName
      ["ui"; "rode ui"; "  Verse   Basilicum "; "Ui  groot"; "witte bonen";
       " Extra   vierge  Olijfolie"] =
    ["ui"; "ui"; "basilicum"; "ui"; "bonen"; "extra vierge olijfolie"] /\
  ShoppingApi.mergeIngredients Spec.twoOnions =
    [ShoppingApi.mkItem "ui" "ui" (Some 3%float) None "Groente & Fruit"
       [ShoppingApi.mkSource "Uiensoep" 1 (Some 2%float) None;
        ShoppingApi.mkSource "Salade" 2 (Some 1%float) None]] /\
  ShoppingApi.mergeIngredients Spec.flourTwice =
    [ShoppingApi.mkItem "bloem" "bloem" (Some 200%float) (Some "g") "Overig"
       [ShoppingApi.mkSource "Brood" 3 (Some 200%float) (Some "g");
        ShoppingApi.mkSource "Pannenkoeken" 4 (Some 1%float) (Some "kop")]] /\
  ShoppingApi.mergeIngredients Spec.flourInGrams =
    [ShoppingApi.mkItem "bloem" "Bloem" (Some 250%float) (Some "g") "Overig"
       [ShoppingApi.mkSource "Brood" 3 (Some 200%float) (Some "G");
        ShoppingApi.mkSource "Koek" 5 (Some 50%float) (Some "g")]] /\
  ShoppingApi.mergeIngredients Spec.pepperToTaste =
    [ShoppingApi.mkItem "peper" "peper" None None "Kruiden & Specerijen"
       [ShoppingApi.mkSource "Soep" 8 None None;
        ShoppingApi.mkSource "Saus" 9 (Some 1%float) (Some "tl")]] /\
  ShoppingApi.mergeIngredients Spec.saltTwice =
    [ShoppingApi.mkItem "zout" "zout" (Some 3%float) None
       "Kruiden & Specerijen"
       [ShoppingApi.mkSource "Soep" 8 (Some 1%float) (Some "");
        ShoppingApi.mkSource "Saus" 9 (Some 2%float) None]] /\
  map Spec.startsMisspelt ["brood"; "wit brood"; "wit"; "rode ui"; "ui"] =
    [false; true; false; false; false] /\
  map (fun lines =>
         (forallb (fun ing =>
                     andb (Spec.plainLine ing)
                          (negb (Spec.startsMisspelt
                                   (ShoppingApi.pi_name ing)))) lines,
          Spec.summable lines, Spec.sumsFrom 0%float lines))
      [Spec.twoBreads; Spec.twoOnions; Spec.flourTwice; Spec.flourInGrams;
       Spec.pepperToTaste; Spec.saltTwice] =
    [(false, true, true); (true, true, true); (true, false, true);
     (true, true, true); (true, false, true); (true, true, true)] /\
  (forall name : string,
     Js.isAscii name = true -> Spec.startsMisspelt name = false ->
     ShoppingApi.normalizeIngredientName name = Spec.normalized name) /\
  (forall ings : list ShoppingApi.PlannedIngredient,
     Forall (fun ing =>
               Spec.plainLine ing = true /\
               Spec.startsMisspelt (ShoppingApi.pi_name ing) = false) ings ->
     map ShoppingApi.name (ShoppingApi.mergeIngredients ings) =
       Spec.firstSeen (map Spec.nameOf ings) /\
     forall item, In item (ShoppingApi.mergeIngredients ings) ->
       exists first rest,
         Spec.linesNamed (ShoppingApi.name item) ings = first :: rest /\
         ShoppingApi.displayName item = ShoppingApi.pi_name first /\
         ShoppingApi.sources item = map Spec.occurrence (first :: rest) /\
         (Spec.summable (first :: rest) = true ->
          Spec.sumsFrom 0%float (first :: rest) = true ->
          ShoppingApi.amount item = Some (Spec.sum (first :: rest)) /\
          ShoppingApi.unit item = Spec.oneUnit (first :: rest)) /\
         (Spec.summable (first :: rest) = false ->
          ShoppingApi.amount item = ShoppingApi.pi_amount first /\
          ShoppingApi.unit item = ShoppingApi.pi_unit first)).
Proof.
  repeat match goal with |- _ /\ _ => split end.
  all: match goal with
       | |- forall _, _ => idtac
       | _ => vm_compute; reflexivity
       end.
  - intros name _ Hspelt. apply normalizeIngredientName_normalized, Hspelt.
  - intros ings Hlines. apply mergeIngredients_merges.
    apply (Forall_impl _ (P := fun ing =>
             Spec.plainLine ing = true /\
             Spec.startsMisspelt (ShoppingApi.pi_name ing) = false));
      [intros ing [_ Hspelt]; exact Hspelt | exact Hlines].
Qed.

(** *** Categories *)







(** ** Accepting and rejecting: what the handlers leave behind *)

Lemma Db_eta (db : Db) :
  mkDb (recipes db) (mealHistory db) (suggestions db) (weekPlan db)
       (nextMealId db) (nextSuggestionId db) = db.
Proof. destruct db; reflexivity. Qed.

Lemma map_unless {A : Type} (p : A -> bool) (f : A -> A) (l : list A) :
  (forall x, In x l -> p x = false) ->
  map (fun x => if p x then f x else x) l = l.
Proof.
  induction l as [|a l IH]; intros H; [reflexivity|].
  cbn [map]. rewrite (H a (or_introl eq_refl)).
  f_equal. apply IH. intros x Hx. apply H. right. exact Hx.
Qed.

Lemma find_markAll (sid : Z) (st : Status) (l : list Suggestion) :
  find (fun x => s_id x =? sid) (Outcome.markAll sid st l) =
  option_map (SuggestionService.withStatus st)
             (find (fun x => s_id x =? sid) l).
Proof.
  unfold Outcome.markAll.
  induction l as [|a l IH]; [reflexivity|].
  cbn [map find]. destruct (s_id a =? sid) eqn:E.
  - cbn [SuggestionService.withStatus s_id]. rewrite E. reflexivity.
  - rewrite E. exact IH.
Qed.

Lemma acceptSuggestion_run (w : World) (sid : Z) (db : Db) :
  SuggestionService.acceptSuggestion w sid db =
  match SuggestionService.findSuggestion sid db with
  | None => (inl SuggestionNotFound, db)
  | Some s =>
      (inr true,
       Outcome.afterAccept w sid (SuggestionService.withStatus accepted s) db)
  end.
Proof.
  unfold SuggestionService.acceptSuggestion,
    SuggestionService.updateStatusWhere, SuggestionService.setSuggestions,
    SuggestionService.insertMeal, SuggestionService.findSuggestion,
    bind, update, query, throw, ret.
  cbn [suggestions].
  change (map (fun s => if s_id s =? sid
                        then SuggestionService.withStatus accepted s else s)
              (suggestions db))
    with (Outcome.markAll sid accepted (suggestions db)).
  rewrite find_markAll.
  destruct (find (fun x => s_id x =? sid) (suggestions db)) as [s|] eqn:F;
    cbn [option_map].
  - reflexivity.
  - unfold Outcome.markAll. rewrite map_unless.
    + rewrite Db_eta. reflexivity.
    + intros x Hx. exact (find_none _ _ F x Hx).
Qed.

(** X1. [acceptSuggestion] on an id that no row of [suggestions] has
    throws 'Suggestion not found' and leaves the database as it was: no
    status is changed and no meal is logged. *)
Theorem acceptSuggestion_unknown_id :
  forall (w : World) (suggestionId : Z) (db : Db),
    SuggestionService.findSuggestion suggestionId db = None ->
    SuggestionService.acceptSuggestion w suggestionId db =
    (inl SuggestionNotFound, db).
Proof.
  intros w sid db H. rewrite acceptSuggestion_run, H. reflexivity.
Qed.

Lemma acceptSuggestion_unknown_id_witness :
  SuggestionService.acceptSuggestion Fixtures.july 7 Fixtures.lunchLogged =
  (inl SuggestionNotFound, Fixtures.lunchLogged).
Proof. apply acceptSuggestion_unknown_id. reflexivity. Defined.

Lemma insert_map {A B : Type} (before : A -> A -> bool)
    (before' : B -> B -> bool) (f : A -> B) (x : A) (l : list A) :
  (forall a b, before' (f a) (f b) = before a b) ->
  Js.insert before' (f x) (map f l) = map f (Js.insert before x l).
Proof.
  intros H. induction l as [|y l IH]; [reflexivity|].
  cbn [map Js.insert]. rewrite H.
  destruct (before x y); [reflexivity|].
  cbn [map]. f_equal. exact IH.
Qed.

Lemma sort_map {A B : Type} (before : A -> A -> bool)
    (before' : B -> B -> bool) (f : A -> B) (l : list A) :
  (forall a b, before' (f a) (f b) = before a b) ->
  Js.sort before' (map f l) = map f (Js.sort before l).
Proof.
  intros H. induction l as [|x l IH]; [reflexivity|].
  cbn [map Js.sort]. rewrite IH. apply insert_map. exact H.
Qed.

Lemma filter_map_commute {A : Type} (p : A -> bool) (f : A -> A)
    (l : list A) :
  (forall x, p (f x) = p x) ->
  filter p (map f l) = map f (filter p l).
Proof.
  intros H. induction l as [|x l IH]; [reflexivity|].
  cbn [map filter]. rewrite H. destruct (p x); cbn [map]; now rewrite IH.
Qed.

(** Changing the status of rows by id keeps the rows of a day and
    their order by creation time. *)
Lemma todaysRows_markAll (today : Date) (sid : Z) (st : Status)
    (rows : list Suggestion) :
  filter (fun s => s_suggestedFor s =? today) (Outcome.markAll sid st rows) =
  Outcome.markAll sid st (filter (fun s => s_suggestedFor s =? today) rows).
Proof.
  unfold Outcome.markAll. apply filter_map_commute.
  intros x. destruct (s_id x =? sid); reflexivity.
Qed.

Lemma orderByDesc_markAll (sid : Z) (st : Status) (rows : list Suggestion) :
  orderByDesc s_createdAt (Outcome.markAll sid st rows) =
  Outcome.markAll sid st (orderByDesc s_createdAt rows).
Proof.
  unfold orderByDesc, Outcome.markAll. apply sort_map.
  intros a b. destruct (s_id a =? sid), (s_id b =? sid); reflexivity.
Qed.

Lemma hd_error_map {A B : Type} (f : A -> B) (l : list A) :
  hd_error (map f l) = option_map f (hd_error l).
Proof. destruct l; reflexivity. Qed.

Lemma latestRow_marked (today : Date) (sid : Z) (st : Status) (db db' : Db) :
  suggestions db' = Outcome.markAll sid st (suggestions db) ->
  Spec.latestRow today db' =
  option_map (fun x => if s_id x =? sid
                       then SuggestionService.withStatus st x else x)
             (Spec.latestRow today db).
Proof.
  intros H. unfold Spec.latestRow, SuggestionService.todaysRows.
  rewrite H, todaysRows_markAll, orderByDesc_markAll.
  unfold Outcome.markAll. apply hd_error_map.
Qed.

Lemma latestRow_In (today : Date) (db : Db) (s : Suggestion) :
  Spec.latestRow today db = Some s ->
  In s (suggestions db) /\ s_suggestedFor s = today.
Proof.
  unfold Spec.latestRow, SuggestionService.todaysRows. intros H.
  apply orderByDesc_head in H. destruct H as [H _].
  apply filter_In in H. destruct H as [H1 H2].
  split; [exact H1|]. apply Z.eqb_eq. exact H2.
Qed.

Lemma find_some_of_In (sid : Z) (s : Suggestion) (l : list Suggestion) :
  In s l -> s_id s = sid ->
  exists s', find (fun x => s_id x =? sid) l = Some s'.
Proof.
  intros Hin Hid.
  destruct (find (fun x => s_id x =? sid) l) as [s'|] eqn:F.
  - exists s'. reflexivity.
  - exfalso. pose proof (find_none _ _ F s Hin) as N. cbv beta in N.
    rewrite Hid, Z.eqb_refl in N. discriminate.
Qed.

(** X2. Accepting the suggestion that is shown for a day makes it the
    suggestion [getTodaySuggestion] answers on that day, now with the
    status accepted and the same recipe; the read generates nothing
    and writes nothing. *)
Theorem acceptSuggestion_then_getTodaySuggestion :
  forall (w w' : World) (db : Db) (s : Suggestion),
    Spec.latestRow (todayOf w') db = Some s ->
    let run := SuggestionService.acceptSuggestion w (s_id s) db in
    fst run = inr true /\
    SuggestionService.getTodaySuggestion w' (snd run) =
    (inr (Some (SuggestionService.withStatus accepted s,
                SuggestionService.findRecipe (s_recipeId s) db)),
     snd run).
Proof.
  intros w w' db s L run. subst run.
  destruct (latestRow_In _ _ _ L) as [Hin _].
  destruct (find_some_of_In (s_id s) s _ Hin eq_refl) as [s0 F].
  rewrite acceptSuggestion_run.
  unfold SuggestionService.findSuggestion. rewrite F.
  cbn [fst snd]. split; [reflexivity|].
  rewrite getTodaySuggestion_cases.
  rewrite (latestRow_marked (todayOf w') (s_id s) accepted db)
    by reflexivity.
  rewrite L. cbn [option_map]. rewrite Z.eqb_refl.
  cbn [SuggestionService.withStatus s_status s_recipeId].
  reflexivity.
Qed.

Lemma acceptSuggestion_then_getTodaySuggestion_witness :
  SuggestionService.getTodaySuggestion Fixtures.july
    (snd (SuggestionService.acceptSuggestion Fixtures.july 2
            Fixtures.saladeAfterStamppot)) =
  (inr (Some (SuggestionService.withStatus accepted Fixtures.pendingSalade,
              Some Fixtures.salade)),
   snd (SuggestionService.acceptSuggestion Fixtures.july 2
          Fixtures.saladeAfterStamppot)).
Proof.
  exact (proj2 (acceptSuggestion_then_getTodaySuggestion Fixtures.july
                  Fixtures.july Fixtures.saladeAfterStamppot
                  Fixtures.pendingSalade eq_refl)).
Defined.

(** *** The score after a meal was logged *)

Lemma eatenAts_afterAccept (w : World) (sid : Z) (s : Suggestion) (db : Db)
    (rid : Z) :
  Spec.eatenAts rid (Outcome.afterAccept w sid s db) =
  Spec.eatenAts rid db ++ (if s_recipeId s =? rid then [now w] else []).
Proof.
  unfold Spec.eatenAts, Outcome.afterAccept. cbn [mealHistory].
  rewrite filter_app, map_app. cbn [filter mh_recipeId].
  destruct (s_recipeId s =? rid); reflexivity.
Qed.

Lemma recencyScore_mono (a b : Z) :
  a <= b -> Spec.recencyScore a <= Spec.recencyScore b.
Proof.
  intros H. unfold Spec.recencyScore.
  destruct (Z.ltb_spec a 3); destruct (Z.ltb_spec b 3);
    destruct (Z.leb_spec a 6); destruct (Z.leb_spec b 6);
    destruct (Z.leb_spec a 13); destruct (Z.leb_spec b 13); lia.
Qed.

Lemma recencyScore_range (a : Z) : 0 <= Spec.recencyScore a <= 40.
Proof.
  unfold Spec.recencyScore.
  destruct (a <? 3); [lia|]. destruct (a <=? 6); [lia|].
  destruct (a <=? 13); lia.
Qed.

Lemma differenceInDays_mono (t a b : Instant) :
  a <= b ->
  SuggestionService.differenceInDays t b <=
  SuggestionService.differenceInDays t a.
Proof.
  intros H. unfold SuggestionService.differenceInDays, secondsPerDay.
  apply Z.quot_le_mono; lia.
Qed.

Lemma differenceInDays_recent (t a : Instant) (n : Z) :
  0 < n -> t < a + n * secondsPerDay ->
  SuggestionService.differenceInDays t a < n.
Proof.
  intros Hn H. unfold SuggestionService.differenceInDays, secondsPerDay in *.
  destruct (Z.le_gt_cases 0 (t - a)) as [P|N].
  - apply Z.quot_lt_upper_bound; lia.
  - assert ((t - a) ÷ 86400 <= 0 ÷ 86400) by (apply Z.quot_le_mono; lia).
    rewrite Z.quot_0_l in H0 by lia. lia.
Qed.

(** The last instant of a history that got one more entry. *)
Lemma last_eaten_snoc (t : Z) (ts : list Z) (x : Z) :
  fold_right Z.max t ts <= fold_right Z.max t (ts ++ [x]) /\
  x <= fold_right Z.max t (ts ++ [x]).
Proof.
  destruct (fold_max_spec t ts) as [Hin _].
  destruct (fold_max_spec t (ts ++ [x])) as [_ Hmax].
  split; apply Hmax.
  - destruct Hin as [E|Hin]; [left; exact E|].
    right. apply in_or_app. left. exact Hin.
  - right. apply in_or_app. right. left. reflexivity.
Qed.

Lemma daysSince_other_recipe (w w' : World) (sid : Z) (s : Suggestion)
    (db : Db) (rid : Z) :
  rid <> s_recipeId s ->
  Spec.daysSinceLastEaten w' rid (Outcome.afterAccept w sid s db) =
  Spec.daysSinceLastEaten w' rid db.
Proof.
  intros H. unfold Spec.daysSinceLastEaten.
  rewrite eatenAts_afterAccept.
  destruct (Z.eqb_spec (s_recipeId s) rid) as [E|_]; [congruence|].
  rewrite app_nil_r. reflexivity.
Qed.

Lemma recency_never_rises (w w' : World) (sid : Z) (s : Suggestion)
    (db : Db) (rid : Z) :
  Spec.recencyScore
    (Spec.daysSinceLastEaten w' rid (Outcome.afterAccept w sid s db)) <=
  Spec.recencyScore (Spec.daysSinceLastEaten w' rid db).
Proof.
  unfold Spec.daysSinceLastEaten. rewrite eatenAts_afterAccept.
  destruct (s_recipeId s =? rid).
  - destruct (Spec.eatenAts rid db) as [|t ts].
    + change (Spec.recencyScore 999) with 40. apply recencyScore_range.
    + cbn [app]. apply recencyScore_mono, differenceInDays_mono.
      apply last_eaten_snoc.
  - rewrite app_nil_r. lia.
Qed.

Lemma recency_after_meal (w w' : World) (sid : Z) (s : Suggestion)
    (db : Db) :
  now w' < now w + 3 * secondsPerDay ->
  Spec.recencyScore
    (Spec.daysSinceLastEaten w' (s_recipeId s)
       (Outcome.afterAccept w sid s db)) = 0.
Proof.
  intros H. unfold Spec.daysSinceLastEaten. rewrite eatenAts_afterAccept.
  rewrite Z.eqb_refl.
  assert (R : forall d, d < 3 -> Spec.recencyScore d = 0).
  { intros d Hd. unfold Spec.recencyScore.
    destruct (Z.ltb_spec d 3); [reflexivity|lia]. }
  apply R.
  destruct (Spec.eatenAts (s_recipeId s) db) as [|t ts]; cbn [app].
  - cbn [fold_right]. apply differenceInDays_recent; lia.
  - pose proof (last_eaten_snoc t ts (now w)) as [_ Hx].
    apply differenceInDays_recent; [lia|].
    eapply Z.lt_le_trans; [exact H|].
    apply Z.add_le_mono_r. exact Hx.
Qed.

(** X3. Accepting a suggestion logs a meal, and the logged meal only
    ever lowers the score of the recipe eaten: for every recipe and
    every later clock the season and weather parts of [scoreRecipe] are
    what they were, the recency part and the total are at most what
    they were, the score of every other recipe is unchanged, and for
    the three days after the meal the recency part of the recipe eaten
    is 0. *)
Theorem acceptSuggestion_lowers_only_its_recipe :
  forall (w w' : World) (suggestionId : Z) (s : Suggestion) (db : Db)
         (recipe : Recipe) (weather : WeatherSnapshot)
         (currentSeason : Season) (weatherTags : list WeatherTag),
    SuggestionService.findSuggestion suggestionId db = Some s ->
    let db' := snd (SuggestionService.acceptSuggestion w suggestionId db) in
    exists before after,
      SuggestionService.scoreRecipe w' recipe weather currentSeason
        weatherTags db = (inr before, db) /\
      SuggestionService.scoreRecipe w' recipe weather currentSeason
        weatherTags db' = (inr after, db') /\
      SuggestionService.seasonScore after =
        SuggestionService.seasonScore before /\
      SuggestionService.weatherScore after =
        SuggestionService.weatherScore before /\
      SuggestionService.recencyScore after <=
        SuggestionService.recencyScore before /\
      SuggestionService.totalScore after <=
        SuggestionService.totalScore before /\
      (r_id recipe <> s_recipeId s -> after = before) /\
      (r_id recipe = s_recipeId s ->
       now w' < now w + 3 * secondsPerDay ->
       SuggestionService.recencyScore after = 0).
Proof.
  intros w w' sid s db recipe weather season tags F db'. subst db'.
  rewrite acceptSuggestion_run, F. cbn [snd].
  set (s' := SuggestionService.withStatus accepted s).
  assert (Hs' : s_recipeId s' = s_recipeId s) by reflexivity.
  exists (Spec.scoreOf w' season tags db recipe),
         (Spec.scoreOf w' season tags (Outcome.afterAccept w sid s' db) recipe).
  rewrite !scoreRecipe_scoreOf.
  pose proof (recency_never_rises w w' sid s' db (r_id recipe)) as Hle.
  unfold Spec.scoreOf.
  cbn [SuggestionService.seasonScore SuggestionService.weatherScore
       SuggestionService.recencyScore SuggestionService.totalScore].
  repeat split; try reflexivity; try lia.
  - intros Hne. rewrite daysSince_other_recipe by congruence. reflexivity.
  - intros He Hnow. rewrite He, <- Hs'. apply recency_after_meal. exact Hnow.
Qed.

Lemma acceptSuggestion_lowers_only_its_recipe_witness :
  exists before after,
    SuggestionService.scoreRecipe Fixtures.july Fixtures.salade
      Fixtures.clearSky zomer [warm; zonnig] Fixtures.saladeAfterStamppot =
      (inr before, Fixtures.saladeAfterStamppot) /\
    SuggestionService.scoreRecipe Fixtures.july Fixtures.salade
      Fixtures.clearSky zomer [warm; zonnig]
      (snd (SuggestionService.acceptSuggestion Fixtures.july 2
              Fixtures.saladeAfterStamppot)) =
      (inr after,
       snd (SuggestionService.acceptSuggestion Fixtures.july 2
              Fixtures.saladeAfterStamppot)) /\
    SuggestionService.totalScore after <= SuggestionService.totalScore before.
Proof.
  destruct (acceptSuggestion_lowers_only_its_recipe Fixtures.july
              Fixtures.july 2 Fixtures.pendingSalade
              Fixtures.saladeAfterStamppot Fixtures.salade Fixtures.clearSky
              zomer [warm; zonnig] eq_refl)
    as (before & after & H1 & H2 & _ & _ & _ & H3 & _).
  exists before, after. repeat split; assumption.
Defined.

(** *** Generation reads, and what it stores is what is shown next *)

Lemma generateSuggestion_reads (depth : nat) (w : World)
    (excludeIds : list Z) (db : Db) :
  snd (SuggestionService.generateSuggestion depth w excludeIds db) = db.
Proof.
  revert excludeIds. induction depth as [|depth IH]; intros ex;
    [reflexivity|].
  cbn [SuggestionService.generateSuggestion].
  unfold bind, query, throw, ret.
  destruct (length (filter (fun r => negb (Js.includesZ ex (r_id r)))
                           (recipes db)) =? 0)%nat.
  - destruct (length (recipes db) =? 0)%nat; [reflexivity|apply IH].
  - rewrite mapM_scoreRecipe.
    destruct (SuggestionService.nthZ _ _) as [sel|]; [|reflexivity].
    destruct (find _ _); reflexivity.
Qed.

Lemma find_in_pool (excludeIds : list Z) (l : list Recipe) (rid : Z)
    (r : Recipe) :
  find (fun x => r_id x =? rid)
       (filter (fun x => negb (Js.includesZ excludeIds (r_id x))) l) = Some r ->
  find (fun x => r_id x =? rid) l = Some r.
Proof.
  induction l as [|h l IH]; [discriminate|].
  cbn [filter find].
  destruct (negb (Js.includesZ excludeIds (r_id h))) eqn:Q.
  - cbn [find]. destruct (r_id h =? rid); [trivial|exact IH].
  - intros F. destruct (Z.eqb_spec (r_id h) rid) as [E|_]; [|exact (IH F)].
    exfalso. apply find_some in F. destruct F as [Hin Hid].
    apply filter_In in Hin. destruct Hin as [_ Hq].
    apply Z.eqb_eq in Hid. rewrite Hid, <- E, Q in Hq. discriminate.
Qed.

Lemma generateSuggestion_found (depth : nat) (w : World)
    (excludeIds : list Z) (db db' : Db) (g : SuggestionService.Generated) :
  SuggestionService.generateSuggestion depth w excludeIds db =
    (inr (Some g), db') ->
  SuggestionService.findRecipe (r_id (SuggestionService.g_recipe g)) db =
    Some (SuggestionService.g_recipe g).
Proof.
  revert excludeIds. induction depth as [|depth IH]; intros ex;
    [discriminate|].
  cbn [SuggestionService.generateSuggestion].
  unfold bind, query, throw, ret.
  destruct (length (filter (fun r => negb (Js.includesZ ex (r_id r)))
                           (recipes db)) =? 0)%nat.
  - destruct (length (recipes db) =? 0)%nat; [discriminate|apply IH].
  - rewrite mapM_scoreRecipe.
    destruct (SuggestionService.nthZ _ _) as [sel|]; [|discriminate].
    destruct (find _ _) as [r|] eqn:F; [|discriminate].
    intros E. injection E as E _. subst g.
    cbn [SuggestionService.g_recipe].
    pose proof (find_some _ _ F) as [_ Hid]. apply Z.eqb_eq in Hid.
    unfold SuggestionService.findRecipe. rewrite Hid.
    eapply find_in_pool. exact F.
Qed.

Lemma generateAndStore_inv (w : World) (today : Date) (db db' : Db)
    (row : Suggestion) (recipe : Recipe) :
  SuggestionService.generateAndStore w today db =
    (inr (Some (row, recipe)), db') ->
  exists g,
    SuggestionService.generateSuggestion SuggestionService.callDepth w
      (Spec.suggestedIds today db) db = (inr (Some g), db) /\
    row = Spec.pendingRow w today db g /\
    recipe = SuggestionService.g_recipe g /\
    db' = Spec.withRow db row.
Proof.
  unfold SuggestionService.generateAndStore, bind, query, ret.
  fold (Spec.suggestedIds today db).
  pose proof (generateSuggestion_reads SuggestionService.callDepth w
                (Spec.suggestedIds today db) db) as R.
  destruct (SuggestionService.generateSuggestion _ w _ db)
    as [[e|[[r sc we]|]] db1]; cbn [snd] in R; subst db1;
    try discriminate.
  unfold SuggestionService.insertSuggestion.
  intros E. injection E as E1 E2 E3. subst row recipe db'.
  eexists. split; [reflexivity|]. repeat split.
Qed.

Lemma generateAndStore_frame (w : World) (today : Date) (db : Db) :
  let db' := snd (SuggestionService.generateAndStore w today db) in
  recipes db' = recipes db /\ mealHistory db' = mealHistory db /\
  weekPlan db' = weekPlan db.
Proof.
  unfold SuggestionService.generateAndStore, bind, query, ret.
  pose proof (generateSuggestion_reads SuggestionService.callDepth w
                (map s_recipeId (SuggestionService.todaysRows today db)) db)
    as R.
  destruct (SuggestionService.generateSuggestion _ w _ db)
    as [[e|[[r sc we]|]] db1]; cbn [snd] in R; subst db1; cbn;
    repeat split.
Qed.

Lemma orderByDesc_newest_last {A : Type} (col : A -> Z) (l : list A)
    (x : A) :
  (forall y, In y l -> col y < col x) ->
  orderByDesc col (l ++ [x]) = x :: orderByDesc col l.
Proof.
  unfold orderByDesc. induction l as [|a l IH]; intros H; [reflexivity|].
  cbn [app Js.sort]. rewrite IH by (intros y Hy; apply H; right; exact Hy).
  cbn [Js.insert].
  destruct (Z.leb_spec (col x) (col a)) as [L|_]; [|reflexivity].
  specialize (H a (or_introl eq_refl)). lia.
Qed.

Lemma latestRow_withRow (today : Date) (db : Db) (row : Suggestion) :
  s_suggestedFor row = today ->
  (forall x, In x (SuggestionService.todaysRows today db) ->
             s_createdAt x < s_createdAt row) ->
  Spec.latestRow today (Spec.withRow db row) = Some row.
Proof.
  intros Hd Hnew. unfold Spec.latestRow, SuggestionService.todaysRows,
    Spec.withRow. cbn [suggestions].
  rewrite filter_app. cbn [filter]. rewrite Hd, Z.eqb_refl.
  rewrite orderByDesc_newest_last by exact Hnew. reflexivity.
Qed.

(** The row [generateAndStore] has just stored is the latest of the
    day, provided the rows of the day are older than the clock. *)
Lemma generateAndStore_latest (w : World) (today : Date) (db db' : Db)
    (row : Suggestion) (recipe : Recipe) :
  (forall x, In x (SuggestionService.todaysRows today db) ->
             s_createdAt x < now w) ->
  SuggestionService.generateAndStore w today db =
    (inr (Some (row, recipe)), db') ->
  Spec.latestRow today db' = Some row /\
  s_status row = pending /\
  SuggestionService.findRecipe (s_recipeId row) db' = Some recipe.
Proof.
  intros Hold G. apply generateAndStore_inv in G.
  destruct G as (g & G & Hrow & Hrec & Hdb). subst db'.
  split; [|split].
  - apply latestRow_withRow; subst row; [reflexivity|exact Hold].
  - subst row. reflexivity.
  - subst row recipe. cbn [Spec.pendingRow s_recipeId].
    apply generateSuggestion_found in G. exact G.
Qed.

Lemma rejectSuggestion_run (w : World) (sid : Z) (db : Db) :
  SuggestionService.rejectSuggestion w sid db =
  SuggestionService.generateAndStore w (todayOf w)
    (Outcome.afterMarkRejected w sid db).
Proof.
  unfold SuggestionService.rejectSuggestion, Outcome.afterMarkRejected,
    Outcome.historyAfterReject, SuggestionService.updateStatusWhere,
    SuggestionService.setSuggestions, SuggestionService.deleteMealsWhere,
    bind, update, query, ret.
  destruct (SuggestionService.findSuggestion sid db) as [s|];
    [destruct (Status_eqb (s_status s) accepted)|]; reflexivity.
Qed.

Lemma filter_keeps_all {A : Type} (p : A -> bool) (l : list A) :
  (forall x, In x l -> p x = true) -> filter p l = l.
Proof.
  induction l as [|a l IH]; intros H; [reflexivity|].
  cbn [filter]. rewrite (H a (or_introl eq_refl)).
  f_equal. apply IH. intros x Hx. apply H. right. exact Hx.
Qed.

Lemma now_inToday (w w' : World) (rid mid : Z) :
  todayOf w' = todayOf w ->
  SuggestionService.eatenToday w' rid (mkMeal mid rid (now w)) = true.
Proof.
  intros H. unfold SuggestionService.eatenToday,
    SuggestionService.tomorrowStart, SuggestionService.todayStart.
  rewrite H. unfold todayOf, secondsPerDay. cbn [mh_recipeId mh_eatenAt].
  rewrite Z.eqb_refl. cbn [andb].
  pose proof (Z.mul_div_le (now w) 86400 eq_refl).
  pose proof (Z.mul_succ_div_gt (now w) 86400 eq_refl).
  apply andb_true_intro. split; [apply Z.geb_le|apply Z.ltb_lt]; lia.
Qed.

(** X4. Rejecting a suggestion on the day it was accepted takes the
    meal that accepting logged out of the history again: when the
    history had no entry for that recipe on that day before, the
    history after both calls is the history before them. *)
Theorem rejectSuggestion_undoes_acceptSuggestion :
  forall (w w' : World) (suggestionId : Z) (s : Suggestion) (db : Db),
    SuggestionService.findSuggestion suggestionId db = Some s ->
    todayOf w' = todayOf w ->
    (forall e, In e (mealHistory db) -> mh_recipeId e = s_recipeId s ->
               ~ Spec.inToday w e) ->
    mealHistory
      (snd (SuggestionService.rejectSuggestion w' suggestionId
              (snd (SuggestionService.acceptSuggestion w suggestionId db)))) =
    mealHistory db.
Proof.
  intros w w' sid s db F Hday Hnone.
  rewrite acceptSuggestion_run, F. cbn [snd].
  rewrite rejectSuggestion_run.
  destruct (generateAndStore_frame w' (todayOf w')
              (Outcome.afterMarkRejected w' sid
                 (Outcome.afterAccept w sid
                    (SuggestionService.withStatus accepted s) db)))
    as (_ & H & _).
  rewrite H. clear H.
  unfold Outcome.afterMarkRejected. cbn [mealHistory].
  unfold Outcome.historyAfterReject, SuggestionService.findSuggestion,
    Outcome.afterAccept at 1.
  cbn [suggestions]. rewrite find_markAll.
  unfold SuggestionService.findSuggestion in F. rewrite F.
  cbn [option_map SuggestionService.withStatus s_status s_recipeId
       Status_eqb].
  unfold Outcome.afterAccept. cbn [mealHistory s_recipeId].
  rewrite filter_app. cbn [filter].
  rewrite now_inToday by exact Hday. cbn [negb]. rewrite app_nil_r.
  apply filter_keeps_all. intros e He.
  destruct (SuggestionService.eatenToday w' (s_recipeId s) e) eqn:E;
    [|reflexivity].
  exfalso. apply eatenToday_spec in E. destruct E as [E1 E2].
  apply (Hnone e He E1).
  unfold Spec.inToday, SuggestionService.tomorrowStart,
    SuggestionService.todayStart in *.
  rewrite <- Hday. exact E2.
Qed.

Lemma rejectSuggestion_undoes_acceptSuggestion_witness :
  mealHistory
    (snd (SuggestionService.rejectSuggestion Fixtures.july 2
            (snd (SuggestionService.acceptSuggestion Fixtures.july 2
                    Fixtures.saladeAfterStamppot)))) =
  mealHistory Fixtures.saladeAfterStamppot.
Proof.
  apply (rejectSuggestion_undoes_acceptSuggestion Fixtures.july Fixtures.july
           2 Fixtures.pendingSalade Fixtures.saladeAfterStamppot).
  - reflexivity.
  - reflexivity.
  - intros e [].
Defined.

(** X5. Rejecting a suggestion that is not accepted (or an id that no
    row has) never touches the meal history; and no call of
    [rejectSuggestion] changes the recipes or the stored week plan. *)
Theorem rejectSuggestion_keeps_history_unless_accepted :
  forall (w : World) (suggestionId : Z) (db : Db),
    let db' := snd (SuggestionService.rejectSuggestion w suggestionId db) in
    recipes db' = recipes db /\
    weekPlan db' = weekPlan db /\
    ((forall s, SuggestionService.findSuggestion suggestionId db = Some s ->
                s_status s <> accepted) ->
     mealHistory db' = mealHistory db).
Proof.
  intros w sid db db'. subst db'. rewrite rejectSuggestion_run.
  destruct (generateAndStore_frame w (todayOf w)
              (Outcome.afterMarkRejected w sid db)) as (H1 & H2 & H3).
  rewrite H1, H2, H3. clear H1 H2 H3.
  unfold Outcome.afterMarkRejected. cbn [recipes weekPlan mealHistory].
  repeat split.
  intros Hna. unfold Outcome.historyAfterReject.
  destruct (SuggestionService.findSuggestion sid db) as [s|];
    [|reflexivity].
  specialize (Hna s eq_refl).
  destruct (s_status s); try reflexivity. congruence.
Qed.

Lemma todaysRows_afterMarkRejected (w : World) (sid : Z) (today : Date)
    (db : Db) (x : Suggestion) :
  In x (SuggestionService.todaysRows today
          (Outcome.afterMarkRejected w sid db)) ->
  exists x0, In x0 (SuggestionService.todaysRows today db) /\
             s_createdAt x = s_createdAt x0.
Proof.
  unfold SuggestionService.todaysRows, Outcome.afterMarkRejected.
  cbn [suggestions]. rewrite todaysRows_markAll.
  unfold Outcome.markAll. intros H. apply in_map_iff in H.
  destruct H as (x0 & E & Hin). exists x0. split; [exact Hin|].
  subst x. destruct (s_id x0 =? sid); reflexivity.
Qed.

(** X6. What [getTodaySuggestion] answered is what it answers again on
    the same day, whichever branch the first call took: also right
    after a suggestion was generated the second call returns that
    suggestion with its recipe, generates nothing and writes nothing.
    (The rows of the day must be older than the first call's clock:
    rows created in the same second are not told apart by the
    ordering.) *)
Theorem getTodaySuggestion_stable :
  forall (w w' : World) (db db' : Db)
         (answer : Suggestion * option Recipe),
    todayOf w' = todayOf w ->
    (forall x, In x (SuggestionService.todaysRows (todayOf w) db) ->
               s_createdAt x < now w) ->
    SuggestionService.getTodaySuggestion w db = (inr (Some answer), db') ->
    SuggestionService.getTodaySuggestion w' db' = (inr (Some answer), db').
Proof.
  intros w w' db db' answer Hday Hold.
  rewrite !getTodaySuggestion_cases, Hday.
  assert (Gen :
    bind (SuggestionService.generateAndStore w (todayOf w))
         (fun r => ret (option_map (fun '(s', rc) => (s', Some rc)) r)) db =
      (inr (Some answer), db') ->
    match Spec.latestRow (todayOf w) db' with
    | Some s =>
        match s_status s with
        | accepted | pending =>
            (inr (Some (s, SuggestionService.findRecipe (s_recipeId s) db')),
             db')
        | _ =>
            bind (SuggestionService.generateAndStore w' (todayOf w))
              (fun r => ret (option_map (fun '(s', rc) => (s', Some rc)) r))
              db'
        end
    | None =>
        bind (SuggestionService.generateAndStore w' (todayOf w))
          (fun r => ret (option_map (fun '(s', rc) => (s', Some rc)) r)) db'
    end = (inr (Some answer), db')).
  { unfold bind at 1, ret at 1.
    destruct (SuggestionService.generateAndStore w (todayOf w) db)
      as [[e|[[row recipe]|]] db1] eqn:G; try discriminate.
    cbn [option_map]. intros E. injection E as E1 E2. subst answer db1.
    destruct (generateAndStore_latest w (todayOf w) db db' row recipe Hold G)
      as (L & P & R).
    rewrite L, P, R. reflexivity. }
  destruct (Spec.latestRow (todayOf w) db) as [s|] eqn:L; [|exact Gen].
  destruct (s_status s) eqn:St; try exact Gen.
  - intros E. injection E as E1 E2. subst answer db'.
    rewrite L, St. reflexivity.
  - intros E. injection E as E1 E2. subst answer db'.
    rewrite L, St. reflexivity.
Qed.

Lemma getTodaySuggestion_stable_witness :
  SuggestionService.getTodaySuggestion Fixtures.july
    (snd (SuggestionService.getTodaySuggestion Fixtures.july
            Fixtures.stamppotOnly)) =
  (inr (Some (mkSuggestion 1 1 Fixtures.today pending (Breakdown 5 0 40)
                Fixtures.clearSky Fixtures.noon,
              Some Fixtures.stamppot)),
   snd (SuggestionService.getTodaySuggestion Fixtures.july
          Fixtures.stamppotOnly)).
Proof.
  apply (getTodaySuggestion_stable Fixtures.july Fixtures.july
           Fixtures.stamppotOnly).
  - reflexivity.
  - intros x [].
  - reflexivity.
Defined.

(** X7. The alternative that [rejectSuggestion] returns is the
    suggestion of the day from then on: [getTodaySuggestion] answers
    that pending row with its recipe and writes nothing, and the row
    that was rejected is stored as rejected.  (The rows of the day
    must be older than the clock of the rejection.) *)
Theorem rejectSuggestion_then_getTodaySuggestion :
  forall (w w' : World) (suggestionId : Z) (db db' : Db)
         (row : Suggestion) (recipe : Recipe),
    todayOf w' = todayOf w ->
    (forall x, In x (SuggestionService.todaysRows (todayOf w) db) ->
               s_createdAt x < now w) ->
    SuggestionService.rejectSuggestion w suggestionId db =
      (inr (Some (row, recipe)), db') ->
    SuggestionService.getTodaySuggestion w' db' =
      (inr (Some (row, Some recipe)), db') /\
    s_status row = pending /\
    s_suggestedFor row = todayOf w /\
    (forall s, SuggestionService.findSuggestion suggestionId db = Some s ->
               SuggestionService.findSuggestion suggestionId db' =
               Some (SuggestionService.withStatus rejected s)).
Proof.
  intros w w' sid db db' row recipe Hday Hold R.
  rewrite rejectSuggestion_run in R.
  assert (Hold' : forall x,
            In x (SuggestionService.todaysRows (todayOf w)
                    (Outcome.afterMarkRejected w sid db)) ->
            s_createdAt x < now w).
  { intros x Hx. apply todaysRows_afterMarkRejected in Hx.
    destruct Hx as (x0 & Hin & E). rewrite E. apply Hold. exact Hin. }
  destruct (generateAndStore_latest _ _ _ _ _ _ Hold' R) as (L & P & Fr).
  pose proof (generateAndStore_inv _ _ _ _ _ _ R) as (g & _ & Hrow & _ & Hdb).
  split; [|split; [exact P|split]].
  - rewrite getTodaySuggestion_cases, Hday, L, P, Fr. reflexivity.
  - subst row. reflexivity.
  - intros s F. subst db'. unfold SuggestionService.findSuggestion,
      Spec.withRow, Outcome.afterMarkRejected. cbn [suggestions].
    apply find_rejected. exact F.
Qed.

Lemma rejectSuggestion_then_getTodaySuggestion_witness :
  SuggestionService.getTodaySuggestion Fixtures.july
    (snd (SuggestionService.rejectSuggestion Fixtures.july 1
            Fixtures.lunchLogged)) =
  (inr (Some (mkSuggestion 2 2 Fixtures.today pending (Breakdown 30 15 40)
                Fixtures.clearSky Fixtures.noon,
              Some Fixtures.salade)),
   snd (SuggestionService.rejectSuggestion Fixtures.july 1
          Fixtures.lunchLogged)).
Proof.
  apply (rejectSuggestion_then_getTodaySuggestion Fixtures.july Fixtures.july
           1 Fixtures.lunchLogged).
  - reflexivity.
  - intros x [<-|[]]. reflexivity.
  - vm_compute. reflexivity.
Defined.

(** ** The week plan: the loop body as a case distinction *)

Lemma withPlans_nil (db : Db) : PlanView.withPlans db [] = db.
Proof. unfold PlanView.withPlans. rewrite app_nil_r. apply Db_eta. Qed.

Lemma withPlans_app (db : Db) (rows rows' : list WeekPlanEntry) :
  PlanView.withPlans (PlanView.withPlans db rows) rows' =
  PlanView.withPlans db (rows ++ rows').
Proof.
  unfold PlanView.withPlans. cbn [recipes mealHistory suggestions weekPlan
    nextMealId nextSuggestionId]. rewrite app_assoc. reflexivity.
Qed.

Lemma resolveDay_eq (w : World) (allRecipes : list Recipe)
    (season : Season) (today : Date) (sugg : list Suggestion)
    (day : ForecastDay) (st : WeekPlanApi.Loop) (db : Db) :
  WeekPlanApi.resolveDay w allRecipes season today sugg day st db =
  match PlanView.suggestedDay allRecipes today sugg day with
  | Some (d, ids) =>
      (inr (WeekPlanApi.mkLoop (WeekPlanApi.result st ++ [d])
              (WeekPlanApi.usedRecipeIds st ++ ids)
              (WeekPlanApi.randomCalls st)), db)
  | None =>
      match WeekPlanApi.findPlan (fd_date day) db with
      | Some p =>
          (inr (WeekPlanApi.mkLoop
                  (WeekPlanApi.result st
                     ++ [fst (PlanView.storedDay allRecipes p day)])
                  (WeekPlanApi.usedRecipeIds st
                     ++ snd (PlanView.storedDay allRecipes p day))
                  (WeekPlanApi.randomCalls st)), db)
      | None =>
          let calls :=
            (WeekPlanApi.randomCalls st
             + length (PlanView.available allRecipes st))%nat in
          match PlanView.pick w allRecipes season day st with
          | Some r =>
              (inr (WeekPlanApi.mkLoop
                      (WeekPlanApi.result st
                         ++ [PlanView.generatedDay day (Some r)])
                      (WeekPlanApi.usedRecipeIds st ++ [r_id r]) calls),
               PlanView.withPlans db [PlanView.planRow day r])
          | None =>
              (inr (WeekPlanApi.mkLoop
                      (WeekPlanApi.result st
                         ++ [PlanView.generatedDay day None])
                      (WeekPlanApi.usedRecipeIds st) calls), db)
          end
      end
  end.
Proof.
  assert (SG : WeekPlanApi.storedOrGenerate w allRecipes season day st db =
    match WeekPlanApi.findPlan (fd_date day) db with
    | Some p =>
        (inr (WeekPlanApi.mkLoop
                (WeekPlanApi.result st
                   ++ [fst (PlanView.storedDay allRecipes p day)])
                (WeekPlanApi.usedRecipeIds st
                   ++ snd (PlanView.storedDay allRecipes p day))
                (WeekPlanApi.randomCalls st)), db)
    | None =>
        let calls :=
          (WeekPlanApi.randomCalls st
           + length (PlanView.available allRecipes st))%nat in
        match PlanView.pick w allRecipes season day st with
        | Some r =>
            (inr (WeekPlanApi.mkLoop
                    (WeekPlanApi.result st
                       ++ [PlanView.generatedDay day (Some r)])
                    (WeekPlanApi.usedRecipeIds st ++ [r_id r]) calls),
             PlanView.withPlans db [PlanView.planRow day r])
        | None =>
            (inr (WeekPlanApi.mkLoop
                    (WeekPlanApi.result st
                       ++ [PlanView.generatedDay day None])
                    (WeekPlanApi.usedRecipeIds st) calls), db)
        end
    end).
  { unfold WeekPlanApi.storedOrGenerate. unfold bind at 1. unfold query.
    destruct (WeekPlanApi.findPlan (fd_date day) db) as [p|] eqn:F.
    - unfold PlanView.storedDay, PlanView.truthyId, selectedCleared, ret.
      destruct (wp_recipeId p) as [rid|];
        [destruct (rid =? 0)|]; cbn [fst snd];
        rewrite ?app_nil_r; reflexivity.
    - unfold WeekPlanApi.generateDay, PlanView.pick.
      fold (PlanView.available allRecipes st).
      destruct (Js.sort _ _) as [|[top q] rest]; [reflexivity|].
      unfold bind, WeekPlanApi.insertPlanIgnore, update, ret.
      cbn [wp_date]. rewrite F. reflexivity. }
  unfold WeekPlanApi.resolveDay, PlanView.suggestedDay.
  destruct (if fd_date day =? today then sugg else []) as [|s rest];
    [exact SG|].
  destruct (Status_eqb (s_status s) cleared).
  - unfold ret. rewrite app_nil_r. reflexivity.
  - destruct (find _ allRecipes) as [r|]; [reflexivity|exact SG].
Qed.

Lemma pick_some (w : World) (allRecipes : list Recipe) (season : Season)
    (day : ForecastDay) (st : WeekPlanApi.Loop) (r : Recipe) :
  PlanView.pick w allRecipes season day st = Some r ->
  In r allRecipes /\ ~ In (r_id r) (WeekPlanApi.usedRecipeIds st).
Proof.
  unfold PlanView.pick.
  set (before := fun a b : Recipe * Q => Qle_bool (snd b) (snd a)).
  destruct (Js.sort before _) as [|[top q] rest] eqn:Es; [discriminate|].
  intros E. injection E as ->.
  assert (Hin : In r (PlanView.available allRecipes st)).
  { rewrite <- (scoreAll_fst season day (random w)
                  (WeekPlanApi.randomCalls st)
                  (PlanView.available allRecipes st)).
    apply in_map_iff. exists (r, q). split; [reflexivity|].
    apply (sort_In before). rewrite Es. left. reflexivity. }
  unfold PlanView.available in Hin. apply filter_In in Hin.
  destruct Hin as [H1 H2]. split; [exact H1|].
  apply negb_true_iff in H2. rewrite <- includesZ_In, H2. discriminate.
Qed.

Lemma pick_none (w : World) (allRecipes : list Recipe) (season : Season)
    (day : ForecastDay) (st : WeekPlanApi.Loop) :
  PlanView.pick w allRecipes season day st = None <->
  PlanView.available allRecipes st = [].
Proof.
  unfold PlanView.pick.
  set (before := fun a b : Recipe * Q => Qle_bool (snd b) (snd a)).
  split.
  - destruct (Js.sort before _) as [|[top q] rest] eqn:Es; [|discriminate].
    intros _. apply sort_nil_inv in Es.
    rewrite <- (scoreAll_fst season day (random w)
                  (WeekPlanApi.randomCalls st)
                  (PlanView.available allRecipes st)).
    rewrite Es. reflexivity.
  - intros ->. reflexivity.
Qed.

(** The loop as a whole, from what one round does. *)
Lemma forDays_rule (body : ForecastDay -> WeekPlanApi.Loop -> M WeekPlanApi.Loop)
    (days : list ForecastDay) :
  forall (I : list ForecastDay -> WeekPlanApi.Loop -> Db -> Prop)
         (st : WeekPlanApi.Loop) (db : Db),
    I [] st db ->
    (forall done day st db,
       In day days -> I done st db ->
       exists st' db', body day st db = (inr st', db') /\
                       I (done ++ [day]) st' db') ->
    exists stF dbF,
      WeekPlanApi.forDays body days st db = (inr stF, dbF) /\ I days stF dbF.
Proof.
  induction days as [|day days IH]; intros I st db H0 Hstep.
  - exists st, db. split; [reflexivity|exact H0].
  - destruct (Hstep [] day st db (or_introl eq_refl) H0)
      as (st1 & db1 & E1 & I1).
    cbn [WeekPlanApi.forDays]. unfold bind at 1. rewrite E1.
    apply (IH (fun done => I (day :: done))).
    + exact I1.
    + intros done day' st' db' Hin HI.
      apply (Hstep (day :: done) day' st' db'); [right; exact Hin|exact HI].
Qed.

Lemma findPlan_None (d : Date) (db : Db) :
  WeekPlanApi.findPlan d db = None <-> ~ In d (map wp_date (weekPlan db)).
Proof.
  unfold WeekPlanApi.findPlan. split.
  - intros F Hin. apply in_map_iff in Hin. destruct Hin as (p & E & Hp).
    pose proof (find_none _ _ F p Hp) as N. cbv beta in N.
    rewrite E, Z.eqb_refl in N. discriminate.
  - intros H. destruct (find _ _) as [p|] eqn:F; [|reflexivity].
    exfalso. apply find_some in F. destruct F as [Hp E].
    apply Z.eqb_eq in E. apply H. apply in_map_iff. exists p. split; assumption.
Qed.

Lemma find_app_some {A : Type} (f : A -> bool) (l l' : list A) (x : A) :
  find f l = Some x -> find f (l ++ l') = Some x.
Proof.
  induction l as [|a l IH]; [discriminate|].
  cbn [app find]. destruct (f a); [trivial|exact IH].
Qed.

Lemma find_app_none {A : Type} (f : A -> bool) (l l' : list A) :
  find f l = None -> find f (l ++ l') = find f l'.
Proof.
  induction l as [|a l IH]; [reflexivity|].
  cbn [app find]. destruct (f a); [discriminate|exact IH].
Qed.

Lemma findPlan_kept (d : Date) (db : Db) (rows : list WeekPlanEntry)
    (p : WeekPlanEntry) :
  WeekPlanApi.findPlan d db = Some p ->
  WeekPlanApi.findPlan d (PlanView.withPlans db rows) = Some p.
Proof. apply find_app_some. Qed.

Lemma findPlan_other_dates (d : Date) (db : Db) (rows : list WeekPlanEntry) :
  ~ In d (map wp_date rows) ->
  WeekPlanApi.findPlan d (PlanView.withPlans db rows) =
  WeekPlanApi.findPlan d db.
Proof.
  intros H. unfold WeekPlanApi.findPlan, PlanView.withPlans.
  cbn [weekPlan].
  destruct (find (fun p => wp_date p =? d) (weekPlan db)) as [p|] eqn:F.
  - apply find_app_some. exact F.
  - rewrite find_app_none by exact F.
    destruct (find _ rows) as [p|] eqn:F'; [|reflexivity].
    exfalso. apply find_some in F'. destruct F' as [Hp E].
    apply Z.eqb_eq in E. apply H. apply in_map_iff. exists p. split; assumption.
Qed.

Lemma suggestedDay_date (allRecipes : list Recipe) (today : Date)
    (sugg : list Suggestion) (day : ForecastDay) (d : WeekPlanApi.PlanDay)
    (ids : list Z) :
  PlanView.suggestedDay allRecipes today sugg day = Some (d, ids) ->
  WeekPlanApi.pd_date d = fd_date day /\ fd_date day = today.
Proof.
  unfold PlanView.suggestedDay.
  destruct (Z.eqb_spec (fd_date day) today) as [E|_]; [|discriminate].
  destruct sugg as [|s rest]; [discriminate|].
  destruct (Status_eqb (s_status s) cleared).
  - intros [= <- _]. split; [reflexivity|exact E].
  - destruct (find _ allRecipes); [|discriminate].
    intros [= <- _]. split; [reflexivity|exact E].
Qed.

Lemma storedDay_date (allRecipes : list Recipe) (p : WeekPlanEntry)
    (day : ForecastDay) :
  WeekPlanApi.pd_date (fst (PlanView.storedDay allRecipes p day)) =
  fd_date day.
Proof. reflexivity. Qed.

Lemma NoDup_snoc {A : Type} (l : list A) (x : A) :
  NoDup l -> ~ In x l -> NoDup (l ++ [x]).
Proof.
  intros Hl Hx. apply (Permutation_NoDup (l := x :: l)).
  - apply Permutation_cons_append.
  - constructor; assumption.
Qed.

(** X8. [GET /api/weekplan] never fails and answers exactly one entry
    for each day of its window, in the window's order and with today
    first, at most seven.  All it ever writes are new rows of
    [week_plan]: the recipes, the suggestions, the meal history and
    the rows already stored are left as they are, and each new row is
    for a date of the window that had no row, is not cleared and
    holds a recipe of the catalog; no date gets two rows. *)
Theorem getWeekPlan_answers_each_day :
  forall (w : World) (db : Db),
  exists days rows,
    WeekPlanApi.getWeekPlan w db = (inr days, PlanView.withPlans db rows) /\
    map WeekPlanApi.pd_date days = map fd_date (WeekPlanApi.allDays w) /\
    hd_error (map WeekPlanApi.pd_date days) = Some (todayOf w) /\
    (length days <= 7)%nat /\
    NoDup (map wp_date rows) /\
    forall row, In row rows ->
      WeekPlanApi.findPlan (wp_date row) db = None /\
      In (wp_date row) (map WeekPlanApi.pd_date days) /\
      wp_cleared row = false /\
      exists r, In r (recipes db) /\ wp_recipeId row = Some (r_id r).
Proof.
  intros w db.
  set (season := Weather.getCurrentSeason (month w)).
  set (sugg := WeekPlanApi.todaySuggestion (todayOf w) db).
  set (I := fun (done : list ForecastDay) (st : WeekPlanApi.Loop)
                (db' : Db) =>
    map WeekPlanApi.pd_date (WeekPlanApi.result st) = map fd_date done /\
    exists rows,
      db' = PlanView.withPlans db rows /\
      NoDup (map wp_date rows) /\
      forall row, In row rows ->
        WeekPlanApi.findPlan (wp_date row) db = None /\
        In (wp_date row) (map fd_date done) /\
        wp_cleared row = false /\
        exists r, In r (recipes db) /\ wp_recipeId row = Some (r_id r)).
  destruct (forDays_rule
              (WeekPlanApi.resolveDay w (recipes db) season (todayOf w) sugg)
              (WeekPlanApi.allDays w) I (WeekPlanApi.mkLoop [] [] 0%nat) db)
    as (stF & dbF & E & Hdates & rows & Hdb & Hnd & Hrows).
  { split; [reflexivity|]. exists []. split; [symmetry; apply withPlans_nil|].
    split; [constructor|]. intros row []. }
  { intros done day st db' _ (Hd & rows & Hdb & Hnd & Hrows). subst db'.
    assert (Keep : forall d,
      WeekPlanApi.pd_date d = fd_date day ->
      forall used calls,
      I (done ++ [day])
        (WeekPlanApi.mkLoop (WeekPlanApi.result st ++ [d]) used calls)
        (PlanView.withPlans db rows)).
    { intros d Hdate used calls. split.
      - cbn [WeekPlanApi.result]. rewrite !map_app, Hd. cbn [map].
        rewrite Hdate. reflexivity.
      - exists rows. split; [reflexivity|]. split; [exact Hnd|].
        intros row Hrow. destruct (Hrows row Hrow) as (A & B & C & D).
        repeat split; try assumption.
        rewrite map_app. apply in_or_app. left. exact B. }
    rewrite resolveDay_eq.
    destruct (PlanView.suggestedDay _ _ _ _) as [[d ids]|] eqn:Sg.
    - eexists _, _. split; [reflexivity|].
      apply Keep. apply suggestedDay_date in Sg. apply Sg.
    - destruct (WeekPlanApi.findPlan (fd_date day) _) as [p|] eqn:F.
      + eexists _, _. split; [reflexivity|].
        apply Keep. apply storedDay_date.
      + cbv zeta.
        destruct (PlanView.pick w (recipes db) season day st) as [r|] eqn:P.
        * eexists _, _. split; [reflexivity|].
          apply pick_some in P. destruct P as [Hr _].
          apply findPlan_None in F.
          unfold PlanView.withPlans in F. cbn [weekPlan] in F.
          rewrite map_app in F.
          split.
          { cbn [WeekPlanApi.result]. rewrite !map_app, Hd. reflexivity. }
          exists (rows ++ [PlanView.planRow day r]).
          split; [apply withPlans_app|]. split.
          { rewrite map_app. apply NoDup_snoc; [exact Hnd|].
            intros Hin. apply F. apply in_or_app. right. exact Hin. }
          intros row Hrow. apply in_app_or in Hrow.
          destruct Hrow as [Hrow|[<-|[]]].
          { destruct (Hrows row Hrow) as (A & B & C & D).
            repeat split; try assumption.
            rewrite map_app. apply in_or_app. left. exact B. }
          cbn [PlanView.planRow wp_date wp_cleared wp_recipeId].
          split; [|split; [|split]].
          { apply findPlan_None. intros Hin. apply F.
            apply in_or_app. left. exact Hin. }
          { rewrite map_app. apply in_or_app. right. left. reflexivity. }
          { reflexivity. }
          { exists r. split; [exact Hr|reflexivity]. }
        * eexists _, _. split; [reflexivity|]. apply Keep. reflexivity. }
  exists (WeekPlanApi.result stF), rows.
  unfold WeekPlanApi.getWeekPlan, bind, query, ret.
  fold season. fold sugg. rewrite E. subst dbF.
  split; [reflexivity|]. split; [exact Hdates|]. split; [|split; [|split]].
  - rewrite Hdates. unfold WeekPlanApi.allDays, Js.slice0. reflexivity.
  - rewrite <- (length_map WeekPlanApi.pd_date (WeekPlanApi.result stF)).
    rewrite Hdates, length_map.
    unfold WeekPlanApi.allDays, Js.slice0. apply firstn_le_length.
  - exact Hnd.
  - intros row Hrow. destruct (Hrows row Hrow) as (A & B & C & D).
    rewrite Hdates. repeat split; assumption.
Qed.

(** *** What a read of the week plan shows *)

Lemma forDays_shown (w : World) (allRecipes : list Recipe)
    (season : Season) (today : Date) (sugg : list Suggestion)
    (days : list ForecastDay) (st : WeekPlanApi.Loop) (db : Db) :
  exists stF added rows,
    WeekPlanApi.forDays
      (WeekPlanApi.resolveDay w allRecipes season today sugg) days st db =
      (inr stF, PlanView.withPlans db rows) /\
    WeekPlanApi.result stF = WeekPlanApi.result st ++ added /\
    Forall2 (PlanView.shown allRecipes today sugg db) days added.
Proof.
  set (I := fun (done : list ForecastDay) (st' : WeekPlanApi.Loop)
                (db' : Db) =>
    exists added rows,
      db' = PlanView.withPlans db rows /\
      WeekPlanApi.result st' = WeekPlanApi.result st ++ added /\
      Forall2 (PlanView.shown allRecipes today sugg db) done added).
  destruct (forDays_rule
              (WeekPlanApi.resolveDay w allRecipes season today sugg)
              days I st db)
    as (stF & dbF & E & added & rows & Hdb & Hres & Hall).
  { exists [], []. split; [symmetry; apply withPlans_nil|].
    split; [symmetry; apply app_nil_r|constructor]. }
  { intros done day st' db' _ (added & rows & Hdb & Hres & Hall).
    subst db'.
    assert (Keep : forall d rows' used calls,
      PlanView.shown allRecipes today sugg db day d ->
      I (done ++ [day])
        (WeekPlanApi.mkLoop (WeekPlanApi.result st' ++ [d]) used calls)
        (PlanView.withPlans db rows')).
    { intros d rows' used calls Hd. exists (added ++ [d]), rows'.
      split; [reflexivity|]. split.
      - cbn [WeekPlanApi.result]. rewrite Hres, app_assoc. reflexivity.
      - apply Forall2_app; [exact Hall|]. constructor; [exact Hd|constructor]. }
    rewrite resolveDay_eq. unfold PlanView.shown in Keep.
    destruct (PlanView.suggestedDay _ _ _ _) as [[d ids]|] eqn:Sg.
    - eexists _, _. split; [reflexivity|]. apply Keep. reflexivity.
    - destruct (WeekPlanApi.findPlan (fd_date day)
                  (PlanView.withPlans db rows)) as [p|] eqn:F.
      + eexists _, _. split; [reflexivity|]. apply Keep.
        split; [apply storedDay_date|].
        intros p0 F0. apply (findPlan_kept _ _ rows) in F0.
        rewrite F in F0. injection F0 as <-. reflexivity.
      + cbv zeta.
        assert (N : forall p0,
                  WeekPlanApi.findPlan (fd_date day) db = Some p0 -> False).
        { intros p0 F0. apply (findPlan_kept _ _ rows) in F0.
          rewrite F in F0. discriminate. }
        destruct (PlanView.pick w allRecipes season day st') as [r|].
        * eexists _, _. split; [reflexivity|].
          rewrite withPlans_app. apply Keep.
          split; [reflexivity|]. intros p0 F0. destruct (N p0 F0).
        * eexists _, _. split; [reflexivity|]. apply Keep.
          split; [reflexivity|]. intros p0 F0. destruct (N p0 F0). }
  exists stF, added, rows. subst dbF. repeat split; assumption.
Qed.

Lemma getWeekPlan_shown (w : World) (db : Db) :
  exists days rows,
    WeekPlanApi.getWeekPlan w db = (inr days, PlanView.withPlans db rows) /\
    Forall2 (PlanView.shown (recipes db) (todayOf w)
               (WeekPlanApi.todaySuggestion (todayOf w) db) db)
            (WeekPlanApi.allDays w) days.
Proof.
  destruct (forDays_shown w (recipes db)
              (Weather.getCurrentSeason (month w)) (todayOf w)
              (WeekPlanApi.todaySuggestion (todayOf w) db)
              (WeekPlanApi.allDays w) (WeekPlanApi.mkLoop [] [] 0%nat) db)
    as (stF & added & rows & E & Hres & Hall).
  exists added, rows. unfold WeekPlanApi.getWeekPlan, bind, query, ret.
  rewrite E. cbn [WeekPlanApi.result app] in Hres. rewrite Hres.
  split; [reflexivity|exact Hall].
Qed.

Lemma Forall2_In_r {A B : Type} (R : A -> B -> Prop) (l : list A)
    (l' : list B) (y : B) :
  Forall2 R l l' -> In y l' -> exists x, In x l /\ R x y.
Proof.
  induction 1 as [|a b l l' Hab _ IH]; intros Hin; [destruct Hin|].
  destruct Hin as [<-|Hin].
  - exists a. split; [left; reflexivity|exact Hab].
  - destruct (IH Hin) as (x & Hx & Rx). exists x. split; [right|]; assumption.
Qed.

Lemma Forall2_In_l {A B : Type} (R : A -> B -> Prop) (l : list A)
    (l' : list B) (x : A) :
  Forall2 R l l' -> In x l -> exists y, In y l' /\ R x y.
Proof.
  induction 1 as [|a b l l' Hab _ IH]; intros Hin; [destruct Hin|].
  destruct Hin as [<-|Hin].
  - exists b. split; [left; reflexivity|exact Hab].
  - destruct (IH Hin) as (y & Hy & Ry). exists y. split; [right|]; assumption.
Qed.

Lemma shown_date (allRecipes : list Recipe) (today : Date)
    (sugg : list Suggestion) (db : Db) (day : ForecastDay)
    (d : WeekPlanApi.PlanDay) :
  PlanView.shown allRecipes today sugg db day d ->
  WeekPlanApi.pd_date d = fd_date day.
Proof.
  unfold PlanView.shown.
  destruct (PlanView.suggestedDay _ _ _ _) as [[d' ids]|] eqn:Sg.
  - intros ->. apply suggestedDay_date in Sg. apply Sg.
  - intros [H _]. exact H.
Qed.

Lemma suggestedDay_other_day (allRecipes : list Recipe) (today : Date)
    (sugg : list Suggestion) (day : ForecastDay) :
  fd_date day <> today ->
  PlanView.suggestedDay allRecipes today sugg day = None.
Proof.
  intros H. unfold PlanView.suggestedDay.
  destruct (Z.eqb_spec (fd_date day) today); [contradiction|reflexivity].
Qed.

(** A day other than today for which a row is stored is shown as the
    row says. *)
Lemma getWeekPlan_stored_day (w : World) (db : Db) (date : Date)
    (p : WeekPlanEntry) :
  WeekPlanApi.findPlan date db = Some p ->
  date <> todayOf w ->
  exists days db',
    WeekPlanApi.getWeekPlan w db = (inr days, db') /\
    (In date (map fd_date (WeekPlanApi.allDays w)) ->
     exists d, In d days /\ WeekPlanApi.pd_date d = date) /\
    forall d, In d days -> WeekPlanApi.pd_date d = date ->
      exists day, fd_date day = date /\
                  d = fst (PlanView.storedDay (recipes db) p day).
Proof.
  intros F Hnt.
  destruct (getWeekPlan_shown w db) as (days & rows & E & Hall).
  exists days, (PlanView.withPlans db rows). split; [exact E|]. split.
  - intros Hin. apply in_map_iff in Hin. destruct Hin as (day & Hd & Hin).
    destruct (Forall2_In_l _ _ _ _ Hall Hin) as (d & Hdin & Hs).
    exists d. split; [exact Hdin|]. rewrite <- Hd. eapply shown_date, Hs.
  - intros d Hin Hd.
    destruct (Forall2_In_r _ _ _ _ Hall Hin) as (day & _ & Hs).
    pose proof (shown_date _ _ _ _ _ _ Hs) as Hdate.
    exists day. split; [congruence|].
    unfold PlanView.shown in Hs.
    rewrite suggestedDay_other_day in Hs by congruence.
    destruct Hs as [_ Hs]. apply Hs. rewrite <- Hdate, Hd. exact F.
Qed.

(** ** Choosing, clearing and regenerating a day *)

Lemma find_updated_plan (date : Date) (g : WeekPlanEntry -> WeekPlanEntry)
    (l : list WeekPlanEntry) :
  (forall p, wp_date (g p) = wp_date p) ->
  find (fun p => wp_date p =? date)
       (map (fun p => if wp_date p =? date then g p else p) l) =
  option_map g (find (fun p => wp_date p =? date) l).
Proof.
  intros Hg. induction l as [|a l IH]; [reflexivity|].
  cbn [map find]. destruct (wp_date a =? date) eqn:E.
  - rewrite Hg, E. reflexivity.
  - rewrite E. exact IH.
Qed.

Lemma findRecipe_some (rid : Z) (db : Db) (recipe : Recipe) :
  SuggestionService.findRecipe rid db = Some recipe ->
  In recipe (recipes db) /\ r_id recipe = rid.
Proof.
  unfold SuggestionService.findRecipe. intros F.
  apply find_some in F. destruct F as [H E]. apply Z.eqb_eq in E.
  split; assumption.
Qed.

Lemma putWeekPlan_other_day (w : World) (date rid : Z) (recipe : Recipe)
    (db : Db) :
  rid <> 0 ->
  SuggestionService.findRecipe rid db = Some recipe ->
  date <> todayOf w ->
  exists db1 p,
    WeekPlanApi.putWeekPlan w date (Some rid) db =
      (inr (WeekPlanApi.Ok200 date (WeekPlanApi.summary recipe)), db1) /\
    WeekPlanApi.findPlan date db1 = Some p /\
    wp_recipeId p = Some rid /\
    recipes db1 = recipes db /\ suggestions db1 = suggestions db /\
    mealHistory db1 = mealHistory db.
Proof.
  intros Hrid F Hday.
  destruct (findRecipe_some _ _ _ F) as [_ Hid].
  unfold WeekPlanApi.putWeekPlan.
  destruct (Z.eqb_spec rid 0) as [|_]; [contradiction|].
  unfold bind at 1. unfold query at 1. rewrite F.
  destruct (Z.eqb_spec date (todayOf w)) as [|_]; [contradiction|].
  unfold bind, query, ret, WeekPlanApi.setPlans, update.
  destruct (WeekPlanApi.findPlan date db) as [p0|] eqn:Fp.
  - eexists _, _. split; [reflexivity|].
    unfold WeekPlanApi.findPlan. cbn [weekPlan recipes suggestions mealHistory].
    rewrite find_updated_plan by reflexivity.
    unfold WeekPlanApi.findPlan in Fp. rewrite Fp. cbn [option_map].
    rewrite Hid. repeat split; reflexivity.
  - eexists _, _. split; [reflexivity|].
    unfold WeekPlanApi.findPlan. cbn [weekPlan recipes suggestions mealHistory].
    unfold WeekPlanApi.findPlan in Fp.
    rewrite find_app_none by exact Fp. cbn [find wp_date].
    rewrite Z.eqb_refl, Hid. repeat split; reflexivity.
Qed.

Lemma storedDay_chosen (allRecipes : list Recipe) (p : WeekPlanEntry)
    (day : ForecastDay) (rid : Z) (recipe : Recipe) :
  wp_recipeId p = Some rid -> rid <> 0 ->
  find (fun r => r_id r =? rid) allRecipes = Some recipe ->
  WeekPlanApi.pd_recipe (fst (PlanView.storedDay allRecipes p day)) =
    Some (WeekPlanApi.summary recipe) /\
  WeekPlanApi.pd_status (fst (PlanView.storedDay allRecipes p day)) = None.
Proof.
  intros Hr Hrid F. unfold PlanView.storedDay, PlanView.truthyId.
  rewrite Hr. destruct (Z.eqb_spec rid 0) as [|_]; [contradiction|].
  cbn [fst WeekPlanApi.pd_recipe WeekPlanApi.pd_status]. rewrite F.
  split; reflexivity.
Qed.

(** X9. A recipe chosen for a day other than today
    ([PUT /api/weekplan/:date]) is what the week plan shows for that
    day from then on: a later read that has the date in its window
    answers an entry for it, and every entry for the date carries the
    chosen recipe and no status. *)
Theorem putWeekPlan_then_getWeekPlan :
  forall (w w' : World) (date rid : Z) (recipe : Recipe) (db : Db),
    rid <> 0 ->
    SuggestionService.findRecipe rid db = Some recipe ->
    date <> todayOf w ->
    date <> todayOf w' ->
    let put := WeekPlanApi.putWeekPlan w date (Some rid) db in
    fst put = inr (WeekPlanApi.Ok200 date (WeekPlanApi.summary recipe)) /\
    exists days db2,
      WeekPlanApi.getWeekPlan w' (snd put) = (inr days, db2) /\
      (In date (map fd_date (WeekPlanApi.allDays w')) ->
       exists d, In d days /\ WeekPlanApi.pd_date d = date) /\
      forall d, In d days -> WeekPlanApi.pd_date d = date ->
        WeekPlanApi.pd_recipe d = Some (WeekPlanApi.summary recipe) /\
        WeekPlanApi.pd_status d = None.
Proof.
  intros w w' date rid recipe db Hrid F Hday Hday' put. subst put.
  destruct (putWeekPlan_other_day w date rid recipe db Hrid F Hday)
    as (db1 & p & E & Fp & Hr & Hrec & _).
  rewrite E. cbn [fst snd]. split; [reflexivity|].
  destruct (getWeekPlan_stored_day w' db1 date p Fp Hday')
    as (days & db2 & G & Hex & Hall).
  exists days, db2. split; [exact G|]. split; [exact Hex|].
  intros d Hin Hd. destruct (Hall d Hin Hd) as (day & _ & ->).
  apply (storedDay_chosen _ _ _ rid); try assumption.
  rewrite Hrec. exact F.
Qed.

Lemma putWeekPlan_then_getWeekPlan_witness :
  fst (WeekPlanApi.putWeekPlan Fixtures.week (Fixtures.today + 2) (Some 5)
         Fixtures.pestoToday) =
  inr (WeekPlanApi.Ok200 (Fixtures.today + 2)
         (WeekPlanApi.summary (Fixtures.plain 5 "Soep"))).
Proof.
  apply (putWeekPlan_then_getWeekPlan Fixtures.week Fixtures.week
           (Fixtures.today + 2) 5 (Fixtures.plain 5 "Soep")
           Fixtures.pestoToday).
  - discriminate.
  - reflexivity.
  - vm_compute. discriminate.
  - vm_compute. discriminate.
Defined.


Lemma todaysRows_markDay (today date : Date) (st : Status)
    (rows : list Suggestion) :
  filter (fun s => s_suggestedFor s =? today) (Outcome.markDay date st rows) =
  Outcome.markDay date st (filter (fun s => s_suggestedFor s =? today) rows).
Proof.
  unfold Outcome.markDay. apply filter_map_commute.
  intros x. destruct (s_suggestedFor x =? date); reflexivity.
Qed.

Lemma markDay_In (date : Date) (st : Status) (rows : list Suggestion)
    (x : Suggestion) :
  In x (Outcome.markDay date st
          (filter (fun s => s_suggestedFor s =? date) rows)) ->
  s_status x = st /\
  exists x0, In x0 rows /\ s_suggestedFor x0 = date /\
             s_createdAt x = s_createdAt x0.
Proof.
  unfold Outcome.markDay. intros H. apply in_map_iff in H.
  destruct H as (x0 & E & Hin). apply filter_In in Hin.
  destruct Hin as [Hin Hd]. rewrite Hd in E. subst x.
  split; [reflexivity|]. exists x0. apply Z.eqb_eq in Hd.
  repeat split; assumption.
Qed.

Lemma putWeekPlan_today (w : World) (rid : Z) (recipe : Recipe) (db : Db) :
  rid <> 0 ->
  SuggestionService.findRecipe rid db = Some recipe ->
  WeekPlanApi.putWeekPlan w (todayOf w) (Some rid) db =
  (inr (WeekPlanApi.Ok200 (todayOf w) (WeekPlanApi.summary recipe)),
   mkDb (recipes db) (mealHistory db)
        (Outcome.markDay (todayOf w) rejected (suggestions db)
           ++ [Outcome.manualRow w rid db])
        (weekPlan db) (nextMealId db) (nextSuggestionId db + 1)).
Proof.
  intros Hrid F. destruct (findRecipe_some _ _ _ F) as [_ Hid].
  unfold WeekPlanApi.putWeekPlan.
  destruct (Z.eqb_spec rid 0) as [|_]; [contradiction|].
  unfold bind at 1. unfold query at 1. rewrite F, Z.eqb_refl, Hid.
  reflexivity.
Qed.

Lemma todaySuggestion_latest (today : Date) (db : Db) :
  WeekPlanApi.todaySuggestion today db =
  match Spec.latestRow today db with Some s => [s] | None => [] end.
Proof.
  unfold WeekPlanApi.todaySuggestion, Spec.latestRow, Js.slice0.
  destruct (orderByDesc _ _); reflexivity.
Qed.

Lemma allDays_cons (w : World) :
  exists rest,
    WeekPlanApi.allDays w =
    mkForecastDay (todayOf w) (w_temp (currentWeather w))
      (w_icon (currentWeather w)) (w_description (currentWeather w)) []
    :: rest.
Proof. unfold WeekPlanApi.allDays, Js.slice0. eexists. reflexivity. Qed.

(** X11. A recipe chosen for today ([PUT /api/weekplan/:date] with
    today's date) becomes the suggestion of the day: it is stored as
    an accepted row and every other row of the day is rejected;
    [getTodaySuggestion] answers that row with the recipe and writes
    nothing; the first entry of the week plan is today with the
    recipe and the status accepted; and the stored week plan is not
    touched.  (The rows of the day must be older than the clock of
    the request.) *)
Theorem putWeekPlan_today_becomes_suggestion :
  forall (w w' : World) (rid : Z) (recipe : Recipe) (db : Db),
    rid <> 0 ->
    SuggestionService.findRecipe rid db = Some recipe ->
    todayOf w' = todayOf w ->
    (forall x, In x (SuggestionService.todaysRows (todayOf w) db) ->
               s_createdAt x < now w) ->
    let db1 := snd (WeekPlanApi.putWeekPlan w (todayOf w) (Some rid) db) in
    SuggestionService.getTodaySuggestion w' db1 =
      (inr (Some (Outcome.manualRow w rid db, Some recipe)), db1) /\
    (forall s, In s (SuggestionService.todaysRows (todayOf w) db1) ->
               s = Outcome.manualRow w rid db \/ s_status s = rejected) /\
    weekPlan db1 = weekPlan db /\
    exists d rest db2,
      WeekPlanApi.getWeekPlan w' db1 = (inr (d :: rest), db2) /\
      WeekPlanApi.pd_date d = todayOf w /\
      WeekPlanApi.pd_status d = Some accepted /\
      WeekPlanApi.pd_recipe d = Some (WeekPlanApi.summary recipe).
Proof.
  intros w w' rid recipe db Hrid F Hday Hold db1. subst db1.
  rewrite (putWeekPlan_today w rid recipe db Hrid F). cbn [snd].
  set (db1 := mkDb _ _ _ _ _ _).
  assert (Rows : SuggestionService.todaysRows (todayOf w) db1 =
            Outcome.markDay (todayOf w) rejected
              (SuggestionService.todaysRows (todayOf w) db)
            ++ [Outcome.manualRow w rid db]).
  { unfold SuggestionService.todaysRows, db1. cbn [suggestions].
    rewrite filter_app, todaysRows_markDay. cbn [filter].
    unfold Outcome.manualRow at 1. cbn [s_suggestedFor].
    rewrite Z.eqb_refl. reflexivity. }
  assert (L : Spec.latestRow (todayOf w) db1 =
            Some (Outcome.manualRow w rid db)).
  { unfold Spec.latestRow. rewrite Rows.
    rewrite orderByDesc_newest_last; [reflexivity|].
    intros y Hy. apply markDay_In in Hy.
    destruct Hy as (_ & x0 & Hin & Hd & ->). cbn [Outcome.manualRow s_createdAt].
    apply Hold. apply filter_In. split; [exact Hin|].
    apply Z.eqb_eq. exact Hd. }
  assert (F1 : find (fun r => r_id r =? rid) (recipes db1) = Some recipe)
    by exact F.
  split; [|split; [|split]].
  - rewrite getTodaySuggestion_cases, Hday, L.
    cbn [Outcome.manualRow s_status s_recipeId].
    unfold SuggestionService.findRecipe. rewrite F1. reflexivity.
  - intros s Hs. rewrite Rows in Hs. apply in_app_or in Hs.
    destruct Hs as [Hs|[<-|[]]]; [right|left; reflexivity].
    apply markDay_In in Hs. apply Hs.
  - reflexivity.
  - destruct (getWeekPlan_shown w' db1) as (days & rows & E & Hall).
    destruct (allDays_cons w') as (later & Ha). rewrite Ha in Hall.
    inversion Hall as [|day d days0 rest Hd _]; subst.
    exists d, rest, (PlanView.withPlans db1 rows). split; [exact E|].
    unfold PlanView.shown, PlanView.suggestedDay in Hd.
    cbn [fd_date] in Hd. rewrite Z.eqb_refl in Hd.
    rewrite todaySuggestion_latest, Hday, L in Hd.
    cbn [Outcome.manualRow s_status s_recipeId Status_eqb] in Hd.
    rewrite F1 in Hd. subst d.
    cbn [WeekPlanApi.pd_date WeekPlanApi.pd_status WeekPlanApi.pd_recipe].
    repeat split; try exact Hday.
Qed.

Lemma putWeekPlan_today_becomes_suggestion_witness :
  SuggestionService.getTodaySuggestion Fixtures.july
    (snd (WeekPlanApi.putWeekPlan Fixtures.july (todayOf Fixtures.july)
            (Some 1) Fixtures.saladeAfterStamppot)) =
  (inr (Some (Outcome.manualRow Fixtures.july 1 Fixtures.saladeAfterStamppot,
              Some Fixtures.stamppot)),
   snd (WeekPlanApi.putWeekPlan Fixtures.july (todayOf Fixtures.july)
          (Some 1) Fixtures.saladeAfterStamppot)).
Proof.
  apply (putWeekPlan_today_becomes_suggestion Fixtures.july Fixtures.july 1
           Fixtures.stamppot Fixtures.saladeAfterStamppot).
  - discriminate.
  - reflexivity.
  - reflexivity.
  - intros x [<-|[<-|[]]]; reflexivity.
Defined.

Lemma deleteWeekPlan_run (w : World) (date : Date) (db : Db) :
  exists db1 p,
    WeekPlanEdit.deleteWeekPlan w date db = (inr date, db1) /\
    WeekPlanApi.findPlan date db1 = Some p /\
    wp_recipeId p = None /\
    recipes db1 = recipes db /\ mealHistory db1 = mealHistory db /\
    suggestions db1 =
      (if date =? todayOf w
       then Outcome.markDay date cleared (suggestions db)
       else suggestions db).
Proof.
  unfold WeekPlanEdit.deleteWeekPlan.
  assert (Plans : forall db0 : Db,
    exists db1 p,
      bind (bind (query (WeekPlanApi.findPlan date))
              (fun existing =>
                 match existing with
                 | Some _ =>
                     WeekPlanApi.setPlans (map (fun p =>
                       if wp_date p =? date
                       then mkPlan (wp_date p) None (wp_cleared p)
                                   (wp_temp p) (wp_icon p)
                                   (wp_description p)
                       else p))
                 | None =>
                     WeekPlanApi.setPlans (fun l =>
                       l ++ [mkPlan date None false None None None])
                 end))
           (fun _ => ret date) db0 = (inr date, db1) /\
      WeekPlanApi.findPlan date db1 = Some p /\
      wp_recipeId p = None /\
      recipes db1 = recipes db0 /\ mealHistory db1 = mealHistory db0 /\
      suggestions db1 = suggestions db0).
  { intros db0. unfold bind, query, ret, WeekPlanApi.setPlans, update.
    destruct (WeekPlanApi.findPlan date db0) as [p0|] eqn:Fp;
      unfold WeekPlanApi.findPlan in *.
    - eexists _, _. split; [reflexivity|]. cbn [weekPlan].
      rewrite find_updated_plan by reflexivity. rewrite Fp.
      cbn [option_map]. repeat split; reflexivity.
    - eexists _, _. split; [reflexivity|]. cbn [weekPlan].
      rewrite find_app_none by exact Fp. cbn [find wp_date].
      rewrite Z.eqb_refl. repeat split; reflexivity. }
  unfold bind at 1.
  destruct (date =? todayOf w).
  - unfold SuggestionService.updateStatusWhere,
      SuggestionService.setSuggestions, update.
    match goal with
    | |- context [bind _ _ ?d] =>
        destruct (Plans d) as (db1 & p & E & H1 & H2 & H3 & H4 & H5)
    end.
    exists db1, p. split; [exact E|]. repeat split; assumption.
  - unfold ret at 1.
    destruct (Plans db) as (db1 & p & E & H1 & H2 & H3 & H4 & H5).
    exists db1, p. split; [exact E|]. repeat split; assumption.
Qed.

Lemma storedDay_empty (allRecipes : list Recipe) (p : WeekPlanEntry)
    (day : ForecastDay) :
  wp_recipeId p = None ->
  WeekPlanApi.pd_recipe (fst (PlanView.storedDay allRecipes p day)) = None /\
  WeekPlanApi.pd_status (fst (PlanView.storedDay allRecipes p day)) = None.
Proof.
  intros H. unfold PlanView.storedDay, PlanView.truthyId. rewrite H.
  split; reflexivity.
Qed.

Lemma filter_nil_existsb {A : Type} (f : A -> bool) (l : list A) :
  filter f l = [] -> existsb f l = false.
Proof.
  induction l as [|x l IH]; [reflexivity|]. cbn [filter existsb].
  destruct (f x); [discriminate|]. exact IH.
Qed.

Lemma latestRow_none (today : Date) (db : Db) :
  Spec.latestRow today db = None ->
  existsb (fun s => s_suggestedFor s =? today) (suggestions db) = false.
Proof.
  unfold Spec.latestRow. intros H. apply filter_nil_existsb.
  apply (orderByDesc_nil s_createdAt).
  fold (SuggestionService.todaysRows today db).
  destruct (orderByDesc _ _); [reflexivity|discriminate].
Qed.

Lemma latestRow_todays (today : Date) (db : Db) (s : Suggestion) :
  Spec.latestRow today db = Some s ->
  In s (SuggestionService.todaysRows today db).
Proof.
  unfold Spec.latestRow. intros H. apply orderByDesc_head in H. apply H.
Qed.

Lemma latestRow_cleared_day (today : Date) (db db1 : Db) (s : Suggestion) :
  suggestions db1 = Outcome.markDay today cleared (suggestions db) ->
  Spec.latestRow today db1 = Some s -> s_status s = cleared.
Proof.
  intros Hs L. apply latestRow_todays in L.
  unfold SuggestionService.todaysRows in L.
  rewrite Hs, todaysRows_markDay in L. apply markDay_In in L. apply L.
Qed.

(** X12. After [DELETE /api/weekplan/:date] every read of the week
    plan on the same day shows the date without a recipe.  The status
    [cleared] is answered only for today, and only when today had a
    suggestion row (the route marks today's rows cleared); a cleared
    other day, like a cleared today without suggestion rows, is
    answered with no status at all, because the row of [week_plan]
    only loses its recipe.  Clearing changes neither the recipes nor
    the meal history. *)
Theorem deleteWeekPlan_then_getWeekPlan :
  forall (w w' : World) (date : Date) (db : Db),
    todayOf w' = todayOf w ->
    let del := WeekPlanEdit.deleteWeekPlan w date db in
    fst del = inr date /\
    recipes (snd del) = recipes db /\
    mealHistory (snd del) = mealHistory db /\
    exists days db2,
      WeekPlanApi.getWeekPlan w' (snd del) = (inr days, db2) /\
      (In date (map fd_date (WeekPlanApi.allDays w')) ->
       exists d, In d days /\ WeekPlanApi.pd_date d = date) /\
      forall d, In d days -> WeekPlanApi.pd_date d = date ->
        WeekPlanApi.pd_recipe d = None /\
        WeekPlanApi.pd_status d =
          (if (date =? todayOf w)
              && existsb (fun s => s_suggestedFor s =? date)
                         (suggestions db)
           then Some cleared else None).
Proof.
  intros w w' date db Hday del. subst del.
  destruct (deleteWeekPlan_run w date db)
    as (db1 & p & E & Fp & Hr & Hrec & Hmh & Hsg).
  rewrite E. cbn [fst snd].
  split; [reflexivity|]. split; [exact Hrec|]. split; [exact Hmh|].
  destruct (getWeekPlan_shown w' db1) as (days & rows & G & Hall).
  exists days, (PlanView.withPlans db1 rows). split; [exact G|]. split.
  - intros Hin. apply in_map_iff in Hin. destruct Hin as (day & Hd & Hin).
    destruct (Forall2_In_l _ _ _ _ Hall Hin) as (d & Hdin & Hs).
    exists d. split; [exact Hdin|]. rewrite <- Hd. eapply shown_date, Hs.
  - intros d Hin Hd.
    destruct (Forall2_In_r _ _ _ _ Hall Hin) as (day & _ & Hs).
    pose proof (shown_date _ _ _ _ _ _ Hs) as Hdate.
    unfold PlanView.shown in Hs.
    destruct (PlanView.suggestedDay _ _ _ day) as [[d' ids]|] eqn:Sg.
    + subst d'. pose proof (suggestedDay_date _ _ _ _ _ _ Sg) as [_ Ht].
      assert (Hdt : date = todayOf w) by congruence.
      rewrite Hdt, Z.eqb_refl in Hsg. rewrite Hdt, Z.eqb_refl.
      unfold PlanView.suggestedDay in Sg.
      rewrite Ht, Z.eqb_refl, todaySuggestion_latest in Sg.
      destruct (Spec.latestRow (todayOf w') db1) as [s|] eqn:L;
        [|discriminate].
      rewrite Hday in L.
      rewrite (latestRow_cleared_day _ _ _ _ Hsg L) in Sg.
      cbn [Status_eqb] in Sg. injection Sg as <- _.
      apply latestRow_todays in L.
      unfold SuggestionService.todaysRows in L.
      rewrite Hsg, todaysRows_markDay in L. apply markDay_In in L.
      destruct L as (_ & x0 & Hx0 & Hx0d & _).
      assert (Hex : existsb (fun s => s_suggestedFor s =? todayOf w)
                            (suggestions db) = true).
      { apply existsb_exists. exists x0. split; [exact Hx0|].
        apply Z.eqb_eq. exact Hx0d. }
      rewrite Hex. split; reflexivity.
    + destruct Hs as [_ Hs]. rewrite (Hs p).
      2:{ rewrite <- Hdate, Hd. exact Fp. }
      destruct (storedDay_empty (recipes db1) p day Hr) as [H1 H2].
      rewrite H1, H2. split; [reflexivity|].
      destruct (Z.eqb_spec date (todayOf w)) as [Hdt|_]; [|reflexivity].
      cbn [andb]. rewrite Hdt in Hsg, Hd |- *.
      unfold PlanView.suggestedDay in Sg.
      assert (Ht : fd_date day = todayOf w') by congruence.
      rewrite Ht, Z.eqb_refl, todaySuggestion_latest in Sg.
      destruct (Spec.latestRow (todayOf w') db1) as [s|] eqn:L.
      * rewrite Hday in L.
        rewrite (latestRow_cleared_day _ _ _ _ Hsg L) in Sg.
        cbn [Status_eqb] in Sg. discriminate.
      * apply latestRow_none in L. rewrite Hsg, Hday in L.
        unfold Outcome.markDay in L.
        assert (Hex : existsb (fun s => s_suggestedFor s =? todayOf w)
                              (suggestions db) = false).
        { rewrite <- L. clear. induction (suggestions db) as [|x l IH];
            [reflexivity|].
          cbn [existsb map]. rewrite IH.
          destruct (s_suggestedFor x =? todayOf w) eqn:Ex;
            cbn [SuggestionService.withStatus s_suggestedFor];
            rewrite Ex; reflexivity. }
        rewrite Hex. reflexivity.
Qed.

Lemma deleteWeekPlan_then_getWeekPlan_witness :
  fst (WeekPlanEdit.deleteWeekPlan Fixtures.week (Fixtures.today + 1)
         Fixtures.pestoToday) = inr (Fixtures.today + 1).
Proof.
  apply (deleteWeekPlan_then_getWeekPlan Fixtures.week Fixtures.week
           (Fixtures.today + 1) Fixtures.pestoToday).
  reflexivity.
Defined.

(** X13. Clearing today does not keep the suggestion engine from
    suggesting again: after [DELETE /api/weekplan/:date] for today the
    next [getTodaySuggestion] of the day, with a catalog that is not
    empty, generates a recipe of the catalog and stores it as a new
    pending row for today. *)
Theorem deleteWeekPlan_then_getTodaySuggestion :
  forall (w w' : World) (db : Db),
    todayOf w' = todayOf w ->
    (0 <= random w' 0%nat)%Q -> (random w' 0%nat < 1)%Q ->
    recipes db <> [] ->
    let db1 := snd (WeekPlanEdit.deleteWeekPlan w (todayOf w) db) in
    exists row recipe db2,
      SuggestionService.getTodaySuggestion w' db1 =
        (inr (Some (row, Some recipe)), db2) /\
      s_status row = pending /\
      s_suggestedFor row = todayOf w /\
      s_recipeId row = r_id recipe /\
      In recipe (recipes db) /\
      suggestions db2 = suggestions db1 ++ [row].
Proof.
  intros w w' db Hday R0 R1 Hne db1. subst db1.
  destruct (deleteWeekPlan_run w (todayOf w) db)
    as (db1 & p & E & _ & _ & Hrec & _ & Hsg).
  rewrite E. cbn [snd]. rewrite Z.eqb_refl in Hsg.
  rewrite <- Hrec in Hne.
  destruct (generateAndStore_spec w' (todayOf w) db1 R0 R1) as [_ Gen].
  destruct (Gen Hne) as (g & _ & G & Hin & _).
  assert (Run :
    bind (SuggestionService.generateAndStore w' (todayOf w))
         (fun r => ret (option_map (fun '(s', rc) => (s', Some rc)) r)) db1 =
    (inr (Some (Spec.pendingRow w' (todayOf w) db1 g,
                Some (SuggestionService.g_recipe g))),
     Spec.withRow db1 (Spec.pendingRow w' (todayOf w) db1 g))).
  { unfold bind. rewrite G. reflexivity. }
  exists (Spec.pendingRow w' (todayOf w) db1 g),
         (SuggestionService.g_recipe g),
         (Spec.withRow db1 (Spec.pendingRow w' (todayOf w) db1 g)).
  split.
  - rewrite getTodaySuggestion_cases, Hday.
    destruct (Spec.latestRow (todayOf w) db1) as [s|] eqn:L; [|exact Run].
    rewrite (latestRow_cleared_day _ _ _ _ Hsg L). exact Run.
  - rewrite <- Hrec. repeat split; try reflexivity. exact Hin.
Qed.

Lemma deleteWeekPlan_then_getTodaySuggestion_witness :
  exists row recipe db2,
    SuggestionService.getTodaySuggestion Fixtures.july
      (snd (WeekPlanEdit.deleteWeekPlan Fixtures.july (todayOf Fixtures.july)
              Fixtures.saladeAfterStamppot)) =
      (inr (Some (row, Some recipe)), db2) /\
    s_status row = pending.
Proof.
  destruct (deleteWeekPlan_then_getTodaySuggestion Fixtures.july
              Fixtures.july Fixtures.saladeAfterStamppot eq_refl)
    as (row & recipe & db2 & H1 & H2 & _).
  - discriminate.
  - reflexivity.
  - discriminate.
  - exists row, recipe, db2. split; assumption.
Defined.

(** *** Regenerating a day *)

Lemma regenerateDay_run (w : World) (date : Date) (db : Db) :
  WeekPlanEdit.regenerateDay w date db =
  match Reroll.chosen w date db with
  | Some r =>
      (inr (WeekPlanEdit.Regenerated date (WeekPlanApi.summary r)),
       Reroll.stored w date r db)
  | None => (inr WeekPlanEdit.NoRecipesAvailable400, db)
  end.
Proof.
  unfold WeekPlanEdit.regenerateDay, Reroll.chosen, Reroll.usedFor,
    Reroll.stored.
  unfold bind at 1. unfold query at 1.
  unfold bind at 1.
  destruct (date =? todayOf w) eqn:Et.
  - unfold bind at 1. unfold query at 1. unfold ret at 1.
    unfold bind at 1. unfold query at 1.
    destruct (Js.sort _ _) as [|[r q] rest]; [reflexivity|].
    reflexivity.
  - unfold ret at 1. unfold bind at 1. unfold query at 1.
    destruct (Js.sort _ _) as [|[r q] rest]; [reflexivity|].
    unfold bind, query, ret, WeekPlanApi.setPlans, update.
    destruct (WeekPlanApi.findPlan date db); reflexivity.
Qed.

Lemma rerollAll_fst (season : Season) (rnd : nat -> Q) (next : nat)
    (l : list Recipe) :
  map fst (WeekPlanEdit.scoreAll season rnd next l) = l.
Proof.
  revert next. induction l as [|r l IH]; intros next; [reflexivity|].
  cbn [WeekPlanEdit.scoreAll map fst]. rewrite IH. reflexivity.
Qed.

Lemma usedIncludes_In (used : list (option Z)) (rid : Z) :
  WeekPlanEdit.usedIncludes used rid = true <-> In (Some rid) used.
Proof.
  unfold WeekPlanEdit.usedIncludes. rewrite existsb_exists. split.
  - intros ([x|] & Hin & E); cbn in E; [|discriminate].
    apply Z.eqb_eq in E. subst x. exact Hin.
  - intros H. exists (Some rid). split; [exact H|]. cbn. apply Z.eqb_refl.
Qed.

Lemma pushUnlessUsed_In (rows : list Suggestion) :
  forall (used : list (option Z)) (rid : Z),
    In (Some rid) (fold_left WeekPlanEdit.pushUnlessUsed rows used) <->
    In (Some rid) used \/ In rid (map s_recipeId rows).
Proof.
  induction rows as [|s rows IH]; intros used rid; cbn [fold_left map].
  - split; [left; assumption|intros [H|[]]; exact H].
  - rewrite IH. unfold WeekPlanEdit.pushUnlessUsed.
    destruct (WeekPlanEdit.usedIncludes used (s_recipeId s)) eqn:U.
    + apply usedIncludes_In in U. split.
      * intros [H|H]; [left; exact H|right; right; exact H].
      * intros [H|[H|H]]; [left; exact H| |right; exact H].
        left. rewrite <- H. exact U.
    + rewrite in_app_iff. cbn [In]. split.
      * intros [[H|[H|[]]]|H]; [left; exact H| |right; right; exact H].
        injection H as H. right. left. exact H.
      * intros [H|[H|H]]; [left; left; exact H| |right; exact H].
        left. right. left. rewrite H. reflexivity.
Qed.

Lemma usedFor_In (w : World) (date : Date) (db : Db) (rid : Z) :
  In (Some rid) (Reroll.usedFor w date db) <->
  (exists p, In p (weekPlan db) /\ wp_date p <> date /\
             wp_recipeId p = Some rid) \/
  (date = todayOf w /\ In rid (Spec.suggestedIds date db)).
Proof.
  assert (Others :
    In (Some rid)
       (map wp_recipeId
          (filter (fun p => negb (wp_date p =? date)) (weekPlan db))) <->
    exists p, In p (weekPlan db) /\ wp_date p <> date /\
              wp_recipeId p = Some rid).
  { rewrite in_map_iff. split.
    - intros (p & E & Hin). apply filter_In in Hin. destruct Hin as [Hin Hd].
      exists p. split; [exact Hin|]. split; [|exact E].
      apply negb_true_iff in Hd. apply Z.eqb_neq. exact Hd.
    - intros (p & Hin & Hd & E). exists p. split; [exact E|].
      apply filter_In. split; [exact Hin|].
      apply negb_true_iff, Z.eqb_neq. exact Hd. }
  unfold Reroll.usedFor. destruct (Z.eqb_spec date (todayOf w)) as [E|N].
  - rewrite pushUnlessUsed_In, Others. unfold Spec.suggestedIds. split.
    + intros [H|H]; [left; exact H|right; split; assumption].
    + intros [H|[_ H]]; [left|right]; exact H.
  - rewrite Others. split; [left; assumption|].
    intros [H|[H _]]; [exact H|contradiction].
Qed.

Lemma chosen_some (w : World) (date : Date) (db : Db) (r : Recipe) :
  Reroll.chosen w date db = Some r ->
  In r (recipes db) /\ ~ In (Some (r_id r)) (Reroll.usedFor w date db).
Proof.
  unfold Reroll.chosen.
  set (before := fun a b : Recipe * Q => Qle_bool (snd b) (snd a)).
  set (avail := filter _ (recipes db)).
  destruct (Js.sort before _) as [|[top q] rest] eqn:Es; [discriminate|].
  intros E. injection E as ->.
  assert (Hin : In r avail).
  { rewrite <- (rerollAll_fst (Weather.getCurrentSeason (month w))
                  (random w) 0%nat avail).
    apply in_map_iff. exists (r, q). split; [reflexivity|].
    apply (sort_In before). rewrite Es. left. reflexivity. }
  subst avail. apply filter_In in Hin. destruct Hin as [H1 H2].
  split; [exact H1|]. apply negb_true_iff in H2.
  rewrite <- usedIncludes_In, H2. discriminate.
Qed.

Lemma chosen_none (w : World) (date : Date) (db : Db) (r : Recipe) :
  Reroll.chosen w date db = None -> In r (recipes db) ->
  In (Some (r_id r)) (Reroll.usedFor w date db).
Proof.
  unfold Reroll.chosen.
  set (before := fun a b : Recipe * Q => Qle_bool (snd b) (snd a)).
  set (avail := filter _ (recipes db)).
  destruct (Js.sort before _) as [|[top q] rest] eqn:Es; [|discriminate].
  intros _ Hin. apply sort_nil_inv in Es.
  assert (Ea : avail = []).
  { rewrite <- (rerollAll_fst (Weather.getCurrentSeason (month w))
                  (random w) 0%nat avail).
    rewrite Es. reflexivity. }
  apply usedIncludes_In.
  destruct (WeekPlanEdit.usedIncludes _ (r_id r)) eqn:U; [reflexivity|].
  exfalso. assert (H : In r avail).
  { subst avail. apply filter_In. split; [exact Hin|]. rewrite U. reflexivity. }
  rewrite Ea in H. destruct H.
Qed.

Lemma stored_other_day (w : World) (date : Date) (r : Recipe) (db : Db) :
  date <> todayOf w ->
  exists p',
    WeekPlanApi.findPlan date (Reroll.stored w date r db) = Some p' /\
    wp_recipeId p' = Some (r_id r) /\
    wp_cleared p' =
      match WeekPlanApi.findPlan date db with
      | Some p => wp_cleared p
      | None => false
      end /\
    recipes (Reroll.stored w date r db) = recipes db /\
    suggestions (Reroll.stored w date r db) = suggestions db.
Proof.
  intros Hd. unfold Reroll.stored.
  destruct (Z.eqb_spec date (todayOf w)) as [|_]; [contradiction|].
  unfold WeekPlanApi.findPlan at 1. cbn [weekPlan recipes suggestions].
  destruct (WeekPlanApi.findPlan date db) as [p|] eqn:Fp;
    unfold WeekPlanApi.findPlan in Fp.
  - rewrite find_updated_plan by reflexivity. rewrite Fp. cbn [option_map].
    eexists. split; [reflexivity|]. repeat split.
  - rewrite find_app_none by exact Fp. cbn [find wp_date].
    rewrite Z.eqb_refl. eexists. split; [reflexivity|]. repeat split.
Qed.

(** X14. [POST /api/weekplan/:date/regenerate] never throws and never
    changes the recipes or the meal history.  It answers 400 exactly
    when every recipe of the catalog is held by a row stored for
    another date or, for today, was already suggested today, and then
    writes nothing.  Otherwise the recipe it answers is one of the
    catalog that no row stored for another date holds and, for today,
    that was not suggested today; for today it is stored as the one
    pending row of the day (all others rejected, the stored week plan
    untouched), for another day in the row of that date (the
    suggestions untouched). *)
Theorem regenerateDay_contract :
  forall (w : World) (date : Date) (db : Db),
    let run := WeekPlanEdit.regenerateDay w date db in
    (exists response, fst run = inr response) /\
    recipes (snd run) = recipes db /\
    mealHistory (snd run) = mealHistory db /\
    (fst run = inr WeekPlanEdit.NoRecipesAvailable400 ->
     snd run = db /\
     forall r, In r (recipes db) ->
       (exists p, In p (weekPlan db) /\ wp_date p <> date /\
                  wp_recipeId p = Some (r_id r)) \/
       (date = todayOf w /\ In (r_id r) (Spec.suggestedIds date db))) /\
    (forall d shown,
       fst run = inr (WeekPlanEdit.Regenerated d shown) ->
       d = date /\
       exists r,
         In r (recipes db) /\ shown = WeekPlanApi.summary r /\
         (forall p, In p (weekPlan db) -> wp_date p <> date ->
                    wp_recipeId p <> Some (r_id r)) /\
         (date = todayOf w -> ~ In (r_id r) (Spec.suggestedIds date db)) /\
         (date = todayOf w ->
          weekPlan (snd run) = weekPlan db /\
          forall s, In s (SuggestionService.todaysRows date (snd run)) ->
                    s = Reroll.pendingRow w date r db \/
                    s_status s = rejected) /\
         (date <> todayOf w ->
          suggestions (snd run) = suggestions db /\
          exists p, WeekPlanApi.findPlan date (snd run) = Some p /\
                    wp_recipeId p = Some (r_id r))).
Proof.
  intros w date db run. subst run. rewrite regenerateDay_run.
  destruct (Reroll.chosen w date db) as [r|] eqn:C; cbn [fst snd].
  - destruct (chosen_some _ _ _ _ C) as [Hin Hun].
    assert (Frame : recipes (Reroll.stored w date r db) = recipes db /\
                    mealHistory (Reroll.stored w date r db) = mealHistory db).
    { unfold Reroll.stored. destruct (date =? todayOf w); split; reflexivity. }
    split; [eexists; reflexivity|]. split; [apply Frame|].
    split; [apply Frame|]. split; [discriminate|].
    intros d shown E. injection E as <- <-. split; [reflexivity|].
    exists r. split; [exact Hin|]. split; [reflexivity|].
    split; [|split; [|split]].
    + intros p Hp Hd E. apply Hun. apply usedFor_In. left.
      exists p. repeat split; assumption.
    + intros Ht Hs. apply Hun. apply usedFor_In. right. split; assumption.
    + intros Ht. apply Z.eqb_eq in Ht. unfold Reroll.stored. rewrite Ht.
      cbn [weekPlan]. split; [reflexivity|].
      unfold SuggestionService.todaysRows. cbn [suggestions].
      rewrite filter_app, todaysRows_markDay. cbn [filter].
      intros s Hs. apply in_app_or in Hs. destruct Hs as [Hs|Hs].
      * right. apply markDay_In in Hs. apply Hs.
      * left. cbn [Reroll.pendingRow s_suggestedFor] in Hs.
        rewrite Z.eqb_refl in Hs. destruct Hs as [<-|[]]. reflexivity.
    + intros Hn.
      destruct (stored_other_day w date r db Hn)
        as (p' & F & Hr & _ & _ & Hsg).
      split; [exact Hsg|]. exists p'. split; assumption.
  - split; [eexists; reflexivity|]. split; [reflexivity|].
    split; [reflexivity|]. split; [|discriminate].
    intros _. split; [reflexivity|].
    intros r Hin. apply usedFor_In. eapply chosen_none; eassumption.
Qed.

(** X15. What the week plan shows for a day other than today after it
    was regenerated: no status, and the recipe the route answered
    (when its id is not 0), whatever was stored for the day before.  In
    particular a day that was cleared earlier
    ([DELETE /api/weekplan/:date]) shows the regenerated recipe: the
    cleared row had only lost its recipe, and the update sets it. *)
Theorem regenerateDay_then_getWeekPlan :
  forall (w w' : World) (date : Date) (db : Db)
         (shown : WeekPlanApi.RecipeSummary),
    date <> todayOf w ->
    date <> todayOf w' ->
    fst (WeekPlanEdit.regenerateDay w date db) =
      inr (WeekPlanEdit.Regenerated date shown) ->
    exists days db2,
      WeekPlanApi.getWeekPlan w'
        (snd (WeekPlanEdit.regenerateDay w date db)) = (inr days, db2) /\
      (In date (map fd_date (WeekPlanApi.allDays w')) ->
       exists d, In d days /\ WeekPlanApi.pd_date d = date) /\
      forall d, In d days -> WeekPlanApi.pd_date d = date ->
        WeekPlanApi.pd_status d = None /\
        (WeekPlanApi.rs_id shown <> 0 ->
         Spec.recipeIdOf d = Some (WeekPlanApi.rs_id shown)).
Proof.
  intros w w' date db shown Hd Hd' Run.
  rewrite regenerateDay_run in *.
  destruct (Reroll.chosen w date db) as [r|] eqn:C; [|discriminate].
  cbn [fst snd] in *. injection Run as <-.
  destruct (chosen_some _ _ _ _ C) as [Hin _].
  destruct (stored_other_day w date r db Hd) as (p' & F & Hr & _ & Hrec & _).
  destruct (getWeekPlan_stored_day w' _ date p' F Hd')
    as (days & db2 & G & Hex & Hall).
  exists days, db2. split; [exact G|]. split; [exact Hex|].
  intros d Hdin Hdate. destruct (Hall d Hdin Hdate) as (day & _ & ->).
  split; [reflexivity|].
  intros Hid. cbn [WeekPlanApi.summary WeekPlanApi.rs_id] in Hid.
  destruct (find_by_id (recipes db) (r_id r)) as (r' & Fr & _ & Hid').
  { exists r. split; [exact Hin|reflexivity]. }
  rewrite <- Hrec in Fr.
  destruct (storedDay_chosen _ p' day (r_id r) r' Hr Hid Fr) as [H1 _].
  unfold Spec.recipeIdOf. rewrite H1.
  cbn [option_map WeekPlanApi.summary WeekPlanApi.rs_id].
  rewrite Hid'. reflexivity.
Qed.

Lemma regenerateDay_then_getWeekPlan_witness :
  exists days db2,
    WeekPlanApi.getWeekPlan Fixtures.week
      (snd (WeekPlanEdit.regenerateDay Fixtures.week (Fixtures.today + 1)
              (snd (WeekPlanEdit.deleteWeekPlan Fixtures.week
                      (Fixtures.today + 1) Fixtures.pestoToday)))) =
    (inr days, db2).
Proof.
  destruct (regenerateDay_then_getWeekPlan Fixtures.week Fixtures.week
              (Fixtures.today + 1)
              (snd (WeekPlanEdit.deleteWeekPlan Fixtures.week
                      (Fixtures.today + 1) Fixtures.pestoToday))
              (WeekPlanApi.mkSummary 1 "Pasta pesto" "pasta"))
    as (days & db2 & G & _).
  - vm_compute. discriminate.
  - vm_compute. discriminate.
  - vm_compute. reflexivity.
  - exists days, db2. exact G.
Defined.

(** *** Reading the week plan twice *)

Lemma available_same_used (allRecipes : list Recipe)
    (st st2 : WeekPlanApi.Loop) :
  WeekPlanApi.usedRecipeIds st2 = WeekPlanApi.usedRecipeIds st ->
  PlanView.available allRecipes st2 = PlanView.available allRecipes st.
Proof. intros H. unfold PlanView.available. rewrite H. reflexivity. Qed.

Lemma available_exhausted (allRecipes : list Recipe)
    (st st' : WeekPlanApi.Loop) :
  PlanView.available allRecipes st = [] ->
  incl (WeekPlanApi.usedRecipeIds st) (WeekPlanApi.usedRecipeIds st') ->
  PlanView.available allRecipes st' = [].
Proof.
  unfold PlanView.available. intros He Hincl.
  destruct (filter _ allRecipes) as [|r l] eqn:F in |- *; [reflexivity|].
  exfalso.
  assert (Hr : In r (filter (fun r0 =>
                  negb (Js.includesZ (WeekPlanApi.usedRecipeIds st') (r_id r0)))
                  allRecipes)) by (rewrite F; left; reflexivity).
  apply filter_In in Hr. destruct Hr as [Hin Hn].
  assert (Hr' : In r (filter (fun r0 =>
                  negb (Js.includesZ (WeekPlanApi.usedRecipeIds st) (r_id r0)))
                  allRecipes)).
  { apply filter_In. split; [exact Hin|].
    apply negb_true_iff in Hn. apply negb_true_iff.
    destruct (Js.includesZ (WeekPlanApi.usedRecipeIds st) (r_id r)) eqn:E;
      [|reflexivity].
    apply includesZ_In in E. apply Hincl in E. apply includesZ_In in E.
    congruence. }
  rewrite He in Hr'. destruct Hr'.
Qed.

(** Once no recipe is left, the loop stores nothing more. *)
Lemma forDays_exhausted (w : World) (allRecipes : list Recipe)
    (season : Season) (today : Date) (sugg : list Suggestion)
    (days : list ForecastDay) :
  forall (st : WeekPlanApi.Loop) (db : Db),
    PlanView.available allRecipes st = [] ->
    exists stF,
      WeekPlanApi.forDays
        (WeekPlanApi.resolveDay w allRecipes season today sugg) days st db =
      (inr stF, db).
Proof.
  induction days as [|day days IH]; intros st db He.
  - exists st. reflexivity.
  - cbn [WeekPlanApi.forDays]. unfold bind at 1. rewrite resolveDay_eq.
    destruct (PlanView.suggestedDay _ _ _ _) as [[d ids]|].
    + apply IH. eapply available_exhausted; [exact He|].
      cbn [WeekPlanApi.usedRecipeIds]. apply incl_appl, incl_refl.
    + destruct (WeekPlanApi.findPlan (fd_date day) db) as [p|].
      * apply IH. eapply available_exhausted; [exact He|].
        cbn [WeekPlanApi.usedRecipeIds]. apply incl_appl, incl_refl.
      * cbv zeta.
        rewrite (proj2 (pick_none w allRecipes season day st) He).
        apply IH. eapply available_exhausted; [exact He|].
        cbn [WeekPlanApi.usedRecipeIds]. apply incl_refl.
Qed.

Lemma findPlan_after_days (w : World) (allRecipes : list Recipe)
    (season : Season) (today : Date) (sugg : list Suggestion)
    (days : list ForecastDay) (st stF : WeekPlanApi.Loop) (db dbF : Db)
    (date : Date) :
  WeekPlanApi.forDays
    (WeekPlanApi.resolveDay w allRecipes season today sugg) days st db =
    (inr stF, dbF) ->
  (exists p, WeekPlanApi.findPlan date db = Some p) \/
  PlanView.available allRecipes st = [] ->
  WeekPlanApi.findPlan date dbF = WeekPlanApi.findPlan date db.
Proof.
  intros E [[p Fp]|He].
  - destruct (forDays_shown w allRecipes season today sugg days st db)
      as (stF' & added & rows & E' & _).
    rewrite E in E'. injection E' as _ ->.
    rewrite Fp. apply findPlan_kept. exact Fp.
  - destruct (forDays_exhausted w allRecipes season today sugg days st db He)
      as (stF' & E').
    rewrite E in E'. injection E' as _ ->. reflexivity.
Qed.

Lemma find_unique_id (l : list Recipe) (r : Recipe) :
  NoDup (map r_id l) -> In r l ->
  find (fun x => r_id x =? r_id r) l = Some r.
Proof.
  induction l as [|a l IH]; intros Hnd Hin; [destruct Hin|].
  cbn [map] in Hnd. inversion Hnd as [|? ? Hna Hnd']; subst.
  cbn [find]. destruct Hin as [->|Hin].
  - rewrite Z.eqb_refl. reflexivity.
  - destruct (Z.eqb_spec (r_id a) (r_id r)) as [E|_]; [|apply IH; assumption].
    exfalso. apply Hna. rewrite E. apply in_map. exact Hin.
Qed.

(** One round of the second read, against one round of the first. *)
Lemma replay_step (w w' : World) (allRecipes : list Recipe)
    (season season' : Season) (today : Date) (sugg : list Suggestion)
    (day : ForecastDay) (st st1 st2 : WeekPlanApi.Loop) (db db1 db2 : Db) :
  NoDup (map r_id allRecipes) -> ~ In 0 (map r_id allRecipes) ->
  WeekPlanApi.usedRecipeIds st2 = WeekPlanApi.usedRecipeIds st ->
  WeekPlanApi.resolveDay w allRecipes season today sugg day st db =
    (inr st1, db1) ->
  (PlanView.suggestedDay allRecipes today sugg day = None ->
   WeekPlanApi.findPlan (fd_date day) db2 =
   WeekPlanApi.findPlan (fd_date day) db1) ->
  ((PlanView.suggestedDay allRecipes today sugg day = None ->
    (exists p, WeekPlanApi.findPlan (fd_date day) db1 = Some p) \/
    PlanView.available allRecipes st1 = []) /\
   exists st2' d1 d2,
     WeekPlanApi.resolveDay w' allRecipes season' today sugg day st2 db2 =
       (inr st2', db2) /\
     WeekPlanApi.usedRecipeIds st2' = WeekPlanApi.usedRecipeIds st1 /\
     WeekPlanApi.result st1 = WeekPlanApi.result st ++ [d1] /\
     WeekPlanApi.result st2' = WeekPlanApi.result st2 ++ [d2] /\
     PlanView.visible d2 = PlanView.visible d1).
Proof.
  intros Hnd Hn0 Hu E1 Hf. rewrite resolveDay_eq in E1.
  rewrite (resolveDay_eq w'). rewrite Hu.
  destruct (PlanView.suggestedDay allRecipes today sugg day)
    as [[d ids]|] eqn:Sg.
  - injection E1 as <- <-. split; [discriminate|].
    eexists _, d, d. repeat split.
  - specialize (Hf eq_refl).
    destruct (WeekPlanApi.findPlan (fd_date day) db) as [p|] eqn:F.
    + injection E1 as <- <-. rewrite Hf, F. split.
      * intros _. left. exists p. reflexivity.
      * eexists _, _, _. repeat split.
    + cbv zeta in E1.
      destruct (PlanView.pick w allRecipes season day st) as [r|] eqn:P.
      * injection E1 as <- <-.
        assert (F1 : WeekPlanApi.findPlan (fd_date day)
                       (PlanView.withPlans db [PlanView.planRow day r]) =
                     Some (PlanView.planRow day r)).
        { unfold WeekPlanApi.findPlan, PlanView.withPlans. cbn [weekPlan].
          unfold WeekPlanApi.findPlan in F. rewrite find_app_none by exact F.
          cbn [find PlanView.planRow wp_date]. rewrite Z.eqb_refl.
          reflexivity. }
        rewrite Hf, F1. split.
        { intros _. left. eexists. reflexivity. }
        apply pick_some in P. destruct P as [Hin _].
        assert (Hid : r_id r <> 0).
        { intros H0. apply Hn0. rewrite <- H0. apply in_map. exact Hin. }
        eexists _, _, _. split; [reflexivity|]. split; [|split; [|split]];
          cbn [WeekPlanApi.usedRecipeIds WeekPlanApi.result].
        { unfold PlanView.storedDay, PlanView.truthyId, PlanView.planRow.
          cbn [wp_cleared wp_recipeId snd].
          destruct (Z.eqb_spec (r_id r) 0) as [|_]; [contradiction|].
          reflexivity. }
        { reflexivity. }
        { reflexivity. }
        unfold PlanView.storedDay, PlanView.truthyId, PlanView.planRow,
          PlanView.generatedDay, PlanView.visible.
        cbn [wp_cleared wp_recipeId wp_temp wp_icon wp_description fst
             WeekPlanApi.orElse WeekPlanApi.pd_date WeekPlanApi.pd_temp
             WeekPlanApi.pd_icon WeekPlanApi.pd_description
             WeekPlanApi.pd_status WeekPlanApi.pd_recipe].
        destruct (Z.eqb_spec (r_id r) 0) as [|_]; [contradiction|].
        rewrite (find_unique_id allRecipes r Hnd Hin). reflexivity.
      * injection E1 as <- <-. rewrite Hf, F.
        apply pick_none in P. split.
        { intros _. right. exact P. }
        cbv zeta.
        rewrite (proj2 (pick_none w' allRecipes season' day st2)).
        2:{ rewrite (available_same_used allRecipes st st2 Hu). exact P. }
        eexists _, _, _. repeat split.
Qed.

Lemma replay_days (w w' : World) (allRecipes : list Recipe)
    (season season' : Season) (today : Date) (sugg : list Suggestion)
    (days : list ForecastDay) :
  NoDup (map r_id allRecipes) -> ~ In 0 (map r_id allRecipes) ->
  forall (st st2 stF : WeekPlanApi.Loop) (db dbF : Db),
    WeekPlanApi.usedRecipeIds st2 = WeekPlanApi.usedRecipeIds st ->
    WeekPlanApi.forDays
      (WeekPlanApi.resolveDay w allRecipes season today sugg) days st db =
      (inr stF, dbF) ->
    exists st2F added added2,
      WeekPlanApi.forDays
        (WeekPlanApi.resolveDay w' allRecipes season' today sugg) days st2
        dbF = (inr st2F, dbF) /\
      WeekPlanApi.result stF = WeekPlanApi.result st ++ added /\
      WeekPlanApi.result st2F = WeekPlanApi.result st2 ++ added2 /\
      map PlanView.visible added2 = map PlanView.visible added.
Proof.
  intros Hnd Hn0. induction days as [|day days IH];
    intros st st2 stF db dbF Hu E.
  - injection E as <- <-. exists st2, [], [].
    rewrite !app_nil_r. repeat split.
  - cbn [WeekPlanApi.forDays] in E. unfold bind at 1 in E.
    destruct (WeekPlanApi.resolveDay w allRecipes season today sugg day st db)
      as [[e|st1] db1] eqn:E1; [discriminate|].
    assert (Hf : PlanView.suggestedDay allRecipes today sugg day = None ->
                 WeekPlanApi.findPlan (fd_date day) dbF =
                 WeekPlanApi.findPlan (fd_date day) db1).
    { intros Sg.
      destruct (replay_step w w allRecipes season season today sugg day
                  st st1 st db db1 db1 Hnd Hn0 eq_refl E1 (fun _ => eq_refl))
        as [Settled _].
      eapply findPlan_after_days; [exact E|]. apply Settled. exact Sg. }
    destruct (replay_step w w' allRecipes season season' today sugg day
                st st1 st2 db db1 dbF Hnd Hn0 Hu E1 Hf)
      as [_ (st2' & d1 & d2 & E2 & Hu' & R1 & R2 & V)].
    destruct (IH st1 st2' stF db1 dbF Hu' E)
      as (st2F & added & added2 & EF & RF & RF2 & VF).
    exists st2F, (d1 :: added), (d2 :: added2).
    cbn [WeekPlanApi.forDays]. unfold bind at 1. rewrite E2.
    split; [exact EF|]. split; [|split].
    + rewrite RF, R1, <- app_assoc. reflexivity.
    + rewrite RF2, R2, <- app_assoc. reflexivity.
    + cbn [map]. rewrite V, VF. reflexivity.
Qed.

(** X16. The week plan is stable across reads: what
    [GET /api/weekplan] answered, a second read of the same day on
    the database the first one left answers again, field for field,
    and the second read writes nothing.  The days the first read
    generated with a recipe are days the second finds stored, and a
    day it generated without one, the catalog being used up, is
    generated without one again.  (The recipe ids
    are distinct and none is 0, as ids of an auto-increment key are;
    the weather and the forecast of the day are the same for both
    reads.) *)
Theorem getWeekPlan_stable :
  forall (w w' : World) (db : Db),
    todayOf w' = todayOf w ->
    currentWeather w' = currentWeather w ->
    weekForecast w' = weekForecast w ->
    NoDup (map r_id (recipes db)) ->
    ~ In 0 (map r_id (recipes db)) ->
    exists days days' db1,
      WeekPlanApi.getWeekPlan w db = (inr days, db1) /\
      WeekPlanApi.getWeekPlan w' db1 = (inr days', db1) /\
      map PlanView.visible days' = map PlanView.visible days.
Proof.
  intros w w' db Hday Hcw Hwf Hnd Hn0.
  destruct (forDays_shown w (recipes db)
              (Weather.getCurrentSeason (month w)) (todayOf w)
              (WeekPlanApi.todaySuggestion (todayOf w) db)
              (WeekPlanApi.allDays w) (WeekPlanApi.mkLoop [] [] 0%nat) db)
    as (stF & added0 & rows & E & _ & _).
  destruct (replay_days w w' (recipes db)
              (Weather.getCurrentSeason (month w))
              (Weather.getCurrentSeason (month w')) (todayOf w)
              (WeekPlanApi.todaySuggestion (todayOf w) db)
              (WeekPlanApi.allDays w) Hnd Hn0
              (WeekPlanApi.mkLoop [] [] 0%nat)
              (WeekPlanApi.mkLoop [] [] 0%nat) stF db
              (PlanView.withPlans db rows) eq_refl E)
    as (st2F & added & added2 & E2 & R1 & R2 & V).
  cbn [WeekPlanApi.result app] in R1, R2.
  exists (WeekPlanApi.result stF), (WeekPlanApi.result st2F),
         (PlanView.withPlans db rows).
  assert (Ha : WeekPlanApi.allDays w' = WeekPlanApi.allDays w).
  { unfold WeekPlanApi.allDays. rewrite Hday, Hcw, Hwf. reflexivity. }
  split; [|split].
  - unfold WeekPlanApi.getWeekPlan, bind, query, ret. rewrite E. reflexivity.
  - unfold WeekPlanApi.getWeekPlan, bind, query, ret.
    rewrite Ha, Hday.
    change (recipes (PlanView.withPlans db rows)) with (recipes db).
    change (WeekPlanApi.todaySuggestion (todayOf w)
              (PlanView.withPlans db rows))
      with (WeekPlanApi.todaySuggestion (todayOf w) db).
    rewrite E2. reflexivity.
  - rewrite R1, R2. exact V.
Qed.

Lemma getWeekPlan_stable_witness :
  exists days days' db1,
    WeekPlanApi.getWeekPlan Fixtures.week Fixtures.pestoToday =
      (inr days, db1) /\
    WeekPlanApi.getWeekPlan Fixtures.week db1 = (inr days', db1) /\
    map PlanView.visible days' = map PlanView.visible days.
Proof.
  apply (getWeekPlan_stable Fixtures.week Fixtures.week Fixtures.pestoToday).
  - reflexivity.
  - reflexivity.
  - reflexivity.
  - repeat constructor; cbn; intuition discriminate.
  - cbn. intuition discriminate.
Defined.

(** ** The shopping list: nothing is lost in the merge *)

Lemma combine_sources (b : ShoppingApi.Bucket) :
  ShoppingApi.sources (ShoppingApi.combine b) = ShoppingApi.b_sources b.
Proof.
  unfold ShoppingApi.combine.
  destruct (ShoppingApi.groupUnits _ _ _) as [[|[u t] [|g G]] []];
    reflexivity.
Qed.

Lemma mapAdjust_sources (k : string)
    (f : ShoppingApi.Bucket -> ShoppingApi.Bucket) (x : ShoppingApi.Source)
    (m : list (string * ShoppingApi.Bucket)) :
  (forall b, ShoppingApi.b_sources (f b) = ShoppingApi.b_sources b ++ [x]) ->
  ShoppingApi.mapHas k m = true ->
  Permutation
    (flat_map (fun kv => ShoppingApi.b_sources (snd kv))
              (ShoppingApi.mapAdjust k f m))
    (flat_map (fun kv => ShoppingApi.b_sources (snd kv)) m ++ [x]).
Proof.
  intros Hf. induction m as [|[k' v] m IH]; [discriminate|].
  cbn [ShoppingApi.mapHas ShoppingApi.mapAdjust].
  destruct (String.eqb k' k).
  - intros _. cbn [flat_map snd]. rewrite Hf, <- !app_assoc.
    apply Permutation_app_head. apply Permutation_app_comm.
  - cbn [orb]. intros H. cbn [flat_map snd]. rewrite <- app_assoc.
    apply Permutation_app_head. apply IH. exact H.
Qed.

Lemma addIngredient_sources (m : list (string * ShoppingApi.Bucket))
    (ing : ShoppingApi.PlannedIngredient) :
  Permutation
    (flat_map (fun kv => ShoppingApi.b_sources (snd kv))
              (ShoppingApi.addIngredient m ing))
    (flat_map (fun kv => ShoppingApi.b_sources (snd kv)) m
       ++ [ShoppingApi.sourceOf ing]).
Proof.
  unfold ShoppingApi.addIngredient.
  destruct (ShoppingApi.mapHas _ m) eqn:H.
  - apply mapAdjust_sources; [reflexivity|exact H].
  - unfold ShoppingApi.mapSet. rewrite H. rewrite flat_map_app.
    cbn [flat_map snd ShoppingApi.b_sources]. rewrite app_nil_r.
    apply Permutation_refl.
Qed.

Lemma fold_addIngredient_sources (ings : list ShoppingApi.PlannedIngredient) :
  forall m,
    Permutation
      (flat_map (fun kv => ShoppingApi.b_sources (snd kv))
                (fold_left ShoppingApi.addIngredient ings m))
      (flat_map (fun kv => ShoppingApi.b_sources (snd kv)) m
         ++ map ShoppingApi.sourceOf ings).
Proof.
  induction ings as [|ing ings IH]; intros m; cbn [fold_left map].
  - rewrite app_nil_r. apply Permutation_refl.
  - eapply Permutation_trans; [apply IH|].
    change (ShoppingApi.sourceOf ing :: map ShoppingApi.sourceOf ings)
      with ([ShoppingApi.sourceOf ing] ++ map ShoppingApi.sourceOf ings).
    rewrite app_assoc. apply Permutation_app_tail.
    apply addIngredient_sources.
Qed.

Lemma mergeIngredients_sources (ings : list ShoppingApi.PlannedIngredient) :
  Permutation
    (flat_map ShoppingApi.sources (ShoppingApi.mergeIngredients ings))
    (map ShoppingApi.sourceOf ings).
Proof.
  unfold ShoppingApi.mergeIngredients.
  assert (E : forall m : list (string * ShoppingApi.Bucket),
    flat_map ShoppingApi.sources
      (map (fun kv => ShoppingApi.combine (snd kv)) m) =
    flat_map (fun kv => ShoppingApi.b_sources (snd kv)) m).
  { induction m as [|kv m IH]; [reflexivity|].
    cbn [map flat_map]. rewrite combine_sources, IH. reflexivity. }
  rewrite E. apply (fold_addIngredient_sources ings []).
Qed.

Lemma firstCategory_key (lowerName : string)
    (entries : list (string * list string)) (c : string) :
  ShoppingApi.firstCategory lowerName entries = Some c ->
  In c (map fst entries).
Proof.
  induction entries as [|[cat kws] entries IH]; [discriminate|].
  cbn [ShoppingApi.firstCategory map fst].
  destruct (String.eqb cat "Overig").
  - intros H. right. apply IH. exact H.
  - destruct (existsb _ kws).
    + intros [= <-]. left. reflexivity.
    + intros H. right. apply IH. exact H.
Qed.

Lemma categorizeIngredient_in_order (n : string) :
  In (ShoppingApi.categorizeIngredient n) Spec.categoryOrder.
Proof.
  unfold ShoppingApi.categorizeIngredient.
  destruct (ShoppingApi.firstCategory _ _) as [c|] eqn:F.
  - apply firstCategory_key in F. exact F.
  - unfold Spec.categoryOrder. repeat (try (left; reflexivity); right).
Qed.

(** X17. The merge of the shopping list neither loses nor invents a
    line: the sources of all items taken together are the lines that
    went in, each exactly once.  Every item has at least one source,
    there are at most as many items as lines, and every item carries
    the category of the name it is displayed under, which is one of
    the nine categories of the list. *)
Theorem mergeIngredients_conserves_lines :
  forall ings : list ShoppingApi.PlannedIngredient,
    Permutation
      (flat_map ShoppingApi.sources (ShoppingApi.mergeIngredients ings))
      (map ShoppingApi.sourceOf ings) /\
    (length (ShoppingApi.mergeIngredients ings) <= length ings)%nat /\
    forall item, In item (ShoppingApi.mergeIngredients ings) ->
      ShoppingApi.sources item <> [] /\
      ShoppingApi.category item =
        ShoppingApi.categorizeIngredient (ShoppingApi.displayName item) /\
      In (ShoppingApi.category item) Spec.categoryOrder.
Proof.
  intros ings. split; [apply mergeIngredients_sources|]. split.
  - rewrite <- (length_map ShoppingApi.name
                  (ShoppingApi.mergeIngredients ings)).
    rewrite mergeIngredients_names.
    rewrite <- (length_map MergeView.keyOf ings).
    apply NoDup_incl_length; [apply distinctFrom_NoDup|].
    intros k Hk. apply distinctFrom_In in Hk. apply Hk.
  - intros item Hin.
    destruct (mergeIngredients_items ings item Hin) as (first & rest & _ & E).
    assert (Shape :
      ShoppingApi.sources item =
        map ShoppingApi.sourceOf (first :: rest) /\
      ShoppingApi.displayName item = ShoppingApi.pi_name first /\
      ShoppingApi.category item =
        ShoppingApi.categorizeIngredient (ShoppingApi.pi_name first)).
    { rewrite E. unfold MergeView.itemOf.
      destruct (MergeView.summable first (first :: rest)); repeat split. }
    destruct Shape as (Hs & Hd & Hc).
    split; [rewrite Hs; discriminate|].
    split; [rewrite Hc, Hd; reflexivity|].
    rewrite Hc. apply categorizeIngredient_in_order.
Qed.

(** ** The shopping list: the days it covers *)

Lemma collect_trace (rl : list Recipe) (entries : list (Date * option Z)) :
  forall acc,
    fold_left (ShoppingApi.collectDay rl) entries acc =
    (fst acc ++ flat_map (ShoppingView.ingredientsOf rl) entries,
     snd acc ++ flat_map (ShoppingView.planOf rl) entries).
Proof.
  induction entries as [|e entries IH]; intros [ings plans];
    cbn [fold_left flat_map fst snd].
  - rewrite !app_nil_r. reflexivity.
  - rewrite IH. unfold ShoppingApi.collectDay, ShoppingView.ingredientsOf,
      ShoppingView.planOf.
    destruct (ShoppingApi.recipeMapGet rl (snd e)) as [r|];
      cbn [fst snd app]; [|reflexivity].
    rewrite <- !app_assoc. reflexivity.
Qed.

Lemma setAdd_nonempty (plans : list WeekPlanEntry) :
  forall ids,
    fold_left (fun ids plan => ShoppingApi.setAdd (wp_recipeId plan) ids)
              plans ids = [] ->
    plans = [] /\ ids = [].
Proof.
  induction plans as [|p plans IH]; intros ids; cbn [fold_left].
  - intros ->. split; reflexivity.
  - intros H. apply IH in H. destruct H as [_ H]. exfalso.
    unfold ShoppingApi.setAdd in H.
    destruct (existsb _ ids) eqn:E.
    + subst ids. discriminate.
    + destruct ids; discriminate.
Qed.

Lemma getShoppingList_eq (w : World) (db : Db) :
  ShoppingApi.getShoppingList w db =
  (inr (ShoppingApi.mkShoppingList
          (ShoppingApi.mergeIngredients
             (flat_map
                (ShoppingView.ingredientsOf
                   (ShoppingView.recipeList (todayOf w) db))
                (ShoppingView.sortedDates (todayOf w) db)))
          (flat_map
             (ShoppingView.planOf (ShoppingView.recipeList (todayOf w) db))
             (ShoppingView.sortedDates (todayOf w) db))),
   db).
Proof.
  unfold ShoppingApi.getShoppingList, bind, query, ret.
  assert (Ids :
    fst (match ShoppingApi.todaySuggestion (todayOf w) db with
         | s :: _ => ([Some (s_recipeId s)], [(todayOf w, Some (s_recipeId s))])
         | [] => ([], [])
         end) = map snd (ShoppingView.fromToday (todayOf w) db) /\
    snd (match ShoppingApi.todaySuggestion (todayOf w) db with
         | s :: _ => ([Some (s_recipeId s)], [(todayOf w, Some (s_recipeId s))])
         | [] => ([], [])
         end) = ShoppingView.fromToday (todayOf w) db).
  { unfold ShoppingView.fromToday.
    destruct (ShoppingApi.todaySuggestion (todayOf w) db); split; reflexivity. }
  destruct Ids as [I1 I2]. rewrite I1, I2.
  destruct (fold_left (fun ids plan =>
                         ShoppingApi.setAdd (wp_recipeId plan) ids)
              (weekPlan db) (map snd (ShoppingView.fromToday (todayOf w) db)))
    as [|i ids] eqn:E.
  - apply setAdd_nonempty in E. destruct E as [Ep Ei].
    cbn [length Nat.eqb].
    unfold ShoppingView.sortedDates, ShoppingView.dateToRecipeId.
    rewrite Ep.
    destruct (ShoppingView.fromToday (todayOf w) db); [|discriminate].
    reflexivity.
  - cbn [length Nat.eqb]. rewrite collect_trace. cbn [fst snd app].
    unfold ShoppingView.recipeList. rewrite E. reflexivity.
Qed.

Lemma dateSet_In (d : Date) (v : option Z) (m : list (Date * option Z))
    (k : Date) (x : option Z) :
  NoDup (map fst m) ->
  In (k, x) (ShoppingApi.dateSet d v m) ->
  (k = d /\ x = v) \/ (k <> d /\ In (k, x) m).
Proof.
  induction m as [|[d' v'] m IH]; intros Hnd; cbn [ShoppingApi.dateSet].
  - intros [[= <- <-]|[]]. left. split; reflexivity.
  - cbn [map fst] in Hnd. inversion Hnd as [|? ? Hna Hnd']; subst.
    destruct (Z.eqb_spec d' d) as [->|Hne].
    + intros [[= <- <-]|Hin]; [left; split; reflexivity|].
      right. split; [|right; exact Hin].
      intros ->. apply Hna. apply (in_map fst) in Hin. exact Hin.
    + intros [[= <- <-]|Hin].
      * right. split; [exact Hne|left; reflexivity].
      * destruct (IH Hnd' Hin) as [H|[H1 H2]]; [left; exact H|].
        right. split; [exact H1|right; exact H2].
Qed.

Lemma dateSet_keys (d : Date) (v : option Z) (m : list (Date * option Z))
    (k : Date) :
  In k (map fst (ShoppingApi.dateSet d v m)) -> k = d \/ In k (map fst m).
Proof.
  induction m as [|[d' v'] m IH]; cbn [ShoppingApi.dateSet map fst].
  - intros [<-|[]]. left. reflexivity.
  - destruct (Z.eqb_spec d' d) as [->|Hne]; cbn [map fst].
    + intros [<-|H]; [left; reflexivity|right; right; exact H].
    + intros [<-|H]; [right; left; reflexivity|].
      destruct (IH H) as [E|E]; [left; exact E|right; right; exact E].
Qed.

Lemma dateSet_NoDup (d : Date) (v : option Z) (m : list (Date * option Z)) :
  NoDup (map fst m) -> NoDup (map fst (ShoppingApi.dateSet d v m)).
Proof.
  induction m as [|[d' v'] m IH]; intros Hnd; cbn [ShoppingApi.dateSet].
  - repeat constructor. intros [].
  - cbn [map fst] in Hnd. inversion Hnd as [|? ? Hna Hnd']; subst.
    destruct (Z.eqb_spec d' d) as [->|Hne]; cbn [map fst].
    + constructor; assumption.
    + constructor; [|apply IH; exact Hnd'].
      intros H. apply dateSet_keys in H. destruct H as [H|H];
        [congruence|contradiction].
Qed.

(** Where an entry of [dateToRecipeId] comes from: the stored rows
    win over the suggestion of today. *)
Lemma dateMap_entries (plans : list WeekPlanEntry) :
  forall init,
    NoDup (map fst init) ->
    let m := fold_left (fun m plan =>
                          ShoppingApi.dateSet (wp_date plan)
                            (wp_recipeId plan) m) plans init in
    NoDup (map fst m) /\
    forall k x, In (k, x) m ->
      (exists p, In p plans /\ wp_date p = k /\ wp_recipeId p = x) \/
      (In (k, x) init /\ forall p, In p plans -> wp_date p <> k).
Proof.
  induction plans as [|p plans IH]; intros init Hnd; cbn [fold_left].
  - split; [exact Hnd|]. intros k x H. right. split; [exact H|].
    intros p [].
  - destruct (IH _ (dateSet_NoDup (wp_date p) (wp_recipeId p) init Hnd))
      as [Hnd' Hall].
    split; [exact Hnd'|]. intros k x H.
    destruct (Hall k x H) as [(p' & Hin & Hd & Hr)|[Hin Hno]].
    + left. exists p'. split; [right; exact Hin|]. split; assumption.
    + destruct (dateSet_In _ _ _ _ _ Hnd Hin) as [[-> ->]|[Hne Hin']].
      * left. exists p. split; [left; reflexivity|]. split; reflexivity.
      * right. split; [exact Hin'|].
        intros p' [<-|Hp']; [congruence|apply Hno; exact Hp'].
Qed.

Lemma fromToday_NoDup (today : Date) (db : Db) :
  NoDup (map fst (ShoppingView.fromToday today db)).
Proof.
  unfold ShoppingView.fromToday.
  destruct (ShoppingApi.todaySuggestion today db);
    repeat constructor. intros [].
Qed.

Lemma NoDup_map_filter {A B : Type} (g : A -> B) (f : A -> bool)
    (l : list A) :
  NoDup (map g l) -> NoDup (map g (filter f l)).
Proof.
  induction l as [|a l IH]; intros H; [constructor|].
  cbn [map] in H. inversion H as [|? ? Hna Hnd]; subst.
  cbn [filter]. destruct (f a); [|apply IH; exact Hnd].
  cbn [map]. constructor; [|apply IH; exact Hnd].
  intros Hin. apply Hna. apply in_map_iff in Hin.
  destruct Hin as (x & E & Hx). apply filter_In in Hx.
  apply in_map_iff. exists x. split; [exact E|apply Hx].
Qed.

Lemma StronglySorted_strict {A : Type} (g : A -> Z) (l : list A) :
  StronglySorted (fun a b => g a <= g b) l -> NoDup (map g l) ->
  StronglySorted (fun a b => g a < g b) l.
Proof.
  induction 1 as [|a l Hs IH Hall]; intros Hnd; [constructor|].
  cbn [map] in Hnd. inversion Hnd as [|? ? Hna Hnd']; subst.
  constructor; [apply IH; exact Hnd'|].
  rewrite Forall_forall in *. intros x Hx.
  specialize (Hall x Hx).
  assert (g a <> g x).
  { intros E. apply Hna. rewrite E. apply in_map. exact Hx. }
  lia.
Qed.

Lemma StronglySorted_firstn {A : Type} (R : A -> A -> Prop) (n : nat)
    (l : list A) :
  StronglySorted R l -> StronglySorted R (firstn n l).
Proof.
  intros H. revert n. induction H as [|a l Hs IH Hall]; intros n.
  - rewrite firstn_nil. constructor.
  - destruct n as [|n]; [constructor|].
    cbn [firstn]. constructor; [apply IH|].
    rewrite Forall_forall in *. intros x Hx. apply Hall.
    eapply In_firstn. exact Hx.
Qed.

Lemma sortedDates_spec (today : Date) (db : Db) :
  StronglySorted (fun a b => fst a < fst b)
    (ShoppingView.sortedDates today db) /\
  (length (ShoppingView.sortedDates today db) <= 7)%nat /\
  forall e, In e (ShoppingView.sortedDates today db) ->
    today <= fst e /\ In e (ShoppingView.dateToRecipeId today db).
Proof.
  unfold ShoppingView.sortedDates, Js.slice0.
  set (m := ShoppingView.dateToRecipeId today db).
  assert (Hnd : NoDup (map fst m)).
  { apply (dateMap_entries (weekPlan db)). apply fromToday_NoDup. }
  split; [|split].
  - apply StronglySorted_firstn. apply StronglySorted_strict.
    + apply orderByAsc_sorted.
    + apply (Permutation_NoDup
               (l := map fst (filter (fun e => fst e >=? today) m))).
      * apply Permutation_map, Permutation_sym. unfold orderByAsc.
        apply sort_perm.
      * apply NoDup_map_filter. exact Hnd.
  - apply firstn_le_length.
  - intros e He. apply In_firstn in He. unfold orderByAsc in He.
    apply sort_In in He. apply filter_In in He. destruct He as [H1 H2].
    split; [|exact H1]. apply Z.geb_le in H2. exact H2.
Qed.

Lemma recipeMapGet_some (rl : list Recipe) (x : option Z) (r : Recipe) :
  ShoppingApi.recipeMapGet rl x = Some r -> In r rl /\ x = Some (r_id r).
Proof.
  unfold ShoppingApi.recipeMapGet. destruct x as [i|]; [|discriminate].
  intros F. apply find_some in F. destruct F as [Hin E].
  apply Z.eqb_eq in E. split; [apply in_rev; exact Hin|].
  rewrite E. reflexivity.
Qed.

Lemma planOf_In (rl : list Recipe) (entries : list (Date * option Z))
    (pr : ShoppingApi.PlannedRecipe) :
  In pr (flat_map (ShoppingView.planOf rl) entries) ->
  exists e r,
    In e entries /\ In r rl /\ snd e = Some (r_id r) /\
    pr = ShoppingApi.mkPlannedRecipe (r_id r) (r_name r) (fst e)
           (ShoppingApi.servingsOf r).
Proof.
  intros H. apply in_flat_map in H. destruct H as (e & He & Hin).
  unfold ShoppingView.planOf in Hin.
  destruct (ShoppingApi.recipeMapGet rl (snd e)) as [r|] eqn:G;
    [|destruct Hin].
  destruct Hin as [<-|[]]. apply recipeMapGet_some in G.
  exists e, r. repeat split; try apply G. exact He.
Qed.

Lemma planOf_sorted (rl : list Recipe) (entries : list (Date * option Z)) :
  StronglySorted (fun a b => fst a < fst b) entries ->
  StronglySorted Z.lt
    (map ShoppingApi.pr_date (flat_map (ShoppingView.planOf rl) entries)).
Proof.
  induction 1 as [|e entries Hs IH Hall]; [constructor|].
  cbn [flat_map]. rewrite map_app.
  assert (Later : Forall (Z.lt (fst e))
            (map ShoppingApi.pr_date
               (flat_map (ShoppingView.planOf rl) entries))).
  { rewrite Forall_forall in *. intros d Hd. apply in_map_iff in Hd.
    destruct Hd as (pr & <- & Hpr). apply planOf_In in Hpr.
    destruct Hpr as (e' & r & He' & _ & _ & ->).
    cbn [ShoppingApi.pr_date]. apply Hall. exact He'. }
  unfold ShoppingView.planOf at 1.
  destruct (ShoppingApi.recipeMapGet _ _);
    cbn [map app ShoppingApi.pr_date]; [|exact IH].
  constructor; assumption.
Qed.

Lemma planOf_length (rl : list Recipe) (entries : list (Date * option Z)) :
  (length (flat_map (ShoppingView.planOf rl) entries) <= length entries)%nat.
Proof.
  induction entries as [|e entries IH]; [apply Nat.le_refl|].
  cbn [flat_map]. rewrite length_app. unfold ShoppingView.planOf at 1.
  destruct (ShoppingApi.recipeMapGet _ _); cbn [length]; lia.
Qed.

Lemma servingsOf_nonzero (r : Recipe) : ShoppingApi.servingsOf r <> 0.
Proof.
  unfold ShoppingApi.servingsOf.
  destruct (r_defaultServings r) as [n|]; [|discriminate].
  destruct (Z.eqb_spec n 0); [discriminate|assumption].
Qed.

Lemma fromToday_In (today : Date) (db : Db) (k : Date) (x : option Z) :
  In (k, x) (ShoppingView.fromToday today db) ->
  k = today /\
  exists s rest, ShoppingApi.todaySuggestion today db = s :: rest /\
                 x = Some (s_recipeId s).
Proof.
  unfold ShoppingView.fromToday.
  destruct (ShoppingApi.todaySuggestion today db) as [|s rest]; [intros []|].
  intros [[= <- <-]|[]]. split; [reflexivity|].
  exists s, rest. split; reflexivity.
Qed.

(** X18. The recipes the shopping list is made for:
    [GET /api/shopping] never fails and writes nothing; the planned
    recipes it answers are for pairwise different dates, in ascending
    order, none before today, at most seven; each is a recipe of the
    catalog with its name and a number of servings that is not 0; and
    each is what a stored row of [week_plan] for its date holds, or,
    for today and only when no row is stored for today, what the
    suggestion of today holds. *)
Theorem getShoppingList_plan :
  forall (w : World) (db : Db),
  exists l,
    ShoppingApi.getShoppingList w db = (inr l, db) /\
    StronglySorted Z.lt
      (map ShoppingApi.pr_date (ShoppingApi.recipesInPlan l)) /\
    (length (ShoppingApi.recipesInPlan l) <= 7)%nat /\
    forall pr, In pr (ShoppingApi.recipesInPlan l) ->
      todayOf w <= ShoppingApi.pr_date pr /\
      ShoppingApi.pr_servings pr <> 0 /\
      exists r,
        In r (recipes db) /\
        pr = ShoppingApi.mkPlannedRecipe (r_id r) (r_name r)
               (ShoppingApi.pr_date pr) (ShoppingApi.servingsOf r) /\
        ((exists p, In p (weekPlan db) /\
                    wp_date p = ShoppingApi.pr_date pr /\
                    wp_recipeId p = Some (r_id r)) \/
         (ShoppingApi.pr_date pr = todayOf w /\
          (forall p, In p (weekPlan db) -> wp_date p <> todayOf w) /\
          exists s rest,
            ShoppingApi.todaySuggestion (todayOf w) db = s :: rest /\
            s_recipeId s = r_id r)).
Proof.
  intros w db. eexists. split; [apply getShoppingList_eq|].
  cbn [ShoppingApi.recipesInPlan].
  destruct (sortedDates_spec (todayOf w) db) as (Hs & Hl & He).
  split; [apply planOf_sorted; exact Hs|]. split.
  { eapply Nat.le_trans; [apply planOf_length|exact Hl]. }
  intros pr Hpr. apply planOf_In in Hpr.
  destruct Hpr as (e & r & Hin & Hr & Hid & ->).
  cbn [ShoppingApi.pr_date ShoppingApi.pr_servings].
  destruct (He e Hin) as [Hge Hm].
  split; [exact Hge|]. split; [apply servingsOf_nonzero|].
  exists r. split.
  { unfold ShoppingView.recipeList in Hr. apply filter_In in Hr. apply Hr. }
  split; [reflexivity|].
  destruct e as [k x]. cbn [fst snd] in *. subst x.
  destruct (dateMap_entries (weekPlan db) _
              (fromToday_NoDup (todayOf w) db)) as [_ Hfrom].
  destruct (Hfrom k _ Hm) as [(p & Hp & Hd & Hrid)|[Hinit Hno]].
  - left. exists p. repeat split; assumption.
  - right. apply fromToday_In in Hinit.
    destruct Hinit as (-> & s & rest & Hsg & E).
    split; [reflexivity|]. split; [exact Hno|].
    exists s, rest. split; [exact Hsg|]. injection E as E. symmetry. exact E.
Qed.

Lemma planned_trace (rl : list Recipe) (entries : list (Date * option Z)) :
  exists planned : list (Date * Recipe),
    flat_map (ShoppingView.planOf rl) entries =
      map (fun dr => ShoppingApi.mkPlannedRecipe (r_id (snd dr))
                       (r_name (snd dr)) (fst dr)
                       (ShoppingApi.servingsOf (snd dr))) planned /\
    flat_map (ShoppingView.ingredientsOf rl) entries =
      flat_map (fun dr =>
                  map (ShoppingApi.plannedOf (snd dr))
                      (ShoppingView.linesOf (snd dr))) planned.
Proof.
  induction entries as [|e entries (planned & H1 & H2)].
  - exists []. split; reflexivity.
  - cbn [flat_map]. rewrite H1, H2.
    unfold ShoppingView.planOf at 1, ShoppingView.ingredientsOf at 1.
    destruct (ShoppingApi.recipeMapGet _ _) as [r|].
    + exists ((fst e, r) :: planned). split; reflexivity.
    + exists planned. split; reflexivity.
Qed.

Lemma map_flat_map {A B C : Type} (g : B -> C) (f : A -> list B)
    (l : list A) :
  map g (flat_map f l) = flat_map (fun x => map g (f x)) l.
Proof.
  induction l as [|a l IH]; [reflexivity|].
  cbn [flat_map]. rewrite map_app, IH. reflexivity.
Qed.

(** X19. The items of the shopping list are the merge of the
    ingredient lines of the planned recipes, and of nothing else:
    there is a list of planned (date, recipe) pairs that the planned
    recipes of the answer name one for one, the items are
    [mergeIngredients] of their ingredient lines in that order, the
    sources of all items together are exactly those lines, and every
    source of every item names a planned recipe of the answer. *)
Theorem getShoppingList_items_from_plan :
  forall (w : World) (db : Db),
  exists l (planned : list (Date * Recipe)),
    ShoppingApi.getShoppingList w db = (inr l, db) /\
    ShoppingApi.recipesInPlan l =
      map (fun dr => ShoppingApi.mkPlannedRecipe (r_id (snd dr))
                       (r_name (snd dr)) (fst dr)
                       (ShoppingApi.servingsOf (snd dr))) planned /\
    ShoppingApi.items l =
      ShoppingApi.mergeIngredients
        (flat_map (fun dr =>
                     map (ShoppingApi.plannedOf (snd dr))
                         (ShoppingView.linesOf (snd dr))) planned) /\
    Permutation
      (flat_map ShoppingApi.sources (ShoppingApi.items l))
      (flat_map (fun dr =>
                   map (fun ing =>
                          ShoppingApi.sourceOf
                            (ShoppingApi.plannedOf (snd dr) ing))
                       (ShoppingView.linesOf (snd dr))) planned) /\
    forall item src,
      In item (ShoppingApi.items l) -> In src (ShoppingApi.sources item) ->
      exists pr, In pr (ShoppingApi.recipesInPlan l) /\
                 ShoppingApi.pr_id pr = ShoppingApi.src_recipeId src /\
                 ShoppingApi.pr_name pr = ShoppingApi.src_recipeName src.
Proof.
  intros w db.
  destruct (planned_trace (ShoppingView.recipeList (todayOf w) db)
              (ShoppingView.sortedDates (todayOf w) db))
    as (planned & H1 & H2).
  eexists _, planned. split; [apply getShoppingList_eq|].
  cbn [ShoppingApi.recipesInPlan ShoppingApi.items]. rewrite H1, H2.
  split; [reflexivity|]. split; [reflexivity|].
  assert (P : Permutation
    (flat_map ShoppingApi.sources
       (ShoppingApi.mergeIngredients
          (flat_map (fun dr =>
                       map (ShoppingApi.plannedOf (snd dr))
                           (ShoppingView.linesOf (snd dr))) planned)))
    (flat_map (fun dr =>
                 map (fun ing =>
                        ShoppingApi.sourceOf
                          (ShoppingApi.plannedOf (snd dr) ing))
                     (ShoppingView.linesOf (snd dr))) planned)).
  { eapply Permutation_trans; [apply mergeIngredients_sources|].
    rewrite map_flat_map.
    assert (E : forall l : list (Date * Recipe),
      flat_map (fun x =>
                  map ShoppingApi.sourceOf
                      (map (ShoppingApi.plannedOf (snd x))
                           (ShoppingView.linesOf (snd x)))) l =
      flat_map (fun dr =>
                  map (fun ing =>
                         ShoppingApi.sourceOf
                           (ShoppingApi.plannedOf (snd dr) ing))
                      (ShoppingView.linesOf (snd dr))) l).
    { induction l as [|a l IH]; [reflexivity|].
      cbn [flat_map]. rewrite map_map, IH. reflexivity. }
    rewrite E. apply Permutation_refl. }
  split; [exact P|].
  intros item src Hitem Hsrc.
  assert (Hall : In src (flat_map ShoppingApi.sources
                           (ShoppingApi.mergeIngredients
                              (flat_map (fun dr =>
                                 map (ShoppingApi.plannedOf (snd dr))
                                     (ShoppingView.linesOf (snd dr))) planned)))).
  { apply in_flat_map. exists item. split; assumption. }
  apply (Permutation_in _ P) in Hall. apply in_flat_map in Hall.
  destruct Hall as (dr & Hdr & Hs). apply in_map_iff in Hs.
  destruct Hs as (ing & <- & _).
  eexists. split; [apply in_map; exact Hdr|]. split; reflexivity.
Qed.

(** ** The weather service *)

Lemma tags_of_tests (cold hot rain sun : bool) :
  let tags := (if cold then [koud] else []) ++ (if hot then [warm] else [])
              ++ (if rain then [regenachtig] else [])
              ++ (if sun then [zonnig] else []) in
  NoDup tags /\
  (In koud tags <-> cold = true) /\ (In warm tags <-> hot = true) /\
  (In regenachtig tags <-> rain = true) /\ (In zonnig tags <-> sun = true).
Proof.
  destruct cold, hot, rain, sun; cbn;
    (split; [repeat constructor; cbn; intuition discriminate|]);
    intuition discriminate.
Qed.

(** X20. The weather tags of a snapshot: no tag twice; [koud] exactly
    below 10 degrees and [warm] exactly above 20, so never both.  The
    tags the forecast gives a day are among the tags
    [getWeatherTags] gives the same temperature and condition, but
    not the other way round: a thunderstorm is [regenachtig] and a
    sky that is just 'Clouds' is [zonnig] for today's snapshot and
    neither for a forecast day. *)
Theorem weatherTags_of_snapshot_and_forecast :
  forall (weather : WeatherSnapshot),
    let tags := Weather.getWeatherTags weather in
    NoDup tags /\
    (In koud tags <-> w_temp weather < 10) /\
    (In warm tags <-> 20 < w_temp weather) /\
    ~ (In koud tags /\ In warm tags) /\
    (forall t,
       In t (WeatherService.forecastTags (w_temp weather)
               (Js.toLowerCase (w_condition weather))) ->
       In t tags) /\
    Weather.getWeatherTags (mkWeather 15 "Thunderstorm" "onweer" "11d") =
      [regenachtig] /\
    WeatherService.forecastTags 15 (Js.toLowerCase "Thunderstorm") = [] /\
    Weather.getWeatherTags (mkWeather 15 "Clouds" "bewolkt" "03d") =
      [zonnig] /\
    WeatherService.forecastTags 15 (Js.toLowerCase "Clouds") = [].
Proof.
  intros weather tags. subst tags.
  unfold Weather.getWeatherTags, WeatherService.forecastTags.
  set (c := Js.toLowerCase (w_condition weather)).
  set (cold := w_temp weather <? 10). set (hot := w_temp weather >? 20).
  set (rain := (Js.includes c "rain" || Js.includes c "drizzle"
                || Js.includes c "thunder")%bool).
  set (sun := (Js.includes c "clear" || Js.includes c "sun"
               || String.eqb c "clouds")%bool).
  set (rain' := (Js.includes c "rain" || Js.includes c "drizzle")%bool).
  set (sun' := (Js.includes c "clear" || Js.includes c "sun")%bool).
  destruct (tags_of_tests cold hot rain sun) as (N & K & W & R & S).
  destruct (tags_of_tests cold hot rain' sun') as (_ & K' & W' & R' & S').
  assert (Hc : cold = true <-> w_temp weather < 10)
    by (subst cold; apply Z.ltb_lt).
  assert (Hh : hot = true <-> 20 < w_temp weather)
    by (subst hot; rewrite Z.gtb_ltb; apply Z.ltb_lt).
  split; [exact N|]. split; [rewrite K; exact Hc|].
  split; [rewrite W; exact Hh|]. split.
  { rewrite K, W, Hc, Hh. lia. }
  split.
  { intros [| | |] Ht.
    - apply K. apply K'. exact Ht.
    - apply W. apply W'. exact Ht.
    - apply R. apply R' in Ht. subst rain rain'. rewrite Ht. reflexivity.
    - apply S. apply S' in Ht. subst sun sun'. rewrite Ht. reflexivity. }
  repeat split; reflexivity.
Qed.

Lemma daysHas_In (d : Date) (days : list (Date * ForecastDay)) :
  WeatherService.daysHas d days = true <-> In d (map fst days).
Proof.
  induction days as [|[k v] days IH]; cbn [WeatherService.daysHas map fst].
  - split; [discriminate|intros []].
  - rewrite orb_true_iff, IH, Z.eqb_eq. cbn [In]. reflexivity.
Qed.

Lemma daysSet_keys (d : Date) (x : ForecastDay)
    (days : list (Date * ForecastDay)) (k : Date) :
  In k (map fst (WeatherService.daysSet d x days)) <->
  k = d \/ In k (map fst days).
Proof.
  induction days as [|[d' v'] days IH]; cbn [WeatherService.daysSet map fst].
  - cbn [In]. intuition.
  - destruct (Z.eqb_spec d' d) as [->|Hne]; cbn [map fst In].
    + intuition.
    + rewrite IH. intuition.
Qed.

Lemma daysSet_NoDup (d : Date) (x : ForecastDay)
    (days : list (Date * ForecastDay)) :
  NoDup (map fst days) -> NoDup (map fst (WeatherService.daysSet d x days)).
Proof.
  induction days as [|[d' v'] days IH]; intros Hnd;
    cbn [WeatherService.daysSet].
  - repeat constructor. intros [].
  - cbn [map fst] in Hnd. inversion Hnd as [|? ? Hna Hnd']; subst.
    destruct (Z.eqb_spec d' d) as [->|Hne]; cbn [map fst].
    + constructor; assumption.
    + constructor; [|apply IH; exact Hnd'].
      rewrite daysSet_keys. intros [H|H]; [congruence|contradiction].
Qed.

Lemma daysSet_In (d : Date) (x : ForecastDay)
    (days : list (Date * ForecastDay)) (k : Date) (v : ForecastDay) :
  NoDup (map fst days) ->
  In (k, v) (WeatherService.daysSet d x days) ->
  (k = d /\ v = x) \/ (k <> d /\ In (k, v) days).
Proof.
  induction days as [|[d' v'] days IH]; intros Hnd;
    cbn [WeatherService.daysSet].
  - intros [[= <- <-]|[]]. left. split; reflexivity.
  - cbn [map fst] in Hnd. inversion Hnd as [|? ? Hna Hnd']; subst.
    destruct (Z.eqb_spec d' d) as [->|Hne].
    + intros [[= <- <-]|Hin]; [left; split; reflexivity|].
      right. split; [|right; exact Hin].
      intros ->. apply Hna. apply (in_map fst) in Hin. exact Hin.
    + intros [[= <- <-]|Hin].
      * right. split; [exact Hne|left; reflexivity].
      * destruct (IH Hnd' Hin) as [H|[H1 H2]]; [left; exact H|].
        right. split; [exact H1|right; exact H2].
Qed.

Lemma representative_later (done : list WeatherService.ForecastItem)
    (item y : WeatherService.ForecastItem) :
  WeatherView.representative done item ->
  WeatherService.fi_date y <> WeatherService.fi_date item \/
  WeatherView.preferred y = false ->
  WeatherView.representative (done ++ [y]) item.
Proof.
  intros (pre & post & E & Hfirst & Hlast) Hy.
  exists pre, (post ++ [y]). split.
  - rewrite E, <- app_assoc. reflexivity.
  - split; [exact Hfirst|]. intros x Hx Hd. apply in_app_or in Hx.
    destruct Hx as [Hx|[<-|[]]]; [apply Hlast; assumption|].
    destruct Hy as [Hy|Hy]; [contradiction|exact Hy].
Qed.

Lemma representative_new (done : list WeatherService.ForecastItem)
    (y : WeatherService.ForecastItem) :
  WeatherView.preferred y = true \/
  (forall x, In x done ->
     WeatherService.fi_date x <> WeatherService.fi_date y) ->
  WeatherView.representative (done ++ [y]) y.
Proof.
  intros H. exists done, []. split; [reflexivity|].
  split; [exact H|]. intros x [].
Qed.

(** What the loop of [getWeekForecast] holds after the items [done]. *)
Lemma addItem_invariant (items : list WeatherService.ForecastItem) :
  let days := fold_left WeatherService.addItem items [] in
  NoDup (map fst days) /\
  (forall D v, In (D, v) days ->
     exists item, v = WeatherService.dayOfItem item /\
                  WeatherService.fi_date item = D /\
                  WeatherView.representative items item) /\
  (forall x, In x items -> In (WeatherService.fi_date x) (map fst days)).
Proof.
  induction items as [|y done IH] using rev_ind.
  - cbn. split; [constructor|]. split; [intros D v []|intros x []].
  - rewrite fold_left_app. cbn [fold_left].
    set (days := fold_left WeatherService.addItem done []) in *.
    cbv zeta in IH. destruct IH as (Hnd & Hrep & Hcov).
    unfold WeatherService.addItem.
    fold (WeatherView.preferred y).
    assert (Pref : (negb (WeatherService.daysHas (WeatherService.fi_date y)
                            days)
                    || (WeatherService.fi_hour y =? 12)
                    || (WeatherService.fi_hour y =? 15))%bool =
                   (negb (WeatherService.daysHas (WeatherService.fi_date y)
                            days)
                    || WeatherView.preferred y)%bool).
    { unfold WeatherView.preferred. rewrite orb_assoc. reflexivity. }
    rewrite Pref. clear Pref.
    destruct (WeatherService.daysHas (WeatherService.fi_date y) days) eqn:Has;
      cbn [negb orb].
    + destruct (WeatherView.preferred y) eqn:P.
      * split; [apply daysSet_NoDup; exact Hnd|]. split.
        { intros D v Hin. apply daysSet_In in Hin; [|exact Hnd].
          destruct Hin as [[-> ->]|[Hne Hin]].
          - exists y. repeat split. apply representative_new. left. exact P.
          - destruct (Hrep D v Hin) as (item & Hv & Hd & Hr).
            exists item. repeat split; try assumption.
            apply representative_later; [exact Hr|]. left. congruence. }
        intros x Hx. apply daysSet_keys. apply in_app_or in Hx.
        destruct Hx as [Hx|[<-|[]]]; [right; apply Hcov; exact Hx|].
        left. reflexivity.
      * split; [exact Hnd|]. split.
        { intros D v Hin. destruct (Hrep D v Hin) as (item & Hv & Hd & Hr).
          exists item. repeat split; try assumption.
          apply representative_later; [exact Hr|]. right. exact P. }
        intros x Hx. apply in_app_or in Hx.
        destruct Hx as [Hx|[<-|[]]]; [apply Hcov; exact Hx|].
        apply daysHas_In. exact Has.
    + split; [apply daysSet_NoDup; exact Hnd|]. split.
      { intros D v Hin. apply daysSet_In in Hin; [|exact Hnd].
        destruct Hin as [[-> ->]|[Hne Hin]].
        - exists y. repeat split. apply representative_new. right.
          intros x Hx E. apply Hcov in Hx. rewrite E in Hx.
          apply daysHas_In in Hx. congruence.
        - destruct (Hrep D v Hin) as (item & Hv & Hd & Hr).
          exists item. repeat split; try assumption.
          apply representative_later; [exact Hr|]. left. congruence. }
      intros x Hx. apply daysSet_keys. apply in_app_or in Hx.
      destruct Hx as [Hx|[<-|[]]]; [right; apply Hcov; exact Hx|].
      left. reflexivity.
Qed.

Lemma NoDup_firstn {A : Type} (n : nat) (l : list A) :
  NoDup l -> NoDup (firstn n l).
Proof.
  intros H. revert n. induction H as [|a l Hna Hnd IH]; intros n.
  - rewrite firstn_nil. constructor.
  - destruct n as [|n]; [constructor|]. cbn [firstn].
    constructor; [|apply IH]. intros Hin. apply Hna.
    eapply In_firstn. exact Hin.
Qed.

Lemma orText_nonempty (value : option string) (fallback : string) :
  fallback <> "" -> WeatherService.orText value fallback <> "".
Proof.
  intros Hf. unfold WeatherService.orText.
  destruct value as [s|]; [|exact Hf].
  destruct (String.eqb_spec s ""); assumption.
Qed.

(** X21. The grouping of the provider's forecast into days: no date
    twice and at most seven days; every day is made from one item of
    its date, namely the last item of 12:00 or 15:00 of that date or,
    when the date has none, the first item of the date; its icon is
    never the empty text; and unless seven days are answered every
    date the provider delivered has a day. *)
Theorem groupForecast_days :
  forall (items : list WeatherService.ForecastItem),
    let days := WeatherService.groupForecast items in
    NoDup (map fd_date days) /\
    (length days <= 7)%nat /\
    (forall d, In d days ->
       fd_icon d <> "" /\
       exists item,
         d = WeatherService.dayOfItem item /\
         WeatherView.representative items item) /\
    (forall x, In x items ->
       In (WeatherService.fi_date x) (map fd_date days) \/
       length days = 7%nat).
Proof.
  intros items days. subst days. unfold WeatherService.groupForecast,
    Js.slice0.
  destruct (addItem_invariant items) as (Hnd & Hrep & Hcov).
  set (full := fold_left WeatherService.addItem items []) in *.
  assert (Dates : map fd_date (map snd full) = map fst full).
  { rewrite map_map. apply map_ext_in. intros [D v] Hin.
    destruct (Hrep D v Hin) as (item & -> & <- & _). reflexivity. }
  split; [|split; [|split]].
  - rewrite <- firstn_map, Dates. apply NoDup_firstn. exact Hnd.
  - apply firstn_le_length.
  - intros d Hd. apply In_firstn in Hd. apply in_map_iff in Hd.
    destruct Hd as ([D v] & <- & Hin). cbn [snd].
    destruct (Hrep D v Hin) as (item & -> & _ & Hr). split.
    + cbn [WeatherService.dayOfItem fd_icon].
      apply orText_nonempty. discriminate.
    + exists item. split; [reflexivity|exact Hr].
  - intros x Hx.
    destruct (Nat.le_gt_cases (length (map snd full)) 7) as [Hle|Hgt].
    + left. rewrite firstn_all2 by exact Hle. rewrite Dates.
      apply Hcov. exact Hx.
    + right. apply firstn_length_le. lia.
Qed.

Lemma cached_fresh {A : Type} (clock clock' : WeatherService.Clock)
    (v : A) :
  WeatherService.todayStr clock' = WeatherService.todayStr clock ->
  WeatherService.nowMs clock' - WeatherService.nowMs clock
    < WeatherService.CACHE_DURATION ->
  WeatherService.cached clock'
    (Some (WeatherService.mkCache v (WeatherService.nowMs clock)
             (WeatherService.todayStr clock))) = Some v.
Proof.
  intros Hd Ht. unfold WeatherService.cached.
  cbn [WeatherService.cachedOn WeatherService.timestamp WeatherService.data].
  rewrite Hd, Z.eqb_refl. cbn [andb].
  destruct (Z.ltb_spec (WeatherService.nowMs clock'
                        - WeatherService.nowMs clock)
                       WeatherService.CACHE_DURATION); [reflexivity|lia].
Qed.

Lemma cached_other_day {A : Type} (clock' : WeatherService.Clock)
    (c : WeatherService.Cache A) :
  WeatherService.todayStr clock' <> WeatherService.cachedOn c ->
  WeatherService.cached clock' (Some c) = None.
Proof.
  intros H. unfold WeatherService.cached.
  destruct (Z.eqb_spec (WeatherService.cachedOn c)
                       (WeatherService.todayStr clock')) as [E|_];
    [congruence|reflexivity].
Qed.

(** X22. The cache of the weather service, for the current weather
    and for the forecast alike.  A valid cache answers without the
    provider and is left as it is; a provider failure is passed on
    and leaves the cache as it is; after a fetch the answer is given
    again, whatever the provider would say, for every call of the
    same calendar day less than thirty minutes later, and the cache
    stays as the fetch left it; on another calendar day a cache is
    never valid.  A fetched snapshot always has a condition and an
    icon. *)
Theorem weather_cache_contract :
  forall (clock clock' : WeatherService.Clock),
    (forall fetched cache,
       (forall v, WeatherService.cached clock cache = Some v ->
          WeatherService.getCurrentWeather clock fetched cache =
            (inr v, cache)) /\
       (forall status, WeatherService.cached clock cache = None ->
          fetched = inl status ->
          WeatherService.getCurrentWeather clock fetched cache =
            (inl status, cache)) /\
       (forall response fetched',
          WeatherService.cached clock cache = None ->
          fetched = inr response ->
          WeatherService.todayStr clock' = WeatherService.todayStr clock ->
          WeatherService.nowMs clock' - WeatherService.nowMs clock
            < WeatherService.CACHE_DURATION ->
          let first := WeatherService.getCurrentWeather clock fetched cache in
          fst first = inr (WeatherService.snapshotOf response) /\
          w_condition (WeatherService.snapshotOf response) <> "" /\
          w_icon (WeatherService.snapshotOf response) <> "" /\
          WeatherService.getCurrentWeather clock' fetched' (snd first) =
            (inr (WeatherService.snapshotOf response), snd first)) /\
       (forall c, cache = Some c ->
          WeatherService.todayStr clock <> WeatherService.cachedOn c ->
          WeatherService.cached clock cache = None)) /\
    (forall fetched cache,
       (forall v, WeatherService.cached clock cache = Some v ->
          WeatherService.getWeekForecast clock fetched cache =
            (inr v, cache)) /\
       (forall status, WeatherService.cached clock cache = None ->
          fetched = inl status ->
          WeatherService.getWeekForecast clock fetched cache =
            (inl status, cache)) /\
       (forall items fetched',
          WeatherService.cached clock cache = None ->
          fetched = inr items ->
          WeatherService.todayStr clock' = WeatherService.todayStr clock ->
          WeatherService.nowMs clock' - WeatherService.nowMs clock
            < WeatherService.CACHE_DURATION ->
          let first := WeatherService.getWeekForecast clock fetched cache in
          fst first = inr (WeatherService.groupForecast items) /\
          WeatherService.getWeekForecast clock' fetched' (snd first) =
            (inr (WeatherService.groupForecast items), snd first)) /\
       (forall c, cache = Some c ->
          WeatherService.todayStr clock <> WeatherService.cachedOn c ->
          WeatherService.cached clock cache = None)).
Proof.
  intros clock clock'. split; intros fetched cache.
  - split; [|split; [|split]].
    + intros v H. unfold WeatherService.getCurrentWeather. rewrite H.
      reflexivity.
    + intros status H ->. unfold WeatherService.getCurrentWeather.
      rewrite H. reflexivity.
    + intros response fetched' H -> Hd Ht first. subst first.
      assert (E : WeatherService.getCurrentWeather clock (inr response)
                    cache =
                  (inr (WeatherService.snapshotOf response),
                   Some (WeatherService.mkCache
                           (WeatherService.snapshotOf response)
                           (WeatherService.nowMs clock)
                           (WeatherService.todayStr clock)))).
      { unfold WeatherService.getCurrentWeather. rewrite H. reflexivity. }
      rewrite E. cbn [fst snd]. split; [reflexivity|].
      split; [apply orText_nonempty; discriminate|].
      split; [apply orText_nonempty; discriminate|].
      unfold WeatherService.getCurrentWeather.
      rewrite (cached_fresh clock clock' _ Hd Ht). reflexivity.
    + intros c -> H. apply cached_other_day. exact H.
  - split; [|split; [|split]].
    + intros v H. unfold WeatherService.getWeekForecast. rewrite H.
      reflexivity.
    + intros status H ->. unfold WeatherService.getWeekForecast.
      rewrite H. reflexivity.
    + intros items fetched' H -> Hd Ht first. subst first.
      assert (E : WeatherService.getWeekForecast clock (inr items) cache =
                  (inr (WeatherService.groupForecast items),
                   Some (WeatherService.mkCache
                           (WeatherService.groupForecast items)
                           (WeatherService.nowMs clock)
                           (WeatherService.todayStr clock)))).
      { unfold WeatherService.getWeekForecast. rewrite H. reflexivity. }
      rewrite E. cbn [fst snd]. split; [reflexivity|].
      unfold WeatherService.getWeekForecast.
      rewrite (cached_fresh clock clock' _ Hd Ht). reflexivity.
    + intros c -> H. apply cached_other_day. exact H.
Qed.

(** ** The random part of a score never outweighs the rest *)

Lemma dayScore_base (season : Season) (day : ForecastDay) (r : Recipe)
    (u : Q) :
  WeekPlanApi.dayScore season day r u =
  (inject_Z (PlanView.baseScore season day r) + u * inject_Z 10)%Q.
Proof.
  unfold WeekPlanApi.dayScore, PlanView.baseScore, PlanView.inSeason.
  rewrite inject_Z_plus.
  destruct (existsb (Season_eqb season) _); reflexivity.
Qed.

Lemma scoreAll_In (season : Season) (day : ForecastDay) (rnd : nat -> Q)
    (l : list Recipe) :
  forall next r q,
    In (r, q) (WeekPlanApi.scoreAll season day rnd next l) ->
    exists i, q = WeekPlanApi.dayScore season day r (rnd i).
Proof.
  induction l as [|a l IH]; intros next r q; cbn [WeekPlanApi.scoreAll].
  - intros [].
  - intros [[= <- <-]|H]; [exists next; reflexivity|].
    apply (IH (S next)). exact H.
Qed.

Lemma scoreAll_covers (season : Season) (day : ForecastDay) (rnd : nat -> Q)
    (l : list Recipe) :
  forall next r,
    In r l ->
    exists i, In (r, WeekPlanApi.dayScore season day r (rnd i))
                 (WeekPlanApi.scoreAll season day rnd next l).
Proof.
  induction l as [|a l IH]; intros next r; cbn [WeekPlanApi.scoreAll].
  - intros [].
  - intros [<-|H]; [exists next; left; reflexivity|].
    destruct (IH (S next) r H) as (i & Hi). exists i. right. exact Hi.
Qed.

Lemma sorted_head_max {A : Type} (score : A -> Q) (l : list A) (top x : A)
    (rest : list A) :
  Js.sort (fun a b => Qle_bool (score b) (score a)) l = top :: rest ->
  In x l -> (score x <= score top)%Q.
Proof.
  intros Es Hin.
  assert (S : StronglySorted
                (fun a b => Qle_bool (score b) (score a) = true)
                (Js.sort (fun a b => Qle_bool (score b) (score a)) l)).
  { apply sort_sorted.
    - intros a b. rewrite !Qle_bool_iff.
      destruct (Qlt_le_dec (score a) (score b)) as [H|H];
        [right; apply Qlt_le_weak; exact H|left; exact H].
    - intros a b c. rewrite !Qle_bool_iff. intros H1 H2.
      eapply Qle_trans; eassumption. }
  rewrite Es in S. inversion S as [|? ? _ Hall]; subst.
  apply (sort_In (fun a b => Qle_bool (score b) (score a))) in Hin.
  rewrite Es in Hin. destruct Hin as [<-|Hin]; [apply Qle_refl|].
  rewrite Forall_forall in Hall. apply Qle_bool_iff. apply Hall. exact Hin.
Qed.

Lemma generateDay_fst (w : World) (allRecipes : list Recipe)
    (season : Season) (day : ForecastDay) (st : WeekPlanApi.Loop) (db : Db) :
  fst (WeekPlanApi.generateDay w allRecipes season day st db) =
  inr (WeekPlanApi.mkLoop
         (WeekPlanApi.result st
            ++ [PlanView.generatedDay day
                  (PlanView.pick w allRecipes season day st)])
         (WeekPlanApi.usedRecipeIds st
            ++ match PlanView.pick w allRecipes season day st with
               | Some r => [r_id r]
               | None => []
               end)
         (WeekPlanApi.randomCalls st
          + length (PlanView.available allRecipes st))%nat).
Proof.
  unfold WeekPlanApi.generateDay, PlanView.pick.
  fold (PlanView.available allRecipes st).
  destruct (Js.sort _ _) as [|[top q] rest].
  - unfold ret. cbn [fst]. rewrite app_nil_r. reflexivity.
  - unfold bind, WeekPlanApi.insertPlanIgnore, update, ret. reflexivity.
Qed.

(** X23. The recipe the week plan generates for a day is one of the
    best by season and weather: the generated day carries a recipe
    that was not used before in the week whenever there is one, and
    no unused recipe has a higher score from the season (30) and the
    day's weather tags (15 each) than the one chosen.  The random
    part of the score, less than 10, only decides between recipes
    that are equal in this. *)
Theorem weekPlan_generates_best_by_season_and_weather :
  forall (w : World) (allRecipes : list Recipe) (currentSeason : Season)
         (day : ForecastDay) (st : WeekPlanApi.Loop) (db : Db),
    (forall i, (0 <= random w i)%Q /\ (random w i < 1)%Q) ->
    exists chosen used calls,
      fst (WeekPlanApi.generateDay w allRecipes currentSeason day st db) =
        inr (WeekPlanApi.mkLoop
               (WeekPlanApi.result st ++ [PlanView.generatedDay day chosen])
               used calls) /\
      match chosen with
      | Some c =>
          In c allRecipes /\
          ~ In (r_id c) (WeekPlanApi.usedRecipeIds st) /\
          used = WeekPlanApi.usedRecipeIds st ++ [r_id c] /\
          forall r, In r allRecipes ->
            ~ In (r_id r) (WeekPlanApi.usedRecipeIds st) ->
            PlanView.baseScore currentSeason day r <=
            PlanView.baseScore currentSeason day c
      | None =>
          used = WeekPlanApi.usedRecipeIds st /\
          forall r, In r allRecipes ->
                    In (r_id r) (WeekPlanApi.usedRecipeIds st)
      end.
Proof.
  intros w allRecipes season day st db Hrnd.
  eexists _, _, _. split; [apply generateDay_fst|].
  destruct (PlanView.pick w allRecipes season day st) as [chosen|] eqn:P.
  2:{ split; [apply app_nil_r|]. intros r Hr.
      apply pick_none in P.
      destruct (Js.includesZ (WeekPlanApi.usedRecipeIds st) (r_id r)) eqn:E;
        [apply includesZ_In; exact E|].
      exfalso. assert (H : In r (PlanView.available allRecipes st)).
      { apply filter_In. split; [exact Hr|]. rewrite E. reflexivity. }
      rewrite P in H. destruct H. }
  destruct (pick_some _ _ _ _ _ _ P) as [Hin Hun].
  split; [exact Hin|]. split; [exact Hun|]. split; [reflexivity|].
  intros r Hr Hu.
  unfold PlanView.pick in P.
  set (scored := WeekPlanApi.scoreAll season day (random w)
                   (WeekPlanApi.randomCalls st)
                   (PlanView.available allRecipes st)) in *.
  destruct (Js.sort (fun a b => Qle_bool (snd b) (snd a)) scored)
    as [|[top q] rest] eqn:Es; [discriminate|].
  injection P as ->.
  assert (Hav : In r (PlanView.available allRecipes st)).
  { apply filter_In. split; [exact Hr|]. apply negb_true_iff.
    destruct (Js.includesZ _ _) eqn:E; [|reflexivity].
    apply includesZ_In in E. contradiction. }
  destruct (scoreAll_covers season day (random w) _
              (WeekPlanApi.randomCalls st) r Hav) as (i & Hi).
  fold scored in Hi.
  pose proof (sorted_head_max snd scored (chosen, q) _ rest Es Hi) as Hle.
  assert (Htop : In (chosen, q) scored).
  { apply (sort_In (fun a b => Qle_bool (snd b) (snd a))).
    rewrite Es. left. reflexivity. }
  apply scoreAll_In in Htop. destruct Htop as (j & ->).
  cbn [snd] in Hle. rewrite !dayScore_base in Hle.
  destruct (Hrnd i) as [Hi0 _]. destruct (Hrnd j) as [_ Hj1].
  assert (Hlt : PlanView.baseScore season day r <
                PlanView.baseScore season day chosen + 10).
  { rewrite Zlt_Qlt, inject_Z_plus.
    change (inject_Z 10) with 10%Q in *. lra. }
  unfold PlanView.baseScore in *.
  destruct (PlanView.inSeason season r), (PlanView.inSeason season chosen);
    lia.
Qed.

Lemma weekPlan_generates_best_by_season_and_weather_witness :
  exists chosen used calls,
    fst (WeekPlanApi.generateDay Fixtures.week Fixtures.sevenRecipes zomer
           (Fixtures.forecastDay 19920) (WeekPlanApi.mkLoop [] [] 0%nat)
           Fixtures.pestoToday) =
    inr (WeekPlanApi.mkLoop
           ([] ++ [PlanView.generatedDay (Fixtures.forecastDay 19920) chosen])
           used calls).
Proof.
  destruct (weekPlan_generates_best_by_season_and_weather Fixtures.week
              Fixtures.sevenRecipes zomer (Fixtures.forecastDay 19920)
              (WeekPlanApi.mkLoop [] [] 0%nat) Fixtures.pestoToday)
    as (chosen & used & calls & H & _).
  - intros i. split; [discriminate|reflexivity].
  - exists chosen, used, calls. exact H.
Defined.

Lemma rerollAll_In (season : Season) (rnd : nat -> Q) (l : list Recipe) :
  forall next r q,
    In (r, q) (WeekPlanEdit.scoreAll season rnd next l) ->
    exists i, q = WeekPlanEdit.rerollScore season r (rnd i).
Proof.
  induction l as [|a l IH]; intros next r q; cbn [WeekPlanEdit.scoreAll].
  - intros [].
  - intros [[= <- <-]|H]; [exists next; reflexivity|].
    apply (IH (S next)). exact H.
Qed.

Lemma rerollAll_covers (season : Season) (rnd : nat -> Q) (l : list Recipe) :
  forall next r,
    In r l ->
    exists i, In (r, WeekPlanEdit.rerollScore season r (rnd i))
                 (WeekPlanEdit.scoreAll season rnd next l).
Proof.
  induction l as [|a l IH]; intros next r; cbn [WeekPlanEdit.scoreAll].
  - intros [].
  - intros [<-|H]; [exists next; left; reflexivity|].
    destruct (IH (S next) r H) as (i & Hi). exists i. right. exact Hi.
Qed.

(** X24. Regenerating a day prefers the season: when a recipe of the
    current season is available (held by no row of another date and,
    for today, not suggested today), the recipe the route answers is
    of the current season.  The random part of its score, less than
    20, never outweighs the 30 for the season. *)
Theorem regenerateDay_prefers_season :
  forall (w : World) (date : Date) (db : Db)
         (shown : WeekPlanApi.RecipeSummary),
    (forall i, (0 <= random w i)%Q /\ (random w i < 1)%Q) ->
    fst (WeekPlanEdit.regenerateDay w date db) =
      inr (WeekPlanEdit.Regenerated date shown) ->
    exists chosen,
      In chosen (recipes db) /\ shown = WeekPlanApi.summary chosen /\
      forall r,
        In r (recipes db) ->
        (forall p, In p (weekPlan db) -> wp_date p <> date ->
                   wp_recipeId p <> Some (r_id r)) ->
        (date = todayOf w -> ~ In (r_id r) (Spec.suggestedIds date db)) ->
        PlanView.inSeason (Weather.getCurrentSeason (month w)) r = true ->
        PlanView.inSeason (Weather.getCurrentSeason (month w)) chosen = true.
Proof.
  intros w date db shown Hrnd Run. rewrite regenerateDay_run in Run.
  destruct (Reroll.chosen w date db) as [chosen|] eqn:C; [|discriminate].
  cbn [fst] in Run. injection Run as <-.
  destruct (chosen_some _ _ _ _ C) as [Hin _].
  exists chosen. split; [exact Hin|]. split; [reflexivity|].
  intros r Hr Hother Htoday Hseason.
  assert (Hfree : ~ In (Some (r_id r)) (Reroll.usedFor w date db)).
  { intros H. apply usedFor_In in H.
    destruct H as [(p & Hp & Hd & E)|[Ht Hs]].
    - exact (Hother p Hp Hd E).
    - exact (Htoday Ht Hs). }
  unfold Reroll.chosen in C.
  set (season := Weather.getCurrentSeason (month w)) in *.
  set (avail := filter _ (recipes db)) in C.
  set (scored := WeekPlanEdit.scoreAll season (random w) 0%nat avail) in *.
  destruct (Js.sort (fun a b => Qle_bool (snd b) (snd a)) scored)
    as [|[top q] rest] eqn:Es; [discriminate|].
  injection C as ->.
  assert (Hav : In r avail).
  { subst avail. apply filter_In. split; [exact Hr|]. apply negb_true_iff.
    destruct (WeekPlanEdit.usedIncludes _ (r_id r)) eqn:E; [|reflexivity].
    apply usedIncludes_In in E. contradiction. }
  destruct (rerollAll_covers season (random w) avail 0%nat r Hav)
    as (i & Hi).
  fold scored in Hi.
  pose proof (sorted_head_max snd scored (chosen, q) _ rest Es Hi) as Hle.
  assert (Htop : In (chosen, q) scored).
  { apply (sort_In (fun a b => Qle_bool (snd b) (snd a))).
    rewrite Es. left. reflexivity. }
  apply rerollAll_In in Htop. destruct Htop as (j & ->).
  cbn [snd] in Hle. unfold WeekPlanEdit.rerollScore in Hle.
  change (existsb (Season_eqb season)
            (SuggestionService.parsedOrEmpty (r_seasons r)))
    with (PlanView.inSeason season r) in Hle.
  change (existsb (Season_eqb season)
            (SuggestionService.parsedOrEmpty (r_seasons chosen)))
    with (PlanView.inSeason season chosen) in Hle.
  rewrite Hseason in Hle.
  destruct (PlanView.inSeason season chosen); [reflexivity|].
  exfalso. destruct (Hrnd i) as [Hi0 _]. destruct (Hrnd j) as [_ Hj1].
  change (inject_Z 30) with 30%Q in Hle.
  change (inject_Z 20) with 20%Q in Hle. lra.
Qed.

Lemma regenerateDay_prefers_season_witness :
  exists chosen,
    In chosen (recipes Fixtures.saladeAfterStamppot) /\
    WeekPlanApi.mkSummary 2 "Salade" "salade" = WeekPlanApi.summary chosen.
Proof.
  destruct (regenerateDay_prefers_season Fixtures.july (Fixtures.today + 1)
              Fixtures.saladeAfterStamppot
              (WeekPlanApi.mkSummary 2 "Salade" "salade"))
    as (chosen & H1 & H2 & _).
  - intros i. split; [discriminate|reflexivity].
  - vm_compute. reflexivity.
  - exists chosen. split; assumption.
Defined.

(** X25. Today in the week plan is the suggestion of the day: when the
    most recently created row of [suggestions] for today is not
    cleared and its recipe exists, the first entry of
    [GET /api/weekplan] is today with that recipe and the status of
    that row, whatever is stored in [week_plan] for today; and while
    the row is pending or accepted, [getTodaySuggestion] answers the
    same row and recipe. *)
Theorem weekPlan_today_is_the_suggestion :
  forall (w : World) (db : Db) (s : Suggestion) (recipe : Recipe),
    Spec.latestRow (todayOf w) db = Some s ->
    s_status s <> cleared ->
    SuggestionService.findRecipe (s_recipeId s) db = Some recipe ->
    (exists d rest db',
       WeekPlanApi.getWeekPlan w db = (inr (d :: rest), db') /\
       WeekPlanApi.pd_date d = todayOf w /\
       WeekPlanApi.pd_status d = Some (s_status s) /\
       WeekPlanApi.pd_recipe d = Some (WeekPlanApi.summary recipe)) /\
    (s_status s = pending \/ s_status s = accepted ->
     SuggestionService.getTodaySuggestion w db =
       (inr (Some (s, Some recipe)), db)).
Proof.
  intros w db s recipe L Hnc F. split.
  - destruct (getWeekPlan_shown w db) as (days & rows & E & Hall).
    destruct (allDays_cons w) as (later & Ha). rewrite Ha in Hall.
    inversion Hall as [|day d days0 rest Hd _]; subst.
    exists d, rest, (PlanView.withPlans db rows). split; [exact E|].
    unfold PlanView.shown, PlanView.suggestedDay in Hd.
    cbn [fd_date] in Hd. rewrite Z.eqb_refl in Hd.
    rewrite todaySuggestion_latest, L in Hd.
    unfold SuggestionService.findRecipe in F. rewrite F in Hd.
    destruct (s_status s) eqn:St; cbn [Status_eqb] in Hd;
      try (subst d; repeat split).
    contradiction.
  - intros Hst. rewrite getTodaySuggestion_cases, L, F.
    destruct Hst as [-> | ->]; reflexivity.
Qed.

Lemma weekPlan_today_is_the_suggestion_witness :
  SuggestionService.getTodaySuggestion Fixtures.july
    Fixtures.saladeAfterStamppot =
  (inr (Some (Fixtures.pendingSalade, Some Fixtures.salade)),
   Fixtures.saladeAfterStamppot).
Proof.
  apply (weekPlan_today_is_the_suggestion Fixtures.july
           Fixtures.saladeAfterStamppot Fixtures.pendingSalade
           Fixtures.salade).
  - reflexivity.
  - discriminate.
  - reflexivity.
  - left. reflexivity.
Defined.

(** X26. [acceptSuggestion] is not idempotent on the meal history:
    every call on an existing suggestion appends one entry for its
    recipe at the clock of the call, with the next free id, and
    leaves the entries already there; the suggestion stays accepted;
    so accepting the same suggestion twice logs the meal twice. *)
Theorem acceptSuggestion_logs_each_call :
  forall (w w' : World) (suggestionId : Z) (s : Suggestion) (db : Db),
    SuggestionService.findSuggestion suggestionId db = Some s ->
    let once := snd (SuggestionService.acceptSuggestion w suggestionId db) in
    let twice :=
      snd (SuggestionService.acceptSuggestion w' suggestionId once) in
    mealHistory once =
      mealHistory db ++ [mkMeal (nextMealId db) (s_recipeId s) (now w)] /\
    SuggestionService.findSuggestion suggestionId once =
      Some (SuggestionService.withStatus accepted s) /\
    fst (SuggestionService.acceptSuggestion w' suggestionId once) =
      inr true /\
    mealHistory twice =
      mealHistory db ++ [mkMeal (nextMealId db) (s_recipeId s) (now w);
                         mkMeal (nextMealId db + 1) (s_recipeId s) (now w')] /\
    SuggestionService.findSuggestion suggestionId twice =
      Some (SuggestionService.withStatus accepted s).
Proof.
  intros w w' sid s db F once twice. subst twice once.
  rewrite acceptSuggestion_run, F. cbn [snd].
  assert (F1 : SuggestionService.findSuggestion sid
                 (Outcome.afterAccept w sid
                    (SuggestionService.withStatus accepted s) db) =
               Some (SuggestionService.withStatus accepted s)).
  { unfold SuggestionService.findSuggestion, Outcome.afterAccept.
    cbn [suggestions]. rewrite find_markAll.
    unfold SuggestionService.findSuggestion in F. rewrite F. reflexivity. }
  rewrite acceptSuggestion_run, F1. cbn [fst snd].
  split; [reflexivity|]. split; [reflexivity|]. split; [reflexivity|]. split.
  - unfold Outcome.afterAccept. cbn [mealHistory nextMealId s_recipeId
      SuggestionService.withStatus].
    rewrite <- app_assoc. reflexivity.
  - unfold SuggestionService.findSuggestion, Outcome.afterAccept at 1.
    cbn [suggestions]. rewrite find_markAll.
    unfold SuggestionService.findSuggestion in F1. rewrite F1. reflexivity.
Qed.

Lemma acceptSuggestion_logs_each_call_witness :
  mealHistory
    (snd (SuggestionService.acceptSuggestion Fixtures.july 2
            Fixtures.saladeAfterStamppot)) =
  mealHistory Fixtures.saladeAfterStamppot
    ++ [mkMeal (nextMealId Fixtures.saladeAfterStamppot)
               (s_recipeId Fixtures.pendingSalade) (now Fixtures.july)].
Proof.
  apply (acceptSuggestion_logs_each_call Fixtures.july Fixtures.july 2
           Fixtures.pendingSalade Fixtures.saladeAfterStamppot).
  reflexivity.
Defined.

(** ** The shopping list covers the planned days *)

Lemma dateSet_new (d : Date) (v : option Z) (m : list (Date * option Z)) :
  In (d, v) (ShoppingApi.dateSet d v m).
Proof.
  induction m as [|[d' v'] m IH]; cbn [ShoppingApi.dateSet].
  - left. reflexivity.
  - destruct (Z.eqb_spec d' d) as [->|_]; [left; reflexivity|right; exact IH].
Qed.

Lemma dateSet_keeps (d : Date) (v : option Z) (m : list (Date * option Z))
    (k : Date) (x : option Z) :
  In (k, x) m -> k <> d -> In (k, x) (ShoppingApi.dateSet d v m).
Proof.
  induction m as [|[d' v'] m IH]; cbn [ShoppingApi.dateSet]; [intros []|].
  intros [[= -> ->]|Hin] Hne.
  - destruct (Z.eqb_spec k d) as [|_]; [contradiction|left; reflexivity].
  - destruct (Z.eqb_spec d' d) as [_|_]; right; [exact Hin|].
    apply IH; assumption.
Qed.

Lemma dateMap_keeps (plans : list WeekPlanEntry) :
  forall init k x,
    In (k, x) init -> (forall p, In p plans -> wp_date p <> k) ->
    In (k, x)
       (fold_left (fun m plan =>
                     ShoppingApi.dateSet (wp_date plan) (wp_recipeId plan) m)
                  plans init).
Proof.
  induction plans as [|p plans IH]; intros init k x Hin Hno; cbn [fold_left];
    [exact Hin|].
  apply IH.
  - apply dateSet_keeps; [exact Hin|].
    intros E. apply (Hno p (or_introl eq_refl)). symmetry. exact E.
  - intros q Hq. apply Hno. right. exact Hq.
Qed.

Lemma dateMap_covers (plans : list WeekPlanEntry) :
  forall init p,
    NoDup (map wp_date plans) -> In p plans ->
    In (wp_date p, wp_recipeId p)
       (fold_left (fun m plan =>
                     ShoppingApi.dateSet (wp_date plan) (wp_recipeId plan) m)
                  plans init).
Proof.
  induction plans as [|q plans IH]; intros init p Hnd Hin; [destruct Hin|].
  cbn [map] in Hnd. inversion Hnd as [|? ? Hna Hnd']; subst.
  cbn [fold_left]. destruct Hin as [->|Hin].
  - apply dateMap_keeps; [apply dateSet_new|].
    intros q Hq E. apply Hna. rewrite <- E. apply in_map. exact Hq.
  - apply IH; assumption.
Qed.

Lemma dateSet_count (today d : Date) (v : option Z)
    (m : list (Date * option Z)) :
  (length (filter (fun e => fst e >=? today) (ShoppingApi.dateSet d v m))
   <= length (filter (fun e => fst e >=? today) m)
      + (if d >=? today then 1 else 0))%nat.
Proof.
  induction m as [|[d' v'] m IH]; cbn [ShoppingApi.dateSet].
  - cbn [filter fst]. destruct (d >=? today); cbn [length]; lia.
  - destruct (Z.eqb_spec d' d) as [->|_]; cbn [filter fst].
    + destruct (d >=? today); cbn [length]; lia.
    + destruct (d' >=? today); cbn [length]; lia.
Qed.

Lemma dateMap_count (today : Date) (plans : list WeekPlanEntry) :
  forall init,
    (length (filter (fun e => fst e >=? today)
               (fold_left (fun m plan =>
                             ShoppingApi.dateSet (wp_date plan)
                               (wp_recipeId plan) m) plans init))
     <= length (filter (fun e => fst e >=? today) init)
        + length (filter (fun q => wp_date q >=? today) plans))%nat.
Proof.
  induction plans as [|p plans IH]; intros init; cbn [fold_left filter].
  - cbn [length]. lia.
  - eapply Nat.le_trans; [apply IH|].
    pose proof (dateSet_count today (wp_date p) (wp_recipeId p) init).
    destruct (wp_date p >=? today); cbn [length]; lia.
Qed.

Lemma optZ_eqb_refl (v : option Z) : ShoppingApi.optZ_eqb v v = true.
Proof. destruct v as [x|]; [apply Z.eqb_refl|reflexivity]. Qed.

Lemma optZ_eqb_eq (a b : option Z) :
  ShoppingApi.optZ_eqb a b = true -> a = b.
Proof.
  destruct a as [x|], b as [y|]; cbn; try discriminate; [|reflexivity].
  intros E. apply Z.eqb_eq in E. subst. reflexivity.
Qed.

Lemma setAdd_In (v x : option Z) (s : list (option Z)) :
  x = v \/ In x s -> In x (ShoppingApi.setAdd v s).
Proof.
  unfold ShoppingApi.setAdd. destruct (existsb _ s) eqn:E.
  - intros [->|H]; [|exact H].
    apply existsb_exists in E. destruct E as (y & Hy & Ey).
    apply optZ_eqb_eq in Ey. subst y. exact Hy.
  - intros [->|H]; apply in_or_app; [right; left; reflexivity|left; exact H].
Qed.

Lemma recipeIds_covers (plans : list WeekPlanEntry) :
  forall ids p,
    In p plans ->
    In (wp_recipeId p)
       (fold_left (fun ids plan => ShoppingApi.setAdd (wp_recipeId plan) ids)
                  plans ids).
Proof.
  assert (Keep : forall (plans : list WeekPlanEntry) ids x,
            In x ids ->
            In x (fold_left (fun ids plan =>
                               ShoppingApi.setAdd (wp_recipeId plan) ids)
                            plans ids)).
  { induction plans0 as [|q plans0 IH]; intros ids x Hx; cbn [fold_left];
      [exact Hx|].
    apply IH. apply setAdd_In. right. exact Hx. }
  induction plans as [|q plans IH]; intros ids p Hin; [destruct Hin|].
  cbn [fold_left]. destruct Hin as [->|Hin].
  - apply Keep. apply setAdd_In. left. reflexivity.
  - apply IH. exact Hin.
Qed.

(** X27. The shopping list covers what is planned: a recipe of the
    catalog that a stored row of [week_plan] holds for today or a
    later date is among the planned recipes of [GET /api/shopping],
    under that date, provided the dates of the stored rows are
    pairwise different and at most six rows are stored for today or
    later (the list takes the seven earliest dates). *)
Theorem getShoppingList_covers_plan :
  forall (w : World) (db : Db) (p : WeekPlanEntry) (r : Recipe),
    NoDup (map wp_date (weekPlan db)) ->
    (length (filter (fun q => wp_date q >=? todayOf w) (weekPlan db))
     <= 6)%nat ->
    In p (weekPlan db) ->
    todayOf w <= wp_date p ->
    wp_recipeId p = Some (r_id r) ->
    In r (recipes db) ->
    exists l pr,
      ShoppingApi.getShoppingList w db = (inr l, db) /\
      In pr (ShoppingApi.recipesInPlan l) /\
      ShoppingApi.pr_date pr = wp_date p /\
      ShoppingApi.pr_id pr = r_id r.
Proof.
  intros w db p r Hnd Hcount Hp Hge Hrid Hr.
  set (today := todayOf w).
  set (rl := ShoppingView.recipeList today db).
  assert (Hrl : In r rl).
  { subst rl. unfold ShoppingView.recipeList. apply filter_In.
    split; [exact Hr|]. apply existsb_exists.
    exists (Some (r_id r)). split; [|apply optZ_eqb_refl].
    rewrite <- Hrid. apply recipeIds_covers. exact Hp. }
  destruct (find_by_id (rev rl) (r_id r)) as (r' & Fr & _ & Hid').
  { exists r. split; [apply in_rev in Hrl; exact Hrl|reflexivity]. }
  assert (He : In (wp_date p, Some (r_id r))
                  (ShoppingView.sortedDates today db)).
  { unfold ShoppingView.sortedDates, Js.slice0.
    rewrite firstn_all2.
    - unfold orderByAsc. apply sort_In. apply filter_In. split.
      + rewrite <- Hrid. apply dateMap_covers; assumption.
      + cbn [fst]. apply Z.geb_le. exact Hge.
    - unfold orderByAsc. rewrite sort_length.
      eapply Nat.le_trans; [apply dateMap_count|].
      assert (length (filter (fun e : Date * option Z => fst e >=? today)
                        (ShoppingView.fromToday today db)) <= 1)%nat.
      { unfold ShoppingView.fromToday.
        destruct (ShoppingApi.todaySuggestion today db); cbn [filter fst];
          [apply Nat.le_0_l|].
        destruct (today >=? today); cbn [length]; lia. }
      change 7%nat with (1 + 6)%nat.
      apply Nat.add_le_mono; [exact H|exact Hcount]. }
  eexists _, (ShoppingApi.mkPlannedRecipe (r_id r') (r_name r') (wp_date p)
                (ShoppingApi.servingsOf r')).
  split; [apply getShoppingList_eq|]. cbn [ShoppingApi.recipesInPlan].
  split; [|split; [reflexivity|exact Hid']].
  apply in_flat_map. exists (wp_date p, Some (r_id r)).
  split; [exact He|].
  unfold ShoppingView.planOf, ShoppingApi.recipeMapGet. cbn [snd fst].
  fold today. fold rl. rewrite Fr. left. reflexivity.
Qed.

Lemma getShoppingList_covers_plan_witness :
  exists l pr,
    ShoppingApi.getShoppingList Fixtures.week
      (snd (WeekPlanApi.putWeekPlan Fixtures.week (Fixtures.today + 2)
              (Some 5) Fixtures.pestoToday)) =
      (inr l,
       snd (WeekPlanApi.putWeekPlan Fixtures.week (Fixtures.today + 2)
              (Some 5) Fixtures.pestoToday)) /\
    In pr (ShoppingApi.recipesInPlan l) /\
    ShoppingApi.pr_date pr = 19921 /\
    ShoppingApi.pr_id pr = 5.
Proof.
  apply (getShoppingList_covers_plan Fixtures.week
           (snd (WeekPlanApi.putWeekPlan Fixtures.week (Fixtures.today + 2)
                   (Some 5) Fixtures.pestoToday))
           (mkPlan 19921 (Some 5) false (Some 0) (Some "01d") (Some ""))
           (Fixtures.plain 5 "Soep")).
  - repeat constructor. intros [].
  - vm_compute. lia.
  - left. reflexivity.
  - vm_compute. discriminate.
  - reflexivity.
  - cbn. intuition.
Defined.

Lemma findPlan_unique (db : Db) (p : WeekPlanEntry) :
  NoDup (map wp_date (weekPlan db)) -> In p (weekPlan db) ->
  WeekPlanApi.findPlan (wp_date p) db = Some p.
Proof.
  unfold WeekPlanApi.findPlan.
  induction (weekPlan db) as [|a l IH]; intros Hnd Hin; [destruct Hin|].
  cbn [map] in Hnd. inversion Hnd as [|? ? Hna Hnd']; subst.
  cbn [find]. destruct Hin as [->|Hin].
  - rewrite Z.eqb_refl. reflexivity.
  - destruct (Z.eqb_spec (wp_date a) (wp_date p)) as [E|_];
      [|apply IH; assumption].
    exfalso. apply Hna. rewrite E. apply in_map. exact Hin.
Qed.

(** X28. For every day other than today the shopping list shops for
    what the week plan shows: when the dates of the stored rows are
    pairwise different and no recipe has the id 0, every planned
    recipe of [GET /api/shopping] for a date other than today is the
    recipe that [GET /api/weekplan] shows on every entry for that
    date, which carries no status. *)
Theorem shopping_agrees_with_weekPlan :
  forall (w : World) (db : Db),
    NoDup (map wp_date (weekPlan db)) ->
    ~ In 0 (map r_id (recipes db)) ->
    exists l days db',
      ShoppingApi.getShoppingList w db = (inr l, db) /\
      WeekPlanApi.getWeekPlan w db = (inr days, db') /\
      forall pr d,
        In pr (ShoppingApi.recipesInPlan l) -> In d days ->
        WeekPlanApi.pd_date d = ShoppingApi.pr_date pr ->
        ShoppingApi.pr_date pr <> todayOf w ->
        Spec.recipeIdOf d = Some (ShoppingApi.pr_id pr) /\
        WeekPlanApi.pd_status d = None.
Proof.
  intros w db Hnd Hn0.
  destruct (getWeekPlan_shown w db) as (days & rows & G & Hall).
  eexists _, days, _. split; [apply getShoppingList_eq|].
  split; [exact G|]. cbn [ShoppingApi.recipesInPlan].
  intros pr d Hpr Hd Hdate Hnt.
  apply planOf_In in Hpr. destruct Hpr as (e & r & He & Hr & Hid & ->).
  cbn [ShoppingApi.pr_date ShoppingApi.pr_id] in *.
  destruct e as [k x]. cbn [fst snd] in *. subst x.
  destruct (sortedDates_spec (todayOf w) db) as (_ & _ & Hsd).
  destruct (Hsd _ He) as [_ Hm].
  destruct (dateMap_entries (weekPlan db) _
              (fromToday_NoDup (todayOf w) db)) as [_ Hfrom].
  destruct (Hfrom k _ Hm) as [(p & Hp & Hk & Hrid)|[Hinit _]].
  2:{ apply fromToday_In in Hinit. destruct Hinit as [E _]. contradiction. }
  pose proof (findPlan_unique db p Hnd Hp) as Fp. rewrite Hk in Fp.
  assert (Hrin : In r (recipes db)).
  { unfold ShoppingView.recipeList in Hr. apply filter_In in Hr. apply Hr. }
  assert (Hr0 : r_id r <> 0).
  { intros E. apply Hn0. rewrite <- E. apply in_map. exact Hrin. }
  destruct (find_by_id (recipes db) (r_id r)) as (r' & Fr & _ & Hid').
  { exists r. split; [exact Hrin|reflexivity]. }
  destruct (Forall2_In_r _ _ _ _ Hall Hd) as (day & _ & Hs).
  pose proof (shown_date _ _ _ _ _ _ Hs) as Hdd.
  unfold PlanView.shown in Hs.
  rewrite suggestedDay_other_day in Hs by congruence.
  destruct Hs as [_ Hs]. rewrite (Hs p) by (rewrite <- Hdd, Hdate; exact Fp).
  destruct (storedDay_chosen (recipes db) p day (r_id r) r' Hrid Hr0 Fr)
    as [H1 H2].
  split; [|exact H2].
  unfold Spec.recipeIdOf. rewrite H1.
  cbn [option_map WeekPlanApi.summary WeekPlanApi.rs_id].
  rewrite Hid'. reflexivity.
Qed.

Lemma shopping_agrees_with_weekPlan_witness :
  exists l days db',
    ShoppingApi.getShoppingList Fixtures.week
      (snd (WeekPlanApi.putWeekPlan Fixtures.week (Fixtures.today + 2)
              (Some 5) Fixtures.pestoToday)) =
      (inr l,
       snd (WeekPlanApi.putWeekPlan Fixtures.week (Fixtures.today + 2)
              (Some 5) Fixtures.pestoToday)) /\
    WeekPlanApi.getWeekPlan Fixtures.week
      (snd (WeekPlanApi.putWeekPlan Fixtures.week (Fixtures.today + 2)
              (Some 5) Fixtures.pestoToday)) = (inr days, db').
Proof.
  destruct (shopping_agrees_with_weekPlan Fixtures.week
              (snd (WeekPlanApi.putWeekPlan Fixtures.week (Fixtures.today + 2)
                      (Some 5) Fixtures.pestoToday)))
    as (l & days & db' & H1 & H2 & _).
  - repeat constructor. intros [].
  - cbn. intuition discriminate.
  - exists l, days, db'. split; assumption.
Defined.
